(** * BuildBoard: access gate, entry recorder, aggregator and ranker

    A shallow embedding of the Convex backend of BuildBoard
    (convex/schema.ts, convex/dailyEntries.ts, convex/dashboard.ts,
    convex/leaderboard.ts and two queries of convex/userProfiles.ts)
    together with the properties its design document states about it,
    followed by the queries and deletions of convex/activities.ts and
    convex/scopes.ts, the access side of convex/projects.ts, the two
    mutations of convex/scopeAssignments.ts, and further properties of
    all of them.

    Modelling conventions.
    - A JavaScript [number] is modelled by a rational ([Q]); results are
      compared with [==].  The running totals are added exactly and the
      guarded quotients are the exact quotients of the totals.  Where the
      code rounds a figure ([Math.round(x * 100) / 100]) every operation
      of the expression is the double operation ([Js.fl]: the nearest
      double, ties to even), since [Math.round] is sensitive to the last
      bit of its argument.  No statement equates sums that two queries
      add up in different groupings.  NaN, the infinities and subnormal
      numbers are outside the model.
    - A value that may be [undefined] or [null] is an [option].
    - A table is the list of its documents in creation order; an index scan
      filters that list and orders it by the remaining index fields.
    - A handler that throws yields [Thrown]; a mutation that throws leaves
      the database as it was (Convex mutations are transactions).
    - [db.insert] stores the fields that are defined; [db.patch] merges
      shallowly: a key of the patch overwrites the stored field, a key
      whose value is [undefined] removes it, a key that is not in the patch
      leaves it as it is.
    - A plain object used as a dictionary ([Record<string, T>]) is the
      list of its own properties in creation order.  Where the keys are
      free text (a date, a foreman name: any [v.string()]) the object is a
      [Js.Obj]: under a name inherited from [Object.prototype] the test
      [!obj[k]] fails and no group is created, and [Object.entries]
      enumerates array indices first.  Where the keys are document ids,
      which are neither, the object is a [Js.Dict]. *)

From Stdlib Require Import List String Ascii Bool Arith ZArith.
From Stdlib Require Import QArith Qround Qabs Qpower.
From Stdlib Require Import Lqa Lia Sorted Permutation.
Import ListNotations.

Local Open Scope string_scope.
Local Open Scope list_scope.

(** ** JavaScript primitives used by the handlers *)

Module Js.

(** [a ?? b] with a defined right operand. *)
Definition nullish {A : Type} (a : option A) (b : A) : A :=
  match a with
  | Some x => x
  | None => b
  end.

(** [a ?? b] where [b] may be [undefined] as well. *)
Definition nullish_opt {A : Type} (a b : option A) : option A :=
  match a with
  | Some _ => a
  | None => b
  end.

(** Truthiness of an optional number: [undefined] and [0] are falsy. *)
Definition truthy_num (x : option Q) : bool :=
  match x with
  | Some q => negb (Qeq_bool q 0)
  | None => false
  end.

(** Truthiness of an optional string: [undefined] and [""] are falsy. *)
Definition truthy_str (s : option string) : bool :=
  match s with
  | Some EmptyString => false
  | Some _ => true
  | None => false
  end.

(** [x > 0] on numbers. *)
Definition gt0 (x : Q) : bool := negb (Qle_bool x 0).

(** [Math.round]: the nearest integer, ties towards plus infinity.  The
    result is exact whenever the argument is a double. *)
Definition Math_round (x : Q) : Q := inject_Z (Qfloor (x + (1 # 2))).

(** *** Double arithmetic

    The value an arithmetic operation returns is the double nearest to the
    exact result, ties to the even significand.  The exponent range is not
    bounded here: overflow to an infinity and the gradual underflow below
    [2^-1022] are outside the model, as NaN is. *)

(** The nearest integer, ties to the even one. *)
Definition round_even (x : Q) : Z :=
  let f := Qfloor x in
  match Qcompare (x - inject_Z f) (1 # 2) with
  | Lt => f
  | Gt => (f + 1)%Z
  | Eq => if Z.even f then f else (f + 1)%Z
  end.

(** The binade of [q <> 0]: the [e] with [2^e <= |q| < 2^(e+1)]. *)
Definition binade (q : Q) : Z :=
  let e := (Z.log2 (Z.abs (Qnum q)) - Z.log2 (Zpos (Qden q)))%Z in
  if Qle_bool (Qpower 2 e) (Qabs q) then e else (e - 1)%Z.

(** The gap between the doubles of the binade of [q] (53 significant bits). *)
Definition ulp (q : Q) : Q := Qpower 2 (binade q - 52).

(** The double nearest to [q]. *)
Definition fl (q : Q) : Q :=
  if Qeq_bool q 0 then 0%Q
  else (inject_Z (round_even (q / ulp q)) * ulp q)%Q.

(** [a - b], [a * b] and [a / b] on doubles. *)
Definition fsub (a b : Q) : Q := fl (a - b).
Definition fmul (a b : Q) : Q := fl (a * b).
Definition fdiv (a b : Q) : Q := fl (a / b).

(** [s.includes(sub)]. *)
Definition includes (sub s : string) : bool :=
  match String.index 0 sub s with
  | Some _ => true
  | None => false
  end.

(** [a <= b] and [a >= b] on strings (code-unit order). *)
Definition str_le (a b : string) : bool := String.leb a b.

Section Arrays.
Context {A : Type}.

(** [Array.prototype.sort] is stable.  [le a b] stands for
    [compare(a, b) <= 0]; for a consistent comparator every stable sort
    returns the same array, here obtained by insertion. *)
Fixpoint insert_sorted (le : A -> A -> bool) (x : A) (l : list A) : list A :=
  match l with
  | [] => [x]
  | y :: l' => if le x y then x :: y :: l' else y :: insert_sorted le x l'
  end.

Fixpoint sort (le : A -> A -> bool) (l : list A) : list A :=
  match l with
  | [] => []
  | x :: l' => insert_sorted le x (sort le l')
  end.

(** [arr.map((item, index) => f item index)], counting from [i]. *)
Fixpoint mapi_from {B : Type} (i : nat) (f : A -> nat -> B) (l : list A) : list B :=
  match l with
  | [] => []
  | x :: l' => f x i :: mapi_from (S i) f l'
  end.

Definition mapi {B : Type} (f : A -> nat -> B) (l : list A) : list B :=
  mapi_from 0 f l.

(** [new Set()] filled with [add]: first occurrences, in order. *)
Fixpoint set_add (eqb : A -> A -> bool) (x : A) (s : list A) : list A :=
  match s with
  | [] => [x]
  | y :: s' => if eqb x y then s else y :: set_add eqb x s'
  end.
End Arrays.

(** A dictionary object [Record<string, T>] keyed by document ids, in
    insertion order.  An id is neither a property name of
    [Object.prototype] nor an array index, so that [obj[k]] finds own
    properties only. *)
Module Dict.
Section Dict.
Context {T : Type}.

Definition t := list (string * T).

(** [obj[k]] *)
Fixpoint get (k : string) (obj : t) : option T :=
  match obj with
  | [] => None
  | (k', v) :: obj' => if String.eqb k k' then Some v else get k obj'
  end.

(** [if (!obj[k]) obj[k] = init] *)
Definition ensure (k : string) (init : T) (obj : t) : t :=
  match get k obj with
  | Some _ => obj
  | None => obj ++ [(k, init)]
  end.

(** In-place update of the fields of [obj[k]]. *)
Fixpoint update (k : string) (f : T -> T) (obj : t) : t :=
  match obj with
  | [] => []
  | (k', v) :: obj' =>
      if String.eqb k k' then (k', f v) :: obj'
      else (k', v) :: update k f obj'
  end.

(** [Object.entries(obj)] *)
Definition entries (obj : t) : list (string * T) := obj.
End Dict.
Arguments t : clear implicits.
End Dict.

(** The property names a plain object [{}] inherits from
    [Object.prototype]: [obj[k]] yields a function, or for ["__proto__"]
    the prototype itself, under each of them, whatever the object holds. *)
Definition prototype_names : list string :=
  [ "constructor"; "__defineGetter__"; "__defineSetter__"; "hasOwnProperty";
    "__lookupGetter__"; "__lookupSetter__"; "isPrototypeOf";
    "propertyIsEnumerable"; "toString"; "valueOf"; "__proto__";
    "toLocaleString" ].

Definition inherited (k : string) : bool :=
  existsb (String.eqb k) prototype_names.

(** The value of a decimal digit. *)
Definition digit (c : ascii) : option N :=
  let n := N_of_ascii c in
  if (48 <=? n)%N && (n <=? 57)%N then Some (n - 48)%N else None.

(** The number a string of decimal digits denotes, after [acc]. *)
Fixpoint decimal (s : string) (acc : N) : option N :=
  match s with
  | EmptyString => Some acc
  | String c s' =>
      match digit c with
      | Some d => decimal s' (10 * acc + d)%N
      | None => None
      end
  end.

(** A property name that is an array index: the canonical decimal numeral
    (no leading zero) of an integer up to [2^32 - 2]. *)
Definition array_index (k : string) : option N :=
  match k with
  | EmptyString => None
  | String c rest =>
      if Ascii.eqb c "0"%char && negb (String.eqb rest EmptyString) then None
      else
        match decimal k 0 with
        | Some n => if (n <=? 4294967294)%N then Some n else None
        | None => None
        end
  end.

(** A plain object [{}] used as a dictionary ([Record<string, T>]) whose
    values are objects: its own properties in creation order, over the
    properties every object inherits. *)
Module Obj.
Section Obj.
Context {T : Type}.

Definition t := list (string * T).

(** The own property [k]. *)
Fixpoint own (k : string) (obj : t) : option T :=
  match obj with
  | [] => None
  | (k', v) :: obj' => if String.eqb k k' then Some v else own k obj'
  end.

(** [!obj[k]]: there is neither an own nor an inherited property [k]
    (every value found is an object or a function, hence truthy). *)
Definition lacks (k : string) (obj : t) : bool :=
  match own k obj with
  | Some _ => false
  | None => negb (inherited k)
  end.

(** [if (!obj[k]) obj[k] = init] *)
Definition ensure (k : string) (init : T) (obj : t) : t :=
  if lacks k obj then obj ++ [(k, init)] else obj.

(** In-place update of the fields of [obj[k]].  Under an inherited name
    the fields written are those of the inherited function or prototype:
    the own properties stay as they are. *)
Fixpoint update (k : string) (f : T -> T) (obj : t) : t :=
  match obj with
  | [] => []
  | (k', v) :: obj' =>
      if String.eqb k k' then (k', f v) :: obj'
      else (k', v) :: update k f obj'
  end.

(** The own properties whose name is an array index, with the index. *)
Definition indexed (obj : t) : list (N * (string * T)) :=
  flat_map (fun kv =>
              match array_index (fst kv) with
              | Some n => [(n, kv)]
              | None => []
              end)
           obj.

(** [Object.entries(obj)]: the array indices in ascending order, then the
    other names in creation order. *)
Definition entries (obj : t) : list (string * T) :=
  map snd (sort (fun a b => (fst a <=? fst b)%N) (indexed obj))
  ++ filter (fun kv =>
               match array_index (fst kv) with
               | Some _ => false
               | None => true
               end)
            obj.

(** [Object.values(obj)] *)
Definition values (obj : t) : list T := map snd (entries obj).
End Obj.
Arguments t : clear implicits.
End Obj.

End Js.

Notation "a ?? b" := (Js.nullish a b) (at level 45, left associativity).

(** ** Outcome of a handler *)

Inductive Outcome (A : Type) : Type :=
| Returned (a : A)
| Thrown (msg : string).
Arguments Returned {A} a.
Arguments Thrown {A} msg.

Definition bind {A B : Type} (m : Outcome A) (k : A -> Outcome B) : Outcome B :=
  match m with
  | Returned a => k a
  | Thrown msg => Thrown msg
  end.

(** [require v msg]: [if (!v) throw new Error(msg)] for a nullable [v]. *)
Definition require {A : Type} (v : option A) (msg : string) : Outcome A :=
  match v with
  | Some a => Returned a
  | None => Thrown msg
  end.

(** [if (!b) throw new Error(msg)] for a boolean [b]. *)
Definition guard (b : bool) (msg : string) : Outcome unit :=
  if b then Returned tt else Thrown msg.

Notation "x <- m ;; k" := (bind m (fun x => k))
  (at level 61, m at next level, right associativity).

(** ** Data model (convex/schema.ts) *)

Definition Id := string.

Inductive Role := control_center | construction_manager.

Definition Role_eqb (a b : Role) : bool :=
  match a, b with
  | control_center, control_center => true
  | construction_manager, construction_manager => true
  | _, _ => false
  end.

Module Profile.
Record t := mk {
  userId : Id;
  name : string;
  role : Role
}.
End Profile.

Module ProjectAssignment.
Record t := mk {
  userId : Id;
  projectId : Id
}.
End ProjectAssignment.

Module ScopeAssignment.
Record t := mk {
  userId : Id;
  scopeId : Id;
  projectId : Id
}.
End ScopeAssignment.

Inductive ProjectStatus := active | completed | on_hold.

Module Project.
Record t := mk {
  _id : Id;
  name : string;
  status : ProjectStatus
}.
End Project.

Module Scope.
Record t := mk {
  _id : Id;
  projectId : Id;
  name : string
}.
End Scope.

Module Activity.
Record t := mk {
  _id : Id;
  scopeId : Id;
  projectId : Id;
  name : string;
  unit : string
}.
End Activity.

Module Entry.
Record t := mk {
  _id : Id;
  activityId : Id;
  scopeId : Id;
  projectId : Id;
  date : string;
  userId : Id;
  foremanName : option string;
  forecastQuantity : option Q;
  forecastCrewSize : option Q;
  forecastHoursPerWorker : option Q;
  forecastHours : option Q;
  actualQuantity : option Q;
  actualCrewSize : option Q;
  actualHoursPerWorker : option Q;
  actualHours : option Q;
  notes : option string;
  createdBy : option Id;
  createdAt : option Q;
  updatedBy : option Id;
  updatedAt : option Q
}.

(** The argument of [db.patch] for a daily entry.  For each field, [None]
    means the key is not in the object (the stored field is kept),
    [Some None] that the key is there with value [undefined] (the stored
    field is removed) and [Some (Some v)] that it is set to [v].  This is
    the documented behaviour of [db.patch]: new fields are added, existing
    fields are overwritten, fields set to [undefined] are removed. *)
Record patch := mkPatch {
  p_foremanName : option (option string);
  p_forecastQuantity : option (option Q);
  p_forecastCrewSize : option (option Q);
  p_forecastHoursPerWorker : option (option Q);
  p_forecastHours : option (option Q);
  p_actualQuantity : option (option Q);
  p_actualCrewSize : option (option Q);
  p_actualHoursPerWorker : option (option Q);
  p_actualHours : option (option Q);
  p_notes : option (option string);
  p_updatedBy : option (option Id);
  p_updatedAt : option (option Q)
}.

Definition merge {A : Type} (p : option (option A)) (old : option A) : option A :=
  match p with
  | None => old
  | Some v => v
  end.

(** Shallow merge of a patch into a document. *)
Definition apply (p : patch) (e : t) : t :=
  {| _id := e.(_id);
     activityId := e.(activityId);
     scopeId := e.(scopeId);
     projectId := e.(projectId);
     date := e.(date);
     userId := e.(userId);
     foremanName := merge p.(p_foremanName) e.(foremanName);
     forecastQuantity := merge p.(p_forecastQuantity) e.(forecastQuantity);
     forecastCrewSize := merge p.(p_forecastCrewSize) e.(forecastCrewSize);
     forecastHoursPerWorker :=
       merge p.(p_forecastHoursPerWorker) e.(forecastHoursPerWorker);
     forecastHours := merge p.(p_forecastHours) e.(forecastHours);
     actualQuantity := merge p.(p_actualQuantity) e.(actualQuantity);
     actualCrewSize := merge p.(p_actualCrewSize) e.(actualCrewSize);
     actualHoursPerWorker :=
       merge p.(p_actualHoursPerWorker) e.(actualHoursPerWorker);
     actualHours := merge p.(p_actualHours) e.(actualHours);
     notes := merge p.(p_notes) e.(notes);
     createdBy := e.(createdBy);
     createdAt := e.(createdAt);
     updatedBy := merge p.(p_updatedBy) e.(updatedBy);
     updatedAt := merge p.(p_updatedAt) e.(updatedAt) |}.
End Entry.

(** ** The database and the request context *)

Record DB := mkDB {
  userProfiles : list Profile.t;
  projectAssignments : list ProjectAssignment.t;
  scopeAssignments : list ScopeAssignment.t;
  projects : list Project.t;
  scopes : list Scope.t;
  activities : list Activity.t;
  dailyEntries : list Entry.t
}.

(** What the platform supplies to one request: the authenticated user
    ([getAuthUserId]), the clock ([Date.now()]) and the identifier the next
    [db.insert] will generate. *)
Record Ctx := mkCtx {
  getAuthUserId : option Id;
  Date_now : Q;
  freshId : Id
}.

Module Db.

(** [.withIndex("by_userId", q => q.eq("userId", userId)).first()] on
    userProfiles. *)
Definition profile_by_userId (db : DB) (userId : Id) : option Profile.t :=
  find (fun p => String.eqb p.(Profile.userId) userId) db.(userProfiles).

(** [.withIndex("by_userId_and_projectId", ...).first()] on
    projectAssignments. *)
Definition assignment_by_userId_and_projectId (db : DB) (userId projectId : Id)
  : option ProjectAssignment.t :=
  find (fun a => String.eqb a.(ProjectAssignment.userId) userId
                 && String.eqb a.(ProjectAssignment.projectId) projectId)
       db.(projectAssignments).

(** [.withIndex("by_scopeId", ...).first()] on scopeAssignments. *)
Definition scopeAssignment_by_scopeId (db : DB) (scopeId : Id)
  : option ScopeAssignment.t :=
  find (fun a => String.eqb a.(ScopeAssignment.scopeId) scopeId)
       db.(scopeAssignments).

Definition get_activity (db : DB) (id : Id) : option Activity.t :=
  find (fun a => String.eqb a.(Activity._id) id) db.(activities).

Definition get_scope (db : DB) (id : Id) : option Scope.t :=
  find (fun s => String.eqb s.(Scope._id) id) db.(scopes).

Definition get_entry (db : DB) (id : Id) : option Entry.t :=
  find (fun e => String.eqb e.(Entry._id) id) db.(dailyEntries).

(** Index order on the [date] field; documents with the same date stay in
    creation order. *)
Definition by_date (l : list Entry.t) : list Entry.t :=
  Js.sort (fun a b => Js.str_le a.(Entry.date) b.(Entry.date)) l.

(** [.withIndex("by_activity_and_date", q => q.eq("activityId", a).eq("date", d)).first()] *)
Definition entry_by_activity_and_date (db : DB) (activityId : Id) (date : string)
  : option Entry.t :=
  find (fun e => String.eqb e.(Entry.activityId) activityId
                 && String.eqb e.(Entry.date) date)
       db.(dailyEntries).

(** [.withIndex("by_activity_and_date", q => q.eq("activityId", a)).collect()] *)
Definition entries_by_activity (db : DB) (activityId : Id) : list Entry.t :=
  by_date (filter (fun e => String.eqb e.(Entry.activityId) activityId)
                  db.(dailyEntries)).

(** [.withIndex("by_project_and_date", q => q.eq("projectId", p)).collect()] *)
Definition entries_by_project (db : DB) (projectId : Id) : list Entry.t :=
  by_date (filter (fun e => String.eqb e.(Entry.projectId) projectId)
                  db.(dailyEntries)).

(** [.withIndex("by_scope_and_date", q => q.eq("scopeId", s)).collect()] *)
Definition entries_by_scope (db : DB) (scopeId : Id) : list Entry.t :=
  by_date (filter (fun e => String.eqb e.(Entry.scopeId) scopeId)
                  db.(dailyEntries)).

(** [.withIndex("by_scope", ...).collect()] on activities and
    [.withIndex("by_project", ...).collect()] on scopes. *)
Definition activities_by_scope (db : DB) (scopeId : Id) : list Activity.t :=
  filter (fun a => String.eqb a.(Activity.scopeId) scopeId) db.(activities).

Definition scopes_by_project (db : DB) (projectId : Id) : list Scope.t :=
  filter (fun s => String.eqb s.(Scope.projectId) projectId) db.(scopes).

Definition set_entries (db : DB) (es : list Entry.t) : DB :=
  {| userProfiles := db.(userProfiles);
     projectAssignments := db.(projectAssignments);
     scopeAssignments := db.(scopeAssignments);
     projects := db.(projects);
     scopes := db.(scopes);
     activities := db.(activities);
     dailyEntries := es |}.

(** [db.insert("dailyEntries", doc)] *)
Definition insert_entry (db : DB) (doc : Entry.t) : DB :=
  set_entries db (db.(dailyEntries) ++ [doc]).

(** [db.patch(id, p)] on dailyEntries. *)
Definition patch_entry (db : DB) (id : Id) (p : Entry.patch) : DB :=
  set_entries db
    (map (fun e => if String.eqb e.(Entry._id) id then Entry.apply p e else e)
         db.(dailyEntries)).

End Db.

(** ** Access-control gate *)

(** [checkProjectAccess(ctx, userId, projectId)]; the helper is repeated
    verbatim in activities.ts, dailyEntries.ts, dashboard.ts, leaderboard.ts
    and scopes.ts. *)
Definition checkProjectAccess (db : DB) (userId projectId : Id) : bool :=
  match Db.profile_by_userId db userId with
  | None => true
  | Some profile =>
      if Role_eqb profile.(Profile.role) control_center then true
      else
        match Db.assignment_by_userId_and_projectId db userId projectId with
        | Some _ => true
        | None => false
        end
  end.

(** [isControlCenter(ctx, userId)] (dashboard.ts):
    [profile?.role === "control_center"]. *)
Definition isControlCenter (db : DB) (userId : Id) : bool :=
  match Db.profile_by_userId db userId with
  | Some profile => Role_eqb profile.(Profile.role) control_center
  | None => false
  end.

(** ** User profiles (convex/userProfiles.ts) *)

Module UserProfiles.

(** [getCurrentProfile]: the caller's own profile. *)
Definition getCurrentProfile (ctx : Ctx) (db : DB) : Outcome (option Profile.t) :=
  match ctx.(getAuthUserId) with
  | None => Returned None
  | Some userId => Returned (Db.profile_by_userId db userId)
  end.

(** [getByUserId]: the profile of the given user.  The handler does not
    call [getAuthUserId]. *)
Definition getByUserId (ctx : Ctx) (db : DB) (userId : Id)
  : Outcome (option Profile.t) :=
  Returned (Db.profile_by_userId db userId).

End UserProfiles.

(** ** Entry recorder (convex/dailyEntries.ts) *)

Module ForecastArgs.
Record t := mk {
  activityId : Id;
  date : string;
  forecastQuantity : Q;
  forecastCrewSize : Q;
  forecastHoursPerWorker : Q;
  notes : option string
}.
End ForecastArgs.

Module ActualsArgs.
Record t := mk {
  activityId : Id;
  date : string;
  actualQuantity : Q;
  actualCrewSize : Q;
  actualHoursPerWorker : Q;
  notes : option string
}.
End ActualsArgs.

Module EntryArgs.
Record t := mk {
  activityId : Id;
  date : string;
  forecastQuantity : option Q;
  forecastCrewSize : option Q;
  forecastHoursPerWorker : option Q;
  actualQuantity : option Q;
  actualCrewSize : option Q;
  actualHoursPerWorker : option Q;
  notes : option string
}.
End EntryArgs.

(** [getUserForemanName]: [profile?.name]. *)
Definition getUserForemanName (db : DB) (userId : Id) : option string :=
  option_map Profile.name (Db.profile_by_userId db userId).

(** [getAssignedCMName]: the name of the first user assigned to the scope. *)
Definition getAssignedCMName (db : DB) (scopeId : Id) : option string :=
  match Db.scopeAssignment_by_scopeId db scopeId with
  | None => None
  | Some assignment =>
      option_map Profile.name
        (Db.profile_by_userId db assignment.(ScopeAssignment.userId))
  end.

(** The three guards every entry mutation starts with; returns the caller
    and the resolved activity. *)
Definition entryPreamble (ctx : Ctx) (db : DB) (activityId : Id)
  : Outcome (Id * Activity.t) :=
  userId <- require ctx.(getAuthUserId) "Not authenticated" ;;
  activity <- require (Db.get_activity db activityId) "Activity not found" ;;
  _ <- guard (checkProjectAccess db userId activity.(Activity.projectId))
             "Access denied" ;;
  Returned (userId, activity).

(** [assignedCMName ?? (await getUserForemanName(ctx, userId))] *)
Definition resolveForemanName (db : DB) (userId : Id) (activity : Activity.t)
  : option string :=
  Js.nullish_opt (getAssignedCMName db activity.(Activity.scopeId))
                 (getUserForemanName db userId).

Definition submitForecast (ctx : Ctx) (db : DB) (args : ForecastArgs.t)
  : Outcome (Id * DB) :=
  ua <- entryPreamble ctx db args.(ForecastArgs.activityId) ;;
  let userId := fst ua in
  let activity := snd ua in
  let foremanName := resolveForemanName db userId activity in
  let forecastHours :=
    (args.(ForecastArgs.forecastCrewSize)
     * args.(ForecastArgs.forecastHoursPerWorker))%Q in
  match Db.entry_by_activity_and_date db args.(ForecastArgs.activityId)
                                      args.(ForecastArgs.date) with
  | Some existing =>
      Returned
        (existing.(Entry._id),
         Db.patch_entry db existing.(Entry._id)
           {| Entry.p_foremanName :=
                Some (Js.nullish_opt foremanName existing.(Entry.foremanName));
              Entry.p_forecastQuantity :=
                Some (Some args.(ForecastArgs.forecastQuantity));
              Entry.p_forecastCrewSize :=
                Some (Some args.(ForecastArgs.forecastCrewSize));
              Entry.p_forecastHoursPerWorker :=
                Some (Some args.(ForecastArgs.forecastHoursPerWorker));
              Entry.p_forecastHours := Some (Some forecastHours);
              Entry.p_actualQuantity := None;
              Entry.p_actualCrewSize := None;
              Entry.p_actualHoursPerWorker := None;
              Entry.p_actualHours := None;
              Entry.p_notes :=
                Some (Js.nullish_opt args.(ForecastArgs.notes)
                                     existing.(Entry.notes));
              Entry.p_updatedBy := Some (Some userId);
              Entry.p_updatedAt := Some (Some ctx.(Date_now)) |})
  | None =>
      Returned
        (ctx.(freshId),
         Db.insert_entry db
           {| Entry._id := ctx.(freshId);
              Entry.activityId := args.(ForecastArgs.activityId);
              Entry.scopeId := activity.(Activity.scopeId);
              Entry.projectId := activity.(Activity.projectId);
              Entry.date := args.(ForecastArgs.date);
              Entry.userId := userId;
              Entry.foremanName := foremanName;
              Entry.forecastQuantity := Some args.(ForecastArgs.forecastQuantity);
              Entry.forecastCrewSize := Some args.(ForecastArgs.forecastCrewSize);
              Entry.forecastHoursPerWorker :=
                Some args.(ForecastArgs.forecastHoursPerWorker);
              Entry.forecastHours := Some forecastHours;
              Entry.actualQuantity := None;
              Entry.actualCrewSize := None;
              Entry.actualHoursPerWorker := None;
              Entry.actualHours := None;
              Entry.notes := args.(ForecastArgs.notes);
              Entry.createdBy := Some userId;
              Entry.createdAt := Some ctx.(Date_now);
              Entry.updatedBy := None;
              Entry.updatedAt := None |})
  end.

Definition submitActuals (ctx : Ctx) (db : DB) (args : ActualsArgs.t)
  : Outcome (Id * DB) :=
  ua <- entryPreamble ctx db args.(ActualsArgs.activityId) ;;
  let userId := fst ua in
  let activity := snd ua in
  let foremanName := resolveForemanName db userId activity in
  let actualHours :=
    (args.(ActualsArgs.actualCrewSize)
     * args.(ActualsArgs.actualHoursPerWorker))%Q in
  match Db.entry_by_activity_and_date db args.(ActualsArgs.activityId)
                                      args.(ActualsArgs.date) with
  | Some existing =>
      Returned
        (existing.(Entry._id),
         Db.patch_entry db existing.(Entry._id)
           {| Entry.p_foremanName :=
                Some (Js.nullish_opt foremanName existing.(Entry.foremanName));
              Entry.p_forecastQuantity := None;
              Entry.p_forecastCrewSize := None;
              Entry.p_forecastHoursPerWorker := None;
              Entry.p_forecastHours := None;
              Entry.p_actualQuantity :=
                Some (Some args.(ActualsArgs.actualQuantity));
              Entry.p_actualCrewSize :=
                Some (Some args.(ActualsArgs.actualCrewSize));
              Entry.p_actualHoursPerWorker :=
                Some (Some args.(ActualsArgs.actualHoursPerWorker));
              Entry.p_actualHours := Some (Some actualHours);
              Entry.p_notes :=
                Some (Js.nullish_opt args.(ActualsArgs.notes)
                                     existing.(Entry.notes));
              Entry.p_updatedBy := Some (Some userId);
              Entry.p_updatedAt := Some (Some ctx.(Date_now)) |})
  | None =>
      Returned
        (ctx.(freshId),
         Db.insert_entry db
           {| Entry._id := ctx.(freshId);
              Entry.activityId := args.(ActualsArgs.activityId);
              Entry.scopeId := activity.(Activity.scopeId);
              Entry.projectId := activity.(Activity.projectId);
              Entry.date := args.(ActualsArgs.date);
              Entry.userId := userId;
              Entry.foremanName := foremanName;
              Entry.forecastQuantity := None;
              Entry.forecastCrewSize := None;
              Entry.forecastHoursPerWorker := None;
              Entry.forecastHours := None;
              Entry.actualQuantity := Some args.(ActualsArgs.actualQuantity);
              Entry.actualCrewSize := Some args.(ActualsArgs.actualCrewSize);
              Entry.actualHoursPerWorker :=
                Some args.(ActualsArgs.actualHoursPerWorker);
              Entry.actualHours := Some actualHours;
              Entry.notes := args.(ActualsArgs.notes);
              Entry.createdBy := Some userId;
              Entry.createdAt := Some ctx.(Date_now);
              Entry.updatedBy := None;
              Entry.updatedAt := None |})
  end.

(** [(crew && hoursPerWorker) ? crew * hoursPerWorker : undefined] *)
Definition manHours (crew hoursPerWorker : option Q) : option Q :=
  match crew, hoursPerWorker with
  | Some c, Some h =>
      if Js.truthy_num crew && Js.truthy_num hoursPerWorker
      then Some (c * h)%Q
      else None
  | _, _ => None
  end.

Definition submitEntry (ctx : Ctx) (db : DB) (args : EntryArgs.t)
  : Outcome (Id * DB) :=
  ua <- entryPreamble ctx db args.(EntryArgs.activityId) ;;
  let userId := fst ua in
  let activity := snd ua in
  let foremanName := resolveForemanName db userId activity in
  let forecastHours :=
    manHours args.(EntryArgs.forecastCrewSize)
             args.(EntryArgs.forecastHoursPerWorker) in
  let actualHours :=
    manHours args.(EntryArgs.actualCrewSize)
             args.(EntryArgs.actualHoursPerWorker) in
  match Db.entry_by_activity_and_date db args.(EntryArgs.activityId)
                                      args.(EntryArgs.date) with
  | Some existing =>
      Returned
        (existing.(Entry._id),
         Db.patch_entry db existing.(Entry._id)
           {| Entry.p_foremanName := Some foremanName;
              Entry.p_forecastQuantity := Some args.(EntryArgs.forecastQuantity);
              Entry.p_forecastCrewSize := Some args.(EntryArgs.forecastCrewSize);
              Entry.p_forecastHoursPerWorker :=
                Some args.(EntryArgs.forecastHoursPerWorker);
              Entry.p_forecastHours := Some forecastHours;
              Entry.p_actualQuantity := Some args.(EntryArgs.actualQuantity);
              Entry.p_actualCrewSize := Some args.(EntryArgs.actualCrewSize);
              Entry.p_actualHoursPerWorker :=
                Some args.(EntryArgs.actualHoursPerWorker);
              Entry.p_actualHours := Some actualHours;
              Entry.p_notes := Some args.(EntryArgs.notes);
              Entry.p_updatedBy := Some (Some userId);
              Entry.p_updatedAt := Some (Some ctx.(Date_now)) |})
  | None =>
      Returned
        (ctx.(freshId),
         Db.insert_entry db
           {| Entry._id := ctx.(freshId);
              Entry.activityId := args.(EntryArgs.activityId);
              Entry.scopeId := activity.(Activity.scopeId);
              Entry.projectId := activity.(Activity.projectId);
              Entry.date := args.(EntryArgs.date);
              Entry.userId := userId;
              Entry.foremanName := foremanName;
              Entry.forecastQuantity := args.(EntryArgs.forecastQuantity);
              Entry.forecastCrewSize := args.(EntryArgs.forecastCrewSize);
              Entry.forecastHoursPerWorker :=
                args.(EntryArgs.forecastHoursPerWorker);
              Entry.forecastHours := forecastHours;
              Entry.actualQuantity := args.(EntryArgs.actualQuantity);
              Entry.actualCrewSize := args.(EntryArgs.actualCrewSize);
              Entry.actualHoursPerWorker := args.(EntryArgs.actualHoursPerWorker);
              Entry.actualHours := actualHours;
              Entry.notes := args.(EntryArgs.notes);
              Entry.createdBy := Some userId;
              Entry.createdAt := Some ctx.(Date_now);
              Entry.updatedBy := None;
              Entry.updatedAt := None |})
  end.

(** A call of one of the three entry mutations, and a sequential run of
    calls in which every call succeeds. *)
Inductive Call :=
| CallForecast (ctx : Ctx) (args : ForecastArgs.t)
| CallActuals (ctx : Ctx) (args : ActualsArgs.t)
| CallEntry (ctx : Ctx) (args : EntryArgs.t).

Definition exec (db : DB) (c : Call) : Outcome (Id * DB) :=
  match c with
  | CallForecast ctx args => submitForecast ctx db args
  | CallActuals ctx args => submitActuals ctx db args
  | CallEntry ctx args => submitEntry ctx db args
  end.

Fixpoint run (db : DB) (calls : list Call) : Outcome DB :=
  match calls with
  | [] => Returned db
  | c :: calls' =>
      r <- exec db c ;;
      run (snd r) calls'
  end.

(** Number of stored entries for one (activity, date) pair. *)
Definition entriesFor (db : DB) (activityId : Id) (date : string) : nat :=
  List.length (filter (fun e => String.eqb e.(Entry.activityId) activityId
                                && String.eqb e.(Entry.date) date)
                      db.(dailyEntries)).

(** ** Aggregator (convex/dashboard.ts) *)

Local Open Scope Q_scope.

(** [den > 0 ? num / den : 0] *)
Definition ratioOrZero (num den : Q) : Q :=
  if Js.gt0 den then num / den else 0.

(** [Math.round(x * 100) / 100] and [Math.round(x * 10) / 10], where [x]
    stands for the double [Js.fl x]; the product and the quotient are
    double operations. *)
Definition round2 (x : Q) : Q :=
  Js.fdiv (Js.Math_round (Js.fmul (Js.fl x) 100)) 100.
Definition round1 (x : Q) : Q :=
  Js.fdiv (Js.Math_round (Js.fmul (Js.fl x) 10)) 10.

(** [e.date >= startDate && e.date <= endDate] *)
Definition inRange (startDate endDate : string) (e : Entry.t) : bool :=
  Js.str_le startDate e.(Entry.date) && Js.str_le e.(Entry.date) endDate.

(** The accumulation loop of a dictionary of running totals whose keys are
    document ids (which are never property names of [Object.prototype]):
    [for (const e of l) { if (!obj[key e]) obj[key e] = init; obj[key e] += e }] *)
Definition accumulate {E T : Type} (key : E -> string) (init : T)
           (step : T -> E -> T) (l : list E) : Js.Dict.t T :=
  fold_left
    (fun obj e =>
       Js.Dict.update (key e) (fun v => step v e) (Js.Dict.ensure (key e) init obj))
    l [].

(** The same loop over keys that are free text (a date, a foreman name),
    where it only adds to numeric fields: under a name inherited from
    [Object.prototype] no group is created and the additions are lost. *)
Definition accumulateObj {E T : Type} (key : E -> string) (init : T)
           (step : T -> E -> T) (l : list E) : Js.Obj.t T :=
  fold_left
    (fun obj e =>
       Js.Obj.update (key e) (fun v => step v e) (Js.Obj.ensure (key e) init obj))
    l [].

(** The same loop where it calls a method of a field of the group
    ([obj[key e].entries.push(e)], [obj[key e].activitiesWorked.add(..)]):
    under a name inherited from [Object.prototype] that field is not an
    array or a set, and the call throws a [TypeError]. *)
Definition accumulateStrict {E T : Type} (key : E -> string) (init : E -> T)
           (step : T -> E -> T) (l : list E) : Outcome (Js.Obj.t T) :=
  fold_left
    (fun acc e =>
       obj <- acc ;;
       let obj := Js.Obj.ensure (key e) (init e) obj in
       match Js.Obj.own (key e) obj with
       | Some _ => Returned (Js.Obj.update (key e) (fun v => step v e) obj)
       | None => Thrown "TypeError"
       end)
    l (Returned []).

(** The four running totals every KPI query keeps. *)
Module Totals.
Record t := mk {
  totalForecastQuantity : Q;
  totalActualQuantity : Q;
  totalForecastHours : Q;
  totalActualHours : Q
}.

Definition zero : t := mk 0 0 0 0.

(** Body of [for (const entry of entries) { ... += entry.x ?? 0 }]. *)
Definition add (acc : t) (entry : Entry.t) : t :=
  {| totalForecastQuantity :=
       acc.(totalForecastQuantity) + entry.(Entry.forecastQuantity) ?? 0;
     totalActualQuantity :=
       acc.(totalActualQuantity) + entry.(Entry.actualQuantity) ?? 0;
     totalForecastHours :=
       acc.(totalForecastHours) + entry.(Entry.forecastHours) ?? 0;
     totalActualHours :=
       acc.(totalActualHours) + entry.(Entry.actualHours) ?? 0 |}.

Definition of_entries (entries : list Entry.t) : t :=
  fold_left add entries zero.
End Totals.

Module ProjectKPIs.
Record t := mk {
  totalForecastQuantity : Q;
  totalActualQuantity : Q;
  totalForecastHours : Q;
  totalActualHours : Q;
  quantityVariance : Q;
  hoursVariance : Q;
  productionRate : Q;
  entriesCount : nat
}.
End ProjectKPIs.

Module ScopeKPIs.
Record t := mk {
  scopeName : string;
  totalForecastQuantity : Q;
  totalActualQuantity : Q;
  totalForecastHours : Q;
  totalActualHours : Q;
  quantityVariance : Q;
  productionRate : Q;
  entriesCount : nat
}.
End ScopeKPIs.

Module ActivityKPIs.
Record t := mk {
  activityName : string;
  activityUnit : string;
  scopeName : string;
  totalForecastQuantity : Q;
  totalActualQuantity : Q;
  totalForecastHours : Q;
  totalActualHours : Q;
  quantityVariance : Q;
  productionRate : Q;
  entriesCount : nat
}.
End ActivityKPIs.

Module AllProjectsKPIs.
Record t := mk {
  totalProjects : nat;
  activeProjects : nat;
  totalForecastQuantity : Q;
  totalActualQuantity : Q;
  totalForecastHours : Q;
  totalActualHours : Q;
  quantityVariance : Q;
  hoursVariance : Q;
  productionRate : Q;
  efficiency : Q;
  totalEntries : nat
}.
End AllProjectsKPIs.

Definition isActive (p : Project.t) : bool :=
  match p.(Project.status) with
  | active => true
  | _ => false
  end.

Definition getAllProjectsKPIs (ctx : Ctx) (db : DB)
  : Outcome (option AllProjectsKPIs.t) :=
  match ctx.(getAuthUserId) with
  | None => Returned None
  | Some userId =>
      if negb (isControlCenter db userId) then Returned None
      else
        let allEntries := db.(dailyEntries) in
        let tot := Totals.of_entries allEntries in
        let totalForecastQuantity := tot.(Totals.totalForecastQuantity) in
        let totalActualQuantity := tot.(Totals.totalActualQuantity) in
        let totalForecastHours := tot.(Totals.totalForecastHours) in
        let totalActualHours := tot.(Totals.totalActualHours) in
        let productionRate := ratioOrZero totalActualQuantity totalActualHours in
        let efficiency :=
          if Js.gt0 totalForecastQuantity
          then totalActualQuantity / totalForecastQuantity * 100
          else 0 in
        Returned (Some
          {| AllProjectsKPIs.totalProjects := List.length db.(projects);
             AllProjectsKPIs.activeProjects :=
               List.length (filter isActive db.(projects));
             AllProjectsKPIs.totalForecastQuantity := totalForecastQuantity;
             AllProjectsKPIs.totalActualQuantity := totalActualQuantity;
             AllProjectsKPIs.totalForecastHours := totalForecastHours;
             AllProjectsKPIs.totalActualHours := totalActualHours;
             AllProjectsKPIs.quantityVariance :=
               totalActualQuantity - totalForecastQuantity;
             AllProjectsKPIs.hoursVariance :=
               totalActualHours - totalForecastHours;
             AllProjectsKPIs.productionRate := productionRate;
             AllProjectsKPIs.efficiency := efficiency;
             AllProjectsKPIs.totalEntries := List.length allEntries |})
  end.

Definition getProjectKPIs (ctx : Ctx) (db : DB) (projectId : Id)
  : Outcome (option ProjectKPIs.t) :=
  match ctx.(getAuthUserId) with
  | None => Returned None
  | Some userId =>
      if negb (checkProjectAccess db userId projectId) then Returned None
      else
        let entries := Db.entries_by_project db projectId in
        let tot := Totals.of_entries entries in
        let totalForecastQuantity := tot.(Totals.totalForecastQuantity) in
        let totalActualQuantity := tot.(Totals.totalActualQuantity) in
        let totalForecastHours := tot.(Totals.totalForecastHours) in
        let totalActualHours := tot.(Totals.totalActualHours) in
        let quantityVariance := totalActualQuantity - totalForecastQuantity in
        let hoursVariance := totalActualHours - totalForecastHours in
        let productionRate := ratioOrZero totalActualQuantity totalActualHours in
        Returned (Some
          {| ProjectKPIs.totalForecastQuantity := totalForecastQuantity;
             ProjectKPIs.totalActualQuantity := totalActualQuantity;
             ProjectKPIs.totalForecastHours := totalForecastHours;
             ProjectKPIs.totalActualHours := totalActualHours;
             ProjectKPIs.quantityVariance := quantityVariance;
             ProjectKPIs.hoursVariance := hoursVariance;
             ProjectKPIs.productionRate := productionRate;
             ProjectKPIs.entriesCount := List.length entries |})
  end.

Definition getScopeKPIs (ctx : Ctx) (db : DB) (scopeId : Id)
  : Outcome (option ScopeKPIs.t) :=
  match ctx.(getAuthUserId) with
  | None => Returned None
  | Some userId =>
      match Db.get_scope db scopeId with
      | None => Returned None
      | Some scope =>
          if negb (checkProjectAccess db userId scope.(Scope.projectId))
          then Returned None
          else
            let entries := Db.entries_by_scope db scopeId in
            let tot := Totals.of_entries entries in
            let totalForecastQuantity := tot.(Totals.totalForecastQuantity) in
            let totalActualQuantity := tot.(Totals.totalActualQuantity) in
            let totalForecastHours := tot.(Totals.totalForecastHours) in
            let totalActualHours := tot.(Totals.totalActualHours) in
            let quantityVariance := totalActualQuantity - totalForecastQuantity in
            let productionRate :=
              ratioOrZero totalActualQuantity totalActualHours in
            Returned (Some
              {| ScopeKPIs.scopeName := scope.(Scope.name);
                 ScopeKPIs.totalForecastQuantity := totalForecastQuantity;
                 ScopeKPIs.totalActualQuantity := totalActualQuantity;
                 ScopeKPIs.totalForecastHours := totalForecastHours;
                 ScopeKPIs.totalActualHours := totalActualHours;
                 ScopeKPIs.quantityVariance := quantityVariance;
                 ScopeKPIs.productionRate := productionRate;
                 ScopeKPIs.entriesCount := List.length entries |})
      end
  end.

Definition getActivityKPIs (ctx : Ctx) (db : DB) (activityId : Id)
  : Outcome (option ActivityKPIs.t) :=
  match ctx.(getAuthUserId) with
  | None => Returned None
  | Some userId =>
      match Db.get_activity db activityId with
      | None => Returned None
      | Some activity =>
          if negb (checkProjectAccess db userId activity.(Activity.projectId))
          then Returned None
          else
            let scope := Db.get_scope db activity.(Activity.scopeId) in
            let entries := Db.entries_by_activity db activityId in
            let tot := Totals.of_entries entries in
            let totalForecastQuantity := tot.(Totals.totalForecastQuantity) in
            let totalActualQuantity := tot.(Totals.totalActualQuantity) in
            let totalForecastHours := tot.(Totals.totalForecastHours) in
            let totalActualHours := tot.(Totals.totalActualHours) in
            let productionRate :=
              ratioOrZero totalActualQuantity totalActualHours in
            Returned (Some
              {| ActivityKPIs.activityName := activity.(Activity.name);
                 ActivityKPIs.activityUnit := activity.(Activity.unit);
                 ActivityKPIs.scopeName :=
                   option_map Scope.name scope ?? "Unknown"%string;
                 ActivityKPIs.totalForecastQuantity := totalForecastQuantity;
                 ActivityKPIs.totalActualQuantity := totalActualQuantity;
                 ActivityKPIs.totalForecastHours := totalForecastHours;
                 ActivityKPIs.totalActualHours := totalActualHours;
                 ActivityKPIs.quantityVariance :=
                   totalActualQuantity - totalForecastQuantity;
                 ActivityKPIs.productionRate := productionRate;
                 ActivityKPIs.entriesCount := List.length entries |})
      end
  end.

(** Per-date accumulator of [getTrendData]. *)
Module TrendAcc.
Record t := mk {
  totalForecast : Q;
  totalActual : Q;
  forecastHours : Q;
  actualHours : Q;
  weightedPFSum : Q;
  weightSum : Q
}.

Definition zero : t := mk 0 0 0 0 0 0.

(** What one entry adds to its date's accumulator. *)
Definition add (acc : t) (entry : Entry.t) : t :=
  let forecast := entry.(Entry.forecastQuantity) ?? 0 in
  let actual := entry.(Entry.actualQuantity) ?? 0 in
  let fh := entry.(Entry.forecastHours) ?? 0 in
  let weighted := Js.gt0 forecast && Js.gt0 fh in
  let entryPF := actual / forecast in
  {| totalForecast := acc.(totalForecast) + forecast;
     totalActual := acc.(totalActual) + actual;
     forecastHours := acc.(forecastHours) + fh;
     actualHours := acc.(actualHours) + entry.(Entry.actualHours) ?? 0;
     weightedPFSum :=
       if weighted then acc.(weightedPFSum) + entryPF * fh
       else acc.(weightedPFSum);
     weightSum :=
       if weighted then acc.(weightSum) + fh else acc.(weightSum) |}.
End TrendAcc.

Module TrendPoint.
Record t := mk {
  date : string;
  productionFactor : Q;
  forecastHours : Q;
  actualHours : Q;
  totalForecast : Q;
  totalActual : Q
}.
End TrendPoint.

(** Per-date accumulator of [getAllProjectsTrendData]. *)
Module DayTotals.
Record t := mk {
  forecastQuantity : Q;
  actualQuantity : Q;
  forecastHours : Q;
  actualHours : Q
}.

Definition zero : t := mk 0 0 0 0.

Definition add (acc : t) (entry : Entry.t) : t :=
  {| forecastQuantity :=
       acc.(forecastQuantity) + entry.(Entry.forecastQuantity) ?? 0;
     actualQuantity :=
       acc.(actualQuantity) + entry.(Entry.actualQuantity) ?? 0;
     forecastHours := acc.(forecastHours) + entry.(Entry.forecastHours) ?? 0;
     actualHours := acc.(actualHours) + entry.(Entry.actualHours) ?? 0 |}.
End DayTotals.

Module DayPoint.
Record t := mk {
  date : string;
  forecastQuantity : Q;
  actualQuantity : Q;
  forecastHours : Q;
  actualHours : Q
}.
End DayPoint.

Section Collation.

(** [a.localeCompare(b)]: negative, zero or positive.  The collation is
    the runtime's; the handlers are parametric in it. *)
Variable localeCompare : string -> string -> Z.

Definition getTrendData (ctx : Ctx) (db : DB) (projectId : Id)
           (startDate endDate : string) : Outcome (list TrendPoint.t) :=
  match ctx.(getAuthUserId) with
  | None => Returned []
  | Some userId =>
      if negb (checkProjectAccess db userId projectId) then Returned []
      else
        let entries := Db.entries_by_project db projectId in
        let filteredEntries := filter (inRange startDate endDate) entries in
        let byDate :=
          accumulateObj Entry.date TrendAcc.zero TrendAcc.add filteredEntries in
        Returned
          (Js.sort
             (fun a b =>
                (localeCompare a.(TrendPoint.date) b.(TrendPoint.date) <=? 0)%Z)
             (map (fun kv =>
                     let data := snd kv in
                     {| TrendPoint.date := fst kv;
                        TrendPoint.productionFactor :=
                          if Js.gt0 data.(TrendAcc.weightSum)
                          then data.(TrendAcc.weightedPFSum)
                               / data.(TrendAcc.weightSum)
                          else 0;
                        TrendPoint.forecastHours := data.(TrendAcc.forecastHours);
                        TrendPoint.actualHours := data.(TrendAcc.actualHours);
                        TrendPoint.totalForecast := data.(TrendAcc.totalForecast);
                        TrendPoint.totalActual := data.(TrendAcc.totalActual) |})
                  (Js.Obj.entries byDate)))
  end.

Definition getAllProjectsTrendData (ctx : Ctx) (db : DB)
           (startDate endDate : string) : Outcome (list DayPoint.t) :=
  match ctx.(getAuthUserId) with
  | None => Returned []
  | Some userId =>
      if negb (isControlCenter db userId) then Returned []
      else
        let filteredEntries :=
          filter (inRange startDate endDate) db.(dailyEntries) in
        let byDate :=
          accumulateObj Entry.date DayTotals.zero DayTotals.add filteredEntries in
        Returned
          (Js.sort
             (fun a b =>
                (localeCompare a.(DayPoint.date) b.(DayPoint.date) <=? 0)%Z)
             (map (fun kv =>
                     let data := snd kv in
                     {| DayPoint.date := fst kv;
                        DayPoint.forecastQuantity :=
                          data.(DayTotals.forecastQuantity);
                        DayPoint.actualQuantity := data.(DayTotals.actualQuantity);
                        DayPoint.forecastHours := data.(DayTotals.forecastHours);
                        DayPoint.actualHours := data.(DayTotals.actualHours) |})
                  (Js.Obj.entries byDate)))
  end.

End Collation.

(** ** Ranker (convex/leaderboard.ts) *)

(** [if (startDate && endDate) entries = entries.filter(...)] *)
Definition filterRange (startDate endDate : option string) (entries : list Entry.t)
  : list Entry.t :=
  match startDate, endDate with
  | Some s, Some e =>
      if Js.truthy_str startDate && Js.truthy_str endDate
      then filter (inRange s e) entries
      else entries
  | _, _ => entries
  end.

(** [entry.foremanName ?? entry.userId] *)
Definition foremanKey (entry : Entry.t) : string :=
  entry.(Entry.foremanName) ?? entry.(Entry.userId).

(** Display name of a grouping key: a key containing [":"] is taken for a
    user id and resolved through the profiles. *)
Definition displayName (db : DB) (key : string) : string :=
  if Js.includes ":" key
  then option_map Profile.name (Db.profile_by_userId db key) ?? "Unknown"%string
  else key.

(** [{ ...item, rank }] *)
Record Ranked (A : Type) := mkRanked {
  item : A;
  rank : nat
}.
Arguments mkRanked {A} item rank.
Arguments item {A} r.
Arguments rank {A} r.

(** [(entry, index) => ({ ...entry, rank: index + 1 })] *)
Definition withRank {A : Type} (entry : A) (index : nat) : Ranked A :=
  mkRanked entry (index + 1).

(** [rows.map((entry, index) => ({ ...entry, rank: index + 1 }))] *)
Definition addRank {A : Type} (rows : list A) : list (Ranked A) :=
  Js.mapi withRank rows.

(** [(a, b) => b.productionFactor - a.productionFactor] read as
    "[a] may stay before [b]". *)
Definition byFactorDesc {A : Type} (productionFactor : A -> Q) (a b : A) : bool :=
  Qle_bool (productionFactor b - productionFactor a) 0.

Module ForemanAcc.
Record t := mk {
  totalActualQuantity : Q;
  totalActualHours : Q;
  totalForecastQuantity : Q;
  totalForecastHours : Q;
  entriesCount : nat;
  activitiesWorked : list Id;
  scopesWorked : list Id
}.

Definition zero : t := mk 0 0 0 0 0%nat [] [].

Definition add (acc : t) (entry : Entry.t) : t :=
  {| totalActualQuantity :=
       acc.(totalActualQuantity) + entry.(Entry.actualQuantity) ?? 0;
     totalActualHours :=
       acc.(totalActualHours) + entry.(Entry.actualHours) ?? 0;
     totalForecastQuantity :=
       acc.(totalForecastQuantity) + entry.(Entry.forecastQuantity) ?? 0;
     totalForecastHours :=
       acc.(totalForecastHours) + entry.(Entry.forecastHours) ?? 0;
     entriesCount := (acc.(entriesCount) + 1)%nat;
     activitiesWorked :=
       Js.set_add String.eqb entry.(Entry.activityId) acc.(activitiesWorked);
     scopesWorked :=
       Js.set_add String.eqb entry.(Entry.scopeId) acc.(scopesWorked) |}.
End ForemanAcc.

Module ProjectLeader.
Record t := mk {
  foremanName : string;
  scopeNames : list string;
  totalActualQuantity : Q;
  totalActualHours : Q;
  totalForecastQuantity : Q;
  totalForecastHours : Q;
  productionRate : Q;
  productionFactor : Q;
  variancePercent : Q;
  entriesCount : nat;
  activitiesCount : nat
}.
End ProjectLeader.

(** [variancePercent] before rounding, in double arithmetic:
    [forecast > 0 ? ((actual - forecast) / forecast) * 100 : 0] *)
Definition varianceOrZero (actual forecast : Q) : Q :=
  if Js.gt0 forecast
  then Js.fmul (Js.fdiv (Js.fsub actual forecast) forecast) 100
  else 0.

Definition getProjectLeaderboard (ctx : Ctx) (db : DB) (projectId : Id)
           (startDate endDate : option string)
  : Outcome (list (Ranked ProjectLeader.t)) :=
  match ctx.(getAuthUserId) with
  | None => Returned []
  | Some userId =>
      if negb (checkProjectAccess db userId projectId) then Returned []
      else
        let entries :=
          filterRange startDate endDate (Db.entries_by_project db projectId) in
        byForeman <-
          accumulateStrict foremanKey (fun _ => ForemanAcc.zero) ForemanAcc.add
                           entries ;;
        let leaderboard :=
          map (fun kv =>
                 let data := snd kv in
                 let foremanName := displayName db (fst kv) in
                 let scopeNames :=
                   flat_map (fun scopeId =>
                               match Db.get_scope db scopeId with
                               | Some scope => [scope.(Scope.name)]
                               | None => []
                               end)
                            data.(ForemanAcc.scopesWorked) in
                 let productionRate :=
                   ratioOrZero data.(ForemanAcc.totalActualQuantity)
                               data.(ForemanAcc.totalActualHours) in
                 let productionFactor :=
                   ratioOrZero data.(ForemanAcc.totalActualQuantity)
                               data.(ForemanAcc.totalForecastQuantity) in
                 let variancePercent :=
                   varianceOrZero data.(ForemanAcc.totalActualQuantity)
                                  data.(ForemanAcc.totalForecastQuantity) in
                 {| ProjectLeader.foremanName := foremanName;
                    ProjectLeader.scopeNames := scopeNames;
                    ProjectLeader.totalActualQuantity :=
                      data.(ForemanAcc.totalActualQuantity);
                    ProjectLeader.totalActualHours :=
                      data.(ForemanAcc.totalActualHours);
                    ProjectLeader.totalForecastQuantity :=
                      data.(ForemanAcc.totalForecastQuantity);
                    ProjectLeader.totalForecastHours :=
                      data.(ForemanAcc.totalForecastHours);
                    ProjectLeader.productionRate := round2 productionRate;
                    ProjectLeader.productionFactor := round2 productionFactor;
                    ProjectLeader.variancePercent := round1 variancePercent;
                    ProjectLeader.entriesCount := data.(ForemanAcc.entriesCount);
                    ProjectLeader.activitiesCount :=
                      List.length data.(ForemanAcc.activitiesWorked) |})
              (Js.Obj.entries byForeman) in
        Returned
          (addRank (Js.sort (byFactorDesc ProjectLeader.productionFactor)
                            leaderboard))
  end.

Module ScopeForemanAcc.
Record t := mk {
  totalActualQuantity : Q;
  totalActualHours : Q;
  totalForecastQuantity : Q;
  totalForecastHours : Q;
  entriesCount : nat
}.

Definition zero : t := mk 0 0 0 0 0%nat.

Definition add (acc : t) (entry : Entry.t) : t :=
  {| totalActualQuantity :=
       acc.(totalActualQuantity) + entry.(Entry.actualQuantity) ?? 0;
     totalActualHours :=
       acc.(totalActualHours) + entry.(Entry.actualHours) ?? 0;
     totalForecastQuantity :=
       acc.(totalForecastQuantity) + entry.(Entry.forecastQuantity) ?? 0;
     totalForecastHours :=
       acc.(totalForecastHours) + entry.(Entry.forecastHours) ?? 0;
     entriesCount := (acc.(entriesCount) + 1)%nat |}.
End ScopeForemanAcc.

Module ScopeLeader.
Record t := mk {
  foremanName : string;
  totalActualQuantity : Q;
  totalActualHours : Q;
  totalForecastQuantity : Q;
  totalForecastHours : Q;
  productionRate : Q;
  productionFactor : Q;
  variancePercent : Q;
  entriesCount : nat
}.
End ScopeLeader.

Definition getScopeLeaderboard (ctx : Ctx) (db : DB) (scopeId : Id)
           (startDate endDate : option string)
  : Outcome (list (Ranked ScopeLeader.t)) :=
  match ctx.(getAuthUserId) with
  | None => Returned []
  | Some userId =>
      match Db.get_scope db scopeId with
      | None => Returned []
      | Some scope =>
          if negb (checkProjectAccess db userId scope.(Scope.projectId))
          then Returned []
          else
            let entries :=
              filterRange startDate endDate (Db.entries_by_scope db scopeId) in
            let byForeman :=
              accumulateObj foremanKey ScopeForemanAcc.zero ScopeForemanAcc.add
                            entries in
            let leaderboard :=
              map (fun kv =>
                     let data := snd kv in
                     let foremanName := displayName db (fst kv) in
                     let productionRate :=
                       ratioOrZero data.(ScopeForemanAcc.totalActualQuantity)
                                   data.(ScopeForemanAcc.totalActualHours) in
                     let productionFactor :=
                       ratioOrZero data.(ScopeForemanAcc.totalActualQuantity)
                                   data.(ScopeForemanAcc.totalForecastQuantity) in
                     let variancePercent :=
                       varianceOrZero data.(ScopeForemanAcc.totalActualQuantity)
                                      data.(ScopeForemanAcc.totalForecastQuantity) in
                     {| ScopeLeader.foremanName := foremanName;
                        ScopeLeader.totalActualQuantity :=
                          data.(ScopeForemanAcc.totalActualQuantity);
                        ScopeLeader.totalActualHours :=
                          data.(ScopeForemanAcc.totalActualHours);
                        ScopeLeader.totalForecastQuantity :=
                          data.(ScopeForemanAcc.totalForecastQuantity);
                        ScopeLeader.totalForecastHours :=
                          data.(ScopeForemanAcc.totalForecastHours);
                        ScopeLeader.productionRate := round2 productionRate;
                        ScopeLeader.productionFactor := round2 productionFactor;
                        ScopeLeader.variancePercent := round1 variancePercent;
                        ScopeLeader.entriesCount :=
                          data.(ScopeForemanAcc.entriesCount) |})
                  (Js.Obj.entries byForeman) in
            Returned
              (addRank (Js.sort (byFactorDesc ScopeLeader.productionFactor)
                                leaderboard))
      end
  end.

(** Per-scope accumulator of [getScopeBreakdown]. *)
Module ScopeAcc.
Record t := mk {
  totalActualQuantity : Q;
  totalForecastQuantity : Q;
  totalActualHours : Q;
  totalForecastHours : Q;
  entriesCount : nat;
  activitiesWorked : list Id;
  foremenWorked : list string
}.

Definition zero : t := mk 0 0 0 0 0%nat [] [].

Definition add (acc : t) (entry : Entry.t) : t :=
  {| totalActualQuantity :=
       acc.(totalActualQuantity) + entry.(Entry.actualQuantity) ?? 0;
     totalForecastQuantity :=
       acc.(totalForecastQuantity) + entry.(Entry.forecastQuantity) ?? 0;
     totalActualHours :=
       acc.(totalActualHours) + entry.(Entry.actualHours) ?? 0;
     totalForecastHours :=
       acc.(totalForecastHours) + entry.(Entry.forecastHours) ?? 0;
     entriesCount := (acc.(entriesCount) + 1)%nat;
     activitiesWorked :=
       Js.set_add String.eqb entry.(Entry.activityId) acc.(activitiesWorked);
     foremenWorked :=
       if Js.truthy_str entry.(Entry.foremanName)
       then Js.set_add String.eqb (entry.(Entry.foremanName) ?? ""%string)
                       acc.(foremenWorked)
       else acc.(foremenWorked) |}.
End ScopeAcc.

Module ScopeBreakdown.
Record t := mk {
  scopeId : Id;
  scopeName : string;
  totalActualQuantity : Q;
  totalForecastQuantity : Q;
  totalActualHours : Q;
  totalForecastHours : Q;
  productionFactor : Q;
  variancePercent : Q;
  entriesCount : nat;
  activitiesCount : nat;
  foremenCount : nat;
  foremenNames : list string
}.
End ScopeBreakdown.

Definition getScopeBreakdown (ctx : Ctx) (db : DB) (projectId : Id)
           (startDate endDate : option string) : Outcome (list ScopeBreakdown.t) :=
  match ctx.(getAuthUserId) with
  | None => Returned []
  | Some userId =>
      if negb (checkProjectAccess db userId projectId) then Returned []
      else
        let scopes := Db.scopes_by_project db projectId in
        let entries :=
          filterRange startDate endDate (Db.entries_by_project db projectId) in
        let byScope := accumulate Entry.scopeId ScopeAcc.zero ScopeAcc.add entries in
        let breakdown :=
          map (fun scope =>
                 let data :=
                   Js.Dict.get scope.(Scope._id) byScope ?? ScopeAcc.zero in
                 let productionFactor :=
                   ratioOrZero data.(ScopeAcc.totalActualQuantity)
                               data.(ScopeAcc.totalForecastQuantity) in
                 let variancePercent :=
                   varianceOrZero data.(ScopeAcc.totalActualQuantity)
                                  data.(ScopeAcc.totalForecastQuantity) in
                 {| ScopeBreakdown.scopeId := scope.(Scope._id);
                    ScopeBreakdown.scopeName := scope.(Scope.name);
                    ScopeBreakdown.totalActualQuantity :=
                      data.(ScopeAcc.totalActualQuantity);
                    ScopeBreakdown.totalForecastQuantity :=
                      data.(ScopeAcc.totalForecastQuantity);
                    ScopeBreakdown.totalActualHours :=
                      data.(ScopeAcc.totalActualHours);
                    ScopeBreakdown.totalForecastHours :=
                      data.(ScopeAcc.totalForecastHours);
                    ScopeBreakdown.productionFactor := round2 productionFactor;
                    ScopeBreakdown.variancePercent := round1 variancePercent;
                    ScopeBreakdown.entriesCount := data.(ScopeAcc.entriesCount);
                    ScopeBreakdown.activitiesCount :=
                      List.length data.(ScopeAcc.activitiesWorked);
                    ScopeBreakdown.foremenCount :=
                      List.length data.(ScopeAcc.foremenWorked);
                    ScopeBreakdown.foremenNames := data.(ScopeAcc.foremenWorked) |})
              scopes in
        Returned (Js.sort (byFactorDesc ScopeBreakdown.productionFactor) breakdown)
  end.

(** Per-activity accumulator of [getActivityBreakdown]. *)
Module ActivityAcc.
Record t := mk {
  totalActualQuantity : Q;
  totalForecastQuantity : Q;
  totalActualHours : Q;
  totalForecastHours : Q;
  entriesCount : nat;
  foremenWorked : list string
}.

Definition zero : t := mk 0 0 0 0 0%nat [].

Definition add (acc : t) (entry : Entry.t) : t :=
  {| totalActualQuantity :=
       acc.(totalActualQuantity) + entry.(Entry.actualQuantity) ?? 0;
     totalForecastQuantity :=
       acc.(totalForecastQuantity) + entry.(Entry.forecastQuantity) ?? 0;
     totalActualHours :=
       acc.(totalActualHours) + entry.(Entry.actualHours) ?? 0;
     totalForecastHours :=
       acc.(totalForecastHours) + entry.(Entry.forecastHours) ?? 0;
     entriesCount := (acc.(entriesCount) + 1)%nat;
     foremenWorked :=
       if Js.truthy_str entry.(Entry.foremanName)
       then Js.set_add String.eqb (entry.(Entry.foremanName) ?? ""%string)
                       acc.(foremenWorked)
       else acc.(foremenWorked) |}.
End ActivityAcc.

Module ActivityBreakdown.
Record t := mk {
  activityId : Id;
  activityName : string;
  unit : string;
  totalActualQuantity : Q;
  totalForecastQuantity : Q;
  totalActualHours : Q;
  totalForecastHours : Q;
  productionFactor : Q;
  variancePercent : Q;
  entriesCount : nat;
  foremenNames : list string
}.
End ActivityBreakdown.

Definition getActivityBreakdown (ctx : Ctx) (db : DB) (scopeId : Id)
           (startDate endDate : option string)
  : Outcome (list ActivityBreakdown.t) :=
  match ctx.(getAuthUserId) with
  | None => Returned []
  | Some userId =>
      match Db.get_scope db scopeId with
      | None => Returned []
      | Some scope =>
          if negb (checkProjectAccess db userId scope.(Scope.projectId))
          then Returned []
          else
            let activities := Db.activities_by_scope db scopeId in
            let entries :=
              filterRange startDate endDate (Db.entries_by_scope db scopeId) in
            let byActivity :=
              accumulate Entry.activityId ActivityAcc.zero ActivityAcc.add
                         entries in
            let breakdown :=
              map (fun activity =>
                     let data :=
                       Js.Dict.get activity.(Activity._id) byActivity
                       ?? ActivityAcc.zero in
                     let productionFactor :=
                       ratioOrZero data.(ActivityAcc.totalActualQuantity)
                                   data.(ActivityAcc.totalForecastQuantity) in
                     let variancePercent :=
                       varianceOrZero data.(ActivityAcc.totalActualQuantity)
                                      data.(ActivityAcc.totalForecastQuantity) in
                     {| ActivityBreakdown.activityId := activity.(Activity._id);
                        ActivityBreakdown.activityName := activity.(Activity.name);
                        ActivityBreakdown.unit := activity.(Activity.unit);
                        ActivityBreakdown.totalActualQuantity :=
                          data.(ActivityAcc.totalActualQuantity);
                        ActivityBreakdown.totalForecastQuantity :=
                          data.(ActivityAcc.totalForecastQuantity);
                        ActivityBreakdown.totalActualHours :=
                          data.(ActivityAcc.totalActualHours);
                        ActivityBreakdown.totalForecastHours :=
                          data.(ActivityAcc.totalForecastHours);
                        ActivityBreakdown.productionFactor :=
                          round2 productionFactor;
                        ActivityBreakdown.variancePercent :=
                          round1 variancePercent;
                        ActivityBreakdown.entriesCount :=
                          data.(ActivityAcc.entriesCount);
                        ActivityBreakdown.foremenNames :=
                          data.(ActivityAcc.foremenWorked) |})
                  activities in
            Returned
              (Js.sort (byFactorDesc ActivityBreakdown.productionFactor) breakdown)
      end
  end.

(** ** Vocabulary of the stated properties *)

(** The (activity, date) pair and the context of a call. *)
Definition callActivity (c : Call) : Id :=
  match c with
  | CallForecast _ args => args.(ForecastArgs.activityId)
  | CallActuals _ args => args.(ActualsArgs.activityId)
  | CallEntry _ args => args.(EntryArgs.activityId)
  end.

Definition callDate (c : Call) : string :=
  match c with
  | CallForecast _ args => args.(ForecastArgs.date)
  | CallActuals _ args => args.(ActualsArgs.date)
  | CallEntry _ args => args.(EntryArgs.date)
  end.

Definition callCtx (c : Call) : Ctx :=
  match c with
  | CallForecast ctx _ => ctx
  | CallActuals ctx _ => ctx
  | CallEntry ctx _ => ctx
  end.

(** An optional number that is [undefined] or zero. *)
Definition absentOrZero (x : option Q) : Prop :=
  match x with
  | None => True
  | Some q => q == 0
  end.

(** The forecast side, and the actual side, of [e'] are those of [e]. *)
Definition sameForecast (e e' : Entry.t) : Prop :=
  e'.(Entry.forecastQuantity) = e.(Entry.forecastQuantity)
  /\ e'.(Entry.forecastCrewSize) = e.(Entry.forecastCrewSize)
  /\ e'.(Entry.forecastHoursPerWorker) = e.(Entry.forecastHoursPerWorker)
  /\ e'.(Entry.forecastHours) = e.(Entry.forecastHours).

Definition sameActuals (e e' : Entry.t) : Prop :=
  e'.(Entry.actualQuantity) = e.(Entry.actualQuantity)
  /\ e'.(Entry.actualCrewSize) = e.(Entry.actualCrewSize)
  /\ e'.(Entry.actualHoursPerWorker) = e.(Entry.actualHoursPerWorker)
  /\ e'.(Entry.actualHours) = e.(Entry.actualHours).

(** A field after an update that falls back to the stored value: the
    supplied value when there is one, the old value otherwise. *)
Definition keptUnlessSupplied {A : Type} (supplied old new : option A) : Prop :=
  (supplied = None -> new = old) /\ (forall v, supplied = Some v -> new = Some v).

(** The elements of [l] filed under key [k]. *)
Definition groupOf {E : Type} (key : E -> string) (k : string) (l : list E)
  : list E :=
  filter (fun e => String.eqb (key e) k) l.

(** The sum of [f e] over the entries [l]. *)
Definition sumQ (f : Entry.t -> Q) (l : list Entry.t) : Q :=
  fold_right (fun e s => f e + s) 0 l.

(** The KPI figures stated for a set of entries: the four sums with absent
    fields counted as 0, the quantity variance and the production rate. *)
Definition kpiSpec (entries : list Entry.t)
           (totalForecastQuantity totalActualQuantity
            totalForecastHours totalActualHours
            quantityVariance productionRate : Q) : Prop :=
  totalForecastQuantity == sumQ (fun e => e.(Entry.forecastQuantity) ?? 0) entries
  /\ totalActualQuantity == sumQ (fun e => e.(Entry.actualQuantity) ?? 0) entries
  /\ totalForecastHours == sumQ (fun e => e.(Entry.forecastHours) ?? 0) entries
  /\ totalActualHours == sumQ (fun e => e.(Entry.actualHours) ?? 0) entries
  /\ quantityVariance == totalActualQuantity - totalForecastQuantity
  /\ (0 < totalActualHours ->
      productionRate == totalActualQuantity / totalActualHours)
  /\ (~ 0 < totalActualHours -> productionRate == 0).

(** An entry counts towards the weighted production factor when its
    forecast quantity and its forecast hours are both positive. *)
Definition weighted (e : Entry.t) : bool :=
  Js.gt0 (e.(Entry.forecastQuantity) ?? 0) && Js.gt0 (e.(Entry.forecastHours) ?? 0).

(** [entryPF * forecastHours] with [entryPF = actualQuantity / forecastQuantity]. *)
Definition weightedPF (e : Entry.t) : Q :=
  (e.(Entry.actualQuantity) ?? 0) / (e.(Entry.forecastQuantity) ?? 0)
  * (e.(Entry.forecastHours) ?? 0).

(** The production factor stated for one date of a trend: the
    forecast-hours-weighted average over the entries of that date that
    count, and 0 when their weights sum to 0. *)
Definition trendSpec (entries : list Entry.t) (row : TrendPoint.t) : Prop :=
  let day :=
    filter weighted
           (filter (fun e => String.eqb e.(Entry.date) row.(TrendPoint.date))
                   entries) in
  let weightSum := sumQ (fun e => e.(Entry.forecastHours) ?? 0) day in
  (weightSum == 0 -> row.(TrendPoint.productionFactor) == 0)
  /\ (~ weightSum == 0 ->
      row.(TrendPoint.productionFactor) == sumQ weightedPF day / weightSum).

(** The stored entries of a project that fall in a date range. *)
Definition projectEntriesInRange (db : DB) (projectId : Id)
           (startDate endDate : string) : list Entry.t :=
  filter (inRange startDate endDate)
         (filter (fun e => String.eqb e.(Entry.projectId) projectId)
                 db.(dailyEntries)).

(** What is stated of a ranked result: the ranks are the positions 1..N
    (so no duplicates and no gaps), the list descends in production
    factor, and a strictly larger factor has a strictly smaller rank. *)
Definition rankedSpec {A : Type} (productionFactor : A -> Q)
           (rows : list (Ranked A)) : Prop :=
  map rank rows = seq 1 (List.length rows)
  /\ NoDup (map rank rows)
  /\ StronglySorted
       (fun a b => productionFactor (item b) <= productionFactor (item a)) rows
  /\ (forall a b,
         In a rows -> In b rows ->
         productionFactor (item b) < productionFactor (item a) ->
         (rank a < rank b)%nat).

(** The unit roundoff of doubles, [2^-53]: half the gap between 1 and the
    next double. *)
Definition unitRoundoff : Q := 1 # 9007199254740992.

(** [y] is [x] up to the relative error [r]. *)
Definition near (r x y : Q) : Prop := Qabs (y - x) <= Qabs x * r.

(** [value] is [x] rounded to a multiple of [1 / scale], as far as doubles
    can tell: it is the double of [n / scale] for an integer [n] that is
    nearest to [x * scale], up to the error of the double product (a few
    unit roundoffs of [x * scale], which decide the direction only when
    [x * scale] is that close to the middle between two integers). *)
Definition roundedTo (scale x value : Q) : Prop :=
  exists n : Z,
    Qabs (inject_Z n - x * scale)
    <= (1 # 2) + Qabs (x * scale) * (8 * unitRoundoff)
    /\ near unitRoundoff (inject_Z n / scale) value.




(** The distinct keys of [l] under which a plain object holds a group:
    those that are not names inherited from [Object.prototype]. *)
Definition groupKeys {E : Type} (key : E -> string) (l : list E) : list string :=
  nodup string_dec (filter (fun k => negb (Js.inherited k)) (map key l)).

(** No own property of [obj] has a name inherited from
    [Object.prototype]. *)
Definition plainKeyed {T : Type} (obj : list (string * T)) : Prop :=
  forall k, Js.inherited k = true -> Js.Dict.get k obj = None.

(** Some element of [l] is filed under a name inherited from
    [Object.prototype]. *)
Definition inheritedKey {E : Type} (key : E -> string) (l : list E) : bool :=
  existsb (fun e => Js.inherited (key e)) l.

(** The caller may not see project [projectId]: there is no authenticated
    user, or the gate denies the authenticated user. *)
Definition refused (ctx : Ctx) (db : DB) (projectId : Id) : Prop :=
  match ctx.(getAuthUserId) with
  | None => True
  | Some userId => checkProjectAccess db userId projectId = false
  end.

(** ** Sample data *)

Module Sample.

(** A blank daily entry for activity [a] (scope s1, project p1). *)
Definition blank (id a d u : string) : Entry.t :=
  {| Entry._id := id;
     Entry.activityId := a;
     Entry.scopeId := "s1";
     Entry.projectId := "p1";
     Entry.date := d;
     Entry.userId := u;
     Entry.foremanName := None;
     Entry.forecastQuantity := None;
     Entry.forecastCrewSize := None;
     Entry.forecastHoursPerWorker := None;
     Entry.forecastHours := None;
     Entry.actualQuantity := None;
     Entry.actualCrewSize := None;
     Entry.actualHoursPerWorker := None;
     Entry.actualHours := None;
     Entry.notes := None;
     Entry.createdBy := Some u;
     Entry.createdAt := Some 0;
     Entry.updatedBy := None;
     Entry.updatedAt := None |}.

(** An entry with the given forecast quantity, actual quantity and
    forecast man-hours. *)
Definition measured (id a d u : string) (fq aq fh : Q) : Entry.t :=
  Entry.apply
    {| Entry.p_foremanName := Some (Some u);
       Entry.p_forecastQuantity := Some (Some fq);
       Entry.p_forecastCrewSize := None;
       Entry.p_forecastHoursPerWorker := None;
       Entry.p_forecastHours := Some (Some fh);
       Entry.p_actualQuantity := Some (Some aq);
       Entry.p_actualCrewSize := None;
       Entry.p_actualHoursPerWorker := None;
       Entry.p_actualHours := None;
       Entry.p_notes := None;
       Entry.p_updatedBy := None;
       Entry.p_updatedAt := None |}
    (blank id a d u).

(** One project with one scope and two activities; a Control Center user,
    a Construction Manager assigned to the project, one that is not, and
    (implicitly) users without a profile. *)
Definition db0 : DB :=
  {| userProfiles :=
       [ Profile.mk "u_cc" "Casey" control_center;
         Profile.mk "u_cm" "Morgan" construction_manager;
         Profile.mk "u_out" "Riley" construction_manager ];
     projectAssignments := [ ProjectAssignment.mk "u_cm" "p1" ];
     scopeAssignments := [];
     projects := [ Project.mk "p1" "Plant" active ];
     scopes := [ Scope.mk "s1" "p1" "Electrical" ];
     activities :=
       [ Activity.mk "a1" "s1" "p1" "Conduit" "ft";
         Activity.mk "a2" "s1" "p1" "Cable tray" "ft" ];
     dailyEntries := [] |}.

(** Two entries on one date: (forecast 100, actual 110, forecast hours 50)
    and (forecast 200, actual 180, forecast hours 100). *)
Definition dbTrend : DB :=
  Db.set_entries db0
    [ measured "e1" "a1" "2024-06-01" "u_cm" 100 110 50;
      measured "e2" "a2" "2024-06-01" "u_cm" 200 180 100 ].

(** Three foremen with production factors 1.1, 0.9 and 1.1. *)
Definition dbBoard : DB :=
  Db.set_entries db0
    [ measured "e1" "a1" "2024-06-01" "Ann" 100 110 50;
      measured "e2" "a2" "2024-06-01" "Bob" 200 180 100;
      measured "e3" "a1" "2024-06-02" "Cy" 10 11 8 ].


(** A stored entry with a forecast (100 units, 5 workers, 8 hours each)
    and a note. *)
Definition stored : Entry.t :=
  Entry.apply
    {| Entry.p_foremanName := Some (Some "Morgan");
       Entry.p_forecastQuantity := Some (Some 100);
       Entry.p_forecastCrewSize := Some (Some 5);
       Entry.p_forecastHoursPerWorker := Some (Some 8);
       Entry.p_forecastHours := Some (Some 40);
       Entry.p_actualQuantity := None;
       Entry.p_actualCrewSize := None;
       Entry.p_actualHoursPerWorker := None;
       Entry.p_actualHours := None;
       Entry.p_notes := Some (Some "north wing");
       Entry.p_updatedBy := None;
       Entry.p_updatedAt := None |}
    (blank "e1" "a1" "2024-06-01" "u_cm").

Definition dbStored : DB := Db.set_entries db0 [ stored ].

Definition ctxOf (u : Id) : Ctx :=
  {| getAuthUserId := Some u; Date_now := 1000; freshId := "e_new" |}.

Definition anonymous : Ctx :=
  {| getAuthUserId := None; Date_now := 1000; freshId := "e_new" |}.

Definition forecastA1 : ForecastArgs.t :=
  ForecastArgs.mk "a1" "2024-06-01" 100 5 8 None.

Definition actualsA1 : ActualsArgs.t :=
  ActualsArgs.mk "a1" "2024-06-01" 90 5 8 None.

(** [submitEntry] supplying the actual quantity only. *)
Definition actualOnlyA1 : EntryArgs.t :=
  EntryArgs.mk "a1" "2024-06-01" None None None (Some 90) None None None.

(** A forecast, then actuals, then a combined entry for one pair. *)
Definition calls : list Call :=
  [ CallForecast (ctxOf "u_cm") forecastA1;
    CallActuals (ctxOf "u_new") actualsA1;
    CallEntry (ctxOf "u_cc") actualOnlyA1 ].

(** Code-unit comparison, which is what [localeCompare] yields on ISO
    dates. *)
Definition compareDates (a b : string) : Z :=
  match String.compare a b with
  | Lt => (-1)%Z
  | Eq => 0%Z
  | Gt => 1%Z
  end.

End Sample.

(** * The remaining handlers *)

(** ** More of the store *)

Module Store.

(** [db.get(id)] on projects. *)
Definition get_project (db : DB) (id : Id) : option Project.t :=
  find (fun p => String.eqb p.(Project._id) id) db.(projects).

(** [.withIndex("by_project", q => q.eq("projectId", p)).collect()] on
    activities. *)
Definition activities_by_project (db : DB) (projectId : Id) : list Activity.t :=
  filter (fun a => String.eqb a.(Activity.projectId) projectId) db.(activities).

(** [.withIndex("by_project_and_date", q => q.eq("projectId", p).eq("date", d)).collect()]:
    both index fields are fixed, the documents come in creation order. *)
Definition entries_by_project_and_date (db : DB) (projectId : Id) (date : string)
  : list Entry.t :=
  filter (fun e => String.eqb e.(Entry.projectId) projectId
                   && String.eqb e.(Entry.date) date)
         db.(dailyEntries).

(** [.withIndex("by_user_and_date", q => q.eq("userId", u)).collect()] *)
Definition entries_by_user (db : DB) (userId : Id) : list Entry.t :=
  Db.by_date (filter (fun e => String.eqb e.(Entry.userId) userId)
                     db.(dailyEntries)).

(** [.withIndex("by_userId", q => q.eq("userId", u)).collect()] on
    projectAssignments. *)
Definition assignments_by_userId (db : DB) (userId : Id)
  : list ProjectAssignment.t :=
  filter (fun a => String.eqb a.(ProjectAssignment.userId) userId)
         db.(projectAssignments).

(** [db.delete(id)] on dailyEntries. *)
Definition delete_entry (db : DB) (id : Id) : DB :=
  Db.set_entries db
    (filter (fun e => negb (String.eqb e.(Entry._id) id)) db.(dailyEntries)).

(** [for (const entry of entries) await db.delete(entry._id)] *)
Definition delete_entries (db : DB) (entries : list Entry.t) : DB :=
  fold_left (fun d entry => delete_entry d entry.(Entry._id)) entries db.

(** [db.delete(id)] on activities. *)
Definition delete_activity (db : DB) (id : Id) : DB :=
  {| userProfiles := db.(userProfiles);
     projectAssignments := db.(projectAssignments);
     scopeAssignments := db.(scopeAssignments);
     projects := db.(projects);
     scopes := db.(scopes);
     activities :=
       filter (fun a => negb (String.eqb a.(Activity._id) id)) db.(activities);
     dailyEntries := db.(dailyEntries) |}.

(** [db.delete(id)] on scopes. *)
Definition delete_scope (db : DB) (id : Id) : DB :=
  {| userProfiles := db.(userProfiles);
     projectAssignments := db.(projectAssignments);
     scopeAssignments := db.(scopeAssignments);
     projects := db.(projects);
     scopes := filter (fun s => negb (String.eqb s.(Scope._id) id)) db.(scopes);
     activities := db.(activities);
     dailyEntries := db.(dailyEntries) |}.

End Store.

(** ** Reading and deleting daily entries (convex/dailyEntries.ts) *)

(** [{ ...entry, activityName, activityUnit, scopeName }] *)
Record NamedEntry := mkNamedEntry {
  named_entry : Entry.t;
  activityName : string;
  activityUnit : string;
  scopeName : string
}.

(** [{ ...entry, activityName, activityUnit, scopeName, userName }] *)
Record NamedUserEntry := mkNamedUserEntry {
  named : NamedEntry;
  userName : string
}.

(** The names an entry is enriched with:
    [activity?.name ?? "Unknown"], [activity?.unit ?? "units"],
    [scope?.name ?? "Unknown"]. *)
Definition nameEntry (db : DB) (entry : Entry.t) : NamedEntry :=
  let activity := Db.get_activity db entry.(Entry.activityId) in
  let scope := Db.get_scope db entry.(Entry.scopeId) in
  {| named_entry := entry;
     activityName := option_map Activity.name activity ?? "Unknown";
     activityUnit := option_map Activity.unit activity ?? "units";
     scopeName := option_map Scope.name scope ?? "Unknown" |}.

Module DailyEntries.

Definition getByActivityAndDate (ctx : Ctx) (db : DB) (activityId : Id)
           (date : string) : Outcome (option Entry.t) :=
  match ctx.(getAuthUserId) with
  | None => Returned None
  | Some userId =>
      match Db.get_activity db activityId with
      | None => Returned None
      | Some activity =>
          if negb (checkProjectAccess db userId activity.(Activity.projectId))
          then Returned None
          else Returned (Db.entry_by_activity_and_date db activityId date)
      end
  end.

Definition listByProjectAndDate (ctx : Ctx) (db : DB) (projectId : Id)
           (date : string) : Outcome (list NamedUserEntry) :=
  match ctx.(getAuthUserId) with
  | None => Returned []
  | Some userId =>
      if negb (checkProjectAccess db userId projectId) then Returned []
      else
        let entries := Store.entries_by_project_and_date db projectId date in
        Returned
          (map (fun entry =>
                  let userProfile :=
                    Db.profile_by_userId db entry.(Entry.userId) in
                  {| named := nameEntry db entry;
                     userName := option_map Profile.name userProfile ?? "Unknown" |})
               entries)
  end.

Definition listByProjectAndDateRange (ctx : Ctx) (db : DB) (projectId : Id)
           (startDate endDate : string) : Outcome (list NamedEntry) :=
  match ctx.(getAuthUserId) with
  | None => Returned []
  | Some userId =>
      if negb (checkProjectAccess db userId projectId) then Returned []
      else
        let allEntries := Db.entries_by_project db projectId in
        let filteredEntries := filter (inRange startDate endDate) allEntries in
        Returned (map (nameEntry db) filteredEntries)
  end.

(** [remove]: delete one entry. *)
Definition remove (ctx : Ctx) (db : DB) (entryId : Id) : Outcome DB :=
  userId <- require ctx.(getAuthUserId) "Not authenticated" ;;
  entry <- require (Db.get_entry db entryId) "Entry not found" ;;
  _ <- guard (checkProjectAccess db userId entry.(Entry.projectId))
             "Access denied" ;;
  Returned (Store.delete_entry db entryId).

End DailyEntries.

(** ** Activities (convex/activities.ts) *)

(** [{ ...activity, scopeName }] *)
Record ActivityWithScope := mkActivityWithScope {
  activity_doc : Activity.t;
  activity_scopeName : string
}.

Module Activities.

Definition withScope (db : DB) (activity : Activity.t) : ActivityWithScope :=
  {| activity_doc := activity;
     activity_scopeName :=
       option_map Scope.name (Db.get_scope db activity.(Activity.scopeId))
       ?? "Unknown" |}.

Definition listByScope (ctx : Ctx) (db : DB) (scopeId : Id)
  : Outcome (list Activity.t) :=
  match ctx.(getAuthUserId) with
  | None => Returned []
  | Some userId =>
      match Db.get_scope db scopeId with
      | None => Returned []
      | Some scope =>
          if negb (checkProjectAccess db userId scope.(Scope.projectId))
          then Returned []
          else Returned (Db.activities_by_scope db scopeId)
      end
  end.

Definition listByProject (ctx : Ctx) (db : DB) (projectId : Id)
  : Outcome (list ActivityWithScope) :=
  match ctx.(getAuthUserId) with
  | None => Returned []
  | Some userId =>
      if negb (checkProjectAccess db userId projectId) then Returned []
      else Returned (map (withScope db) (Store.activities_by_project db projectId))
  end.

Definition getById (ctx : Ctx) (db : DB) (activityId : Id)
  : Outcome (option ActivityWithScope) :=
  match ctx.(getAuthUserId) with
  | None => Returned None
  | Some userId =>
      match Db.get_activity db activityId with
      | None => Returned None
      | Some activity =>
          if negb (checkProjectAccess db userId activity.(Activity.projectId))
          then Returned None
          else Returned (Some (withScope db activity))
      end
  end.

(** The cascade of [remove]: the entries of the activity, then the
    activity. *)
Definition deleteWithEntries (db : DB) (activityId : Id) : DB :=
  let entries := Db.entries_by_activity db activityId in
  Store.delete_activity (Store.delete_entries db entries) activityId.

Definition remove (ctx : Ctx) (db : DB) (activityId : Id) : Outcome DB :=
  userId <- require ctx.(getAuthUserId) "Not authenticated" ;;
  activity <- require (Db.get_activity db activityId) "Activity not found" ;;
  _ <- guard (checkProjectAccess db userId activity.(Activity.projectId))
             "Access denied" ;;
  Returned (deleteWithEntries db activityId).

End Activities.

(** ** Scopes (convex/scopes.ts) *)

Module Scopes.

Definition listByProject (ctx : Ctx) (db : DB) (projectId : Id)
  : Outcome (list Scope.t) :=
  match ctx.(getAuthUserId) with
  | None => Returned []
  | Some userId =>
      if negb (checkProjectAccess db userId projectId) then Returned []
      else Returned (Db.scopes_by_project db projectId)
  end.

Definition getById (ctx : Ctx) (db : DB) (scopeId : Id)
  : Outcome (option Scope.t) :=
  match ctx.(getAuthUserId) with
  | None => Returned None
  | Some userId =>
      match Db.get_scope db scopeId with
      | None => Returned None
      | Some scope =>
          if negb (checkProjectAccess db userId scope.(Scope.projectId))
          then Returned None
          else Returned (Some scope)
      end
  end.

(** [remove]: the activities of the scope, each with its entries, then the
    scope.  The activities are collected before the loop. *)
Definition remove (ctx : Ctx) (db : DB) (scopeId : Id) : Outcome DB :=
  userId <- require ctx.(getAuthUserId) "Not authenticated" ;;
  scope <- require (Db.get_scope db scopeId) "Scope not found" ;;
  _ <- guard (checkProjectAccess db userId scope.(Scope.projectId))
             "Access denied" ;;
  let activities := Db.activities_by_scope db scopeId in
  Returned
    (Store.delete_scope
       (fold_left
          (fun d activity =>
             Activities.deleteWithEntries d activity.(Activity._id))
          activities db)
       scopeId).

End Scopes.

(** ** More of the aggregator (convex/dashboard.ts) *)

(** [arr.slice(0, end)]: [end] is truncated towards zero; a negative [end]
    counts from the end of the array. *)
Definition slice0 {A : Type} (l : list A) (endIndex : Q) : list A :=
  let k := if Qle_bool 0 endIndex then Qfloor endIndex else Qceiling endIndex in
  if (k <? 0)%Z then firstn (Z.to_nat (Z.of_nat (List.length l) + k)) l
  else firstn (Z.to_nat k) l.

(** What the accumulation loop computes when the initial value of a key is
    built from the element that introduces it and no key is a name
    inherited from [Object.prototype]:
    [if (!obj[key e]) obj[key e] = init e; obj[key e] += e] *)
Definition accumulateFrom {E T : Type} (key : E -> string) (init : E -> T)
           (step : T -> E -> T) (l : list E) : Js.Dict.t T :=
  fold_left
    (fun obj e =>
       Js.Dict.update (key e) (fun v => step v e)
                      (Js.Dict.ensure (key e) (init e) obj))
    l [].

(** The three running totals of [getProjectsSummary]. *)
Module SummaryAcc.
Record t := mk {
  totalForecast : Q;
  totalActual : Q;
  totalHours : Q
}.

Definition zero : t := mk 0 0 0.

Definition add (acc : t) (entry : Entry.t) : t :=
  {| totalForecast := acc.(totalForecast) + entry.(Entry.forecastQuantity) ?? 0;
     totalActual := acc.(totalActual) + entry.(Entry.actualQuantity) ?? 0;
     totalHours := acc.(totalHours) + entry.(Entry.actualHours) ?? 0 |}.
End SummaryAcc.

Module ProjectSummary.
Record t := mk {
  projectId : Id;
  name : string;
  status : ProjectStatus;
  scopeCount : nat;
  totalForecast : Q;
  totalActual : Q;
  totalHours : Q;
  efficiency : Q;
  entriesCount : nat
}.
End ProjectSummary.

(** [forecast > 0 ? (actual / forecast) * 100 : 0] *)
Definition efficiencyOrZero (actual forecast : Q) : Q :=
  if Js.gt0 forecast then actual / forecast * 100 else 0.

Definition getProjectsSummary (ctx : Ctx) (db : DB)
  : Outcome (list ProjectSummary.t) :=
  match ctx.(getAuthUserId) with
  | None => Returned []
  | Some userId =>
      if negb (isControlCenter db userId) then Returned []
      else
        Returned
          (map (fun project =>
                  let entries :=
                    Db.entries_by_project db project.(Project._id) in
                  let scopes :=
                    Db.scopes_by_project db project.(Project._id) in
                  let acc := fold_left SummaryAcc.add entries SummaryAcc.zero in
                  let totalForecast := acc.(SummaryAcc.totalForecast) in
                  let totalActual := acc.(SummaryAcc.totalActual) in
                  let totalHours := acc.(SummaryAcc.totalHours) in
                  let efficiency := efficiencyOrZero totalActual totalForecast in
                  {| ProjectSummary.projectId := project.(Project._id);
                     ProjectSummary.name := project.(Project.name);
                     ProjectSummary.status := project.(Project.status);
                     ProjectSummary.scopeCount := List.length scopes;
                     ProjectSummary.totalForecast := totalForecast;
                     ProjectSummary.totalActual := totalActual;
                     ProjectSummary.totalHours := totalHours;
                     ProjectSummary.efficiency := efficiency;
                     ProjectSummary.entriesCount := List.length entries |})
               db.(projects))
  end.

(** The two running totals of [getAllScopesBreakdown]. *)
Module PairAcc.
Record t := mk {
  totalForecast : Q;
  totalActual : Q
}.

Definition zero : t := mk 0 0.

Definition add (acc : t) (entry : Entry.t) : t :=
  {| totalForecast := acc.(totalForecast) + entry.(Entry.forecastQuantity) ?? 0;
     totalActual := acc.(totalActual) + entry.(Entry.actualQuantity) ?? 0 |}.
End PairAcc.

Module ScopeTotals.
Record t := mk {
  scopeId : Id;
  scopeName : string;
  projectId : Id;
  projectName : string;
  totalForecast : Q;
  totalActual : Q;
  variance : Q
}.
End ScopeTotals.

Definition getAllScopesBreakdown (ctx : Ctx) (db : DB)
  : Outcome (list ScopeTotals.t) :=
  match ctx.(getAuthUserId) with
  | None => Returned []
  | Some userId =>
      if negb (isControlCenter db userId) then Returned []
      else
        Returned
          (map (fun scope =>
                  let project := Store.get_project db scope.(Scope.projectId) in
                  let entries := Db.entries_by_scope db scope.(Scope._id) in
                  let acc := fold_left PairAcc.add entries PairAcc.zero in
                  let totalForecast := acc.(PairAcc.totalForecast) in
                  let totalActual := acc.(PairAcc.totalActual) in
                  {| ScopeTotals.scopeId := scope.(Scope._id);
                     ScopeTotals.scopeName := scope.(Scope.name);
                     ScopeTotals.projectId := scope.(Scope.projectId);
                     ScopeTotals.projectName :=
                       option_map Project.name project ?? "Unknown"%string;
                     ScopeTotals.totalForecast := totalForecast;
                     ScopeTotals.totalActual := totalActual;
                     ScopeTotals.variance := totalActual - totalForecast |})
               db.(scopes))
  end.

Module ScopeKPIRow.
Record t := mk {
  scopeId : Id;
  scopeName : string;
  totalForecastQuantity : Q;
  totalActualQuantity : Q;
  totalForecastHours : Q;
  totalActualHours : Q;
  quantityVariance : Q;
  productionRate : Q;
  entriesCount : nat
}.
End ScopeKPIRow.

Definition getAllScopeKPIs (ctx : Ctx) (db : DB) (projectId : Id)
  : Outcome (list ScopeKPIRow.t) :=
  match ctx.(getAuthUserId) with
  | None => Returned []
  | Some userId =>
      if negb (checkProjectAccess db userId projectId) then Returned []
      else
        let scopes := Db.scopes_by_project db projectId in
        Returned
          (map (fun scope =>
                  let entries := Db.entries_by_scope db scope.(Scope._id) in
                  let tot := Totals.of_entries entries in
                  let totalForecastQuantity :=
                    tot.(Totals.totalForecastQuantity) in
                  let totalActualQuantity := tot.(Totals.totalActualQuantity) in
                  let totalForecastHours := tot.(Totals.totalForecastHours) in
                  let totalActualHours := tot.(Totals.totalActualHours) in
                  let productionRate :=
                    ratioOrZero totalActualQuantity totalActualHours in
                  {| ScopeKPIRow.scopeId := scope.(Scope._id);
                     ScopeKPIRow.scopeName := scope.(Scope.name);
                     ScopeKPIRow.totalForecastQuantity := totalForecastQuantity;
                     ScopeKPIRow.totalActualQuantity := totalActualQuantity;
                     ScopeKPIRow.totalForecastHours := totalForecastHours;
                     ScopeKPIRow.totalActualHours := totalActualHours;
                     ScopeKPIRow.quantityVariance :=
                       totalActualQuantity - totalForecastQuantity;
                     ScopeKPIRow.productionRate := productionRate;
                     ScopeKPIRow.entriesCount := List.length entries |})
               scopes)
  end.

Module WorkLog.
Record t := mk {
  _id : Id;
  date : string;
  projectName : string;
  projectId : Id;
  scopeName : string;
  activityName : string;
  activityUnit : string;
  forecastQuantity : option Q;
  forecastHours : option Q;
  actualQuantity : option Q;
  actualHours : option Q;
  foremanName : option string;
  createdByName : string;
  createdAt : option Q;
  notes : option string
}.
End WorkLog.

(** One day of [getWorkLogsByDate] while it is accumulated, an entry of a
    day as it is returned, and a day as it is returned. *)
Module DayAcc.
Record t := mk {
  date : string;
  entries : list Entry.t;
  totalForecast : Q;
  totalActual : Q;
  totalForecastHours : Q;
  totalActualHours : Q
}.

Definition init (entry : Entry.t) : t := mk entry.(Entry.date) [] 0 0 0 0.

Definition add (acc : t) (entry : Entry.t) : t :=
  {| date := acc.(date);
     entries := acc.(entries) ++ [entry];
     totalForecast := acc.(totalForecast) + entry.(Entry.forecastQuantity) ?? 0;
     totalActual := acc.(totalActual) + entry.(Entry.actualQuantity) ?? 0;
     totalForecastHours :=
       acc.(totalForecastHours) + entry.(Entry.forecastHours) ?? 0;
     totalActualHours :=
       acc.(totalActualHours) + entry.(Entry.actualHours) ?? 0 |}.
End DayAcc.

Module LogEntry.
Record t := mk {
  _id : Id;
  projectName : string;
  scopeName : string;
  activityName : string;
  activityUnit : string;
  forecastQuantity : option Q;
  actualQuantity : option Q;
  forecastHours : option Q;
  actualHours : option Q;
  foremanName : option string
}.
End LogEntry.

Module DayLog.
Record t := mk {
  date : string;
  totalForecast : Q;
  totalActual : Q;
  totalForecastHours : Q;
  totalActualHours : Q;
  entryCount : nat;
  entries : list LogEntry.t
}.
End DayLog.

Definition logEntry (db : DB) (entry : Entry.t) : LogEntry.t :=
  let activity := Db.get_activity db entry.(Entry.activityId) in
  let scope := Db.get_scope db entry.(Entry.scopeId) in
  let project := Store.get_project db entry.(Entry.projectId) in
  {| LogEntry._id := entry.(Entry._id);
     LogEntry.projectName := option_map Project.name project ?? "Unknown"%string;
     LogEntry.scopeName := option_map Scope.name scope ?? "Unknown"%string;
     LogEntry.activityName := option_map Activity.name activity ?? "Unknown"%string;
     LogEntry.activityUnit := option_map Activity.unit activity ?? "units"%string;
     LogEntry.forecastQuantity := entry.(Entry.forecastQuantity);
     LogEntry.actualQuantity := entry.(Entry.actualQuantity);
     LogEntry.forecastHours := entry.(Entry.forecastHours);
     LogEntry.actualHours := entry.(Entry.actualHours);
     LogEntry.foremanName := entry.(Entry.foremanName) |}.

Definition dayLog (db : DB) (day : DayAcc.t) : DayLog.t :=
  {| DayLog.date := day.(DayAcc.date);
     DayLog.totalForecast := day.(DayAcc.totalForecast);
     DayLog.totalActual := day.(DayAcc.totalActual);
     DayLog.totalForecastHours := day.(DayAcc.totalForecastHours);
     DayLog.totalActualHours := day.(DayAcc.totalActualHours);
     DayLog.entryCount := List.length day.(DayAcc.entries);
     DayLog.entries := map (logEntry db) day.(DayAcc.entries) |}.

(** The entries a caller of [getWorkLogsByDate] may see: all of them for
    Control Center, otherwise those of the projects assigned to the caller. *)
Definition visibleEntries (db : DB) (userId : Id) : list Entry.t :=
  if isControlCenter db userId then db.(dailyEntries)
  else
    let assignments := Store.assignments_by_userId db userId in
    let projectIds := map ProjectAssignment.projectId assignments in
    filter (fun e => existsb (String.eqb e.(Entry.projectId)) projectIds)
           db.(dailyEntries).

Section MoreCollation.

Variable localeCompare : string -> string -> Z.

(** The comparator of [getRecentWorkLogs], read as "[a] may stay before
    [b]": later dates first, then later creation first. *)
Definition recentFirst (a b : Entry.t) : bool :=
  let dateCompare := localeCompare b.(Entry.date) a.(Entry.date) in
  if negb (dateCompare =? 0)%Z then (dateCompare <=? 0)%Z
  else Qle_bool (b.(Entry.createdAt) ?? 0 - a.(Entry.createdAt) ?? 0) 0.

Definition workLog (db : DB) (entry : Entry.t) : WorkLog.t :=
  let activity := Db.get_activity db entry.(Entry.activityId) in
  let scope := Db.get_scope db entry.(Entry.scopeId) in
  let project := Store.get_project db entry.(Entry.projectId) in
  let userProfile :=
    match entry.(Entry.createdBy) with
    | Some createdBy =>
        if Js.truthy_str entry.(Entry.createdBy)
        then Db.profile_by_userId db createdBy
        else None
    | None => None
    end in
  {| WorkLog._id := entry.(Entry._id);
     WorkLog.date := entry.(Entry.date);
     WorkLog.projectName := option_map Project.name project ?? "Unknown"%string;
     WorkLog.projectId := entry.(Entry.projectId);
     WorkLog.scopeName := option_map Scope.name scope ?? "Unknown"%string;
     WorkLog.activityName := option_map Activity.name activity ?? "Unknown"%string;
     WorkLog.activityUnit := option_map Activity.unit activity ?? "units"%string;
     WorkLog.forecastQuantity := entry.(Entry.forecastQuantity);
     WorkLog.forecastHours := entry.(Entry.forecastHours);
     WorkLog.actualQuantity := entry.(Entry.actualQuantity);
     WorkLog.actualHours := entry.(Entry.actualHours);
     WorkLog.foremanName := entry.(Entry.foremanName);
     WorkLog.createdByName :=
       Js.nullish_opt (option_map Profile.name userProfile)
                      entry.(Entry.foremanName) ?? "Unknown"%string;
     WorkLog.createdAt := entry.(Entry.createdAt);
     WorkLog.notes := entry.(Entry.notes) |}.

Definition getRecentWorkLogs (ctx : Ctx) (db : DB) (limit : option Q)
  : Outcome (list WorkLog.t) :=
  match ctx.(getAuthUserId) with
  | None => Returned []
  | Some userId =>
      if negb (isControlCenter db userId) then Returned []
      else
        let limit := limit ?? 50 in
        let allEntries := db.(dailyEntries) in
        let sortedEntries := slice0 (Js.sort recentFirst allEntries) limit in
        Returned (map (workLog db) sortedEntries)
  end.

Definition getWorkLogsByDate (ctx : Ctx) (db : DB) (startDate endDate : string)
  : Outcome (list DayLog.t) :=
  match ctx.(getAuthUserId) with
  | None => Returned []
  | Some userId =>
      let allEntries := visibleEntries db userId in
      let filteredEntries := filter (inRange startDate endDate) allEntries in
      byDate <-
        accumulateStrict Entry.date DayAcc.init DayAcc.add filteredEntries ;;
      let enrichedDays := map (dayLog db) (Js.Obj.values byDate) in
      Returned
        (Js.sort
           (fun a b =>
              (localeCompare b.(DayLog.date) a.(DayLog.date) <=? 0)%Z)
           enrichedDays)
  end.

End MoreCollation.

(** ** More of the ranker (convex/leaderboard.ts) *)

Module UserStats.
Record t := mk {
  userId : Id;
  userName : string;
  role : Role;
  totalActualQuantity : Q;
  totalActualHours : Q;
  totalForecastQuantity : Q;
  totalForecastHours : Q;
  productionRate : Q;
  variance : Q;
  entriesCount : nat
}.
End UserStats.

Definition getUserStats (ctx : Ctx) (db : DB) (projectId targetUserId : Id)
           (startDate endDate : option string) : Outcome (option UserStats.t) :=
  match ctx.(getAuthUserId) with
  | None => Returned None
  | Some userId =>
      if negb (checkProjectAccess db userId projectId) then Returned None
      else
        let entries := Store.entries_by_user db targetUserId in
        let entries :=
          filter (fun e => String.eqb e.(Entry.projectId) projectId) entries in
        let entries := filterRange startDate endDate entries in
        let tot := Totals.of_entries entries in
        let totalActualQuantity := tot.(Totals.totalActualQuantity) in
        let totalActualHours := tot.(Totals.totalActualHours) in
        let totalForecastQuantity := tot.(Totals.totalForecastQuantity) in
        let totalForecastHours := tot.(Totals.totalForecastHours) in
        let profile := Db.profile_by_userId db targetUserId in
        let productionRate := ratioOrZero totalActualQuantity totalActualHours in
        Returned (Some
          {| UserStats.userId := targetUserId;
             UserStats.userName := option_map Profile.name profile ?? "Unknown"%string;
             UserStats.role :=
               option_map Profile.role profile ?? construction_manager;
             UserStats.totalActualQuantity := totalActualQuantity;
             UserStats.totalActualHours := totalActualHours;
             UserStats.totalForecastQuantity := totalForecastQuantity;
             UserStats.totalForecastHours := totalForecastHours;
             UserStats.productionRate := productionRate;
             UserStats.variance := totalActualQuantity - totalForecastQuantity;
             UserStats.entriesCount := List.length entries |})
  end.

(** ** Projects and their assignments (convex/projects.ts) *)

(** A projectAssignments document with its identifier.  The gate reads the
    table through [ProjectAssignment.t], which leaves the identifier out. *)
Module AssignmentDoc.
Record t := mk {
  _id : Id;
  userId : Id;
  projectId : Id
}.

Definition forget (doc : t) : ProjectAssignment.t :=
  ProjectAssignment.mk doc.(userId) doc.(projectId).
End AssignmentDoc.

(** The database whose projectAssignments table holds the documents
    [docs]. *)
Definition withAssignments (db : DB) (docs : list AssignmentDoc.t) : DB :=
  {| userProfiles := db.(userProfiles);
     projectAssignments := map AssignmentDoc.forget docs;
     scopeAssignments := db.(scopeAssignments);
     projects := db.(projects);
     scopes := db.(scopes);
     activities := db.(activities);
     dailyEntries := db.(dailyEntries) |}.

Module Projects.

Record access := mkAccess {
  canAccess : bool;
  isControlCenter : bool
}.

(** [canAccessProject(ctx, userId, projectId?)] *)
Definition canAccessProject (db : DB) (userId : Id) (projectId : option Id)
  : access :=
  match Db.profile_by_userId db userId with
  | None => mkAccess true false
  | Some profile =>
      if Role_eqb profile.(Profile.role) control_center then mkAccess true true
      else
        match projectId with
        | Some p =>
            if Js.truthy_str projectId then
              match Db.assignment_by_userId_and_projectId db userId p with
              | Some _ => mkAccess true false
              | None => mkAccess false false
              end
            else mkAccess true false
        | None => mkAccess true false
        end
  end.

Definition getById (ctx : Ctx) (db : DB) (projectId : Id)
  : Outcome (option Project.t) :=
  match ctx.(getAuthUserId) with
  | None => Returned None
  | Some userId =>
      if negb (canAccessProject db userId (Some projectId)).(canAccess)
      then Returned None
      else Returned (Store.get_project db projectId)
  end.

(** [.withIndex("by_userId_and_projectId", ...).first()] on the documents. *)
Definition findAssignment (docs : list AssignmentDoc.t) (userId projectId : Id)
  : option AssignmentDoc.t :=
  find (fun a => String.eqb a.(AssignmentDoc.userId) userId
                 && String.eqb a.(AssignmentDoc.projectId) projectId)
       docs.

Definition assignUser (ctx : Ctx) (db : DB) (docs : list AssignmentDoc.t)
           (projectId userId : Id) : Outcome (Id * list AssignmentDoc.t) :=
  currentUserId <- require ctx.(getAuthUserId) "Not authenticated" ;;
  _ <- guard (canAccessProject (withAssignments db docs) currentUserId None)
               .(isControlCenter)
             "Only Control Center can assign users to projects" ;;
  match findAssignment docs userId projectId with
  | Some existing => Returned (existing.(AssignmentDoc._id), docs)
  | None =>
      Returned
        (ctx.(freshId),
         docs ++ [AssignmentDoc.mk ctx.(freshId) userId projectId])
  end.

Definition unassignUser (ctx : Ctx) (db : DB) (docs : list AssignmentDoc.t)
           (projectId userId : Id) : Outcome (list AssignmentDoc.t) :=
  currentUserId <- require ctx.(getAuthUserId) "Not authenticated" ;;
  _ <- guard (canAccessProject (withAssignments db docs) currentUserId None)
               .(isControlCenter)
             "Only Control Center can unassign users from projects" ;;
  match findAssignment docs userId projectId with
  | Some assignment =>
      Returned
        (filter (fun a => negb (String.eqb a.(AssignmentDoc._id)
                                           assignment.(AssignmentDoc._id)))
                docs)
  | None => Returned docs
  end.

(** [list]: the projects shown to the caller. *)
Definition list (ctx : Ctx) (db : DB) : Outcome (list Project.t) :=
  match ctx.(getAuthUserId) with
  | None => Returned []
  | Some userId =>
      match Db.profile_by_userId db userId with
      | None => Returned db.(projects)
      | Some profile =>
          if Role_eqb profile.(Profile.role) control_center
          then Returned db.(projects)
          else
            let assignments := Store.assignments_by_userId db userId in
            Returned
              (flat_map
                 (fun a =>
                    match Store.get_project db a.(ProjectAssignment.projectId) with
                    | Some project => [project]
                    | None => []
                    end)
                 assignments)
      end
  end.

End Projects.

(** ** Assigning construction managers to scopes
    (convex/scopeAssignments.ts) *)

Module ScopeAssignments.

(** [.withIndex("by_userId_and_scopeId", q => q.eq("userId", u).eq("scopeId", s)).first()] *)
Definition byUserAndScope (userId scopeId : Id) (a : ScopeAssignment.t) : bool :=
  String.eqb a.(ScopeAssignment.userId) userId
  && String.eqb a.(ScopeAssignment.scopeId) scopeId.

Definition findAssignment (db : DB) (userId scopeId : Id)
  : option ScopeAssignment.t :=
  find (byUserAndScope userId scopeId) db.(scopeAssignments).

(** [db.insert("projectAssignments", doc)] and
    [db.insert("scopeAssignments", doc)]. *)
Definition insert_projectAssignment (db : DB) (doc : ProjectAssignment.t) : DB :=
  {| userProfiles := db.(userProfiles);
     projectAssignments := db.(projectAssignments) ++ [doc];
     scopeAssignments := db.(scopeAssignments);
     projects := db.(projects);
     scopes := db.(scopes);
     activities := db.(activities);
     dailyEntries := db.(dailyEntries) |}.

Definition insert_scopeAssignment (db : DB) (doc : ScopeAssignment.t) : DB :=
  {| userProfiles := db.(userProfiles);
     projectAssignments := db.(projectAssignments);
     scopeAssignments := db.(scopeAssignments) ++ [doc];
     projects := db.(projects);
     scopes := db.(scopes);
     activities := db.(activities);
     dailyEntries := db.(dailyEntries) |}.

(** The list without its first element that satisfies [p]. *)
Fixpoint without_first {A : Type} (p : A -> bool) (l : list A) : list A :=
  match l with
  | [] => []
  | x :: l' => if p x then l' else x :: without_first p l'
  end.

(** [db.delete(assignment._id)] for the document that
    [findAssignment] returned: the first one of the pair. *)
Definition delete_found (db : DB) (userId scopeId : Id) : DB :=
  {| userProfiles := db.(userProfiles);
     projectAssignments := db.(projectAssignments);
     scopeAssignments :=
       without_first (byUserAndScope userId scopeId) db.(scopeAssignments);
     projects := db.(projects);
     scopes := db.(scopes);
     activities := db.(activities);
     dailyEntries := db.(dailyEntries) |}.

(** [assign].  The handler returns the id of the assignment; the
    assignment tables of this model carry no ids, so the database after
    the call stands for the result. *)
Definition assign (ctx : Ctx) (db : DB) (userId scopeId : Id) : Outcome DB :=
  currentUserId <- require ctx.(getAuthUserId) "Not authenticated" ;;
  _ <- guard (isControlCenter db currentUserId)
             "Only Control Center can assign users to scopes" ;;
  scope <- require (Db.get_scope db scopeId) "Scope not found" ;;
  match findAssignment db userId scopeId with
  | Some existing => Returned db
  | None =>
      let db1 :=
        match Db.assignment_by_userId_and_projectId
                db userId scope.(Scope.projectId) with
        | Some _ => db
        | None =>
            insert_projectAssignment
              db (ProjectAssignment.mk userId scope.(Scope.projectId))
        end in
      Returned
        (insert_scopeAssignment
           db1 (ScopeAssignment.mk userId scopeId scope.(Scope.projectId)))
  end.

Definition unassign (ctx : Ctx) (db : DB) (userId scopeId : Id) : Outcome DB :=
  currentUserId <- require ctx.(getAuthUserId) "Not authenticated" ;;
  _ <- guard (isControlCenter db currentUserId)
             "Only Control Center can unassign users from scopes" ;;
  match findAssignment db userId scopeId with
  | Some assignment => Returned (delete_found db userId scopeId)
  | None => Returned db
  end.

End ScopeAssignments.

(** ** Vocabulary of the further properties *)

(** The ids of the stored entries, in creation order. *)
Definition entryIds (db : DB) : list Id := map Entry._id db.(dailyEntries).

(** Whether an entry is the one of an (activity, date) pair. *)
Definition atPair (activityId : Id) (date : string) (e : Entry.t) : bool :=
  String.eqb e.(Entry.activityId) activityId && String.eqb e.(Entry.date) date.

(** An entry without its update stamp. *)
Definition withoutStamp (e : Entry.t) : Entry.t :=
  Entry.apply
    {| Entry.p_foremanName := None;
       Entry.p_forecastQuantity := None;
       Entry.p_forecastCrewSize := None;
       Entry.p_forecastHoursPerWorker := None;
       Entry.p_forecastHours := None;
       Entry.p_actualQuantity := None;
       Entry.p_actualCrewSize := None;
       Entry.p_actualHoursPerWorker := None;
       Entry.p_actualHours := None;
       Entry.p_notes := None;
       Entry.p_updatedBy := Some None;
       Entry.p_updatedAt := Some None |}
    e.

(** The same caller at a later moment: the clock reads [now] and a new
    document would get the id [fresh]. *)
Definition later (ctx : Ctx) (now : Q) (fresh : Id) : Ctx :=
  {| getAuthUserId := ctx.(getAuthUserId);
     Date_now := now;
     freshId := fresh |}.

(** The call [c] made again, by the same caller with the same arguments,
    at the moment [m] (a clock reading and a fresh id). *)
Definition again (c : Call) (m : Q * Id) : Call :=
  match c with
  | CallForecast ctx args => CallForecast (later ctx (fst m) (snd m)) args
  | CallActuals ctx args => CallActuals (later ctx (fst m) (snd m)) args
  | CallEntry ctx args => CallEntry (later ctx (fst m) (snd m)) args
  end.

(** The ids a sequence of calls returns, and the database it leaves. *)
Fixpoint runIds (db : DB) (calls : list Call) : Outcome (list Id * DB) :=
  match calls with
  | [] => Returned ([], db)
  | c :: calls' =>
      r <- exec db c ;;
      r' <- runIds (snd r) calls' ;;
      Returned (fst r :: fst r', snd r')
  end.

(** The project and scope copied into an entry are those of its activity. *)
Definition keysConsistent (db : DB) : Prop :=
  forall e activity,
    In e db.(dailyEntries) ->
    Db.get_activity db e.(Entry.activityId) = Some activity ->
    e.(Entry.projectId) = activity.(Activity.projectId)
    /\ e.(Entry.scopeId) = activity.(Activity.scopeId).

(** The four totals and the entry count of one row are those of the
    entries [entries]. *)
Definition totalsOf (entries : list Entry.t)
           (totalActualQuantity totalActualHours totalForecastQuantity
            totalForecastHours : Q)
           (entriesCount : nat) : Prop :=
  totalActualQuantity == sumQ (fun e => e.(Entry.actualQuantity) ?? 0) entries
  /\ totalActualHours == sumQ (fun e => e.(Entry.actualHours) ?? 0) entries
  /\ totalForecastQuantity
     == sumQ (fun e => e.(Entry.forecastQuantity) ?? 0) entries
  /\ totalForecastHours == sumQ (fun e => e.(Entry.forecastHours) ?? 0) entries
  /\ entriesCount = List.length entries.

(** A row of the project leaderboard is that of the grouping key [k]: it
    carries the display name of the key and the totals and the number of
    the entries of [entries] filed under [k]. *)
Definition projectRowOf (db : DB) (entries : list Entry.t) (k : string)
           (r : ProjectLeader.t) : Prop :=
  r.(ProjectLeader.foremanName) = displayName db k
  /\ totalsOf (groupOf foremanKey k entries)
              r.(ProjectLeader.totalActualQuantity)
              r.(ProjectLeader.totalActualHours)
              r.(ProjectLeader.totalForecastQuantity)
              r.(ProjectLeader.totalForecastHours)
              r.(ProjectLeader.entriesCount).

(** The same for a row of the scope leaderboard. *)
Definition scopeRowOf (db : DB) (entries : list Entry.t) (k : string)
           (r : ScopeLeader.t) : Prop :=
  r.(ScopeLeader.foremanName) = displayName db k
  /\ totalsOf (groupOf foremanKey k entries)
              r.(ScopeLeader.totalActualQuantity)
              r.(ScopeLeader.totalActualHours)
              r.(ScopeLeader.totalForecastQuantity)
              r.(ScopeLeader.totalForecastHours)
              r.(ScopeLeader.entriesCount).

(** The four sums of one row are those of the entries [entries]. *)
Definition sumsOf (entries : list Entry.t)
           (forecastQuantity actualQuantity forecastHours actualHours : Q)
  : Prop :=
  forecastQuantity == sumQ (fun e => e.(Entry.forecastQuantity) ?? 0) entries
  /\ actualQuantity == sumQ (fun e => e.(Entry.actualQuantity) ?? 0) entries
  /\ forecastHours == sumQ (fun e => e.(Entry.forecastHours) ?? 0) entries
  /\ actualHours == sumQ (fun e => e.(Entry.actualHours) ?? 0) entries.

(** There is an assignment of the user to the project. *)
Definition assignedTo (db : DB) (userId projectId : Id) : Prop :=
  exists a,
    In a db.(projectAssignments)
    /\ a.(ProjectAssignment.userId) = userId
    /\ a.(ProjectAssignment.projectId) = projectId.

(** Every stored entry belongs to exactly one listed project. *)
Definition entriesOfListedProjects (db : DB) : Prop :=
  NoDup (map Project._id db.(projects))
  /\ forall e, In e db.(dailyEntries) ->
               In e.(Entry.projectId) (map Project._id db.(projects)).

(** [value] is the percentage [actual / forecast * 100], and 0 when the
    forecast is not positive. *)
Definition guardedPercent (value actual forecast : Q) : Prop :=
  (0 < forecast -> value == actual / forecast * 100)
  /\ (~ 0 < forecast -> value == 0).

(** The assignment documents for one (user, project) pair. *)
Definition assignmentsOf (docs : list AssignmentDoc.t) (userId projectId : Id)
  : list AssignmentDoc.t :=
  filter (fun a => String.eqb a.(AssignmentDoc.userId) userId
                   && String.eqb a.(AssignmentDoc.projectId) projectId)
         docs.

(** * Properties *)

(** ** Outcomes and lists *)

Lemma find_none_iff {A} (p : A -> bool) l :
  find p l = None <-> forall x, In x l -> p x = false.
Proof.
  split.
  - apply find_none.
  - induction l as [|a l IH]; simpl; intros H; [reflexivity|].
    rewrite (H a (or_introl eq_refl)). apply IH. intros x Hx. apply H. now right.
Qed.

Lemma bind_Returned {A B} (m : Outcome A) (k : A -> Outcome B) (b : B) :
  bind m k = Returned b -> exists a, m = Returned a /\ k a = Returned b.
Proof. destruct m as [a|msg]; simpl; [eauto|discriminate]. Qed.

Lemma filter_map_same {A} (q : A -> bool) (f : A -> A) (l : list A) :
  (forall x, q (f x) = q x) ->
  List.length (filter q (map f l)) = List.length (filter q l).
Proof.
  intros Hq. induction l as [|x l IH]; simpl; [reflexivity|].
  rewrite Hq. destruct (q x); simpl; congruence.
Qed.

Lemma filter_perm {A} (p : A -> bool) l l' :
  Permutation l l' -> Permutation (filter p l) (filter p l').
Proof.
  induction 1 as [|x l l' _ IH|x y l|l l' l'' _ IH1 _ IH2]; simpl.
  - constructor.
  - destruct (p x); [now apply perm_skip|exact IH].
  - destruct (p x), (p y); try reflexivity. apply perm_swap.
  - now transitivity (filter p l').
Qed.

(** ** The access gate *)

(** C1. The gate allows a user without a profile record, allows a user
    whose profile has the role control_center, and otherwise allows
    exactly when a ProjectAssignment record exists for (userId, projectId). *)
Theorem checkProjectAccess_spec (db : DB) (userId projectId : Id) :
  ((forall p, In p db.(userProfiles) -> p.(Profile.userId) <> userId) ->
   checkProjectAccess db userId projectId = true)
  /\ (forall profile,
        Db.profile_by_userId db userId = Some profile ->
        profile.(Profile.role) = control_center ->
        checkProjectAccess db userId projectId = true)
  /\ (forall profile,
        Db.profile_by_userId db userId = Some profile ->
        profile.(Profile.role) <> control_center ->
        (checkProjectAccess db userId projectId = true <->
         exists a, In a db.(projectAssignments)
                   /\ a.(ProjectAssignment.userId) = userId
                   /\ a.(ProjectAssignment.projectId) = projectId)).
Proof.
  unfold checkProjectAccess. repeat split.
  - intros Hno.
    assert (Db.profile_by_userId db userId = None) as ->; [|reflexivity].
    apply find_none_iff. intros p Hp. apply String.eqb_neq. now apply Hno.
  - intros profile -> ->. reflexivity.
  - rewrite H. destruct (Profile.role profile); [congruence|]. simpl.
    destruct (Db.assignment_by_userId_and_projectId db userId projectId) as [a|] eqn:E;
      [|discriminate].
    intros _. exists a. apply find_some in E. destruct E as [Hin Hb].
    apply andb_prop in Hb. destruct Hb as [H1 H2].
    apply String.eqb_eq in H1, H2. auto.
  - rewrite H. destruct (Profile.role profile); [congruence|]. simpl.
    intros [a (Hin & Hu & Hp)].
    destruct (Db.assignment_by_userId_and_projectId db userId projectId) eqn:E;
      [reflexivity|].
    pose proof (find_none _ _ E a Hin) as Hf. simpl in Hf.
    rewrite Hu, Hp, !String.eqb_refl in Hf. discriminate.
Qed.

Lemma checkProjectAccess_spec_witness :
  checkProjectAccess Sample.db0 "u_new" "p1" = true
  /\ checkProjectAccess Sample.db0 "u_cc" "p1" = true
  /\ (checkProjectAccess Sample.db0 "u_out" "p1" = true
      <-> exists a, In a Sample.db0.(projectAssignments)
                    /\ a.(ProjectAssignment.userId) = "u_out"
                    /\ a.(ProjectAssignment.projectId) = "p1").
Proof.
  destruct (checkProjectAccess_spec Sample.db0 "u_new" "p1") as [H1 _].
  destruct (checkProjectAccess_spec Sample.db0 "u_cc" "p1") as [_ [H2 _]].
  destruct (checkProjectAccess_spec Sample.db0 "u_out" "p1") as [_ [_ H3]].
  split; [|split].
  - apply H1. simpl. intros p [<-|[<-|[<-|[]]]]; discriminate.
  - apply (H2 (Profile.mk "u_cc" "Casey" control_center)); reflexivity.
  - apply (H3 (Profile.mk "u_out" "Riley" construction_manager));
      [reflexivity|discriminate].
Defined.

Lemma gate_denies_unassigned_manager db userId projectId profile :
  Db.profile_by_userId db userId = Some profile ->
  profile.(Profile.role) = construction_manager ->
  (forall a, In a db.(projectAssignments) ->
             ~ (a.(ProjectAssignment.userId) = userId
                /\ a.(ProjectAssignment.projectId) = projectId)) ->
  checkProjectAccess db userId projectId = false.
Proof.
  intros Hp Hr Hno. unfold checkProjectAccess. rewrite Hp, Hr. simpl.
  destruct (Db.assignment_by_userId_and_projectId db userId projectId) as [a|] eqn:E;
    [|reflexivity].
  apply find_some in E. destruct E as [Hin Hb].
  apply andb_prop in Hb. destruct Hb as [H1 H2]. apply String.eqb_eq in H1, H2.
  exfalso. apply (Hno a Hin). auto.
Qed.

(** ** The entry recorder *)

(** Each successful call either patches the entry found for its pair or,
    when there is none, inserts one document carrying that pair. *)
Lemma exec_patch_or_insert db c id db' :
  exec db c = Returned (id, db') ->
  (exists existing p,
      Db.entry_by_activity_and_date db (callActivity c) (callDate c) = Some existing
      /\ id = existing.(Entry._id)
      /\ db' = Db.patch_entry db id p)
  \/ (exists doc,
         Db.entry_by_activity_and_date db (callActivity c) (callDate c) = None
         /\ id = (callCtx c).(freshId)
         /\ doc.(Entry._id) = id
         /\ doc.(Entry.activityId) = callActivity c
         /\ doc.(Entry.date) = callDate c
         /\ db' = Db.insert_entry db doc).
Proof.
  destruct c as [ctx args|ctx args|ctx args]; simpl;
    [unfold submitForecast|unfold submitActuals|unfold submitEntry];
    intros H; apply bind_Returned in H; destruct H as [[u act] [_ H]];
    cbv zeta in H;
    match type of H with
    | match ?f with _ => _ end = _ => destruct f as [existing|] eqn:E
    end;
    injection H as <- <-.
  all: try (left; do 2 eexists; repeat split; reflexivity).
  all: right; eexists; repeat split; reflexivity.
Qed.

Lemma entriesFor_patch db id p a d :
  entriesFor (Db.patch_entry db id p) a d = entriesFor db a d.
Proof.
  unfold entriesFor, Db.patch_entry. simpl. apply filter_map_same.
  intros x. destruct (String.eqb (Entry._id x) id); reflexivity.
Qed.

Lemma entriesFor_insert db doc a d :
  entriesFor (Db.insert_entry db doc) a d
  = (entriesFor db a d
     + if String.eqb doc.(Entry.activityId) a && String.eqb doc.(Entry.date) d
       then 1 else 0)%nat.
Proof.
  unfold entriesFor, Db.insert_entry. simpl. rewrite filter_app, length_app. simpl.
  destruct (_ && _); reflexivity.
Qed.

Lemma entriesFor_absent db a d :
  Db.entry_by_activity_and_date db a d = None -> entriesFor db a d = 0%nat.
Proof.
  unfold Db.entry_by_activity_and_date, entriesFor. intros H.
  rewrite find_none_iff in H.
  induction (dailyEntries db) as [|x l IH]; simpl; [reflexivity|].
  rewrite (H x (or_introl eq_refl)). apply IH. intros y Hy. apply H. now right.
Qed.

Lemma exec_keeps_invariant db c r a d :
  exec db c = Returned r ->
  (entriesFor db a d <= 1)%nat -> (entriesFor (snd r) a d <= 1)%nat.
Proof.
  destruct r as [id db']. intros H Hle. simpl.
  apply exec_patch_or_insert in H.
  destruct H as [(existing & p & _ & _ & ->)|(doc & Hnone & _ & _ & Ha & Hd & ->)].
  - now rewrite entriesFor_patch.
  - rewrite entriesFor_insert, Ha, Hd.
    destruct (String.eqb (callActivity c) a) eqn:Ea; simpl; [|lia].
    destruct (String.eqb (callDate c) d) eqn:Ed; simpl; [|lia].
    apply String.eqb_eq in Ea, Ed. subst.
    rewrite (entriesFor_absent _ _ _ Hnone). lia.
Qed.

(** C2. Starting from a state with at most one entry for an
    (activityId, date) pair, any sequential run of successful
    submitForecast, submitActuals and submitEntry calls ends in a state
    with at most one entry for that pair; each call patches the entry it
    finds for its pair and inserts only when it finds none. *)
Theorem at_most_one_entry_per_pair :
  (forall (calls : list Call) (db db' : DB) (activityId : Id) (date : string),
      (entriesFor db activityId date <= 1)%nat ->
      run db calls = Returned db' ->
      (entriesFor db' activityId date <= 1)%nat)
  /\ (forall (db db' : DB) (c : Call) (id : Id),
         exec db c = Returned (id, db') ->
         match Db.entry_by_activity_and_date db (callActivity c) (callDate c) with
         | Some existing =>
             id = existing.(Entry._id)
             /\ exists p, db' = Db.patch_entry db existing.(Entry._id) p
         | None =>
             exists doc,
               doc.(Entry.activityId) = callActivity c
               /\ doc.(Entry.date) = callDate c
               /\ db' = Db.insert_entry db doc
         end).
Proof.
  split.
  - intros calls. induction calls as [|c calls IH]; simpl;
      intros db db' activityId date Hle Hrun.
    + now injection Hrun as <-.
    + apply bind_Returned in Hrun. destruct Hrun as [r [Hc Hrun]].
      apply (IH (snd r)); [|exact Hrun].
      eapply exec_keeps_invariant; eauto.
  - intros db db' c id H. apply exec_patch_or_insert in H.
    destruct H as [(existing & p & -> & -> & ->)
                  |(doc & -> & _ & _ & Ha & Hd & ->)]; eauto.
Qed.

Lemma at_most_one_entry_per_pair_witness :
  exists db',
    run Sample.db0 Sample.calls = Returned db'
    /\ (entriesFor db' "a1" "2024-06-01" <= 1)%nat.
Proof.
  assert (exists db', run Sample.db0 Sample.calls = Returned db') as [db' Hrun]
      by (eexists; vm_compute; reflexivity).
  exists db'. split; [exact Hrun|].
  apply (proj1 at_most_one_entry_per_pair Sample.calls Sample.db0 db'
                "a1" "2024-06-01");
    [vm_compute; lia|exact Hrun].
Defined.

Lemma find_after_patch db a d existing p :
  Db.entry_by_activity_and_date db a d = Some existing ->
  Db.entry_by_activity_and_date (Db.patch_entry db existing.(Entry._id) p) a d
  = Some (Entry.apply p existing).
Proof.
  unfold Db.entry_by_activity_and_date, Db.patch_entry. simpl.
  induction (dailyEntries db) as [|x l IH]; simpl; [discriminate|].
  destruct (String.eqb (Entry.activityId x) a && String.eqb (Entry.date x) d) eqn:E.
  - intros [= ->]. rewrite String.eqb_refl. simpl. now rewrite E.
  - intros H.
    assert (forall y : Entry.t,
               String.eqb (Entry.activityId y) a && String.eqb (Entry.date y) d = false ->
               String.eqb (Entry.activityId
                             (if String.eqb (Entry._id y) (Entry._id existing)
                              then Entry.apply p y else y)) a
               && String.eqb (Entry.date
                                (if String.eqb (Entry._id y) (Entry._id existing)
                                 then Entry.apply p y else y)) d = false) as Hk.
    { intros y Hy. destruct (String.eqb (Entry._id y) (Entry._id existing)); exact Hy. }
    rewrite (Hk x E). now apply IH.
Qed.

Lemma find_after_insert db a d doc :
  Db.entry_by_activity_and_date db a d = None ->
  doc.(Entry.activityId) = a -> doc.(Entry.date) = d ->
  Db.entry_by_activity_and_date (Db.insert_entry db doc) a d = Some doc.
Proof.
  unfold Db.entry_by_activity_and_date, Db.insert_entry. simpl. intros Hn <- <-.
  induction (dailyEntries db) as [|x l IH]; simpl in *.
  - now rewrite !String.eqb_refl.
  - destruct (_ && _); [discriminate|]. now apply IH.
Qed.

Ltac open_mutation H :=
  let u := fresh "userId" in
  let act := fresh "activity" in
  let Hp := fresh "Hpre" in
  let E := fresh "Hfind" in
  let ex := fresh "existing" in
  apply bind_Returned in H; destruct H as [[u act] [Hp H]];
  cbv zeta in H;
  match type of H with
  | match ?f with _ => _ end = _ => destruct f as [ex|] eqn:E
  end;
  injection H as <- <-.

(** What [submitForecast] leaves stored for its (activity, date) pair. *)
Lemma submitForecast_stored ctx db args id db' :
  submitForecast ctx db args = Returned (id, db') ->
  exists e,
    Db.entry_by_activity_and_date db' args.(ForecastArgs.activityId)
                                  args.(ForecastArgs.date) = Some e
    /\ e.(Entry._id) = id
    /\ e.(Entry.forecastQuantity) = Some args.(ForecastArgs.forecastQuantity)
    /\ e.(Entry.forecastCrewSize) = Some args.(ForecastArgs.forecastCrewSize)
    /\ e.(Entry.forecastHoursPerWorker)
       = Some args.(ForecastArgs.forecastHoursPerWorker)
    /\ e.(Entry.forecastHours)
       = Some (args.(ForecastArgs.forecastCrewSize)
               * args.(ForecastArgs.forecastHoursPerWorker))%Q.
Proof.
  unfold submitForecast. intros H. open_mutation H.
  - eexists. split; [apply find_after_patch; exact Hfind|]. simpl. repeat split.
  - eexists. split; [apply find_after_insert; [exact Hfind|reflexivity..]|].
    simpl. repeat split.
Qed.

Lemma submitActuals_stored ctx db args id db' :
  submitActuals ctx db args = Returned (id, db') ->
  exists e,
    Db.entry_by_activity_and_date db' args.(ActualsArgs.activityId)
                                  args.(ActualsArgs.date) = Some e
    /\ e.(Entry._id) = id
    /\ e.(Entry.actualQuantity) = Some args.(ActualsArgs.actualQuantity)
    /\ e.(Entry.actualCrewSize) = Some args.(ActualsArgs.actualCrewSize)
    /\ e.(Entry.actualHoursPerWorker)
       = Some args.(ActualsArgs.actualHoursPerWorker)
    /\ e.(Entry.actualHours)
       = Some (args.(ActualsArgs.actualCrewSize)
               * args.(ActualsArgs.actualHoursPerWorker))%Q.
Proof.
  unfold submitActuals. intros H. open_mutation H.
  - eexists. split; [apply find_after_patch; exact Hfind|]. simpl. repeat split.
  - eexists. split; [apply find_after_insert; [exact Hfind|reflexivity..]|].
    simpl. repeat split.
Qed.

(** After [submitEntry] the ten data fields of the stored entry are the
    call's, whether the entry was patched or inserted. *)
Lemma submitEntry_stored ctx db args id db' :
  submitEntry ctx db args = Returned (id, db') ->
  exists e,
    Db.entry_by_activity_and_date db' args.(EntryArgs.activityId)
                                  args.(EntryArgs.date) = Some e
    /\ e.(Entry._id) = id
    /\ e.(Entry.forecastQuantity) = args.(EntryArgs.forecastQuantity)
    /\ e.(Entry.forecastCrewSize) = args.(EntryArgs.forecastCrewSize)
    /\ e.(Entry.forecastHoursPerWorker) = args.(EntryArgs.forecastHoursPerWorker)
    /\ e.(Entry.forecastHours)
       = manHours args.(EntryArgs.forecastCrewSize)
                  args.(EntryArgs.forecastHoursPerWorker)
    /\ e.(Entry.actualQuantity) = args.(EntryArgs.actualQuantity)
    /\ e.(Entry.actualCrewSize) = args.(EntryArgs.actualCrewSize)
    /\ e.(Entry.actualHoursPerWorker) = args.(EntryArgs.actualHoursPerWorker)
    /\ e.(Entry.actualHours)
       = manHours args.(EntryArgs.actualCrewSize)
                  args.(EntryArgs.actualHoursPerWorker)
    /\ e.(Entry.notes) = args.(EntryArgs.notes).
Proof.
  unfold submitEntry. intros H. open_mutation H.
  - eexists. split; [apply find_after_patch; exact Hfind|]. simpl. repeat split.
  - eexists. split; [apply find_after_insert; [exact Hfind|reflexivity..]|].
    simpl. repeat split.
Qed.

Lemma nullish_opt_kept {A} (supplied old : option A) :
  keptUnlessSupplied supplied old (Js.nullish_opt supplied old).
Proof. split; [intros ->|intros v ->]; reflexivity. Qed.

(** Updating the actuals of a stored entry leaves its forecast alone. *)
Lemma submitActuals_frame ctx db args id db' existing :
  Db.entry_by_activity_and_date db args.(ActualsArgs.activityId)
                                args.(ActualsArgs.date) = Some existing ->
  submitActuals ctx db args = Returned (id, db') ->
  exists e,
    Db.entry_by_activity_and_date db' args.(ActualsArgs.activityId)
                                  args.(ActualsArgs.date) = Some e
    /\ e.(Entry._id) = existing.(Entry._id)
    /\ sameForecast existing e
    /\ keptUnlessSupplied args.(ActualsArgs.notes) existing.(Entry.notes)
                          e.(Entry.notes)
    /\ (forall userId activity,
           entryPreamble ctx db args.(ActualsArgs.activityId)
           = Returned (userId, activity) ->
           keptUnlessSupplied (resolveForemanName db userId activity)
                              existing.(Entry.foremanName) e.(Entry.foremanName)).
Proof.
  intros Hex H. unfold submitActuals in H. open_mutation H; [|congruence].
  injection Hex as <-.
  eexists. split; [apply find_after_patch; exact Hfind|]. simpl.
  split; [reflexivity|]. split; [repeat split|].
  split; [apply nullish_opt_kept|].
  intros u a Hpre'. rewrite Hpre in Hpre'. injection Hpre' as <- <-.
  apply nullish_opt_kept.
Qed.

Lemma submitForecast_frame ctx db args id db' existing :
  Db.entry_by_activity_and_date db args.(ForecastArgs.activityId)
                                args.(ForecastArgs.date) = Some existing ->
  submitForecast ctx db args = Returned (id, db') ->
  exists e,
    Db.entry_by_activity_and_date db' args.(ForecastArgs.activityId)
                                  args.(ForecastArgs.date) = Some e
    /\ e.(Entry._id) = existing.(Entry._id)
    /\ sameActuals existing e
    /\ keptUnlessSupplied args.(ForecastArgs.notes) existing.(Entry.notes)
                          e.(Entry.notes)
    /\ (forall userId activity,
           entryPreamble ctx db args.(ForecastArgs.activityId)
           = Returned (userId, activity) ->
           keptUnlessSupplied (resolveForemanName db userId activity)
                              existing.(Entry.foremanName) e.(Entry.foremanName)).
Proof.
  intros Hex H. unfold submitForecast in H. open_mutation H; [|congruence].
  injection Hex as <-.
  eexists. split; [apply find_after_patch; exact Hfind|]. simpl.
  split; [reflexivity|]. split; [repeat split|].
  split; [apply nullish_opt_kept|].
  intros u a Hpre'. rewrite Hpre in Hpre'. injection Hpre' as <- <-.
  apply nullish_opt_kept.
Qed.

(** C3. The stated frame fails for [submitEntry]: on a stored entry with a
    forecast and a note, a call that supplies the actual quantity only
    removes the note and the stored forecast fields. *)
Theorem submitEntry_unsets_omitted_fields :
  Db.entry_by_activity_and_date Sample.dbStored "a1" "2024-06-01"
  = Some Sample.stored
  /\ Sample.stored.(Entry.notes) = Some "north wing"
  /\ Sample.stored.(Entry.forecastQuantity) = Some 100
  /\ Sample.stored.(Entry.forecastHours) = Some 40
  /\ exists db' e,
      submitEntry (Sample.ctxOf "u_cm") Sample.dbStored Sample.actualOnlyA1
      = Returned ("e1", db')
      /\ Db.entry_by_activity_and_date db' "a1" "2024-06-01" = Some e
      /\ e.(Entry.actualQuantity) = Some 90
      /\ e.(Entry.notes) = None
      /\ e.(Entry.forecastQuantity) = None
      /\ e.(Entry.forecastCrewSize) = None
      /\ e.(Entry.forecastHoursPerWorker) = None
      /\ e.(Entry.forecastHours) = None.
Proof.
  repeat split.
  eexists. eexists. split; [vm_compute; reflexivity|].
  split; [vm_compute; reflexivity|]. repeat split.
Qed.

Lemma manHours_product crew hoursPerWorker c h :
  crew = Some c -> hoursPerWorker = Some h -> ~ c == 0 -> ~ h == 0 ->
  manHours crew hoursPerWorker = Some (c * h)%Q.
Proof.
  intros -> -> Hc Hh. unfold manHours, Js.truthy_num.
  destruct (Qeq_bool c 0) eqn:Ec; [apply Qeq_bool_eq in Ec; contradiction|].
  destruct (Qeq_bool h 0) eqn:Eh; [apply Qeq_bool_eq in Eh; contradiction|].
  reflexivity.
Qed.

Lemma manHours_absent crew hoursPerWorker :
  absentOrZero crew \/ absentOrZero hoursPerWorker ->
  manHours crew hoursPerWorker = None.
Proof.
  unfold manHours, Js.truthy_num, absentOrZero.
  destruct crew as [c|], hoursPerWorker as [h|]; try reflexivity.
  intros [H|H]; rewrite (Qeq_eq_bool _ _ H); simpl;
    [reflexivity|now rewrite andb_false_r].
Qed.

(** C4. After a successful submission the stored man-hours of the side
    submitted are crewSize * hoursPerWorker of the values of that call;
    for [submitEntry] they are that product when both values are supplied
    and non-zero, and undefined when either is absent or zero. *)
Theorem derived_hours (ctx : Ctx) (db db' : DB) (id : Id) :
  (forall args,
      submitForecast ctx db args = Returned (id, db') ->
      exists e,
        Db.entry_by_activity_and_date db' args.(ForecastArgs.activityId)
                                      args.(ForecastArgs.date) = Some e
        /\ e.(Entry.forecastHours)
           = Some (args.(ForecastArgs.forecastCrewSize)
                   * args.(ForecastArgs.forecastHoursPerWorker)))
  /\ (forall args,
         submitActuals ctx db args = Returned (id, db') ->
         exists e,
           Db.entry_by_activity_and_date db' args.(ActualsArgs.activityId)
                                         args.(ActualsArgs.date) = Some e
           /\ e.(Entry.actualHours)
              = Some (args.(ActualsArgs.actualCrewSize)
                      * args.(ActualsArgs.actualHoursPerWorker)))
  /\ (forall args,
         submitEntry ctx db args = Returned (id, db') ->
         exists e,
           Db.entry_by_activity_and_date db' args.(EntryArgs.activityId)
                                         args.(EntryArgs.date) = Some e
           /\ (forall c h,
                  args.(EntryArgs.forecastCrewSize) = Some c ->
                  args.(EntryArgs.forecastHoursPerWorker) = Some h ->
                  ~ c == 0 -> ~ h == 0 ->
                  e.(Entry.forecastHours) = Some (c * h))
           /\ (absentOrZero args.(EntryArgs.forecastCrewSize)
               \/ absentOrZero args.(EntryArgs.forecastHoursPerWorker) ->
               e.(Entry.forecastHours) = None)
           /\ (forall c h,
                  args.(EntryArgs.actualCrewSize) = Some c ->
                  args.(EntryArgs.actualHoursPerWorker) = Some h ->
                  ~ c == 0 -> ~ h == 0 ->
                  e.(Entry.actualHours) = Some (c * h))
           /\ (absentOrZero args.(EntryArgs.actualCrewSize)
               \/ absentOrZero args.(EntryArgs.actualHoursPerWorker) ->
               e.(Entry.actualHours) = None)).
Proof.
  split; [|split].
  - intros args H. apply submitForecast_stored in H.
    destruct H as (e & H1 & _ & _ & _ & _ & H6). eauto.
  - intros args H. apply submitActuals_stored in H.
    destruct H as (e & H1 & _ & _ & _ & _ & H6). eauto.
  - intros args H. apply submitEntry_stored in H.
    destruct H as (e & H1 & _ & _ & _ & _ & Hf & _ & _ & _ & Ha & _).
    exists e. split; [exact H1|]. rewrite Hf, Ha.
    repeat split; intros; auto using manHours_product, manHours_absent.
Qed.

Lemma derived_hours_witness :
  exists db' e,
    submitForecast (Sample.ctxOf "u_cm") Sample.db0 Sample.forecastA1
    = Returned ("e_new", db')
    /\ Db.entry_by_activity_and_date db' "a1" "2024-06-01" = Some e
    /\ e.(Entry.forecastHours) = Some (5 * 8).
Proof.
  assert (exists db',
             submitForecast (Sample.ctxOf "u_cm") Sample.db0 Sample.forecastA1
             = Returned ("e_new", db')) as [db' H]
      by (eexists; vm_compute; reflexivity).
  destruct (proj1 (derived_hours (Sample.ctxOf "u_cm") Sample.db0 db' "e_new")
                  Sample.forecastA1 H) as [e [H1 H2]].
  exists db', e. auto.
Defined.

(** C10. For an authenticated user without a profile record the gate
    allows every project, and submitForecast, submitActuals and
    submitEntry succeed on every existing activity, leaving an entry with
    the submitted values. *)
Theorem unprofiled_user_writes_anywhere (ctx : Ctx) (db : DB) (userId : Id) :
  ctx.(getAuthUserId) = Some userId ->
  (forall p, In p db.(userProfiles) -> p.(Profile.userId) <> userId) ->
  (forall projectId, checkProjectAccess db userId projectId = true)
  /\ (forall args activity,
         Db.get_activity db args.(ForecastArgs.activityId) = Some activity ->
         exists id db' e,
           submitForecast ctx db args = Returned (id, db')
           /\ Db.entry_by_activity_and_date db' args.(ForecastArgs.activityId)
                                            args.(ForecastArgs.date) = Some e
           /\ e.(Entry._id) = id
           /\ e.(Entry.forecastQuantity) = Some args.(ForecastArgs.forecastQuantity))
  /\ (forall args activity,
         Db.get_activity db args.(ActualsArgs.activityId) = Some activity ->
         exists id db' e,
           submitActuals ctx db args = Returned (id, db')
           /\ Db.entry_by_activity_and_date db' args.(ActualsArgs.activityId)
                                            args.(ActualsArgs.date) = Some e
           /\ e.(Entry._id) = id
           /\ e.(Entry.actualQuantity) = Some args.(ActualsArgs.actualQuantity))
  /\ (forall args activity,
         Db.get_activity db args.(EntryArgs.activityId) = Some activity ->
         exists id db' e,
           submitEntry ctx db args = Returned (id, db')
           /\ Db.entry_by_activity_and_date db' args.(EntryArgs.activityId)
                                            args.(EntryArgs.date) = Some e
           /\ e.(Entry._id) = id
           /\ e.(Entry.forecastQuantity) = args.(EntryArgs.forecastQuantity)
           /\ e.(Entry.actualQuantity) = args.(EntryArgs.actualQuantity)).
Proof.
  intros Hauth Hnone.
  assert (forall projectId, checkProjectAccess db userId projectId = true) as Hgate.
  { intros projectId. unfold checkProjectAccess.
    assert (Db.profile_by_userId db userId = None) as ->; [|reflexivity].
    apply find_none_iff. intros p Hp. apply String.eqb_neq. now apply Hnone. }
  assert (forall a activity,
             Db.get_activity db a = Some activity ->
             entryPreamble ctx db a = Returned (userId, activity)) as Hpre.
  { intros a activity Ha. unfold entryPreamble. rewrite Hauth, Ha. simpl.
    now rewrite Hgate. }
  split; [exact Hgate|]. split; [|split].
  - intros args activity Ha.
    destruct (submitForecast ctx db args) as [[id db']|msg] eqn:E.
    + destruct (submitForecast_stored _ _ _ _ _ E) as (e & H1 & H2 & H3 & _).
      exists id, db', e. auto.
    + exfalso. unfold submitForecast in E. rewrite (Hpre _ _ Ha) in E. simpl in E.
      destruct (Db.entry_by_activity_and_date db _ _); discriminate.
  - intros args activity Ha.
    destruct (submitActuals ctx db args) as [[id db']|msg] eqn:E.
    + destruct (submitActuals_stored _ _ _ _ _ E) as (e & H1 & H2 & H3 & _).
      exists id, db', e. auto.
    + exfalso. unfold submitActuals in E. rewrite (Hpre _ _ Ha) in E. simpl in E.
      destruct (Db.entry_by_activity_and_date db _ _); discriminate.
  - intros args activity Ha.
    destruct (submitEntry ctx db args) as [[id db']|msg] eqn:E.
    + destruct (submitEntry_stored _ _ _ _ _ E)
        as (e & H1 & H2 & H3 & _ & _ & _ & H7 & _).
      exists id, db', e. auto.
    + exfalso. unfold submitEntry in E. rewrite (Hpre _ _ Ha) in E. simpl in E.
      destruct (Db.entry_by_activity_and_date db _ _); discriminate.
Qed.

Lemma unprofiled_user_writes_anywhere_witness :
  exists id db' e,
    submitForecast (Sample.ctxOf "u_new") Sample.db0 Sample.forecastA1
    = Returned (id, db')
    /\ Db.entry_by_activity_and_date db' "a1" "2024-06-01" = Some e
    /\ e.(Entry._id) = id
    /\ e.(Entry.forecastQuantity) = Some 100.
Proof.
  assert (forall p, In p Sample.db0.(userProfiles) ->
                    p.(Profile.userId) <> "u_new") as Hnone.
  { simpl. intros p [<-|[<-|[<-|[]]]]; discriminate. }
  exact (proj1 (proj2 (unprofiled_user_writes_anywhere
                         (Sample.ctxOf "u_new") Sample.db0 "u_new" eq_refl Hnone))
               Sample.forecastA1 (Activity.mk "a1" "s1" "p1" "Conduit" "ft")
               eq_refl).
Defined.

(** ** Dictionaries, sorting and sums *)

Section DictFacts.
Context {T : Type}.
Implicit Types (obj : Js.Dict.t T) (k : string).

Lemma get_app obj obj' k :
  Js.Dict.get k (obj ++ obj')
  = match Js.Dict.get k obj with
    | Some v => Some v
    | None => Js.Dict.get k obj'
    end.
Proof.
  induction obj as [|[k' v] obj IH]; simpl; [reflexivity|].
  destruct (String.eqb k k'); [reflexivity|exact IH].
Qed.

Lemma get_None_keys obj k :
  Js.Dict.get k obj = None <-> ~ In k (map fst obj).
Proof.
  induction obj as [|[k' v] obj IH]; simpl; [tauto|].
  destruct (String.eqb_spec k k') as [->|Hne].
  - split; [discriminate|]. intros H. exfalso. apply H. now left.
  - rewrite IH. split; [intros H [E|E]; [congruence|contradiction]|tauto].
Qed.

Lemma In_get obj k v :
  NoDup (map fst obj) -> In (k, v) obj -> Js.Dict.get k obj = Some v.
Proof.
  induction obj as [|[k' v'] obj IH]; simpl; [contradiction|].
  intros Hnd [E|Hin].
  - injection E as -> ->. now rewrite String.eqb_refl.
  - inversion_clear Hnd as [|? ? Hnotin Hnd'].
    destruct (String.eqb_spec k k') as [->|Hne]; [|now apply IH].
    exfalso. apply Hnotin. change k' with (fst (k', v)). now apply in_map.
Qed.

Lemma keys_update obj k f :
  map fst (Js.Dict.update k f obj) = map fst obj.
Proof.
  induction obj as [|[k' v] obj IH]; simpl; [reflexivity|].
  destruct (String.eqb k k'); simpl; [reflexivity|now rewrite IH].
Qed.

Lemma get_update obj k f k0 :
  Js.Dict.get k0 (Js.Dict.update k f obj)
  = if String.eqb k0 k then option_map f (Js.Dict.get k0 obj)
    else Js.Dict.get k0 obj.
Proof.
  induction obj as [|[k' v] obj IH]; simpl.
  - now destruct (String.eqb k0 k).
  - destruct (String.eqb_spec k k') as [->|Hne]; simpl.
    + destruct (String.eqb k0 k'); reflexivity.
    + destruct (String.eqb_spec k0 k') as [->|Hne0].
      * destruct (String.eqb_spec k' k) as [->|_]; [congruence|reflexivity].
      * exact IH.
Qed.

Lemma keys_ensure obj k init :
  map fst (Js.Dict.ensure k init obj)
  = map fst obj ++ match Js.Dict.get k obj with Some _ => [] | None => [k] end.
Proof.
  unfold Js.Dict.ensure. destruct (Js.Dict.get k obj).
  - now rewrite app_nil_r.
  - now rewrite map_app.
Qed.

Lemma get_ensure obj k init k0 :
  Js.Dict.get k0 (Js.Dict.ensure k init obj)
  = match Js.Dict.get k0 obj with
    | Some v => Some v
    | None => if String.eqb k0 k then Some init else None
    end.
Proof.
  unfold Js.Dict.ensure. destruct (Js.Dict.get k obj) eqn:E.
  - destruct (Js.Dict.get k0 obj) eqn:E0; [reflexivity|].
    destruct (String.eqb_spec k0 k) as [->|_]; [congruence|reflexivity].
  - rewrite get_app. simpl. reflexivity.
Qed.
End DictFacts.

Section Accumulate.
Context {E T : Type} (key : E -> string) (init : T) (step : T -> E -> T).

Lemma accumulate_snoc l e :
  accumulate key init step (l ++ [e])
  = Js.Dict.update (key e) (fun v => step v e)
      (Js.Dict.ensure (key e) init (accumulate key init step l)).
Proof. unfold accumulate. now rewrite fold_left_app. Qed.

Lemma groupOf_snoc k l e :
  groupOf key k (l ++ [e])
  = groupOf key k l ++ (if String.eqb (key e) k then [e] else []).
Proof. unfold groupOf. rewrite filter_app. simpl. now destruct (String.eqb (key e) k). Qed.

(** The value filed under [k] is the fold of [step] over the elements with
    that key, and there is one exactly when such an element exists. *)
Lemma get_accumulate l k :
  Js.Dict.get k (accumulate key init step l)
  = match groupOf key k l with
    | [] => None
    | g => Some (fold_left step g init)
    end.
Proof.
  induction l as [|e l IH] using rev_ind; [reflexivity|].
  rewrite accumulate_snoc, get_update, get_ensure, IH, groupOf_snoc.
  rewrite (String.eqb_sym k (key e)).
  destruct (String.eqb (key e) k) eqn:Ek.
  - destruct (groupOf key k l) as [|x g] eqn:Eg; simpl; [reflexivity|].
    now rewrite fold_left_app.
  - rewrite app_nil_r. now destruct (groupOf key k l).
Qed.

Lemma groupOf_nil_iff k l : groupOf key k l = [] <-> ~ In k (map key l).
Proof.
  unfold groupOf. induction l as [|e l IH]; simpl; [tauto|].
  destruct (String.eqb_spec (key e) k) as [->|Hne].
  - split; [discriminate|]. intros H. exfalso. apply H. now left.
  - rewrite IH. tauto.
Qed.

Lemma keys_accumulate_iff l k :
  In k (map fst (accumulate key init step l)) <-> In k (map key l).
Proof.
  pose proof (get_None_keys (accumulate key init step l) k) as Hn.
  rewrite get_accumulate in Hn. pose proof (groupOf_nil_iff k l) as Hg.
  destruct (groupOf key k l) as [|x g].
  - assert (~ In k (map key l)) by now apply Hg.
    assert (~ In k (map fst (accumulate key init step l))) by now apply Hn.
    tauto.
  - destruct (in_dec string_dec k (map key l)) as [H1|H1];
      [|apply Hg in H1; discriminate].
    destruct (in_dec string_dec k (map fst (accumulate key init step l)))
      as [H2|H2]; [tauto|apply Hn in H2; discriminate].
Qed.

Lemma keys_accumulate_NoDup l :
  NoDup (map fst (accumulate key init step l)).
Proof.
  induction l as [|e l IH] using rev_ind; [constructor|].
  rewrite accumulate_snoc, keys_update, keys_ensure.
  destruct (Js.Dict.get (key e) (accumulate key init step l)) eqn:Eg.
  - now rewrite app_nil_r.
  - apply get_None_keys in Eg.
    apply NoDup_app; [exact IH|repeat constructor; simpl; tauto|].
    intros x Hx [<-|[]]. contradiction.
Qed.
End Accumulate.

Lemma get_accumulate_Some {E T} (key : E -> string) (init : T) step l k v :
  Js.Dict.get k (accumulate key init step l) = Some v ->
  v = fold_left step (groupOf key k l) init.
Proof.
  rewrite get_accumulate. destruct (groupOf key k l); [discriminate|].
  now intros [= <-].
Qed.

Section Sorting.
Context {A : Type} (le : A -> A -> bool).

Lemma insert_sorted_perm x l : Permutation (x :: l) (Js.insert_sorted le x l).
Proof.
  induction l as [|y l IH]; simpl; [reflexivity|].
  destruct (le x y); [reflexivity|].
  etransitivity; [apply perm_swap|]. now apply perm_skip.
Qed.

Lemma sort_perm l : Permutation l (Js.sort le l).
Proof.
  induction l as [|x l IH]; simpl; [constructor|].
  etransitivity; [apply perm_skip, IH|apply insert_sorted_perm].
Qed.

Lemma sort_In l x : In x (Js.sort le l) <-> In x l.
Proof.
  split; apply Permutation_in; [symmetry|]; apply sort_perm.
Qed.

Hypothesis le_total : forall a b, le a b = false -> le b a = true.

Lemma insert_sorted_HdRel x y l :
  le y x = true -> HdRel (fun a b => le a b = true) y l ->
  HdRel (fun a b => le a b = true) y (Js.insert_sorted le x l).
Proof.
  intros Hyx Hhd. destruct l as [|z l]; simpl; [now constructor|].
  destruct (le x z); constructor; [exact Hyx|now inversion Hhd].
Qed.

Lemma insert_sorted_Sorted x l :
  Sorted (fun a b => le a b = true) l ->
  Sorted (fun a b => le a b = true) (Js.insert_sorted le x l).
Proof.
  induction 1 as [|y l Hs IH Hhd]; simpl; [repeat constructor|].
  destruct (le x y) eqn:E.
  - repeat constructor; assumption.
  - constructor; [exact IH|]. apply insert_sorted_HdRel; [|exact Hhd].
    now apply le_total.
Qed.

Lemma sort_Sorted l : Sorted (fun a b => le a b = true) (Js.sort le l).
Proof.
  induction l as [|x l IH]; simpl; [constructor|now apply insert_sorted_Sorted].
Qed.

Hypothesis le_trans : forall a b c, le a b = true -> le b c = true -> le a c = true.

Lemma sort_StronglySorted l :
  StronglySorted (fun a b => le a b = true) (Js.sort le l).
Proof.
  apply Sorted_StronglySorted; [|apply sort_Sorted].
  intros a b c. apply le_trans.
Qed.
End Sorting.

Lemma by_date_perm l : Permutation l (Db.by_date l).
Proof. apply sort_perm. Qed.

Lemma gt0_true x : Js.gt0 x = true <-> 0 < x.
Proof.
  unfold Js.gt0. rewrite negb_true_iff. split.
  - intros H. apply Qnot_le_lt. intros Hle. apply Qle_bool_iff in Hle. congruence.
  - intros H. destruct (Qle_bool x 0) eqn:E; [|reflexivity].
    apply Qle_bool_iff in E. exfalso. apply (Qlt_not_le _ _ H E).
Qed.

Lemma gt0_false x : Js.gt0 x = false <-> ~ 0 < x.
Proof. rewrite <- gt0_true. destruct (Js.gt0 x); split; congruence. Qed.

Lemma sumQ_perm f l l' : Permutation l l' -> sumQ f l == sumQ f l'.
Proof.
  induction 1 as [|x l l' _ IH|x y l|l l' l'' _ IH1 _ IH2]; simpl.
  - reflexivity.
  - now rewrite IH.
  - ring.
  - now rewrite IH1.
Qed.

(** ** Plain objects *)

Section ObjFacts.
Context {T : Type}.
Implicit Types (obj : list (string * T)) (k : string).

Lemma own_get obj k : Js.Obj.own k obj = Js.Dict.get k obj.
Proof.
  induction obj as [|[k' v] obj IH]; simpl; [reflexivity|]. now rewrite IH.
Qed.

Lemma Obj_update_Dict obj k f : Js.Obj.update k f obj = Js.Dict.update k f obj.
Proof.
  induction obj as [|[k' v] obj IH]; simpl; [reflexivity|]. now rewrite IH.
Qed.

Lemma update_absent obj k f : Js.Dict.get k obj = None -> Js.Dict.update k f obj = obj.
Proof.
  induction obj as [|[k' v] obj IH]; simpl; [reflexivity|].
  destruct (String.eqb k k'); [discriminate|]. intros H. now rewrite IH.
Qed.

(** Under a name that is not inherited a plain object behaves as the
    association list does. *)
Lemma ensure_plain obj k init :
  Js.inherited k = false -> Js.Obj.ensure k init obj = Js.Dict.ensure k init obj.
Proof.
  intros Hk. unfold Js.Obj.ensure, Js.Obj.lacks, Js.Dict.ensure.
  rewrite own_get, Hk. now destruct (Js.Dict.get k obj).
Qed.

(** Under an inherited name nothing is created. *)
Lemma ensure_inherited obj k init :
  Js.inherited k = true -> Js.Obj.ensure k init obj = obj.
Proof.
  intros Hk. unfold Js.Obj.ensure, Js.Obj.lacks.
  rewrite Hk. now destruct (Js.Obj.own k obj).
Qed.

Lemma plainKeyed_step obj k init f :
  Js.inherited k = false -> plainKeyed obj ->
  plainKeyed (Js.Dict.update k f (Js.Dict.ensure k init obj)).
Proof.
  intros Hk Hobj k0 Hk0. rewrite get_update, get_ensure, (Hobj k0 Hk0).
  destruct (String.eqb_spec k0 k) as [->|_]; [congruence|reflexivity].
Qed.

Lemma filter_split {A} (p : A -> bool) (l : list A) :
  Permutation (filter p l ++ filter (fun x => negb (p x)) l) l.
Proof.
  induction l as [|x l IH]; simpl; [constructor|].
  destruct (p x); simpl.
  - now constructor.
  - symmetry. apply Permutation_cons_app. now symmetry.
Qed.

Lemma indexed_filter obj :
  map snd (Js.Obj.indexed obj)
  = filter (fun kv => match Js.array_index (fst kv) with
                      | Some _ => true
                      | None => false
                      end) obj.
Proof.
  unfold Js.Obj.indexed.
  induction obj as [|kv obj IH]; simpl; [reflexivity|].
  destruct (Js.array_index (fst kv)); simpl; now rewrite IH.
Qed.

(** [Object.entries] enumerates every own property once. *)
Lemma entries_perm obj : Permutation (Js.Obj.entries obj) obj.
Proof.
  unfold Js.Obj.entries.
  etransitivity; [|apply (filter_split
                            (fun kv => match Js.array_index (fst kv) with
                                       | Some _ => true
                                       | None => false
                                       end))].
  apply Permutation_app.
  - rewrite <- indexed_filter. apply Permutation_map. symmetry. apply sort_perm.
  - apply Permutation_refl'. apply filter_ext.
    intros kv. now destruct (Js.array_index (fst kv)).
Qed.

Lemma entries_In obj kv : In kv (Js.Obj.entries obj) <-> In kv obj.
Proof.
  split; apply Permutation_in; [|symmetry]; apply entries_perm.
Qed.
End ObjFacts.

Section AccumulateObj.
Context {E T : Type} (key : E -> string).

Lemma accumulateObj_from (init : T) (step : T -> E -> T) l obj :
  plainKeyed obj ->
  fold_left
    (fun obj e =>
       Js.Obj.update (key e) (fun v => step v e) (Js.Obj.ensure (key e) init obj))
    l obj
  = fold_left
      (fun obj e =>
         Js.Dict.update (key e) (fun v => step v e)
                        (Js.Dict.ensure (key e) init obj))
      (filter (fun e => negb (Js.inherited (key e))) l) obj.
Proof.
  revert obj. induction l as [|e l IH]; intros obj Hobj; simpl; [reflexivity|].
  destruct (Js.inherited (key e)) eqn:Hk; simpl.
  - rewrite ensure_inherited, Obj_update_Dict, update_absent by auto.
    now apply IH.
  - rewrite ensure_plain, Obj_update_Dict by exact Hk.
    apply IH. now apply plainKeyed_step.
Qed.

(** The loop over a plain object groups the elements whose key is not an
    inherited name, and loses the others. *)
Lemma accumulateObj_plain (init : T) (step : T -> E -> T) l :
  accumulateObj key init step l
  = accumulate key init step (filter (fun e => negb (Js.inherited (key e))) l).
Proof. apply accumulateObj_from. intros k _. reflexivity. Qed.

Lemma strict_thrown (init : E -> T) (step : T -> E -> T) l msg :
  fold_left
    (fun acc e =>
       obj <- acc ;;
       let obj := Js.Obj.ensure (key e) (init e) obj in
       match Js.Obj.own (key e) obj with
       | Some _ => Returned (Js.Obj.update (key e) (fun v => step v e) obj)
       | None => Thrown "TypeError"
       end)
    l (Thrown msg)
  = Thrown msg.
Proof. induction l as [|e l IH]; simpl; [reflexivity|exact IH]. Qed.

Lemma accumulateStrict_from (init : E -> T) (step : T -> E -> T) l obj :
  plainKeyed obj ->
  fold_left
    (fun acc e =>
       obj <- acc ;;
       let obj := Js.Obj.ensure (key e) (init e) obj in
       match Js.Obj.own (key e) obj with
       | Some _ => Returned (Js.Obj.update (key e) (fun v => step v e) obj)
       | None => Thrown "TypeError"
       end)
    l (Returned obj)
  = if inheritedKey key l then Thrown "TypeError"
    else Returned
           (fold_left
              (fun obj e =>
                 Js.Dict.update (key e) (fun v => step v e)
                                (Js.Dict.ensure (key e) (init e) obj))
              l obj).
Proof.
  revert obj. induction l as [|e l IH]; intros obj Hobj; simpl; [reflexivity|].
  destruct (Js.inherited (key e)) eqn:Hk; simpl.
  - rewrite ensure_inherited, own_get, (Hobj _ Hk) by exact Hk.
    apply strict_thrown.
  - rewrite ensure_plain, own_get, get_ensure, String.eqb_refl by exact Hk.
    destruct (Js.Dict.get (key e) obj) eqn:Eg.
    + rewrite Obj_update_Dict. apply IH. now apply plainKeyed_step.
    + rewrite Obj_update_Dict. apply IH. now apply plainKeyed_step.
Qed.

(** The loop that calls a method of the group throws when some key is an
    inherited name, and groups every element otherwise. *)
Lemma accumulateStrict_cases (init : E -> T) (step : T -> E -> T) l :
  accumulateStrict key init step l
  = if inheritedKey key l then Thrown "TypeError"
    else Returned (accumulateFrom key init step l).
Proof. apply accumulateStrict_from. intros k _. reflexivity. Qed.
End AccumulateObj.

Lemma groupKeys_NoDup {E} (key : E -> string) l : NoDup (groupKeys key l).
Proof. apply NoDup_nodup. Qed.

Lemma groupKeys_In {E} (key : E -> string) l k :
  In k (groupKeys key l) <-> In k (map key l) /\ Js.inherited k = false.
Proof.
  unfold groupKeys. rewrite nodup_In, filter_In, negb_true_iff. tauto.
Qed.

Lemma map_key_filter {E} (key : E -> string) (p : string -> bool) (l : list E) :
  map key (filter (fun e => p (key e)) l) = filter p (map key l).
Proof.
  induction l as [|e l IH]; simpl; [reflexivity|].
  destruct (p (key e)); simpl; now rewrite IH.
Qed.

(** A plain object holds one group per key that is not an inherited name. *)
Lemma keys_accumulateObj {E T} (key : E -> string) (init : T) step l :
  Permutation (map fst (accumulateObj key init step l)) (groupKeys key l).
Proof.
  rewrite accumulateObj_plain.
  apply NoDup_Permutation;
    [apply keys_accumulate_NoDup|apply groupKeys_NoDup|].
  intros k. rewrite keys_accumulate_iff, groupKeys_In.
  rewrite (map_key_filter key (fun k => negb (Js.inherited k))).
  rewrite filter_In, negb_true_iff. tauto.
Qed.

Lemma groupOf_plain {E} (key : E -> string) k (l : list E) :
  Js.inherited k = false ->
  groupOf key k (filter (fun e => negb (Js.inherited (key e))) l)
  = groupOf key k l.
Proof.
  intros Hk. unfold groupOf. induction l as [|e l IH]; simpl; [reflexivity|].
  destruct (Js.inherited (key e)) eqn:He; simpl.
  - destruct (String.eqb_spec (key e) k) as [Heq|_]; [congruence|exact IH].
  - destruct (String.eqb (key e) k); now rewrite IH.
Qed.

Lemma inheritedKey_false {E} (key : E -> string) (l : list E) :
  inheritedKey key l = false ->
  filter (fun e => negb (Js.inherited (key e))) l = l.
Proof.
  unfold inheritedKey. induction l as [|e l IH]; simpl; [reflexivity|].
  intros H. apply orb_false_iff in H. destruct H as [-> H]. simpl.
  now rewrite IH.
Qed.

Lemma Permutation_in_iff_dates (l l' : list Entry.t) :
  Permutation l l' ->
  forall d, In d (map Entry.date l) <-> In d (map Entry.date l').
Proof.
  intros Hp d. split; apply Permutation_in, Permutation_map;
    [exact Hp|now symmetry].
Qed.

Lemma groupOf_perm {E} (key : E -> string) k l l' :
  Permutation l l' -> Permutation (groupOf key k l) (groupOf key k l').
Proof. apply filter_perm. Qed.

(** ** Doubles and rounding *)

Lemma round_even_near x : Qabs (inject_Z (Js.round_even x) - x) <= 1 # 2.
Proof.
  unfold Js.round_even.
  pose proof (Qfloor_le x) as Hlo. pose proof (Qlt_floor x) as Hhi.
  rewrite inject_Z_plus in Hhi. change (inject_Z 1) with 1 in Hhi.
  set (f := Qfloor x) in *.
  apply Qabs_Qle_condition.
  destruct (Qcompare_spec (x - inject_Z f) (1 # 2)) as [He|He|He].
  - destruct (Z.even f).
    + split; lra.
    + rewrite inject_Z_plus. change (inject_Z 1) with 1. split; lra.
  - split; lra.
  - rewrite inject_Z_plus. change (inject_Z 1) with 1. split; lra.
Qed.

Lemma two_pow_pos z : 0 < 2 ^ z.
Proof. apply Qpower_0_lt. reflexivity. Qed.

Lemma inject_pow2 n : (0 <= n)%Z -> inject_Z (2 ^ n) == 2 ^ n.
Proof. intros H. rewrite Zpower_Qpower by exact H. reflexivity. Qed.

Lemma Qabs_frac q : Qabs q * inject_Z (Zpos (Qden q)) == inject_Z (Z.abs (Qnum q)).
Proof.
  destruct q as [n d]. unfold Qabs, Qeq, Qmult, inject_Z. simpl. lia.
Qed.

(** [Js.binade] is the binade. *)
Lemma binade_spec q :
  ~ q == 0 -> 2 ^ Js.binade q <= Qabs q /\ Qabs q < 2 ^ (Js.binade q + 1).
Proof.
  intros Hq. unfold Js.binade.
  set (n := Z.abs (Qnum q)). set (d := Zpos (Qden q)).
  assert (Hn : (0 < n)%Z).
  { unfold n. destruct q as [[|p|p] dd]; simpl; try lia. exfalso. apply Hq. reflexivity. }
  assert (Hd : (0 < d)%Z) by (unfold d; lia).
  pose proof (Z.log2_spec n Hn) as [Hn1 Hn2].
  pose proof (Z.log2_spec d Hd) as [Hd1 Hd2].
  pose proof (Z.log2_nonneg n) as Hln. pose proof (Z.log2_nonneg d) as Hld.
  set (ln := Z.log2 n) in *. set (ld := Z.log2 d) in *.
  pose proof (Qabs_frac q) as Hfrac. fold n in Hfrac. fold d in Hfrac.
  assert (Hdq : 0 < inject_Z d) by (change 0 with (inject_Z 0); rewrite <- Zlt_Qlt; exact Hd).
  assert (Hn1q : 2 ^ ln <= inject_Z n).
  { rewrite <- inject_pow2 by exact Hln. rewrite <- Zle_Qle. exact Hn1. }
  assert (Hn2q : inject_Z n < 2 ^ (ln + 1)).
  { rewrite <- inject_pow2 by lia. rewrite <- Zlt_Qlt. rewrite <- Z.add_1_r in Hn2. exact Hn2. }
  assert (Hd1q : 2 ^ ld <= inject_Z d).
  { rewrite <- inject_pow2 by exact Hld. rewrite <- Zle_Qle. exact Hd1. }
  assert (Hd2q : inject_Z d < 2 ^ (ld + 1)).
  { rewrite <- inject_pow2 by lia. rewrite <- Zlt_Qlt. rewrite <- Z.add_1_r in Hd2. exact Hd2. }
  assert (H2 : ~ 2 == 0) by (intros H; discriminate H).
  destruct (Qle_bool (2 ^ (ln - ld)) (Qabs q)) eqn:Ht.
  - apply Qle_bool_iff in Ht. split; [exact Ht|].
    apply Qmult_lt_r with (z := inject_Z d); [exact Hdq|].
    rewrite Hfrac.
    apply Qlt_le_trans with (1 := Hn2q).
    replace (ln + 1)%Z with ((ln - ld + 1) + ld)%Z by lia.
    rewrite Qpower_plus by exact H2.
    apply Qmult_le_l; [apply two_pow_pos | exact Hd1q].
  - assert (Hlt : Qabs q < 2 ^ (ln - ld)).
    { apply Qnot_le_lt. intros H. apply Qle_bool_iff in H. congruence. }
    replace (ln - ld - 1 + 1)%Z with (ln - ld)%Z by lia.
    split; [|exact Hlt].
    apply Qmult_le_r with (z := inject_Z d); [exact Hdq|].
    rewrite Hfrac.
    apply Qle_trans with (2 := Hn1q).
    replace ln with ((ln - ld - 1) + (ld + 1))%Z at 2 by lia.
    rewrite Qpower_plus by exact H2.
    apply Qmult_le_l; [apply two_pow_pos | apply Qlt_le_weak; exact Hd2q].
Qed.

(** The nearest double is within one unit roundoff. *)
Lemma fl_near q : near unitRoundoff q (Js.fl q).
Proof.
  unfold near, unitRoundoff, Js.fl. destruct (Qeq_bool q 0) eqn:E.
  - apply Qeq_bool_eq in E. rewrite E. discriminate.
  - assert (Hq : ~ q == 0) by (intros H; apply Qeq_eq_bool in H; congruence).
    destruct (binade_spec q Hq) as [Hlo _].
    unfold Js.ulp. set (e := Js.binade q) in *.
    pose proof (two_pow_pos (e - 52)) as Hu.
    assert (Hue : 2 ^ (e - 52) * 4503599627370496 == 2 ^ e).
    { replace e with ((e - 52) + 52)%Z at 2 by lia.
      rewrite Qpower_plus by (intros H; discriminate H). reflexivity. }
    set (u := 2 ^ (e - 52)) in *.
    pose proof (round_even_near (q / u)) as Hr.
    set (m := inject_Z (Js.round_even (q / u))) in *.
    assert (Heq : m * u - q == (m - q / u) * u) by (field; lra).
    rewrite Heq, Qabs_Qmult. rewrite (Qabs_pos u) by lra.
    apply Qle_trans with ((1 # 2) * u).
    + apply Qmult_le_compat_r; [exact Hr | lra].
    + lra.
Qed.

Lemma near_abs r x y : near r x y -> Qabs y <= Qabs x + Qabs x * r.
Proof.
  unfold near. intros H.
  assert (y == x + (y - x)) as Hy by ring.
  rewrite Hy at 1. eapply Qle_trans; [apply Qabs_triangle|]. lra.
Qed.

Lemma near_trans r1 r2 x y z :
  0 <= r2 -> near r1 x y -> near r2 y z -> near (r1 + r2 + r1 * r2) x z.
Proof.
  intros Hr2 H1 H2. pose proof (near_abs _ _ _ H1) as Ha.
  unfold near in *.
  assert (z - x == (z - y) + (y - x)) as Hz by ring.
  rewrite Hz. eapply Qle_trans; [apply Qabs_triangle|].
  assert (Qabs y * r2 <= (Qabs x + Qabs x * r1) * r2) as Hb
      by (apply Qmult_le_compat_r; assumption).
  lra.
Qed.

Lemma near_scale r c x y : near r x y -> near r (x * c) (y * c).
Proof.
  unfold near. intros H.
  assert (y * c - x * c == (y - x) * c) as He by ring.
  rewrite He, !Qabs_Qmult.
  assert (Qabs x * Qabs c * r == Qabs x * r * Qabs c) as Hc by ring.
  rewrite Hc. apply Qmult_le_compat_r; [exact H|apply Qabs_nonneg].
Qed.

Lemma near_weaken r r' x y : r <= r' -> near r x y -> near r' x y.
Proof.
  unfold near. intros Hr H. eapply Qle_trans; [exact H|].
  rewrite !(Qmult_comm (Qabs x)).
  apply Qmult_le_compat_r; [exact Hr|apply Qabs_nonneg].
Qed.

(** [Math.round] of a product that is near [x * scale], divided by [scale]
    in doubles, is [x] rounded to a multiple of [1 / scale]. *)
Lemma rounded_of_near scale x p :
  near (8 * unitRoundoff) (x * scale) p ->
  roundedTo scale x (Js.fdiv (Js.Math_round p) scale).
Proof.
  intros Hp. unfold roundedTo. exists (Qfloor (p + (1 # 2))). split.
  - pose proof (Qfloor_le (p + (1 # 2))) as Hlo.
    pose proof (Qlt_floor (p + (1 # 2))) as Hhi.
    rewrite inject_Z_plus in Hhi. change (inject_Z 1) with 1 in Hhi.
    set (n := inject_Z (Qfloor (p + (1 # 2)))) in *.
    unfold near in Hp. apply Qabs_Qle_condition in Hp.
    apply Qabs_Qle_condition. split; lra.
  - apply fl_near.
Qed.

Lemma relErr_two :
  unitRoundoff + unitRoundoff + unitRoundoff * unitRoundoff <= 8 * unitRoundoff.
Proof. unfold unitRoundoff. apply Qle_bool_imp_le. reflexivity. Qed.

Lemma unitRoundoff_nonneg : 0 <= unitRoundoff.
Proof. discriminate. Qed.


Lemma round1_rounded x : roundedTo 10 x (round1 x).
Proof.
  unfold round1. apply rounded_of_near.
  eapply near_weaken; [exact relErr_two|].
  eapply near_trans; [exact unitRoundoff_nonneg| |apply fl_near].
  apply near_scale, fl_near.
Qed.




(** ** The aggregator *)

(** The loop of running totals computes the four sums. *)
Lemma Totals_fold l acc :
  let r := fold_left Totals.add l acc in
  r.(Totals.totalForecastQuantity)
  == acc.(Totals.totalForecastQuantity)
     + sumQ (fun e => e.(Entry.forecastQuantity) ?? 0) l
  /\ r.(Totals.totalActualQuantity)
     == acc.(Totals.totalActualQuantity)
        + sumQ (fun e => e.(Entry.actualQuantity) ?? 0) l
  /\ r.(Totals.totalForecastHours)
     == acc.(Totals.totalForecastHours)
        + sumQ (fun e => e.(Entry.forecastHours) ?? 0) l
  /\ r.(Totals.totalActualHours)
     == acc.(Totals.totalActualHours)
        + sumQ (fun e => e.(Entry.actualHours) ?? 0) l.
Proof.
  revert acc. induction l as [|e l IH]; intros acc; simpl.
  - repeat split; ring.
  - destruct (IH (Totals.add acc e)) as (H1 & H2 & H3 & H4).
    simpl in *. rewrite H1, H2, H3, H4. repeat split; ring.
Qed.

Lemma Totals_of_entries l :
  let r := Totals.of_entries l in
  r.(Totals.totalForecastQuantity) == sumQ (fun e => e.(Entry.forecastQuantity) ?? 0) l
  /\ r.(Totals.totalActualQuantity) == sumQ (fun e => e.(Entry.actualQuantity) ?? 0) l
  /\ r.(Totals.totalForecastHours) == sumQ (fun e => e.(Entry.forecastHours) ?? 0) l
  /\ r.(Totals.totalActualHours) == sumQ (fun e => e.(Entry.actualHours) ?? 0) l.
Proof.
  destruct (Totals_fold l Totals.zero) as (H1 & H2 & H3 & H4). simpl in *.
  rewrite H1, H2, H3, H4. repeat split; ring.
Qed.

Lemma ratioOrZero_spec num den :
  (0 < den -> ratioOrZero num den == num / den)
  /\ (~ 0 < den -> ratioOrZero num den == 0).
Proof.
  unfold ratioOrZero. split; intros H.
  - apply gt0_true in H. now rewrite H.
  - apply gt0_false in H. now rewrite H.
Qed.

Lemma kpiSpec_of_totals es es' :
  Permutation es es' ->
  let tot := Totals.of_entries es' in
  kpiSpec es
          tot.(Totals.totalForecastQuantity) tot.(Totals.totalActualQuantity)
          tot.(Totals.totalForecastHours) tot.(Totals.totalActualHours)
          (tot.(Totals.totalActualQuantity) - tot.(Totals.totalForecastQuantity))
          (ratioOrZero tot.(Totals.totalActualQuantity)
                       tot.(Totals.totalActualHours)).
Proof.
  intros Hp tot. destruct (Totals_of_entries es') as (H1 & H2 & H3 & H4).
  fold tot in H1, H2, H3, H4.
  unfold kpiSpec. rewrite !(sumQ_perm _ _ _ Hp).
  repeat split; try assumption; try reflexivity; apply ratioOrZero_spec.
Qed.

(** C5. A caller the gate admits gets the KPIs of the project, scope or
    activity asked for, and a Control Center caller those of all
    projects.  The totals a KPI query returns are the sums of the forecast
    and actual quantity and hours of the entries it aggregates, absent
    fields counting as 0; quantityVariance is totalActualQuantity minus
    totalForecastQuantity; productionRate is totalActualQuantity /
    totalActualHours when totalActualHours > 0 and 0 otherwise. *)
Theorem kpi_totals (ctx : Ctx) (db : DB) :
  (forall projectId k,
      getProjectKPIs ctx db projectId = Returned (Some k) ->
      kpiSpec (filter (fun e => String.eqb e.(Entry.projectId) projectId)
                      db.(dailyEntries))
              k.(ProjectKPIs.totalForecastQuantity)
              k.(ProjectKPIs.totalActualQuantity)
              k.(ProjectKPIs.totalForecastHours)
              k.(ProjectKPIs.totalActualHours)
              k.(ProjectKPIs.quantityVariance)
              k.(ProjectKPIs.productionRate))
  /\ (forall scopeId k,
         getScopeKPIs ctx db scopeId = Returned (Some k) ->
         kpiSpec (filter (fun e => String.eqb e.(Entry.scopeId) scopeId)
                         db.(dailyEntries))
                 k.(ScopeKPIs.totalForecastQuantity)
                 k.(ScopeKPIs.totalActualQuantity)
                 k.(ScopeKPIs.totalForecastHours)
                 k.(ScopeKPIs.totalActualHours)
                 k.(ScopeKPIs.quantityVariance)
                 k.(ScopeKPIs.productionRate))
  /\ (forall activityId k,
         getActivityKPIs ctx db activityId = Returned (Some k) ->
         kpiSpec (filter (fun e => String.eqb e.(Entry.activityId) activityId)
                         db.(dailyEntries))
                 k.(ActivityKPIs.totalForecastQuantity)
                 k.(ActivityKPIs.totalActualQuantity)
                 k.(ActivityKPIs.totalForecastHours)
                 k.(ActivityKPIs.totalActualHours)
                 k.(ActivityKPIs.quantityVariance)
                 k.(ActivityKPIs.productionRate))
  /\ (forall k,
         getAllProjectsKPIs ctx db = Returned (Some k) ->
         kpiSpec db.(dailyEntries)
                 k.(AllProjectsKPIs.totalForecastQuantity)
                 k.(AllProjectsKPIs.totalActualQuantity)
                 k.(AllProjectsKPIs.totalForecastHours)
                 k.(AllProjectsKPIs.totalActualHours)
                 k.(AllProjectsKPIs.quantityVariance)
                 k.(AllProjectsKPIs.productionRate))
  /\ (forall userId projectId,
         ctx.(getAuthUserId) = Some userId ->
         checkProjectAccess db userId projectId = true ->
         exists k, getProjectKPIs ctx db projectId = Returned (Some k))
  /\ (forall userId scopeId scope,
         ctx.(getAuthUserId) = Some userId ->
         Db.get_scope db scopeId = Some scope ->
         checkProjectAccess db userId scope.(Scope.projectId) = true ->
         exists k, getScopeKPIs ctx db scopeId = Returned (Some k))
  /\ (forall userId activityId activity,
         ctx.(getAuthUserId) = Some userId ->
         Db.get_activity db activityId = Some activity ->
         checkProjectAccess db userId activity.(Activity.projectId) = true ->
         exists k, getActivityKPIs ctx db activityId = Returned (Some k))
  /\ (forall userId,
         ctx.(getAuthUserId) = Some userId ->
         isControlCenter db userId = true ->
         exists k, getAllProjectsKPIs ctx db = Returned (Some k)).
Proof.
  repeat match goal with |- _ /\ _ => split end.
  - intros projectId k. unfold getProjectKPIs.
    destruct (getAuthUserId ctx) as [u|]; [|discriminate].
    destruct (checkProjectAccess db u projectId); simpl; [|discriminate].
    intros [= <-]. simpl. apply kpiSpec_of_totals, by_date_perm.
  - intros scopeId k. unfold getScopeKPIs.
    destruct (getAuthUserId ctx) as [u|]; [|discriminate].
    destruct (Db.get_scope db scopeId) as [scope|]; [|discriminate].
    destruct (checkProjectAccess db u _); simpl; [|discriminate].
    intros [= <-]. simpl. apply kpiSpec_of_totals, by_date_perm.
  - intros activityId k. unfold getActivityKPIs.
    destruct (getAuthUserId ctx) as [u|]; [|discriminate].
    destruct (Db.get_activity db activityId) as [activity|]; [|discriminate].
    destruct (checkProjectAccess db u _); simpl; [|discriminate].
    intros [= <-]. simpl. apply kpiSpec_of_totals, by_date_perm.
  - intros k. unfold getAllProjectsKPIs.
    destruct (getAuthUserId ctx) as [u|]; [|discriminate].
    destruct (isControlCenter db u); simpl; [|discriminate].
    intros [= <-]. simpl. apply kpiSpec_of_totals. reflexivity.
  - intros userId projectId Hu Hacc. unfold getProjectKPIs.
    rewrite Hu, Hacc. simpl. eexists. reflexivity.
  - intros userId scopeId scope Hu Hs Hacc. unfold getScopeKPIs.
    rewrite Hu, Hs, Hacc. simpl. eexists. reflexivity.
  - intros userId activityId activity Hu Ha Hacc. unfold getActivityKPIs.
    rewrite Hu, Ha, Hacc. simpl. eexists. reflexivity.
  - intros userId Hu Hcc. unfold getAllProjectsKPIs.
    rewrite Hu, Hcc. simpl. eexists. reflexivity.
Qed.

Lemma kpi_totals_witness :
  exists kp ks ka kall,
    getProjectKPIs (Sample.ctxOf "u_cc") Sample.dbTrend "p1" = Returned (Some kp)
    /\ getScopeKPIs (Sample.ctxOf "u_cc") Sample.dbTrend "s1" = Returned (Some ks)
    /\ getActivityKPIs (Sample.ctxOf "u_cc") Sample.dbTrend "a1"
       = Returned (Some ka)
    /\ getAllProjectsKPIs (Sample.ctxOf "u_cc") Sample.dbTrend
       = Returned (Some kall)
    /\ kp.(ProjectKPIs.totalActualQuantity) == 290
    /\ ks.(ScopeKPIs.totalForecastQuantity) == 300
    /\ ka.(ActivityKPIs.quantityVariance)
       == ka.(ActivityKPIs.totalActualQuantity)
          - ka.(ActivityKPIs.totalForecastQuantity)
    /\ kall.(AllProjectsKPIs.totalForecastHours) == 150.
Proof.
  destruct (kpi_totals (Sample.ctxOf "u_cc") Sample.dbTrend)
    as (Hp & Hs & Ha & Hall & Ep & Es & Ea & Eall).
  destruct (Ep "u_cc" "p1" eq_refl eq_refl) as [kp Hkp].
  destruct (Es "u_cc" "s1" (Scope.mk "s1" "p1" "Electrical") eq_refl eq_refl
               eq_refl) as [ks Hks].
  destruct (Ea "u_cc" "a1" (Activity.mk "a1" "s1" "p1" "Conduit" "ft")
               eq_refl eq_refl eq_refl) as [ka Hka].
  destruct (Eall "u_cc" eq_refl eq_refl) as [kall Hkall].
  exists kp, ks, ka, kall.
  destruct (Hp "p1" kp Hkp) as (_ & Hp2 & _).
  destruct (Hs "s1" ks Hks) as (Hs1 & _).
  destruct (Ha "a1" ka Hka) as (_ & _ & _ & _ & Ha5 & _).
  destruct (Hall kall Hkall) as (_ & _ & Hall3 & _).
  repeat match goal with |- _ /\ _ => split end; assumption.
Defined.

(** The scenario of the design document: a forecast of 100 units by 5
    workers for 8 hours, then actuals of 90 units by 5 workers for 8 hours
    on the same activity and date, leave one entry with 40 forecast hours,
    40 actual hours and the forecast untouched; the activity's KPIs are a
    quantity variance of -10 and a production rate of 90/40. *)
Lemma end_to_end_scenario :
  exists db1 db2 e k,
    submitForecast (Sample.ctxOf "u_cm") Sample.db0 Sample.forecastA1
    = Returned ("e_new", db1)
    /\ submitActuals (Sample.ctxOf "u_cm") db1 Sample.actualsA1
       = Returned ("e_new", db2)
    /\ dailyEntries db2 = [e]
    /\ e.(Entry.forecastQuantity) = Some 100
    /\ e.(Entry.forecastHours) = Some (5 * 8)
    /\ e.(Entry.actualQuantity) = Some 90
    /\ e.(Entry.actualHours) = Some (5 * 8)
    /\ getActivityKPIs (Sample.ctxOf "u_cm") db2 "a1" = Returned (Some k)
    /\ k.(ActivityKPIs.quantityVariance) == -10
    /\ k.(ActivityKPIs.productionRate) == 90 / 40.
Proof.
  do 4 eexists.
  repeat match goal with |- _ /\ _ => split end.
  all: vm_compute; reflexivity.
Qed.

Lemma weighted_iff e :
  weighted e = true
  <-> 0 < e.(Entry.forecastQuantity) ?? 0 /\ 0 < e.(Entry.forecastHours) ?? 0.
Proof. unfold weighted. now rewrite andb_true_iff, !gt0_true. Qed.

(** The per-date loop computes the two weighted sums over the entries that
    count. *)
Lemma TrendAcc_fold g acc :
  let r := fold_left TrendAcc.add g acc in
  r.(TrendAcc.weightSum)
  == acc.(TrendAcc.weightSum)
     + sumQ (fun e => e.(Entry.forecastHours) ?? 0) (filter weighted g)
  /\ r.(TrendAcc.weightedPFSum)
     == acc.(TrendAcc.weightedPFSum) + sumQ weightedPF (filter weighted g).
Proof.
  revert acc. induction g as [|e g IH]; intros acc; simpl.
  - split; ring.
  - destruct (IH (TrendAcc.add acc e)) as [H1 H2]. rewrite H1, H2.
    unfold TrendAcc.add. simpl. fold (weighted e).
    destruct (weighted e); simpl; unfold weightedPF; split; ring.
Qed.

Lemma weightSum_nonneg l :
  0 <= sumQ (fun e => e.(Entry.forecastHours) ?? 0) (filter weighted l).
Proof.
  induction l as [|e l IH]; simpl; [apply Qle_refl|].
  destruct (weighted e) eqn:E; [|exact IH]. simpl.
  apply weighted_iff in E. destruct E as [_ E]. lra.
Qed.

Lemma sumsOf_perm es es' a b c d :
  Permutation es es' -> sumsOf es' a b c d -> sumsOf es a b c d.
Proof.
  intros Hp (H1 & H2 & H3 & H4). unfold sumsOf.
  rewrite !(sumQ_perm _ _ _ Hp). auto.
Qed.

Lemma TrendAcc_totals g acc :
  let r := fold_left TrendAcc.add g acc in
  r.(TrendAcc.totalForecast)
  == acc.(TrendAcc.totalForecast)
     + sumQ (fun e => e.(Entry.forecastQuantity) ?? 0) g
  /\ r.(TrendAcc.totalActual)
     == acc.(TrendAcc.totalActual)
        + sumQ (fun e => e.(Entry.actualQuantity) ?? 0) g
  /\ r.(TrendAcc.forecastHours)
     == acc.(TrendAcc.forecastHours)
        + sumQ (fun e => e.(Entry.forecastHours) ?? 0) g
  /\ r.(TrendAcc.actualHours)
     == acc.(TrendAcc.actualHours)
        + sumQ (fun e => e.(Entry.actualHours) ?? 0) g.
Proof.
  revert acc. induction g as [|e g IH]; intros acc; simpl.
  - repeat split; ring.
  - destruct (IH (TrendAcc.add acc e)) as (H1 & H2 & H3 & H4).
    simpl in *. rewrite H1, H2, H3, H4. repeat split; ring.
Qed.

Lemma TrendAcc_group g :
  let r := fold_left TrendAcc.add g TrendAcc.zero in
  sumsOf g r.(TrendAcc.totalForecast) r.(TrendAcc.totalActual)
         r.(TrendAcc.forecastHours) r.(TrendAcc.actualHours).
Proof.
  destruct (TrendAcc_totals g TrendAcc.zero) as (H1 & H2 & H3 & H4).
  simpl in *. unfold sumsOf. rewrite H1, H2, H3, H4. repeat split; ring.
Qed.

Section Trend.
Variable localeCompare : string -> string -> Z.

(** For a caller the gate admits, the rows of [getTrendData]: one per
    date of the project's entries in the range that is not a name
    inherited from [Object.prototype], each with the weighted production
    factor of its date. *)
Lemma getTrendData_rows ctx db userId projectId startDate endDate :
  ctx.(getAuthUserId) = Some userId ->
  checkProjectAccess db userId projectId = true ->
  exists points,
    getTrendData localeCompare ctx db projectId startDate endDate
    = Returned
        (Js.sort
           (fun a b =>
              (localeCompare a.(TrendPoint.date) b.(TrendPoint.date) <=? 0)%Z)
           points)
    /\ NoDup (map TrendPoint.date points)
    /\ (forall d,
           In d (map TrendPoint.date points)
           <-> In d (map Entry.date
                         (projectEntriesInRange db projectId startDate endDate))
               /\ Js.inherited d = false)
    /\ (forall row,
           In row points ->
           trendSpec (projectEntriesInRange db projectId startDate endDate) row
           /\ sumsOf (groupOf Entry.date row.(TrendPoint.date)
                              (projectEntriesInRange db projectId
                                                     startDate endDate))
                     row.(TrendPoint.totalForecast) row.(TrendPoint.totalActual)
                     row.(TrendPoint.forecastHours) row.(TrendPoint.actualHours)).
Proof.
  intros Hauth Hacc. unfold getTrendData. rewrite Hauth, Hacc. simpl.
  eexists. split; [reflexivity|].
  set (es := filter (inRange startDate endDate) (Db.entries_by_project db projectId)).
  rewrite accumulateObj_plain.
  set (plain := filter (fun e => negb (Js.inherited (Entry.date e))) es).
  set (obj := accumulate Entry.date TrendAcc.zero TrendAcc.add plain).
  assert (Permutation (projectEntriesInRange db projectId startDate endDate) es)
    as Hperm.
  { unfold projectEntriesInRange, es, Db.entries_by_project.
    apply filter_perm, by_date_perm. }
  match goal with
  | |- context [map ?mk (Js.Obj.entries obj)] => set (point := mk)
  end.
  assert (Permutation (map TrendPoint.date (map point (Js.Obj.entries obj)))
                      (map fst obj)) as Hkeys.
  { rewrite map_map. apply (Permutation_map fst (entries_perm obj)). }
  assert (forall d, In d (map fst obj)
                    <-> In d (map Entry.date es) /\ Js.inherited d = false)
    as Hobj.
  { intros d. unfold obj, plain. rewrite keys_accumulate_iff.
    rewrite (map_key_filter Entry.date (fun k => negb (Js.inherited k))).
    rewrite filter_In, negb_true_iff. tauto. }
  split; [|split].
  - eapply Permutation_NoDup; [symmetry; exact Hkeys|].
    apply keys_accumulate_NoDup.
  - intros d. rewrite (Permutation_in_iff_dates _ _ Hperm d), <- Hobj.
    split; apply Permutation_in; [exact Hkeys|now symmetry].
  - intros row Hrow. apply in_map_iff in Hrow.
    destruct Hrow as [[k v] [<- Hkv]]. apply (proj1 (entries_In _ _)) in Hkv.
    assert (Js.inherited k = false) as Hk.
    { assert (In k (map fst obj)) as Hin by exact (in_map fst _ _ Hkv).
      apply Hobj in Hin. tauto. }
    apply In_get in Hkv; [|apply keys_accumulate_NoDup].
    apply get_accumulate_Some in Hkv. subst v.
    unfold plain. rewrite (groupOf_plain Entry.date k es Hk).
    split.
    2:{ unfold point. cbn [TrendPoint.date TrendPoint.totalForecast
          TrendPoint.totalActual TrendPoint.forecastHours
          TrendPoint.actualHours fst snd].
        eapply sumsOf_perm; [apply groupOf_perm, Hperm|].
        apply TrendAcc_group. }
    destruct (TrendAcc_fold (groupOf Entry.date k es) TrendAcc.zero) as [Hw Hp].
    simpl in Hw, Hp. rewrite Qplus_0_l in Hw, Hp.
    assert (Permutation
              (filter weighted
                      (filter (fun e => String.eqb (Entry.date e) k)
                              (projectEntriesInRange db projectId startDate endDate)))
              (filter weighted (groupOf Entry.date k es))) as Hday.
    { unfold groupOf. now do 2 apply filter_perm. }
    pose proof (sumQ_perm (fun e => Entry.forecastHours e ?? 0) _ _ Hday) as HW.
    pose proof (sumQ_perm weightedPF _ _ Hday) as HP.
    pose proof (weightSum_nonneg (groupOf Entry.date k es)) as Hnn.
    unfold trendSpec, point. cbv zeta.
    cbn [TrendPoint.date TrendPoint.productionFactor fst snd].
    set (r := fold_left TrendAcc.add (groupOf Entry.date k es) TrendAcc.zero) in *.
    destruct (Js.gt0 (TrendAcc.weightSum r)) eqn:Egt.
    + apply gt0_true in Egt. split; intros H0.
      * exfalso. rewrite HW, <- Hw in H0. lra.
      * now rewrite HW, HP, <- Hw, <- Hp.
    + apply gt0_false in Egt. split; intros H0; [reflexivity|].
      exfalso. apply H0. rewrite HW. lra.
Qed.

Hypothesis localeCompare_total :
  forall a b, (0 < localeCompare a b -> localeCompare b a <= 0)%Z.

(** Under a total collation the result ascends by date. *)
Lemma getTrendData_sorted (points : list TrendPoint.t) :
  Sorted (fun a b =>
            (localeCompare a.(TrendPoint.date) b.(TrendPoint.date) <= 0)%Z)
         (Js.sort
            (fun a b =>
               (localeCompare a.(TrendPoint.date) b.(TrendPoint.date) <=? 0)%Z)
            points).
Proof.
  set (cmp := fun a b : TrendPoint.t =>
                (localeCompare (TrendPoint.date a) (TrendPoint.date b) <=? 0)%Z).
  eapply Sorted_ind with (P := fun l => Sorted _ l);
    [constructor| |apply (sort_Sorted cmp)].
  - intros a l _ IH Hhd. constructor; [exact IH|].
    destruct Hhd as [|b l Hab]; constructor.
    unfold cmp in Hab. now apply Z.leb_le in Hab.
  - intros a b Hab. unfold cmp in *. apply Z.leb_le. apply Z.leb_gt in Hab.
    now apply localeCompare_total.
Qed.
End Trend.

Lemma compareDates_total a b :
  (0 < Sample.compareDates a b -> Sample.compareDates b a <= 0)%Z.
Proof.
  unfold Sample.compareDates. rewrite (String.compare_antisym a b).
  destruct (String.compare b a); simpl; lia.
Qed.

(** C6 (code bug).  The claim asks for one element per distinct date among
    the entries in the range.  [getTrendData] groups the dates as the
    property names of a plain object ([byDate[entry.date]]), and a date
    may be any string: under a name every object inherits from
    [Object.prototype] the test [!byDate[entry.date]] finds the inherited
    function and no group is created.  A manager assigned to the project
    submits a forecast dated 2024-06-01 and one dated ["constructor"];
    both entries are stored and both are in the range from 2024-06-01 to
    ["z"], and the trend returns the element of 2024-06-01 only. *)
Theorem trend_drops_inherited_dates :
  exists db row,
    run Sample.db0
        [ CallForecast (Sample.ctxOf "u_cm") Sample.forecastA1;
          CallForecast (mkCtx (Some "u_cm") 2000 "e_2")
                       (ForecastArgs.mk "a2" "constructor" 200 10 10 None) ]
    = Returned db
    /\ map Entry.date (projectEntriesInRange db "p1" "2024-06-01" "z")
       = ["2024-06-01"; "constructor"]
    /\ getTrendData Sample.compareDates (Sample.ctxOf "u_cm") db "p1"
                    "2024-06-01" "z"
       = Returned [row]
    /\ row.(TrendPoint.date) = "2024-06-01".
Proof.
  do 2 eexists. repeat split; vm_compute; reflexivity.
Qed.

(** ** The ranker *)

Section Ranking.
Context {A : Type} (pf : A -> Q).

Lemma byFactorDesc_true a b : byFactorDesc pf a b = true <-> pf b <= pf a.
Proof. unfold byFactorDesc. rewrite Qle_bool_iff. split; intros H; lra. Qed.

Lemma byFactorDesc_total a b :
  byFactorDesc pf a b = false -> byFactorDesc pf b a = true.
Proof.
  intros H. apply byFactorDesc_true.
  destruct (Qlt_le_dec (pf b) (pf a)) as [Hlt|Hle]; [|exact Hle].
  assert (byFactorDesc pf a b = true) by (apply byFactorDesc_true; lra).
  congruence.
Qed.

Lemma byFactorDesc_trans a b c :
  byFactorDesc pf a b = true -> byFactorDesc pf b c = true ->
  byFactorDesc pf a c = true.
Proof. rewrite !byFactorDesc_true. intros; lra. Qed.

Lemma sort_descending l :
  StronglySorted (fun a b => pf b <= pf a) (Js.sort (byFactorDesc pf) l).
Proof.
  pose proof (sort_StronglySorted (byFactorDesc pf) byFactorDesc_total
                                  byFactorDesc_trans l) as H.
  induction H as [|a l' _ IH Hall]; [constructor|].
  constructor; [exact IH|].
  eapply Forall_impl; [|exact Hall]. intros b. apply byFactorDesc_true.
Qed.

Lemma mapi_from_rank i (l : list A) :
  map rank (Js.mapi_from i withRank l) = seq (i + 1) (List.length l).
Proof.
  revert i. induction l as [|x l IH]; intros i; simpl; [reflexivity|].
  f_equal. now rewrite IH.
Qed.

Lemma mapi_from_rank_lb i (l : list A) r :
  In r (Js.mapi_from i withRank l) -> (i < rank r)%nat.
Proof.
  revert i. induction l as [|x l IH]; intros i; simpl; [contradiction|].
  intros [<-|Hin]; simpl; [lia|]. apply IH in Hin. lia.
Qed.

Lemma mapi_from_item i (l : list A) r :
  In r (Js.mapi_from i withRank l) -> In (item r) l.
Proof.
  revert i. induction l as [|x l IH]; intros i; simpl; [contradiction|].
  intros [<-|Hin]; [now left|right; eapply IH; eauto].
Qed.

Lemma mapi_from_sorted i (l : list A) :
  StronglySorted (fun a b => pf b <= pf a) l ->
  StronglySorted
    (fun a b => (rank a < rank b)%nat /\ pf (item b) <= pf (item a))
    (Js.mapi_from i withRank l).
Proof.
  intros H. revert i. induction H as [|x l _ IH Hall]; intros i; simpl;
    [constructor|].
  constructor; [apply IH|].
  apply Forall_forall. intros r Hr. split.
  - apply mapi_from_rank_lb in Hr. simpl. lia.
  - apply mapi_from_item in Hr. rewrite Forall_forall in Hall. now apply Hall.
Qed.

Lemma StronglySorted_pairs {B} (R : B -> B -> Prop) l a b :
  StronglySorted R l -> In a l -> In b l -> a = b \/ R a b \/ R b a.
Proof.
  induction 1 as [|x l Hs IH Hall]; simpl; [contradiction|].
  rewrite Forall_forall in Hall.
  intros [<-|Ha] [<-|Hb]; auto.
Qed.

Lemma mapi_from_length {B} i (f : A -> nat -> B) l :
  List.length (Js.mapi_from i f l) = List.length l.
Proof. revert i. induction l; intros i; simpl; [reflexivity|now f_equal]. Qed.

Lemma rankedSpec_addRank l :
  rankedSpec pf (addRank (Js.sort (byFactorDesc pf) l)).
Proof.
  unfold rankedSpec, addRank, Js.mapi.
  set (s := Js.sort (byFactorDesc pf) l).
  pose proof (mapi_from_sorted 0 s (sort_descending l)) as Hs.
  assert (map rank (Js.mapi_from 0 withRank s)
          = seq 1 (List.length (Js.mapi_from 0 withRank s))) as Hr.
  { now rewrite mapi_from_rank, mapi_from_length. }
  split; [exact Hr|]. split; [rewrite Hr; apply seq_NoDup|]. split.
  - eapply StronglySorted_ind with (P := fun l => StronglySorted _ l);
      [constructor| |exact Hs].
    intros a l' _ IH Hall. constructor; [exact IH|].
    eapply Forall_impl; [|exact Hall]. now intros b [_ H].
  - intros a b Ha Hb Hlt.
    destruct (StronglySorted_pairs _ _ a b Hs Ha Hb) as [->|[[H _]|[_ H]]].
    + lra.
    + exact H.
    + lra.
Qed.
End Ranking.

Lemma mapi_from_In {A B} (f : A -> nat -> B) n l r :
  In r (Js.mapi_from n f l) -> exists x i, In x l /\ r = f x i.
Proof.
  revert n. induction l as [|x l IH]; simpl; intros n; [tauto|].
  intros [<-|H].
  - exists x, n. auto.
  - apply IH in H. destruct H as (y & i & Hy & ->). exists y, i. auto.
Qed.

Lemma addRank_item {A} (l : list A) r : In r (addRank l) -> In (item r) l.
Proof.
  unfold addRank, Js.mapi. intros H. apply mapi_from_In in H.
  destruct H as (x & i & Hx & ->). exact Hx.
Qed.

Lemma addRank_items {A} (l : list A) : map item (addRank l) = l.
Proof.
  unfold addRank, Js.mapi. generalize 0%nat.
  induction l as [|a l IH]; intros n; simpl; [reflexivity|].
  now rewrite IH.
Qed.

Lemma ForemanAcc_fold l acc :
  let r := fold_left ForemanAcc.add l acc in
  r.(ForemanAcc.totalActualQuantity)
  == acc.(ForemanAcc.totalActualQuantity)
     + sumQ (fun e => e.(Entry.actualQuantity) ?? 0) l
  /\ r.(ForemanAcc.totalActualHours)
     == acc.(ForemanAcc.totalActualHours)
        + sumQ (fun e => e.(Entry.actualHours) ?? 0) l
  /\ r.(ForemanAcc.totalForecastQuantity)
     == acc.(ForemanAcc.totalForecastQuantity)
        + sumQ (fun e => e.(Entry.forecastQuantity) ?? 0) l
  /\ r.(ForemanAcc.totalForecastHours)
     == acc.(ForemanAcc.totalForecastHours)
        + sumQ (fun e => e.(Entry.forecastHours) ?? 0) l
  /\ r.(ForemanAcc.entriesCount)
     = (acc.(ForemanAcc.entriesCount) + List.length l)%nat.
Proof.
  revert acc. induction l as [|e l IH]; intros acc; simpl.
  - repeat split; solve [ring|lia].
  - destruct (IH (ForemanAcc.add acc e)) as (H1 & H2 & H3 & H4 & H5).
    simpl in *. rewrite H1, H2, H3, H4, H5. repeat split; solve [ring|lia].
Qed.

Lemma ScopeForemanAcc_fold l acc :
  let r := fold_left ScopeForemanAcc.add l acc in
  r.(ScopeForemanAcc.totalActualQuantity)
  == acc.(ScopeForemanAcc.totalActualQuantity)
     + sumQ (fun e => e.(Entry.actualQuantity) ?? 0) l
  /\ r.(ScopeForemanAcc.totalActualHours)
     == acc.(ScopeForemanAcc.totalActualHours)
        + sumQ (fun e => e.(Entry.actualHours) ?? 0) l
  /\ r.(ScopeForemanAcc.totalForecastQuantity)
     == acc.(ScopeForemanAcc.totalForecastQuantity)
        + sumQ (fun e => e.(Entry.forecastQuantity) ?? 0) l
  /\ r.(ScopeForemanAcc.totalForecastHours)
     == acc.(ScopeForemanAcc.totalForecastHours)
        + sumQ (fun e => e.(Entry.forecastHours) ?? 0) l
  /\ r.(ScopeForemanAcc.entriesCount)
     = (acc.(ScopeForemanAcc.entriesCount) + List.length l)%nat.
Proof.
  revert acc. induction l as [|e l IH]; intros acc; simpl.
  - repeat split; solve [ring|lia].
  - destruct (IH (ScopeForemanAcc.add acc e)) as (H1 & H2 & H3 & H4 & H5).
    simpl in *. rewrite H1, H2, H3, H4, H5. repeat split; solve [ring|lia].
Qed.

Lemma filterRange_perm s e l l' :
  Permutation l l' -> Permutation (filterRange s e l) (filterRange s e l').
Proof.
  intros Hp. unfold filterRange.
  destruct s as [s|], e as [e|]; try exact Hp.
  destruct (_ && _); [now apply filter_perm|exact Hp].
Qed.

Lemma totalsOf_perm es es' a b c d n :
  Permutation es es' -> totalsOf es' a b c d n -> totalsOf es a b c d n.
Proof.
  intros Hp (H1 & H2 & H3 & H4 & H5). unfold totalsOf.
  rewrite !(sumQ_perm _ _ _ Hp), (Permutation_length Hp). auto.
Qed.

Lemma inheritedKey_perm {E} (key : E -> string) (l l' : list E) :
  Permutation l l' -> inheritedKey key l = inheritedKey key l'.
Proof.
  unfold inheritedKey.
  induction 1 as [|x l l' _ IH|x y l|l l' l'' _ IH1 _ IH2]; simpl.
  - reflexivity.
  - now rewrite IH.
  - destruct (Js.inherited (key x)), (Js.inherited (key y)); reflexivity.
  - now rewrite IH1.
Qed.

Lemma groupKeys_perm {E} (key : E -> string) (l l' : list E) :
  Permutation l l' -> Permutation (groupKeys key l) (groupKeys key l').
Proof.
  intros Hp. apply NoDup_Permutation; try apply groupKeys_NoDup.
  intros k. rewrite !groupKeys_In.
  assert (In k (map key l) <-> In k (map key l')) as Hk
      by (split; apply Permutation_in, Permutation_map;
          [exact Hp|now symmetry]).
  tauto.
Qed.

(** Without inherited names the loop that throws and the loop that does
    not build the same object. *)
Lemma accumulateFrom_plain {E T} (key : E -> string) (init : T) step (l : list E) :
  inheritedKey key l = false ->
  accumulateFrom key (fun _ => init) step l = accumulateObj key init step l.
Proof.
  intros H. rewrite accumulateObj_plain, (inheritedKey_false key l H).
  reflexivity.
Qed.

(** The value a plain object files under a key: the fold over the
    elements of the key. *)
Lemma In_accumulateObj {E T} (key : E -> string) (init : T) step (l : list E) k v :
  In (k, v) (Js.Obj.entries (accumulateObj key init step l)) ->
  v = fold_left step (groupOf key k l) init
  /\ In k (groupKeys key l).
Proof.
  intros Hin. apply (proj1 (entries_In _ _)) in Hin.
  assert (In k (groupKeys key l)) as Hk.
  { eapply Permutation_in; [apply (keys_accumulateObj key init step l)|].
    exact (in_map fst _ _ Hin). }
  split; [|exact Hk].
  rewrite accumulateObj_plain in Hin.
  apply In_get in Hin; [|apply keys_accumulate_NoDup].
  apply get_accumulate_Some in Hin.
  apply groupKeys_In in Hk. destruct Hk as [_ Hk].
  now rewrite (groupOf_plain key k l Hk) in Hin.
Qed.

Lemma keys_entries_accumulateObj {E T} (key : E -> string) (init : T) step
      (l : list E) :
  Permutation (map fst (Js.Obj.entries (accumulateObj key init step l)))
              (groupKeys key l).
Proof.
  etransitivity; [apply Permutation_map, entries_perm|apply keys_accumulateObj].
Qed.

Lemma ForemanAcc_totals grp :
  let r := fold_left ForemanAcc.add grp ForemanAcc.zero in
  totalsOf grp r.(ForemanAcc.totalActualQuantity) r.(ForemanAcc.totalActualHours)
           r.(ForemanAcc.totalForecastQuantity) r.(ForemanAcc.totalForecastHours)
           r.(ForemanAcc.entriesCount).
Proof.
  destruct (ForemanAcc_fold grp ForemanAcc.zero) as (H1 & H2 & H3 & H4 & H5).
  simpl in *. unfold totalsOf. rewrite H1, H2, H3, H4, H5.
  repeat split; ring.
Qed.

Lemma ScopeForemanAcc_totals grp :
  let r := fold_left ScopeForemanAcc.add grp ScopeForemanAcc.zero in
  totalsOf grp r.(ScopeForemanAcc.totalActualQuantity)
           r.(ScopeForemanAcc.totalActualHours)
           r.(ScopeForemanAcc.totalForecastQuantity)
           r.(ScopeForemanAcc.totalForecastHours)
           r.(ScopeForemanAcc.entriesCount).
Proof.
  destruct (ScopeForemanAcc_fold grp ScopeForemanAcc.zero)
    as (H1 & H2 & H3 & H4 & H5).
  simpl in *. unfold totalsOf. rewrite H1, H2, H3, H4, H5.
  repeat split; ring.
Qed.

(** The project leaderboard of a caller the gate admits: it throws when
    an entry is filed under an inherited name, and otherwise ranks one
    row per grouping key. *)
Lemma project_board_throws ctx db userId projectId startDate endDate :
  ctx.(getAuthUserId) = Some userId ->
  checkProjectAccess db userId projectId = true ->
  inheritedKey foremanKey
    (filterRange startDate endDate (Db.entries_by_project db projectId)) = true ->
  getProjectLeaderboard ctx db projectId startDate endDate = Thrown "TypeError".
Proof.
  intros Hu Hg Hinh. unfold getProjectLeaderboard. rewrite Hu, Hg.
  simpl negb. cbv iota. rewrite accumulateStrict_cases, Hinh. reflexivity.
Qed.

Lemma project_board ctx db userId projectId startDate endDate :
  ctx.(getAuthUserId) = Some userId ->
  checkProjectAccess db userId projectId = true ->
  let entries :=
    filterRange startDate endDate (Db.entries_by_project db projectId) in
  inheritedKey foremanKey entries = false ->
  exists keyed : list (string * ProjectLeader.t),
    getProjectLeaderboard ctx db projectId startDate endDate
    = Returned
        (addRank (Js.sort (byFactorDesc ProjectLeader.productionFactor)
                          (map snd keyed)))
    /\ Permutation (map fst keyed) (groupKeys foremanKey entries)
    /\ forall k r,
         In (k, r) keyed ->
         projectRowOf db entries k r
         /\ r.(ProjectLeader.productionRate)
            = round2 (ratioOrZero r.(ProjectLeader.totalActualQuantity)
                                  r.(ProjectLeader.totalActualHours))
         /\ r.(ProjectLeader.productionFactor)
            = round2 (ratioOrZero r.(ProjectLeader.totalActualQuantity)
                                  r.(ProjectLeader.totalForecastQuantity))
         /\ r.(ProjectLeader.variancePercent)
            = round1 (varianceOrZero r.(ProjectLeader.totalActualQuantity)
                                     r.(ProjectLeader.totalForecastQuantity)).
Proof.
  intros Hu Hg entries Hinh. unfold getProjectLeaderboard. rewrite Hu, Hg.
  simpl negb. cbv iota. fold entries.
  rewrite accumulateStrict_cases, Hinh, accumulateFrom_plain by exact Hinh.
  simpl bind.
  set (obj := accumulateObj foremanKey ForemanAcc.zero ForemanAcc.add entries).
  match goal with
  | |- context [map ?mk (Js.Obj.entries obj)] => set (row := mk)
  end.
  exists (map (fun kv => (fst kv, row kv)) (Js.Obj.entries obj)).
  split; [|split].
  - rewrite map_map. reflexivity.
  - rewrite map_map. apply keys_entries_accumulateObj.
  - intros k r Hin. apply in_map_iff in Hin.
    destruct Hin as ([k' v] & [= <- <-] & Hin).
    apply In_accumulateObj in Hin. destruct Hin as [-> _].
    unfold row, projectRowOf. cbv zeta.
    cbn [fst snd ProjectLeader.foremanName ProjectLeader.totalActualQuantity
         ProjectLeader.totalActualHours ProjectLeader.totalForecastQuantity
         ProjectLeader.totalForecastHours ProjectLeader.entriesCount
         ProjectLeader.productionRate ProjectLeader.productionFactor
         ProjectLeader.variancePercent].
    split; [split; [reflexivity|]|repeat split].
    apply (ForemanAcc_totals (groupOf foremanKey k' entries)).
Qed.

(** The scope leaderboard of a caller the gate admits ranks one row per
    grouping key that is not an inherited name. *)
Lemma scope_board ctx db userId scopeId scope startDate endDate :
  ctx.(getAuthUserId) = Some userId ->
  Db.get_scope db scopeId = Some scope ->
  checkProjectAccess db userId scope.(Scope.projectId) = true ->
  let entries :=
    filterRange startDate endDate (Db.entries_by_scope db scopeId) in
  exists keyed : list (string * ScopeLeader.t),
    getScopeLeaderboard ctx db scopeId startDate endDate
    = Returned
        (addRank (Js.sort (byFactorDesc ScopeLeader.productionFactor)
                          (map snd keyed)))
    /\ Permutation (map fst keyed) (groupKeys foremanKey entries)
    /\ forall k r,
         In (k, r) keyed ->
         scopeRowOf db entries k r
         /\ r.(ScopeLeader.productionRate)
            = round2 (ratioOrZero r.(ScopeLeader.totalActualQuantity)
                                  r.(ScopeLeader.totalActualHours))
         /\ r.(ScopeLeader.productionFactor)
            = round2 (ratioOrZero r.(ScopeLeader.totalActualQuantity)
                                  r.(ScopeLeader.totalForecastQuantity))
         /\ r.(ScopeLeader.variancePercent)
            = round1 (varianceOrZero r.(ScopeLeader.totalActualQuantity)
                                     r.(ScopeLeader.totalForecastQuantity)).
Proof.
  intros Hu Hs Hg entries. unfold getScopeLeaderboard. rewrite Hu, Hs, Hg.
  simpl negb. cbv iota. fold entries.
  set (obj := accumulateObj foremanKey ScopeForemanAcc.zero ScopeForemanAcc.add
                            entries).
  match goal with
  | |- context [map ?mk (Js.Obj.entries obj)] => set (row := mk)
  end.
  exists (map (fun kv => (fst kv, row kv)) (Js.Obj.entries obj)).
  split; [|split].
  - rewrite map_map. reflexivity.
  - rewrite map_map. apply keys_entries_accumulateObj.
  - intros k r Hin. apply in_map_iff in Hin.
    destruct Hin as ([k' v] & [= <- <-] & Hin).
    apply In_accumulateObj in Hin. destruct Hin as [-> _].
    unfold row, scopeRowOf. cbv zeta.
    cbn [fst snd ScopeLeader.foremanName ScopeLeader.totalActualQuantity
         ScopeLeader.totalActualHours ScopeLeader.totalForecastQuantity
         ScopeLeader.totalForecastHours ScopeLeader.entriesCount
         ScopeLeader.productionRate ScopeLeader.productionFactor
         ScopeLeader.variancePercent].
    split; [split; [reflexivity|]|repeat split].
    apply (ScopeForemanAcc_totals (groupOf foremanKey k' entries)).
Qed.

Lemma projectRowOf_perm db es es' k r :
  Permutation es es' -> projectRowOf db es' k r -> projectRowOf db es k r.
Proof.
  intros Hp [Hn Ht]. split; [exact Hn|].
  eapply totalsOf_perm; [apply groupOf_perm; exact Hp|exact Ht].
Qed.

Lemma scopeRowOf_perm db es es' k r :
  Permutation es es' -> scopeRowOf db es' k r -> scopeRowOf db es k r.
Proof.
  intros Hp [Hn Ht]. split; [exact Hn|].
  eapply totalsOf_perm; [apply groupOf_perm; exact Hp|exact Ht].
Qed.

Lemma ranked_names {A} (name : A -> string) (le : A -> A -> bool)
      (keyed : list (string * A)) (f : string -> string) keys :
  Permutation (map fst keyed) keys ->
  (forall k r, In (k, r) keyed -> name r = f k) ->
  Permutation (map (fun r => name (item r))
                   (addRank (Js.sort le (map snd keyed))))
              (map f keys).
Proof.
  intros Hkeys Hname.
  rewrite <- (map_map item name), addRank_items.
  etransitivity; [apply Permutation_map; symmetry; apply sort_perm|].
  rewrite map_map.
  rewrite (map_ext_in _ (fun kr => f (fst kr))).
  - rewrite <- (map_map fst f). now apply Permutation_map.
  - intros [k r] Hin. simpl. now apply Hname.
Qed.

Lemma ranked_length {A} (le : A -> A -> bool) (keyed : list (string * A)) keys :
  Permutation (map fst keyed) keys ->
  List.length (addRank (Js.sort le (map snd keyed))) = List.length keys.
Proof.
  intros Hkeys. rewrite <- (length_map item), addRank_items.
  rewrite <- (Permutation_length (sort_perm le (map snd keyed))).
  rewrite length_map, <- (Permutation_length Hkeys). now rewrite length_map.
Qed.

Lemma ranked_row {A} (le : A -> A -> bool) (keyed : list (string * A)) keys r :
  Permutation (map fst keyed) keys ->
  In r (addRank (Js.sort le (map snd keyed))) ->
  exists k, In k keys /\ In (k, item r) keyed.
Proof.
  intros Hkeys Hin. apply addRank_item, sort_In, in_map_iff in Hin.
  destruct Hin as ([k r'] & Heq & Hin). simpl in Heq. subst r'.
  exists k. split; [|exact Hin].
  eapply Permutation_in; [exact Hkeys|]. exact (in_map fst _ _ Hin).
Qed.

(** The project leaderboard, over the stored entries of the project in
    the range. *)
Lemma project_rows ctx db userId projectId startDate endDate :
  ctx.(getAuthUserId) = Some userId ->
  checkProjectAccess db userId projectId = true ->
  let entries :=
    filterRange startDate endDate
      (filter (fun e => String.eqb e.(Entry.projectId) projectId)
              db.(dailyEntries)) in
  inheritedKey foremanKey entries = false ->
  exists rows,
    getProjectLeaderboard ctx db projectId startDate endDate = Returned rows
    /\ Permutation (map (fun r => (item r).(ProjectLeader.foremanName)) rows)
                   (map (displayName db) (groupKeys foremanKey entries))
    /\ List.length rows = List.length (groupKeys foremanKey entries)
    /\ forall r,
         In r rows ->
         (exists k,
             In k (groupKeys foremanKey entries)
             /\ projectRowOf db entries k (item r))
         /\ (item r).(ProjectLeader.productionRate)
            = round2 (ratioOrZero (item r).(ProjectLeader.totalActualQuantity)
                                  (item r).(ProjectLeader.totalActualHours))
         /\ (item r).(ProjectLeader.productionFactor)
            = round2 (ratioOrZero (item r).(ProjectLeader.totalActualQuantity)
                                  (item r).(ProjectLeader.totalForecastQuantity))
         /\ (item r).(ProjectLeader.variancePercent)
            = round1 (varianceOrZero
                        (item r).(ProjectLeader.totalActualQuantity)
                        (item r).(ProjectLeader.totalForecastQuantity)).
Proof.
  intros Hu Hg entries Hinh.
  assert (Permutation entries
            (filterRange startDate endDate (Db.entries_by_project db projectId)))
    as Hp by apply filterRange_perm, by_date_perm.
  rewrite (inheritedKey_perm foremanKey _ _ Hp) in Hinh.
  destruct (project_board ctx db userId projectId startDate endDate Hu Hg Hinh)
    as (keyed & Hres & Hkeys & Hrows).
  assert (Permutation (map fst keyed) (groupKeys foremanKey entries)) as Hkeys'.
  { etransitivity; [exact Hkeys|]. apply groupKeys_perm. now symmetry. }
  eexists. split; [exact Hres|]. split; [|split].
  - apply ranked_names; [exact Hkeys'|].
    intros k r Hin. now destruct (Hrows k r Hin) as [[Hn _] _].
  - now apply ranked_length.
  - intros r Hin.
    destruct (ranked_row _ _ _ _ Hkeys' Hin) as (k & Hk & Hkr).
    destruct (Hrows k (item r) Hkr) as (Hrow & Hrest).
    split; [|exact Hrest].
    exists k. split; [exact Hk|].
    eapply projectRowOf_perm; [exact Hp|exact Hrow].
Qed.

(** The scope leaderboard, over the stored entries of the scope in the
    range. *)
Lemma scope_rows ctx db userId scopeId scope startDate endDate :
  ctx.(getAuthUserId) = Some userId ->
  Db.get_scope db scopeId = Some scope ->
  checkProjectAccess db userId scope.(Scope.projectId) = true ->
  let entries :=
    filterRange startDate endDate
      (filter (fun e => String.eqb e.(Entry.scopeId) scopeId)
              db.(dailyEntries)) in
  exists rows,
    getScopeLeaderboard ctx db scopeId startDate endDate = Returned rows
    /\ Permutation (map (fun r => (item r).(ScopeLeader.foremanName)) rows)
                   (map (displayName db) (groupKeys foremanKey entries))
    /\ List.length rows = List.length (groupKeys foremanKey entries)
    /\ forall r,
         In r rows ->
         (exists k,
             In k (groupKeys foremanKey entries)
             /\ scopeRowOf db entries k (item r))
         /\ (item r).(ScopeLeader.productionRate)
            = round2 (ratioOrZero (item r).(ScopeLeader.totalActualQuantity)
                                  (item r).(ScopeLeader.totalActualHours))
         /\ (item r).(ScopeLeader.productionFactor)
            = round2 (ratioOrZero (item r).(ScopeLeader.totalActualQuantity)
                                  (item r).(ScopeLeader.totalForecastQuantity))
         /\ (item r).(ScopeLeader.variancePercent)
            = round1 (varianceOrZero
                        (item r).(ScopeLeader.totalActualQuantity)
                        (item r).(ScopeLeader.totalForecastQuantity)).
Proof.
  intros Hu Hs Hg entries.
  assert (Permutation entries
            (filterRange startDate endDate (Db.entries_by_scope db scopeId)))
    as Hp by apply filterRange_perm, by_date_perm.
  destruct (scope_board ctx db userId scopeId scope startDate endDate Hu Hs Hg)
    as (keyed & Hres & Hkeys & Hrows).
  assert (Permutation (map fst keyed) (groupKeys foremanKey entries)) as Hkeys'.
  { etransitivity; [exact Hkeys|]. apply groupKeys_perm. now symmetry. }
  eexists. split; [exact Hres|]. split; [|split].
  - apply ranked_names; [exact Hkeys'|].
    intros k r Hin. now destruct (Hrows k r Hin) as [[Hn _] _].
  - now apply ranked_length.
  - intros r Hin.
    destruct (ranked_row _ _ _ _ Hkeys' Hin) as (k & Hk & Hkr).
    destruct (Hrows k (item r) Hkr) as (Hrow & Hrest).
    split; [|exact Hrest].
    exists k. split; [exact Hk|].
    eapply scopeRowOf_perm; [exact Hp|exact Hrow].
Qed.

(** Whatever a leaderboard returns is ranked. *)
Lemma project_board_ranked ctx db projectId startDate endDate rows :
  getProjectLeaderboard ctx db projectId startDate endDate = Returned rows ->
  rankedSpec ProjectLeader.productionFactor rows.
Proof.
  unfold getProjectLeaderboard.
  destruct (getAuthUserId ctx) as [u|];
    [|intros [= <-]; apply (rankedSpec_addRank _ [])].
  destruct (checkProjectAccess db u projectId); simpl negb; cbv iota;
    [|intros [= <-]; apply (rankedSpec_addRank _ [])].
  destruct (accumulateStrict _ _ _ _) as [obj|msg]; simpl; [|discriminate].
  intros [= <-]. apply rankedSpec_addRank.
Qed.

Lemma scope_board_ranked ctx db scopeId startDate endDate rows :
  getScopeLeaderboard ctx db scopeId startDate endDate = Returned rows ->
  rankedSpec ScopeLeader.productionFactor rows.
Proof.
  unfold getScopeLeaderboard.
  destruct (getAuthUserId ctx) as [u|];
    [|intros [= <-]; apply (rankedSpec_addRank _ [])].
  destruct (Db.get_scope db scopeId) as [scope|];
    [|intros [= <-]; apply (rankedSpec_addRank _ [])].
  destruct (checkProjectAccess db u _); simpl;
    [|intros [= <-]; apply (rankedSpec_addRank _ [])].
  intros [= <-]. apply rankedSpec_addRank.
Qed.

(** C7. A caller the gate admits gets one row per foreman of the
    project's (the scope's) entries in the range, under the foreman's
    display name and with the totals of the foreman's entries.  A
    leaderboard result descends in productionFactor, its ranks are the
    positions 1..N, without duplicates or gaps, and a strictly larger
    productionFactor has a strictly smaller rank.  (The project
    leaderboard is taken on entries none of which is filed under a name
    inherited from [Object.prototype], the scope leaderboard skips such
    entries.) *)
Theorem leaderboard_ranking (ctx : Ctx) (db : DB) (startDate endDate : option string) :
  (forall projectId rows,
      getProjectLeaderboard ctx db projectId startDate endDate = Returned rows ->
      rankedSpec ProjectLeader.productionFactor rows)
  /\ (forall scopeId rows,
         getScopeLeaderboard ctx db scopeId startDate endDate = Returned rows ->
         rankedSpec ScopeLeader.productionFactor rows)
  /\ (forall userId projectId,
         ctx.(getAuthUserId) = Some userId ->
         checkProjectAccess db userId projectId = true ->
         let entries :=
           filterRange startDate endDate
             (filter (fun e => String.eqb e.(Entry.projectId) projectId)
                     db.(dailyEntries)) in
         inheritedKey foremanKey entries = false ->
         exists rows,
           getProjectLeaderboard ctx db projectId startDate endDate
           = Returned rows
           /\ rankedSpec ProjectLeader.productionFactor rows
           /\ Permutation
                (map (fun r => (item r).(ProjectLeader.foremanName)) rows)
                (map (displayName db) (groupKeys foremanKey entries))
           /\ forall r,
                In r rows ->
                exists k,
                  In k (groupKeys foremanKey entries)
                  /\ projectRowOf db entries k (item r))
  /\ (forall userId scopeId scope,
         ctx.(getAuthUserId) = Some userId ->
         Db.get_scope db scopeId = Some scope ->
         checkProjectAccess db userId scope.(Scope.projectId) = true ->
         let entries :=
           filterRange startDate endDate
             (filter (fun e => String.eqb e.(Entry.scopeId) scopeId)
                     db.(dailyEntries)) in
         exists rows,
           getScopeLeaderboard ctx db scopeId startDate endDate = Returned rows
           /\ rankedSpec ScopeLeader.productionFactor rows
           /\ Permutation
                (map (fun r => (item r).(ScopeLeader.foremanName)) rows)
                (map (displayName db) (groupKeys foremanKey entries))
           /\ forall r,
                In r rows ->
                exists k,
                  In k (groupKeys foremanKey entries)
                  /\ scopeRowOf db entries k (item r)).
Proof.
  split; [|split; [|split]].
  - intros projectId rows. apply project_board_ranked.
  - intros scopeId rows. apply scope_board_ranked.
  - intros userId projectId Hu Hg entries Hinh.
    destruct (project_rows ctx db userId projectId startDate endDate Hu Hg Hinh)
      as (rows & Hres & Hnames & _ & Hrows).
    exists rows. split; [exact Hres|].
    split; [eapply project_board_ranked; exact Hres|].
    split; [exact Hnames|].
    intros r Hr. now destruct (Hrows r Hr) as [Hk _].
  - intros userId scopeId scope Hu Hs Hg entries.
    destruct (scope_rows ctx db userId scopeId scope startDate endDate Hu Hs Hg)
      as (rows & Hres & Hnames & _ & Hrows).
    exists rows. split; [exact Hres|].
    split; [eapply scope_board_ranked; exact Hres|].
    split; [exact Hnames|].
    intros r Hr. now destruct (Hrows r Hr) as [Hk _].
Qed.

Lemma leaderboard_ranking_witness :
  exists rows rows',
    getProjectLeaderboard (Sample.ctxOf "u_cm") Sample.dbBoard "p1" None None
    = Returned rows
    /\ getScopeLeaderboard (Sample.ctxOf "u_cm") Sample.dbBoard "s1" None None
       = Returned rows'
    /\ rankedSpec ProjectLeader.productionFactor rows
    /\ rankedSpec ScopeLeader.productionFactor rows'
    /\ Permutation (map (fun r => (item r).(ProjectLeader.foremanName)) rows)
                   ["Ann"; "Bob"; "Cy"]
    /\ Permutation (map (fun r => (item r).(ScopeLeader.foremanName)) rows')
                   ["Ann"; "Bob"; "Cy"].
Proof.
  destruct (leaderboard_ranking (Sample.ctxOf "u_cm") Sample.dbBoard None None)
    as (_ & _ & Hp & Hs).
  destruct (Hp "u_cm" "p1" eq_refl eq_refl eq_refl)
    as (rows & H1 & H2 & H3 & _).
  destruct (Hs "u_cm" "s1" (Scope.mk "s1" "p1" "Electrical")
               eq_refl eq_refl eq_refl)
    as (rows' & H1' & H2' & H3' & _).
  exists rows, rows'.
  split; [exact H1|]. split; [exact H1'|]. split; [exact H2|].
  split; [exact H2'|]. split; [exact H3|exact H3'].
Defined.

(** ** Guarded and rounded ratios *)








(** ** Reads without access *)

(** C9. Not every read query returns null or an empty result to an
    unauthenticated caller: [userProfiles.getByUserId] hands it the stored
    profile, where its sibling [getCurrentProfile] returns null. *)
Theorem unauthenticated_read_returns_profile :
  Sample.anonymous.(getAuthUserId) = None
  /\ UserProfiles.getCurrentProfile Sample.anonymous Sample.db0 = Returned None
  /\ UserProfiles.getByUserId Sample.anonymous Sample.db0 "u_cc"
     = Returned (Some (Profile.mk "u_cc" "Casey" control_center)).
Proof. repeat split. Qed.

Section Reads.
Variable localeCompare : string -> string -> Z.

(** The aggregation and ranking queries do degrade silently: for an
    unauthenticated caller, and for a caller the gate denies on the project
    of the target, each returns null or the empty list instead of
    throwing; in particular [getProjectKPIs] is null for a
    construction_manager without an assignment to the project. *)
Theorem reads_degrade_silently (ctx : Ctx) (db : DB) :
  (* project-level reads *)
  (forall projectId,
      refused ctx db projectId ->
      getProjectKPIs ctx db projectId = Returned None
      /\ (forall s e,
             getTrendData localeCompare ctx db projectId s e = Returned [])
      /\ (forall s e, getProjectLeaderboard ctx db projectId s e = Returned [])
      /\ (forall s e, getScopeBreakdown ctx db projectId s e = Returned []))
  (* scope-level reads *)
  /\ (forall scopeId scope,
         Db.get_scope db scopeId = Some scope ->
         refused ctx db scope.(Scope.projectId) ->
         getScopeKPIs ctx db scopeId = Returned None
         /\ (forall s e, getScopeLeaderboard ctx db scopeId s e = Returned [])
         /\ (forall s e, getActivityBreakdown ctx db scopeId s e = Returned []))
  (* activity-level reads *)
  /\ (forall activityId activity,
         Db.get_activity db activityId = Some activity ->
         refused ctx db activity.(Activity.projectId) ->
         getActivityKPIs ctx db activityId = Returned None)
  (* reads over all projects *)
  /\ (ctx.(getAuthUserId) = None ->
      getAllProjectsKPIs ctx db = Returned None
      /\ (forall s e, getAllProjectsTrendData localeCompare ctx db s e = Returned []))
  (* a construction manager without an assignment *)
  /\ (forall userId profile projectId,
         ctx.(getAuthUserId) = Some userId ->
         Db.profile_by_userId db userId = Some profile ->
         profile.(Profile.role) = construction_manager ->
         (forall a, In a db.(projectAssignments) ->
                    ~ (a.(ProjectAssignment.userId) = userId
                       /\ a.(ProjectAssignment.projectId) = projectId)) ->
         getProjectKPIs ctx db projectId = Returned None).
Proof.
  split; [|split; [|split; [|split]]].
  - intros projectId. unfold refused, getProjectKPIs, getTrendData,
      getProjectLeaderboard, getScopeBreakdown.
    destruct (getAuthUserId ctx) as [u|]; [intros ->|]; simpl; auto.
  - intros scopeId scope Hs. unfold refused, getScopeKPIs, getScopeLeaderboard,
      getActivityBreakdown. rewrite Hs.
    destruct (getAuthUserId ctx) as [u|]; [intros ->|]; simpl; auto.
  - intros activityId activity Ha. unfold refused, getActivityKPIs. rewrite Ha.
    destruct (getAuthUserId ctx) as [u|]; [intros ->|]; simpl; auto.
  - unfold getAllProjectsKPIs, getAllProjectsTrendData. intros ->. auto.
  - intros userId profile projectId Hu Hp Hr Hno. unfold getProjectKPIs.
    rewrite Hu, (gate_denies_unassigned_manager _ _ _ _ Hp Hr Hno). reflexivity.
Qed.
End Reads.

Lemma reads_degrade_silently_witness :
  getProjectKPIs (Sample.ctxOf "u_out") Sample.db0 "p1" = Returned None
  /\ getProjectKPIs Sample.anonymous Sample.db0 "p1" = Returned None.
Proof.
  split.
  - apply (proj2 (proj2 (proj2 (proj2
             (reads_degrade_silently Sample.compareDates (Sample.ctxOf "u_out")
                                     Sample.db0)))))
      with (userId := "u_out")
           (profile := Profile.mk "u_out" "Riley" construction_manager);
      try reflexivity.
    simpl. intros a [<-|[]] [H _]. discriminate.
  - apply (proj1 (reads_degrade_silently Sample.compareDates
                                         Sample.anonymous Sample.db0)).
    exact I.
Defined.

(** * Properties of the remaining code *)

(** ** Submitting entries: outcome, idempotence, frame *)

Lemma entryPreamble_cases ctx db activityId :
  match ctx.(getAuthUserId) with
  | None => entryPreamble ctx db activityId = Thrown "Not authenticated"
  | Some userId =>
      match Db.get_activity db activityId with
      | None => entryPreamble ctx db activityId = Thrown "Activity not found"
      | Some activity =>
          if checkProjectAccess db userId activity.(Activity.projectId)
          then entryPreamble ctx db activityId = Returned (userId, activity)
          else entryPreamble ctx db activityId = Thrown "Access denied"
      end
  end.
Proof.
  unfold entryPreamble, require, guard.
  destruct (getAuthUserId ctx) as [u|]; [|reflexivity]. simpl.
  destruct (Db.get_activity db activityId) as [a|]; [|reflexivity]. simpl.
  destruct (checkProjectAccess db u (Activity.projectId a)); reflexivity.
Qed.

Lemma exec_preamble db c :
  (forall msg,
      entryPreamble (callCtx c) db (callActivity c) = Thrown msg ->
      exec db c = Thrown msg)
  /\ (forall ua,
         entryPreamble (callCtx c) db (callActivity c) = Returned ua ->
         exists id db', exec db c = Returned (id, db')).
Proof.
  destruct c as [ctx args|ctx args|ctx args]; simpl;
    [unfold submitForecast|unfold submitActuals|unfold submitEntry];
    (split; [intros msg ->; reflexivity|intros ua ->; simpl]);
    match goal with
    | |- context [Db.entry_by_activity_and_date ?d ?a ?b] =>
        destruct (Db.entry_by_activity_and_date d a b); eauto
    end.
Qed.

(** X1. A submission fails with "Not authenticated" for a caller without a
    session, otherwise with "Activity not found" when the activity does not
    exist, otherwise with "Access denied" when the gate denies the
    activity's project; in every other case it succeeds. *)
Theorem submission_outcome (db : DB) (c : Call) :
  ((callCtx c).(getAuthUserId) = None -> exec db c = Thrown "Not authenticated")
  /\ (forall userId,
         (callCtx c).(getAuthUserId) = Some userId ->
         Db.get_activity db (callActivity c) = None ->
         exec db c = Thrown "Activity not found")
  /\ (forall userId activity,
         (callCtx c).(getAuthUserId) = Some userId ->
         Db.get_activity db (callActivity c) = Some activity ->
         checkProjectAccess db userId activity.(Activity.projectId) = false ->
         exec db c = Thrown "Access denied")
  /\ (forall userId activity,
         (callCtx c).(getAuthUserId) = Some userId ->
         Db.get_activity db (callActivity c) = Some activity ->
         checkProjectAccess db userId activity.(Activity.projectId) = true ->
         exists id db', exec db c = Returned (id, db')).
Proof.
  pose proof (entryPreamble_cases (callCtx c) db (callActivity c)) as Hp.
  destruct (exec_preamble db c) as [Hthrow Hret].
  repeat match goal with |- _ /\ _ => split end.
  - intros Hu. rewrite Hu in Hp. auto.
  - intros u Hu Ha. rewrite Hu, Ha in Hp. auto.
  - intros u a Hu Ha Hg. rewrite Hu, Ha, Hg in Hp. auto.
  - intros u a Hu Ha Hg. rewrite Hu, Ha, Hg in Hp. eauto.
Qed.

Lemma submission_outcome_witness :
  exec Sample.db0 (CallForecast Sample.anonymous Sample.forecastA1)
  = Thrown "Not authenticated"
  /\ exec Sample.db0 (CallForecast (Sample.ctxOf "u_out") Sample.forecastA1)
     = Thrown "Access denied"
  /\ exists id db',
      exec Sample.db0 (CallForecast (Sample.ctxOf "u_cm") Sample.forecastA1)
      = Returned (id, db').
Proof.
  split; [|split].
  - apply (proj1 (submission_outcome Sample.db0
                    (CallForecast Sample.anonymous Sample.forecastA1))).
    reflexivity.
  - apply (proj1 (proj2 (proj2 (submission_outcome Sample.db0
                    (CallForecast (Sample.ctxOf "u_out") Sample.forecastA1))))
             "u_out" (Activity.mk "a1" "s1" "p1" "Conduit" "ft"));
      reflexivity.
  - apply (proj2 (proj2 (proj2 (submission_outcome Sample.db0
                    (CallForecast (Sample.ctxOf "u_cm") Sample.forecastA1))))
             "u_cm" (Activity.mk "a1" "s1" "p1" "Conduit" "ft"));
      reflexivity.
Defined.

(** Entry writes touch the dailyEntries table only. *)
Lemma exec_other_tables db c id db' :
  exec db c = Returned (id, db') ->
  userProfiles db' = userProfiles db
  /\ projectAssignments db' = projectAssignments db
  /\ scopeAssignments db' = scopeAssignments db
  /\ projects db' = projects db
  /\ scopes db' = scopes db
  /\ activities db' = activities db.
Proof.
  intros H. apply exec_patch_or_insert in H.
  destruct H as [(existing & p & _ & _ & ->)|(doc & _ & _ & _ & _ & _ & ->)];
    repeat split.
Qed.

Lemma gate_same_tables db db' userId projectId :
  userProfiles db' = userProfiles db ->
  projectAssignments db' = projectAssignments db ->
  checkProjectAccess db' userId projectId = checkProjectAccess db userId projectId.
Proof.
  intros Hp Ha.
  unfold checkProjectAccess, Db.profile_by_userId,
    Db.assignment_by_userId_and_projectId.
  now rewrite Hp, Ha.
Qed.

Lemma entryPreamble_same_tables ctx db db' activityId :
  userProfiles db' = userProfiles db ->
  projectAssignments db' = projectAssignments db ->
  activities db' = activities db ->
  entryPreamble ctx db' activityId = entryPreamble ctx db activityId.
Proof.
  intros Hp Ha Hact. unfold entryPreamble, Db.get_activity. rewrite Hact.
  destruct (getAuthUserId ctx) as [u|]; [|reflexivity]. simpl.
  destruct (find _ (activities db)) as [a|]; [|reflexivity]. simpl.
  now rewrite (gate_same_tables db db' u _ Hp Ha).
Qed.

(** X2. Entry submissions never change who may access what: after any
    sequential run of successful submissions the gate decides every
    (user, project) as before, and the activities are those of before. *)
Theorem submissions_keep_access (calls : list Call) (db db' : DB) :
  run db calls = Returned db' ->
  (forall userId projectId,
      checkProjectAccess db' userId projectId
      = checkProjectAccess db userId projectId)
  /\ activities db' = activities db
  /\ userProfiles db' = userProfiles db.
Proof.
  revert db. induction calls as [|c calls IH]; simpl; intros db Hrun.
  - injection Hrun as <-. auto.
  - apply bind_Returned in Hrun. destruct Hrun as [[id db1] [Hc Hrun]].
    simpl in Hrun. destruct (IH _ Hrun) as (Hg & Ha & Hp).
    destruct (exec_other_tables _ _ _ _ Hc) as (H1 & H2 & _ & _ & _ & H6).
    split; [|split; congruence].
    intros u p. rewrite Hg. now apply gate_same_tables.
Qed.

Lemma submissions_keep_access_witness :
  exists db',
    run Sample.db0 Sample.calls = Returned db'
    /\ checkProjectAccess db' "u_out" "p1" = false.
Proof.
  assert (exists db', run Sample.db0 Sample.calls = Returned db') as [db' Hrun]
      by (eexists; vm_compute; reflexivity).
  exists db'. split; [exact Hrun|].
  rewrite (proj1 (submissions_keep_access Sample.calls Sample.db0 db' Hrun)).
  reflexivity.
Defined.

(** ** Resubmission *)

Lemma nullish_opt_idem {A} (a b : option A) :
  Js.nullish_opt a (Js.nullish_opt a b) = Js.nullish_opt a b.
Proof. destruct a; reflexivity. Qed.

Lemma nullish_opt_self {A} (a : option A) : Js.nullish_opt a a = a.
Proof. destruct a; reflexivity. Qed.

Lemma map_patch_fresh (l : list Entry.t) id (f : Entry.t -> Entry.t) :
  ~ In id (map Entry._id l) ->
  map (fun e => if String.eqb e.(Entry._id) id then f e else e) l = l.
Proof.
  induction l as [|x l IH]; simpl; intros H; [reflexivity|].
  destruct (String.eqb (Entry._id x) id) eqn:E.
  - apply String.eqb_eq in E. tauto.
  - rewrite IH; tauto.
Qed.

Ltac resubmit_patch :=
  rewrite !map_map; apply map_ext; intros e;
  match goal with
  | |- context [String.eqb (Entry._id e) ?i] =>
      destruct (String.eqb (Entry._id e) i) eqn:Ee; simpl;
      repeat (rewrite Ee; simpl);
      [unfold withoutStamp, Entry.apply; simpl;
       rewrite ?nullish_opt_idem; reflexivity
      |reflexivity]
  end.

Ltac resubmit_insert Hfresh :=
  rewrite !map_app; simpl; rewrite String.eqb_refl;
  rewrite (map_patch_fresh _ _ _ Hfresh);
  unfold withoutStamp, Entry.apply; simpl;
  rewrite ?nullish_opt_self; reflexivity.

Ltac same_guards ctx db Hpre :=
  match goal with
  | |- context [entryPreamble ?c ?d ?a] =>
      change (entryPreamble c d a) with (entryPreamble ctx db a)
  end;
  rewrite Hpre; simpl bind; cbv zeta.

Ltac resubmit ctx db Hfresh H :=
  open_mutation H;
  match goal with
  | Hpre : entryPreamble ctx db _ = Returned _,
    Hfind : Db.entry_by_activity_and_date db _ _ = Some ?existing |- _ =>
      eexists; split; [|split];
      [ same_guards ctx db Hpre;
        rewrite (find_after_patch _ _ _ _ _ Hfind); reflexivity
      | simpl; resubmit_patch
      | eexists; split;
        [apply find_after_patch, find_after_patch; exact Hfind|reflexivity] ]
  | Hpre : entryPreamble ctx db _ = Returned _,
    Hfind : Db.entry_by_activity_and_date db _ _ = None |- _ =>
      specialize (Hfresh eq_refl);
      eexists; split; [|split];
      [ same_guards ctx db Hpre;
        match goal with
        | |- context [Db.insert_entry db ?D] =>
            rewrite (find_after_insert db _ _ D Hfind eq_refl eq_refl)
        end;
        reflexivity
      | simpl; resubmit_insert Hfresh
      | eexists; split;
        [apply (find_after_patch (Db.insert_entry db _));
         apply find_after_insert; [exact Hfind|reflexivity..]
        |reflexivity] ]
  end.

Lemma submitForecast_again ctx db args id db1 now fresh :
  (Db.entry_by_activity_and_date db args.(ForecastArgs.activityId)
                                 args.(ForecastArgs.date) = None ->
   ~ In ctx.(freshId) (entryIds db)) ->
  submitForecast ctx db args = Returned (id, db1) ->
  exists db2,
    submitForecast (later ctx now fresh) db1 args = Returned (id, db2)
    /\ map withoutStamp (dailyEntries db2) = map withoutStamp (dailyEntries db1)
    /\ exists e,
         Db.entry_by_activity_and_date db2 args.(ForecastArgs.activityId)
                                       args.(ForecastArgs.date) = Some e
         /\ e.(Entry.updatedAt) = Some now.
Proof.
  intros Hfresh H. unfold submitForecast at 1 in H. unfold submitForecast.
  resubmit ctx db Hfresh H.
Qed.

Lemma submitActuals_again ctx db args id db1 now fresh :
  (Db.entry_by_activity_and_date db args.(ActualsArgs.activityId)
                                 args.(ActualsArgs.date) = None ->
   ~ In ctx.(freshId) (entryIds db)) ->
  submitActuals ctx db args = Returned (id, db1) ->
  exists db2,
    submitActuals (later ctx now fresh) db1 args = Returned (id, db2)
    /\ map withoutStamp (dailyEntries db2) = map withoutStamp (dailyEntries db1)
    /\ exists e,
         Db.entry_by_activity_and_date db2 args.(ActualsArgs.activityId)
                                       args.(ActualsArgs.date) = Some e
         /\ e.(Entry.updatedAt) = Some now.
Proof.
  intros Hfresh H. unfold submitActuals at 1 in H. unfold submitActuals.
  resubmit ctx db Hfresh H.
Qed.

Lemma submitEntry_again ctx db args id db1 now fresh :
  (Db.entry_by_activity_and_date db args.(EntryArgs.activityId)
                                 args.(EntryArgs.date) = None ->
   ~ In ctx.(freshId) (entryIds db)) ->
  submitEntry ctx db args = Returned (id, db1) ->
  exists db2,
    submitEntry (later ctx now fresh) db1 args = Returned (id, db2)
    /\ map withoutStamp (dailyEntries db2) = map withoutStamp (dailyEntries db1)
    /\ exists e,
         Db.entry_by_activity_and_date db2 args.(EntryArgs.activityId)
                                       args.(EntryArgs.date) = Some e
         /\ e.(Entry.updatedAt) = Some now.
Proof.
  intros Hfresh H. unfold submitEntry at 1 in H. unfold submitEntry.
  resubmit ctx db Hfresh H.
Qed.

(** One repeat of a call that succeeded. *)
Lemma exec_again db db1 c id m :
  (Db.entry_by_activity_and_date db (callActivity c) (callDate c) = None ->
   ~ In (callCtx c).(freshId) (entryIds db)) ->
  exec db c = Returned (id, db1) ->
  exists db2,
    exec db1 (again c m) = Returned (id, db2)
    /\ map withoutStamp (dailyEntries db2) = map withoutStamp (dailyEntries db1)
    /\ exists e,
         Db.entry_by_activity_and_date db2 (callActivity c) (callDate c)
         = Some e
         /\ e.(Entry.updatedAt) = Some (fst m).
Proof.
  destruct c as [ctx args|ctx args|ctx args]; simpl.
  - apply submitForecast_again.
  - apply submitActuals_again.
  - apply submitEntry_again.
Qed.

Lemma exec_stored db c id db1 :
  exec db c = Returned (id, db1) ->
  Db.entry_by_activity_and_date db1 (callActivity c) (callDate c) <> None.
Proof.
  destruct c as [ctx args|ctx args|ctx args]; simpl; intros H.
  - apply submitForecast_stored in H. destruct H as (e & -> & _). discriminate.
  - apply submitActuals_stored in H. destruct H as (e & -> & _). discriminate.
  - apply submitEntry_stored in H. destruct H as (e & -> & _). discriminate.
Qed.

Lemma again_again c m m' : again (again c m) m' = again c m'.
Proof. destruct c; reflexivity. Qed.

Lemma again_pair c m :
  callActivity (again c m) = callActivity c /\ callDate (again c m) = callDate c.
Proof. destruct c; split; reflexivity. Qed.

(** X3. Submitting the same call again is harmless, whenever it is done:
    after a call that succeeded, any number of repeats by the same caller
    with the same arguments, each at its own moment (clock reading and
    fresh id), all succeed with the id of the first call, and they leave
    every stored entry as it was apart from the update stamp (updatedBy,
    updatedAt), which carries the clock reading of the last repeat.  The
    id the first call gives a new document is taken not to be in use. *)
Theorem resubmission_changes_stamp_only (moments : list (Q * Id)) :
  forall (db db1 : DB) (c : Call) (id : Id),
    (Db.entry_by_activity_and_date db (callActivity c) (callDate c) = None ->
     ~ In (callCtx c).(freshId) (entryIds db)) ->
    exec db c = Returned (id, db1) ->
    exists dbn,
      runIds db1 (map (again c) moments)
      = Returned (map (fun _ => id) moments, dbn)
      /\ map withoutStamp (dailyEntries dbn)
         = map withoutStamp (dailyEntries db1)
      /\ (moments <> [] ->
          exists e,
            Db.entry_by_activity_and_date dbn (callActivity c) (callDate c)
            = Some e
            /\ e.(Entry.updatedAt) = Some (fst (last moments (0, EmptyString)))).
Proof.
  induction moments as [|m ms IH]; intros db db1 c id Hfresh Hexec.
  - exists db1. split; [reflexivity|]. split; [reflexivity|]. congruence.
  - destruct (exec_again db db1 c id m Hfresh Hexec)
      as (db2 & Hstep & Hsame & Hstamp).
    destruct (IH db1 db2 (again c m) id) as (dbn & Hrun & Hsame' & Hstamp').
    + destruct (again_pair c m) as [-> ->].
      intros Hnone. now apply exec_stored in Hexec.
    + exact Hstep.
    + exists dbn. split; [|split].
      * cbn [map runIds]. rewrite Hstep. simpl bind. cbn [snd fst].
        rewrite (map_ext _ _ (again_again c m)) in Hrun.
        rewrite Hrun. reflexivity.
      * now rewrite Hsame'.
      * intros _. destruct ms as [|m' ms'].
        -- simpl in Hrun. injection Hrun as <-. exact Hstamp.
        -- destruct (again_pair c m) as [Ha Hd]. rewrite Ha, Hd in Hstamp'.
           apply Hstamp'. discriminate.
Qed.

Lemma resubmission_changes_stamp_only_witness :
  exists db1 dbn,
    exec Sample.db0 (CallForecast (Sample.ctxOf "u_cm") Sample.forecastA1)
    = Returned ("e_new", db1)
    /\ runIds db1
         (map (again (CallForecast (Sample.ctxOf "u_cm") Sample.forecastA1))
              [(2000, "e_2"); (3000, "e_3")])
       = Returned (["e_new"; "e_new"], dbn)
    /\ map withoutStamp (dailyEntries dbn) = map withoutStamp (dailyEntries db1)
    /\ map Entry.updatedAt (dailyEntries dbn) = [Some 3000]
    /\ map Entry.updatedAt (dailyEntries db1) = [None].
Proof.
  assert (exists db1,
             exec Sample.db0 (CallForecast (Sample.ctxOf "u_cm") Sample.forecastA1)
             = Returned ("e_new", db1)) as [db1 H1]
      by (eexists; vm_compute; reflexivity).
  destruct (resubmission_changes_stamp_only
              [(2000, "e_2"); (3000, "e_3")] Sample.db0 db1
              (CallForecast (Sample.ctxOf "u_cm") Sample.forecastA1) "e_new")
    as (dbn & H2 & H3 & _).
  - intros _. vm_compute. tauto.
  - exact H1.
  - exists db1, dbn. split; [exact H1|]. split; [exact H2|].
    split; [exact H3|].
    injection H1 as <-. injection H2 as <-. split; reflexivity.
Defined.

(** ** What a submission leaves alone *)

Lemma ids_determine {A} (f : A -> Id) (l : list A) x y :
  NoDup (map f l) -> In x l -> In y l -> f x = f y -> x = y.
Proof.
  induction l as [|a l IH]; simpl; [tauto|].
  intros Hnd [<-|Hx] [<-|Hy] Hf; inversion Hnd as [|? ? Hnotin Hnd']; subst.
  - reflexivity.
  - exfalso. apply Hnotin. rewrite Hf. now apply in_map.
  - exfalso. apply Hnotin. rewrite <- Hf. now apply in_map.
  - now apply IH.
Qed.

Lemma filter_map_frame {A} (q : A -> bool) (f : A -> A) (l : list A) :
  (forall x, In x l -> q (f x) = q x /\ (q x = true -> f x = x)) ->
  filter q (map f l) = filter q l.
Proof.
  induction l as [|x l IH]; simpl; intros H; [reflexivity|].
  destruct (H x (or_introl eq_refl)) as [H1 H2]. rewrite H1.
  rewrite IH by (intros y Hy; apply H; now right).
  destruct (q x); [now rewrite H2|reflexivity].
Qed.

Lemma found_atPair db a d e :
  Db.entry_by_activity_and_date db a d = Some e ->
  In e db.(dailyEntries) /\ atPair a d e = true.
Proof. intros H. now apply find_some in H. Qed.

(** X4. A submission touches the entry of its own (activity, date) pair
    only: when entry ids are unique, the entries of every other pair are
    the same documents, in the same order, after the call. *)
Theorem submission_leaves_other_pairs (db db' : DB) (c : Call) (id : Id) :
  NoDup (entryIds db) ->
  exec db c = Returned (id, db') ->
  filter (fun e => negb (atPair (callActivity c) (callDate c) e))
         db'.(dailyEntries)
  = filter (fun e => negb (atPair (callActivity c) (callDate c) e))
           db.(dailyEntries).
Proof.
  intros Hnd H. apply exec_patch_or_insert in H.
  destruct H as [(existing & p & Hfind & -> & ->)
                |(doc & _ & _ & _ & Ha & Hd & ->)]; simpl.
  - apply found_atPair in Hfind. destruct Hfind as [Hin Hat].
    apply filter_map_frame. intros x Hx.
    destruct (String.eqb (Entry._id x) (Entry._id existing)) eqn:E.
    + apply String.eqb_eq in E.
      assert (x = existing) as -> by (eapply ids_determine; eauto).
      split; [reflexivity|]. rewrite Hat. discriminate.
    + auto.
  - rewrite filter_app. simpl. unfold atPair at 2.
    rewrite Ha, Hd, !String.eqb_refl. simpl. apply app_nil_r.
Qed.

Lemma submission_leaves_other_pairs_witness :
  exists id db',
    exec Sample.dbStored (CallActuals (Sample.ctxOf "u_cm") Sample.actualsA1)
    = Returned (id, db')
    /\ filter (fun e => negb (atPair "a1" "2024-06-01" e)) db'.(dailyEntries)
       = filter (fun e => negb (atPair "a1" "2024-06-01" e))
                Sample.dbStored.(dailyEntries).
Proof.
  assert (exists id db',
             exec Sample.dbStored
                  (CallActuals (Sample.ctxOf "u_cm") Sample.actualsA1)
             = Returned (id, db')) as (id & db' & H)
      by (do 2 eexists; vm_compute; reflexivity).
  exists id, db'. split; [exact H|].
  apply (submission_leaves_other_pairs Sample.dbStored db'
           (CallActuals (Sample.ctxOf "u_cm") Sample.actualsA1) id);
    [|exact H].
  vm_compute. repeat constructor; simpl; intuition discriminate.
Defined.

(** X5. Entry ids stay unique: when they are unique before a successful
    submission and the new id is not in use, they are unique after it,
    and the id the call returns is the id of a stored entry. *)
Theorem submission_keeps_ids_unique (db db' : DB) (c : Call) (id : Id) :
  NoDup (entryIds db) ->
  ~ In (callCtx c).(freshId) (entryIds db) ->
  exec db c = Returned (id, db') ->
  NoDup (entryIds db') /\ In id (entryIds db').
Proof.
  intros Hnd Hfresh H. apply exec_patch_or_insert in H. unfold entryIds in *.
  destruct H as [(existing & p & Hfind & -> & ->)
                |(doc & _ & -> & Hid & _ & _ & ->)]; simpl.
  - assert (map Entry._id
                (map (fun e => if String.eqb (Entry._id e) (Entry._id existing)
                               then Entry.apply p e else e) (dailyEntries db))
            = map Entry._id (dailyEntries db)) as ->.
    { rewrite map_map. apply map_ext. intros e.
      destruct (String.eqb _ _); reflexivity. }
    split; [exact Hnd|]. apply in_map. now apply found_atPair in Hfind.
  - rewrite map_app. simpl. rewrite Hid. split.
    + apply NoDup_app; [exact Hnd|repeat constructor; simpl; tauto|].
      intros x Hx [<-|[]]. tauto.
    + apply in_or_app. right. now left.
Qed.

Lemma submission_keeps_ids_unique_witness :
  exists id db',
    exec Sample.db0 (CallForecast (Sample.ctxOf "u_cm") Sample.forecastA1)
    = Returned (id, db')
    /\ NoDup (entryIds db') /\ In id (entryIds db').
Proof.
  assert (exists id db',
             exec Sample.db0
                  (CallForecast (Sample.ctxOf "u_cm") Sample.forecastA1)
             = Returned (id, db')) as (id & db' & H)
      by (do 2 eexists; vm_compute; reflexivity).
  exists id, db'. split; [exact H|].
  apply (submission_keeps_ids_unique Sample.db0 db'
           (CallForecast (Sample.ctxOf "u_cm") Sample.forecastA1) id);
    [constructor|simpl; tauto|exact H].
Defined.

(** ** Reading back and deleting *)

Lemma entryPreamble_Returned ctx db activityId userId activity :
  entryPreamble ctx db activityId = Returned (userId, activity) ->
  ctx.(getAuthUserId) = Some userId
  /\ Db.get_activity db activityId = Some activity
  /\ checkProjectAccess db userId activity.(Activity.projectId) = true.
Proof.
  pose proof (entryPreamble_cases ctx db activityId) as H.
  destruct (getAuthUserId ctx) as [u|]; [|congruence].
  destruct (Db.get_activity db activityId) as [a|]; [|congruence].
  destruct (checkProjectAccess db u (Activity.projectId a)) eqn:E; [|congruence].
  rewrite H. intros [= -> ->]. auto.
Qed.

Lemma exec_Returned_preamble db c r :
  exec db c = Returned r ->
  exists ua, entryPreamble (callCtx c) db (callActivity c) = Returned ua.
Proof.
  destruct (entryPreamble (callCtx c) db (callActivity c)) as [ua|msg] eqn:E;
    [eauto|].
  rewrite (proj1 (exec_preamble db c) msg E). discriminate.
Qed.

(** X6. A write can be read back: after a successful submission,
    getByActivityAndDate by the same caller for the call's activity and
    date returns an entry, and it is the one whose id the call returned. *)
Theorem submission_read_back (db db' : DB) (c : Call) (id : Id) :
  exec db c = Returned (id, db') ->
  exists e,
    DailyEntries.getByActivityAndDate (callCtx c) db' (callActivity c) (callDate c)
    = Returned (Some e)
    /\ e.(Entry._id) = id
    /\ e.(Entry.activityId) = callActivity c
    /\ e.(Entry.date) = callDate c.
Proof.
  intros H.
  destruct (exec_Returned_preamble _ _ _ H) as [[u act] Hpre].
  apply entryPreamble_Returned in Hpre. destruct Hpre as (Hu & Hact & Hgate).
  destruct (exec_other_tables _ _ _ _ H) as (T1 & T2 & _ & _ & _ & T6).
  assert (exists e,
             Db.entry_by_activity_and_date db' (callActivity c) (callDate c)
             = Some e /\ Entry._id e = id) as (e & He & Hid).
  { apply exec_patch_or_insert in H.
    destruct H as [(existing & p & Hfind & -> & ->)
                  |(doc & Hnone & -> & Hid & Ha & Hd & ->)].
    - eexists. split; [now apply find_after_patch|reflexivity].
    - exists doc. split; [now apply find_after_insert|exact Hid]. }
  exists e. unfold DailyEntries.getByActivityAndDate.
  rewrite Hu. unfold Db.get_activity in *. rewrite T6, Hact.
  rewrite (gate_same_tables db db' u _ T1 T2), Hgate. simpl.
  split; [now rewrite He|]. split; [exact Hid|].
  apply found_atPair in He. destruct He as [_ Hat].
  apply andb_prop in Hat. destruct Hat as [H1 H2].
  now apply String.eqb_eq in H1, H2.
Qed.

Lemma submission_read_back_witness :
  exists id db' e,
    exec Sample.db0 (CallForecast (Sample.ctxOf "u_cm") Sample.forecastA1)
    = Returned (id, db')
    /\ DailyEntries.getByActivityAndDate (Sample.ctxOf "u_cm") db'
         "a1" "2024-06-01"
       = Returned (Some e)
    /\ Entry._id e = id.
Proof.
  assert (exists id db',
             exec Sample.db0
                  (CallForecast (Sample.ctxOf "u_cm") Sample.forecastA1)
             = Returned (id, db')) as (id & db' & H)
      by (do 2 eexists; vm_compute; reflexivity).
  destruct (submission_read_back _ _ _ _ H) as (e & Hread & Hid & _).
  exists id, db', e. auto.
Defined.

(** X7. Deleting an entry: remove fails with "Not authenticated", "Entry
    not found" or "Access denied" (the gate on the entry's project), in
    that order; after a successful remove the id is not found any more,
    so that removing it again fails with "Entry not found", and the
    entries with another id are the ones stored before, in the same
    order. *)
Theorem remove_entry_spec (ctx : Ctx) (db : DB) (entryId : Id) :
  (ctx.(getAuthUserId) = None ->
   DailyEntries.remove ctx db entryId = Thrown "Not authenticated")
  /\ (forall userId,
         ctx.(getAuthUserId) = Some userId ->
         Db.get_entry db entryId = None ->
         DailyEntries.remove ctx db entryId = Thrown "Entry not found")
  /\ (forall userId entry,
         ctx.(getAuthUserId) = Some userId ->
         Db.get_entry db entryId = Some entry ->
         checkProjectAccess db userId entry.(Entry.projectId) = false ->
         DailyEntries.remove ctx db entryId = Thrown "Access denied")
  /\ (forall db',
         DailyEntries.remove ctx db entryId = Returned db' ->
         Db.get_entry db' entryId = None
         /\ DailyEntries.remove ctx db' entryId = Thrown "Entry not found"
         /\ filter (fun e => negb (String.eqb e.(Entry._id) entryId))
                   db.(dailyEntries)
            = db'.(dailyEntries)).
Proof.
  unfold DailyEntries.remove, require, guard.
  repeat match goal with |- _ /\ _ => split end.
  - intros ->. reflexivity.
  - intros u -> ->. reflexivity.
  - intros u e -> ->. simpl. intros ->. reflexivity.
  - destruct (getAuthUserId ctx) as [u|]; [simpl|discriminate].
    destruct (Db.get_entry db entryId) as [e|]; [simpl|discriminate].
    destruct (checkProjectAccess db u (Entry.projectId e)); [simpl|discriminate].
    intros db' [= <-].
    assert (Db.get_entry (Store.delete_entry db entryId) entryId = None) as Hgone.
    { apply find_none_iff. simpl. intros x Hx. apply filter_In in Hx.
      destruct Hx as [_ Hx]. now apply negb_true_iff in Hx. }
    rewrite Hgone. simpl. repeat split.
Qed.

Lemma remove_entry_spec_witness :
  DailyEntries.remove Sample.anonymous Sample.dbStored "e1"
  = Thrown "Not authenticated"
  /\ DailyEntries.remove (Sample.ctxOf "u_cm") Sample.dbStored "e_none"
     = Thrown "Entry not found"
  /\ DailyEntries.remove (Sample.ctxOf "u_out") Sample.dbStored "e1"
     = Thrown "Access denied"
  /\ exists db',
      DailyEntries.remove (Sample.ctxOf "u_cm") Sample.dbStored "e1"
      = Returned db'
      /\ Db.get_entry db' "e1" = None.
Proof.
  split; [|split; [|split]].
  - apply (proj1 (remove_entry_spec Sample.anonymous Sample.dbStored "e1")).
    reflexivity.
  - apply (proj1 (proj2 (remove_entry_spec (Sample.ctxOf "u_cm")
                           Sample.dbStored "e_none")) "u_cm"); reflexivity.
  - apply (proj1 (proj2 (proj2 (remove_entry_spec (Sample.ctxOf "u_out")
                                  Sample.dbStored "e1")))
             "u_out" Sample.stored); reflexivity.
  - eexists. split; [reflexivity|].
    apply (proj2 (proj2 (proj2 (remove_entry_spec (Sample.ctxOf "u_cm")
                                  Sample.dbStored "e1")))).
    reflexivity.
Defined.

Lemma exec_inserted db c id db' :
  exec db c = Returned (id, db') ->
  Db.entry_by_activity_and_date db (callActivity c) (callDate c) = None ->
  exists userId activity doc,
    entryPreamble (callCtx c) db (callActivity c) = Returned (userId, activity)
    /\ db' = Db.insert_entry db doc
    /\ id = (callCtx c).(freshId)
    /\ doc.(Entry._id) = (callCtx c).(freshId)
    /\ doc.(Entry.activityId) = callActivity c
    /\ doc.(Entry.projectId) = activity.(Activity.projectId)
    /\ doc.(Entry.scopeId) = activity.(Activity.scopeId).
Proof.
  destruct c as [ctx args|ctx args|ctx args]; simpl;
    [unfold submitForecast|unfold submitActuals|unfold submitEntry];
    intros H Hnone; apply bind_Returned in H; destruct H as [[u act] [Hpre H]];
    cbv zeta in H; rewrite Hnone in H; injection H as <- <-;
    exists u, act; eexists; repeat split; exact Hpre.
Qed.

Lemma set_entries_same db : Db.set_entries db db.(dailyEntries) = db.
Proof. destruct db; reflexivity. Qed.

Lemma filter_fresh (l : list Entry.t) id :
  ~ In id (map Entry._id l) ->
  filter (fun e => negb (String.eqb e.(Entry._id) id)) l = l.
Proof.
  induction l as [|x l IH]; simpl; intros H; [reflexivity|].
  destruct (String.eqb (Entry._id x) id) eqn:E; simpl.
  - apply String.eqb_eq in E. tauto.
  - rewrite IH; tauto.
Qed.

Lemma find_fresh (l : list Entry.t) doc :
  ~ In doc.(Entry._id) (map Entry._id l) ->
  find (fun e => String.eqb e.(Entry._id) doc.(Entry._id)) (l ++ [doc])
  = Some doc.
Proof.
  induction l as [|x l IH]; simpl; intros H.
  - now rewrite String.eqb_refl.
  - destruct (String.eqb (Entry._id x) (Entry._id doc)) eqn:E.
    + apply String.eqb_eq in E. tauto.
    + apply IH. tauto.
Qed.

(** X8. Creating an entry and deleting it again is a round trip: when a
    submission finds no entry for its pair, so that it inserts one under
    an id not yet in use, the same caller may remove the returned id, and
    the database is then the one before the submission. *)
Theorem insert_then_remove_restores (db db1 : DB) (c : Call) (id : Id) :
  Db.entry_by_activity_and_date db (callActivity c) (callDate c) = None ->
  ~ In (callCtx c).(freshId) (entryIds db) ->
  exec db c = Returned (id, db1) ->
  DailyEntries.remove (callCtx c) db1 id = Returned db.
Proof.
  intros Hnone Hfresh H.
  destruct (exec_inserted _ _ _ _ H Hnone)
    as (u & act & doc & Hpre & -> & -> & Hid & _ & Hproj & _).
  apply entryPreamble_Returned in Hpre. destruct Hpre as (Hu & _ & Hgate).
  unfold DailyEntries.remove, require, guard. rewrite Hu. simpl.
  unfold entryIds in Hfresh. rewrite <- Hid in *.
  unfold Db.get_entry. simpl dailyEntries.
  rewrite (find_fresh _ _ Hfresh). simpl.
  change (checkProjectAccess (Db.insert_entry db doc))
    with (checkProjectAccess db).
  rewrite Hproj, Hgate. simpl. f_equal.
  unfold Store.delete_entry, Db.insert_entry, Db.set_entries. simpl.
  rewrite filter_app. simpl. rewrite String.eqb_refl. simpl.
  rewrite app_nil_r, (filter_fresh _ _ Hfresh).
  apply set_entries_same.
Qed.

Lemma insert_then_remove_restores_witness :
  exists id db1,
    exec Sample.db0 (CallForecast (Sample.ctxOf "u_cm") Sample.forecastA1)
    = Returned (id, db1)
    /\ DailyEntries.remove (Sample.ctxOf "u_cm") db1 id = Returned Sample.db0.
Proof.
  assert (exists id db1,
             exec Sample.db0
                  (CallForecast (Sample.ctxOf "u_cm") Sample.forecastA1)
             = Returned (id, db1)) as (id & db1 & H)
      by (do 2 eexists; vm_compute; reflexivity).
  exists id, db1. split; [exact H|].
  apply (insert_then_remove_restores Sample.db0 db1
           (CallForecast (Sample.ctxOf "u_cm") Sample.forecastA1) id);
    [reflexivity|simpl; tauto|exact H].
Defined.

(** ** The copied project and scope keys *)

Lemma exec_keeps_keys db c id db' :
  keysConsistent db -> exec db c = Returned (id, db') -> keysConsistent db'.
Proof.
  intros Hk H.
  destruct (exec_other_tables _ _ _ _ H) as (_ & _ & _ & _ & _ & Hact).
  destruct (Db.entry_by_activity_and_date db (callActivity c) (callDate c))
    as [existing|] eqn:Hfind.
  - apply exec_patch_or_insert in H.
    destruct H as [(ex & p & _ & -> & ->)|(doc & Hnone & _)]; [|congruence].
    intros e act Hin Hget. simpl in Hin. apply in_map_iff in Hin.
    destruct Hin as (e0 & <- & Hin0). unfold Db.get_activity in Hget.
    simpl in Hget.
    destruct (String.eqb (Entry._id e0) (Entry._id ex)); simpl in *;
      now apply (Hk e0 act).
  - destruct (exec_inserted _ _ _ _ H Hfind)
      as (u & a & doc & Hpre & -> & _ & _ & Ha & Hp & Hs).
    apply entryPreamble_Returned in Hpre. destruct Hpre as (_ & Hget0 & _).
    intros e act Hin Hget. simpl in Hin. unfold Db.get_activity in *.
    simpl in Hget. apply in_app_or in Hin. destruct Hin as [Hin|[<-|[]]].
    + now apply (Hk e act).
    + rewrite Ha, Hget0 in Hget. injection Hget as <-. auto.
Qed.

(** X9. The project and scope ids copied into an entry stay those of the
    entry's activity: when this holds of every stored entry, it still
    holds after any sequential run of successful submissions. *)
Theorem submissions_keep_keys (calls : list Call) (db db' : DB) :
  keysConsistent db ->
  run db calls = Returned db' ->
  keysConsistent db'.
Proof.
  revert db. induction calls as [|c calls IH]; simpl; intros db Hk Hrun.
  - now injection Hrun as <-.
  - apply bind_Returned in Hrun. destruct Hrun as [[id db1] [Hc Hrun]].
    apply (IH db1); [|exact Hrun]. eapply exec_keeps_keys; eauto.
Qed.

Lemma submissions_keep_keys_witness :
  exists db',
    run Sample.db0 Sample.calls = Returned db' /\ keysConsistent db'.
Proof.
  assert (exists db', run Sample.db0 Sample.calls = Returned db') as [db' Hrun]
      by (eexists; vm_compute; reflexivity).
  exists db'. split; [exact Hrun|].
  apply (submissions_keep_keys Sample.calls Sample.db0 db'); [|exact Hrun].
  intros e act [].
Defined.

(** ** Cascading deletes *)

Lemma filter_filter {A} (p q : A -> bool) l :
  filter p (filter q l) = filter (fun x => q x && p x) l.
Proof.
  induction l as [|x l IH]; simpl; [reflexivity|].
  destruct (q x); simpl; [destruct (p x)|]; now rewrite IH.
Qed.

Lemma delete_entries_entries es db :
  dailyEntries (Store.delete_entries db es)
  = filter (fun e => negb (existsb (fun x => String.eqb e.(Entry._id) x.(Entry._id)) es))
           db.(dailyEntries).
Proof.
  unfold Store.delete_entries. revert db.
  induction es as [|x es IH]; intros db; simpl.
  - induction (dailyEntries db) as [|e l IHl]; simpl; congruence.
  - rewrite IH. simpl. rewrite filter_filter. apply filter_ext.
    intros e. now rewrite negb_orb.
Qed.

Lemma delete_entries_others es db :
  userProfiles (Store.delete_entries db es) = userProfiles db
  /\ projectAssignments (Store.delete_entries db es) = projectAssignments db
  /\ scopes (Store.delete_entries db es) = scopes db
  /\ activities (Store.delete_entries db es) = activities db.
Proof.
  unfold Store.delete_entries. revert db.
  induction es as [|x es IH]; intros db; simpl; [auto|].
  destruct (IH (Store.delete_entry db (Entry._id x))) as (H1 & H2 & H3 & H4).
  auto.
Qed.

(** The entries the cascade of one activity removes: those sharing an id
    with an entry of the activity. *)
Lemma deleteWithEntries_entries db a :
  dailyEntries (Activities.deleteWithEntries db a)
  = filter (fun e => negb (existsb (fun x => String.eqb e.(Entry._id) x.(Entry._id))
                                   (Db.entries_by_activity db a)))
           db.(dailyEntries).
Proof. unfold Activities.deleteWithEntries. simpl. apply delete_entries_entries. Qed.

Lemma deleteWithEntries_activities db a :
  activities (Activities.deleteWithEntries db a)
  = filter (fun x => negb (String.eqb x.(Activity._id) a)) db.(activities).
Proof.
  unfold Activities.deleteWithEntries. simpl.
  now rewrite (proj2 (proj2 (proj2 (delete_entries_others _ db)))).
Qed.

Lemma In_entries_by_activity db a e :
  In e (Db.entries_by_activity db a)
  <-> In e db.(dailyEntries) /\ e.(Entry.activityId) = a.
Proof.
  unfold Db.entries_by_activity, Db.by_date. rewrite sort_In, filter_In.
  now rewrite String.eqb_eq.
Qed.

Lemma deleteWithEntries_removes db a e :
  In e (dailyEntries (Activities.deleteWithEntries db a)) ->
  In e db.(dailyEntries) /\ e.(Entry.activityId) <> a.
Proof.
  rewrite deleteWithEntries_entries, filter_In. intros [Hin Hex].
  split; [exact Hin|]. intros Ha.
  apply negb_true_iff in Hex.
  assert (existsb (fun x => String.eqb (Entry._id e) (Entry._id x))
                  (Db.entries_by_activity db a) = true) as Ht; [|congruence].
  apply existsb_exists. exists e. split; [|apply String.eqb_refl].
  now apply In_entries_by_activity.
Qed.

Lemma deleteWithEntries_exact db a :
  NoDup (entryIds db) ->
  dailyEntries (Activities.deleteWithEntries db a)
  = filter (fun e => negb (String.eqb e.(Entry.activityId) a)) db.(dailyEntries).
Proof.
  intros Hnd. rewrite deleteWithEntries_entries. apply filter_ext_in.
  intros e He. f_equal.
  destruct (String.eqb (Entry.activityId e) a) eqn:E.
  - apply existsb_exists. exists e. split; [|apply String.eqb_refl].
    apply In_entries_by_activity. now apply String.eqb_eq in E.
  - destruct (existsb _ _) eqn:Ex; [|reflexivity].
    apply existsb_exists in Ex. destruct Ex as (x & Hx & Hid).
    apply In_entries_by_activity in Hx. destruct Hx as [Hx Ha].
    apply String.eqb_eq in Hid.
    assert (e = x) as -> by (eapply ids_determine; eauto).
    rewrite Ha, String.eqb_refl in E. discriminate.
Qed.

(** X10. Deleting an activity takes its entries with it: remove fails
    with "Not authenticated", "Activity not found" or "Access denied";
    after a successful remove the activity is not found, no stored entry
    belongs to it, and, entry ids being unique, the stored entries are
    exactly the former entries of the other activities, in the same
    order. *)
Theorem remove_activity_cascade (ctx : Ctx) (db : DB) (activityId : Id) :
  (ctx.(getAuthUserId) = None ->
   Activities.remove ctx db activityId = Thrown "Not authenticated")
  /\ (forall userId,
         ctx.(getAuthUserId) = Some userId ->
         Db.get_activity db activityId = None ->
         Activities.remove ctx db activityId = Thrown "Activity not found")
  /\ (forall userId activity,
         ctx.(getAuthUserId) = Some userId ->
         Db.get_activity db activityId = Some activity ->
         checkProjectAccess db userId activity.(Activity.projectId) = false ->
         Activities.remove ctx db activityId = Thrown "Access denied")
  /\ (forall db',
         Activities.remove ctx db activityId = Returned db' ->
         Db.get_activity db' activityId = None
         /\ Db.entries_by_activity db' activityId = []
         /\ (forall e, In e db'.(dailyEntries) ->
                       In e db.(dailyEntries)
                       /\ e.(Entry.activityId) <> activityId)
         /\ (NoDup (entryIds db) ->
             db'.(dailyEntries)
             = filter (fun e => negb (String.eqb e.(Entry.activityId) activityId))
                      db.(dailyEntries))).
Proof.
  unfold Activities.remove, require, guard.
  repeat match goal with |- _ /\ _ => split end.
  - intros ->. reflexivity.
  - intros u -> ->. reflexivity.
  - intros u a -> ->. simpl. intros ->. reflexivity.
  - destruct (getAuthUserId ctx) as [u|]; [simpl|discriminate].
    destruct (Db.get_activity db activityId) as [a|]; [simpl|discriminate].
    destruct (checkProjectAccess db u (Activity.projectId a)); [simpl|discriminate].
    intros db' [= <-].
    assert (forall e,
               In e (dailyEntries (Activities.deleteWithEntries db activityId)) ->
               In e (dailyEntries db) /\ Entry.activityId e <> activityId) as Hrem
        by (intros e; apply deleteWithEntries_removes).
    split; [|split; [|split]].
    + apply find_none_iff. rewrite deleteWithEntries_activities.
      intros x Hx. apply filter_In in Hx. destruct Hx as [_ Hx].
      now apply negb_true_iff in Hx.
    + destruct (Db.entries_by_activity _ activityId) as [|e l] eqn:E;
        [reflexivity|].
      assert (In e (Db.entries_by_activity
                      (Activities.deleteWithEntries db activityId) activityId))
        as Hin by (rewrite E; now left).
      apply In_entries_by_activity in Hin. destruct Hin as [Hin Ha].
      now destruct (Hrem e Hin).
    + exact Hrem.
    + apply deleteWithEntries_exact.
Qed.

Lemma remove_activity_cascade_witness :
  Activities.remove (Sample.ctxOf "u_out") Sample.dbStored "a1"
  = Thrown "Access denied"
  /\ exists db',
      Activities.remove (Sample.ctxOf "u_cm") Sample.dbStored "a1"
      = Returned db'
      /\ Db.get_activity db' "a1" = None
      /\ Db.entries_by_activity db' "a1" = [].
Proof.
  split.
  - apply (proj1 (proj2 (proj2 (remove_activity_cascade (Sample.ctxOf "u_out")
                                  Sample.dbStored "a1")))
             "u_out" (Activity.mk "a1" "s1" "p1" "Conduit" "ft")); reflexivity.
  - eexists. split; [reflexivity|].
    destruct (proj2 (proj2 (proj2 (remove_activity_cascade (Sample.ctxOf "u_cm")
                                     Sample.dbStored "a1"))) _ eq_refl)
      as (H1 & H2 & _).
    auto.
Defined.

(** The loop of [Scopes.remove] over the activities collected beforehand. *)
Lemma cascade_entries acts db e :
  In e (dailyEntries
          (fold_left (fun d activity =>
                        Activities.deleteWithEntries d activity.(Activity._id))
                     acts db)) ->
  In e db.(dailyEntries)
  /\ forall a, In a acts -> e.(Entry.activityId) <> a.(Activity._id).
Proof.
  revert db. induction acts as [|a acts IH]; intros db; simpl.
  - intros H. split; [exact H|tauto].
  - intros H. apply IH in H. destruct H as [Hin Hrest].
    apply deleteWithEntries_removes in Hin. destruct Hin as [Hin Ha].
    split; [exact Hin|]. intros x [<-|Hx]; auto.
Qed.

Lemma filter_ids_NoDup (l : list Entry.t) p :
  NoDup (map Entry._id l) -> NoDup (map Entry._id (filter p l)).
Proof.
  induction l as [|x l IH]; simpl; intros H; [constructor|].
  inversion H as [|? ? Hnotin Hnd]; subst.
  destruct (p x); simpl; [|now apply IH].
  constructor; [|now apply IH].
  intros Hin. apply Hnotin. apply in_map_iff in Hin.
  destruct Hin as (y & Hy & Hin). apply filter_In in Hin.
  rewrite <- Hy. apply in_map. tauto.
Qed.

Lemma cascade_entries_exact acts db :
  NoDup (entryIds db) ->
  dailyEntries
    (fold_left (fun d activity =>
                  Activities.deleteWithEntries d activity.(Activity._id))
               acts db)
  = filter (fun e => negb (existsb (fun a => String.eqb e.(Entry.activityId)
                                                        a.(Activity._id)) acts))
           db.(dailyEntries).
Proof.
  revert db. induction acts as [|a acts IH]; intros db Hnd; simpl.
  - induction (dailyEntries db) as [|e l IHl]; simpl; congruence.
  - rewrite IH.
    + rewrite (deleteWithEntries_exact _ _ Hnd), filter_filter.
      apply filter_ext. intros e. now rewrite negb_orb.
    + unfold entryIds. rewrite (deleteWithEntries_exact _ _ Hnd).
      now apply filter_ids_NoDup.
Qed.

Lemma cascade_activities acts db :
  activities
    (fold_left (fun d activity =>
                  Activities.deleteWithEntries d activity.(Activity._id))
               acts db)
  = filter (fun x => negb (existsb (fun a => String.eqb x.(Activity._id)
                                                        a.(Activity._id)) acts))
           db.(activities).
Proof.
  revert db. induction acts as [|a acts IH]; intros db; simpl.
  - induction (activities db) as [|e l IHl]; simpl; congruence.
  - rewrite IH, deleteWithEntries_activities, filter_filter.
    apply filter_ext. intros e. now rewrite negb_orb.
Qed.

Lemma cascade_scopes acts db :
  scopes
    (fold_left (fun d activity =>
                  Activities.deleteWithEntries d activity.(Activity._id))
               acts db)
  = scopes db.
Proof.
  revert db. induction acts as [|a acts IH]; intros db; simpl; [reflexivity|].
  rewrite IH. unfold Activities.deleteWithEntries. simpl.
  apply (delete_entries_others _ db).
Qed.

(** X11. Deleting a scope takes its activities and their entries with
    it: after a successful remove the scope is not found, the scope has no
    activities left, no stored entry belongs to an activity that was in
    the scope, and, entry ids being unique, the stored entries are exactly
    the former entries of the activities outside the scope.  The cascade
    follows the entries' activity, not their own scope field. *)
Theorem remove_scope_cascade (ctx : Ctx) (db db' : DB) (scopeId : Id) :
  Scopes.remove ctx db scopeId = Returned db' ->
  Db.get_scope db' scopeId = None
  /\ Db.activities_by_scope db' scopeId = []
  /\ (forall e activity,
         In e db'.(dailyEntries) ->
         In activity db.(activities) ->
         activity.(Activity.scopeId) = scopeId ->
         e.(Entry.activityId) <> activity.(Activity._id))
  /\ (NoDup (entryIds db) ->
      db'.(dailyEntries)
      = filter (fun e =>
                  negb (existsb (fun a => String.eqb e.(Entry.activityId)
                                                     a.(Activity._id))
                                (Db.activities_by_scope db scopeId)))
               db.(dailyEntries)).
Proof.
  unfold Scopes.remove, require, guard.
  destruct (getAuthUserId ctx) as [u|]; [simpl|discriminate].
  destruct (Db.get_scope db scopeId) as [s|]; [simpl|discriminate].
  destruct (checkProjectAccess db u (Scope.projectId s)); [simpl|discriminate].
  intros [= <-]. split; [|split; [|split]].
  - apply find_none_iff. simpl. intros x Hx. apply filter_In in Hx.
    destruct Hx as [_ Hx]. now apply negb_true_iff in Hx.
  - unfold Db.activities_by_scope at 1. simpl. rewrite cascade_activities.
    rewrite filter_filter.
    destruct (filter _ (activities db)) as [|a l] eqn:E; [reflexivity|].
    assert (In a (filter
                    (fun x =>
                       negb (existsb (fun a0 => String.eqb (Activity._id x)
                                                           (Activity._id a0))
                                     (Db.activities_by_scope db scopeId))
                       && String.eqb (Activity.scopeId x) scopeId)
                    (activities db))) as Hin by (rewrite E; now left).
    apply filter_In in Hin. destruct Hin as [Hin Hb].
    apply andb_prop in Hb. destruct Hb as [Hex Hs].
    apply negb_true_iff in Hex.
    assert (existsb (fun a0 => String.eqb (Activity._id a) (Activity._id a0))
                    (Db.activities_by_scope db scopeId) = true) as Ht;
      [|congruence].
    apply existsb_exists. exists a. split; [|apply String.eqb_refl].
    apply filter_In. auto.
  - intros e a He Ha Hs. simpl in He. apply cascade_entries in He.
    destruct He as [_ He]. apply He. apply filter_In.
    split; [exact Ha|]. now apply String.eqb_eq.
  - intros Hnd. simpl. now apply cascade_entries_exact.
Qed.

Lemma remove_scope_cascade_witness :
  exists db',
    Scopes.remove (Sample.ctxOf "u_cm") Sample.dbStored "s1" = Returned db'
    /\ Db.get_scope db' "s1" = None
    /\ Db.activities_by_scope db' "s1" = []
    /\ db'.(dailyEntries) = [].
Proof.
  eexists. split; [reflexivity|].
  destruct (remove_scope_cascade (Sample.ctxOf "u_cm") Sample.dbStored _ "s1"
              eq_refl) as (H1 & H2 & _ & H4).
  split; [exact H1|]. split; [exact H2|].
  rewrite H4; [reflexivity|]. repeat constructor. simpl. tauto.
Defined.

(** ** Counting the entries of groups *)

Lemma list_sum_indicator (keys : list string) k :
  NoDup keys -> In k keys ->
  list_sum (map (fun k' => if String.eqb k k' then 1%nat else 0%nat) keys)
  = 1%nat.
Proof.
  induction keys as [|k0 keys IH]; simpl; [tauto|].
  intros Hnd Hin. inversion Hnd as [|? ? Hnotin Hnd']; subst.
  destruct (String.eqb_spec k k0) as [->|Hne].
  - f_equal. clear IH Hin Hnd. induction keys as [|a keys IH]; [reflexivity|].
    simpl in *. destruct (String.eqb_spec k0 a) as [->|_]; [tauto|].
    apply IH; [tauto|]. now inversion Hnd'.
  - apply IH; [exact Hnd'|]. destruct Hin; [congruence|assumption].
Qed.

Lemma list_sum_cons a l : list_sum (a :: l) = (a + list_sum l)%nat.
Proof. reflexivity. Qed.

Section Groups.
Context {E : Type} (key : E -> string).

(** Grouping by key partitions a list: the sizes of the groups add up to
    its length. *)
Lemma length_groups (keys : list string) (l : list E) :
  NoDup keys ->
  (forall e, In e l -> In (key e) keys) ->
  list_sum (map (fun k => List.length (groupOf key k l)) keys) = List.length l.
Proof.
  intros Hnd. induction l as [|e l IH]; intros Hin; simpl.
  - clear Hnd Hin. induction keys as [|k keys IHk]; simpl; [reflexivity|exact IHk].
  - rewrite <- IH by (intros x Hx; apply Hin; now right).
    pose proof (list_sum_indicator keys (key e) Hnd (Hin e (or_introl eq_refl)))
      as Hone.
    assert (forall ks,
               list_sum (map (fun k => List.length (groupOf key k (e :: l))) ks)
               = (list_sum (map (fun k' => if String.eqb (key e) k'
                                           then 1%nat else 0%nat) ks)
                  + list_sum (map (fun k => List.length (groupOf key k l)) ks))%nat)
      as Hsplit.
    { induction ks as [|k ks IHk]; [reflexivity|].
      cbn [map]. rewrite !list_sum_cons, IHk. unfold groupOf. simpl.
      destruct (String.eqb (key e) k); simpl; lia. }
    rewrite Hsplit, Hone. reflexivity.
Qed.

End Groups.

(** ** The ranker's rows *)

Lemma count_ranked {A} (c : A -> nat) (le : A -> A -> bool) (l : list A) :
  list_sum (map (fun r => c (item r)) (addRank (Js.sort le l)))
  = list_sum (map c l).
Proof.
  rewrite <- (map_map item c), addRank_items.
  assert (forall l1 l2 : list nat,
             Permutation l1 l2 -> list_sum l1 = list_sum l2) as Hp.
  { induction 1; simpl; lia. }
  apply Hp, Permutation_map. symmetry. apply sort_perm.
Qed.

Lemma list_sum_perm (l l' : list nat) :
  Permutation l l' -> list_sum l = list_sum l'.
Proof. induction 1; simpl; lia. Qed.

(** The entry counts of the rows of a leaderboard add up to the number of
    entries that are not filed under an inherited name. *)
Lemma count_keyed {A} (count : A -> nat) (keyed : list (string * A))
      (l : list Entry.t) :
  Permutation (map fst keyed) (groupKeys foremanKey l) ->
  (forall k r, In (k, r) keyed ->
               count r = List.length (groupOf foremanKey k l)) ->
  list_sum (map count (map snd keyed))
  = List.length (filter (fun e => negb (Js.inherited (foremanKey e))) l).
Proof.
  intros Hkeys Hcount.
  rewrite map_map.
  rewrite (map_ext_in _ (fun kr => List.length (groupOf foremanKey (fst kr) l))).
  2:{ intros [k r] Hin. simpl. now apply Hcount. }
  rewrite <- (map_map fst (fun k => List.length (groupOf foremanKey k l))).
  rewrite (list_sum_perm _ _ (Permutation_map _ Hkeys)).
  set (plain := filter (fun e => negb (Js.inherited (foremanKey e))) l).
  rewrite (map_ext_in _ (fun k => List.length (groupOf foremanKey k plain))).
  - apply length_groups; [apply groupKeys_NoDup|].
    intros e He. apply filter_In in He. destruct He as [He Hk].
    apply groupKeys_In. split; [now apply in_map|].
    now apply negb_true_iff.
  - intros k Hk. apply groupKeys_In in Hk. destruct Hk as [_ Hk].
    unfold plain. now rewrite groupOf_plain.
Qed.

Lemma project_counts ctx db userId projectId startDate endDate rows :
  ctx.(getAuthUserId) = Some userId ->
  checkProjectAccess db userId projectId = true ->
  getProjectLeaderboard ctx db projectId startDate endDate = Returned rows ->
  list_sum (map (fun r => (item r).(ProjectLeader.entriesCount)) rows)
  = List.length
      (filterRange startDate endDate (Db.entries_by_project db projectId)).
Proof.
  intros Hu Hg Hres.
  destruct (inheritedKey foremanKey
              (filterRange startDate endDate (Db.entries_by_project db projectId)))
    eqn:Hinh.
  - rewrite (project_board_throws _ _ _ _ _ _ Hu Hg Hinh) in Hres. discriminate.
  - destruct (project_board ctx db userId projectId startDate endDate Hu Hg Hinh)
      as (keyed & Hres' & Hkeys & Hrows).
    rewrite Hres' in Hres. injection Hres as <-.
    rewrite count_ranked, (count_keyed _ _ _ Hkeys).
    + now rewrite (inheritedKey_false foremanKey _ Hinh).
    + intros k r Hin. destruct (Hrows k r Hin) as [[_ Ht] _].
      now destruct Ht as (_ & _ & _ & _ & ->).
Qed.

Lemma scope_counts ctx db userId scopeId scope startDate endDate rows :
  ctx.(getAuthUserId) = Some userId ->
  Db.get_scope db scopeId = Some scope ->
  checkProjectAccess db userId scope.(Scope.projectId) = true ->
  getScopeLeaderboard ctx db scopeId startDate endDate = Returned rows ->
  list_sum (map (fun r => (item r).(ScopeLeader.entriesCount)) rows)
  = List.length
      (filter (fun e => negb (Js.inherited (foremanKey e)))
              (filterRange startDate endDate (Db.entries_by_scope db scopeId))).
Proof.
  intros Hu Hs Hg Hres.
  destruct (scope_board ctx db userId scopeId scope startDate endDate Hu Hs Hg)
    as (keyed & Hres' & Hkeys & Hrows).
  rewrite Hres' in Hres. injection Hres as <-.
  rewrite count_ranked. apply (count_keyed _ _ _ Hkeys).
  intros k r Hin. destruct (Hrows k r Hin) as [[_ Ht] _].
  now destruct Ht as (_ & _ & _ & _ & ->).
Qed.

(** X12. The rows of a leaderboard are the foremen of its entries.  For a
    caller the gate admits, [getProjectLeaderboard] throws a [TypeError]
    when an entry of the project in the range is filed under a name
    inherited from [Object.prototype] (a foreman called "constructor"),
    and otherwise returns one row per foreman; [getScopeLeaderboard]
    returns one row per foreman whose name is not inherited and leaves
    the entries of the others out.  A row carries the display name of its
    foreman, the four sums over the foreman's entries and their number,
    and the rows' entry counts add up to the number of entries grouped.
    Without a date range the counts of the project leaderboard add up to
    the entriesCount [getProjectKPIs] returns. *)
Theorem leaderboard_rows
        (ctx : Ctx) (db : DB) (userId : Id) (startDate endDate : option string) :
  ctx.(getAuthUserId) = Some userId ->
  (forall projectId,
      checkProjectAccess db userId projectId = true ->
      let entries :=
        filterRange startDate endDate
          (filter (fun e => String.eqb e.(Entry.projectId) projectId)
                  db.(dailyEntries)) in
      (inheritedKey foremanKey entries = true ->
       getProjectLeaderboard ctx db projectId startDate endDate
       = Thrown "TypeError")
      /\ (inheritedKey foremanKey entries = false ->
          exists rows,
            getProjectLeaderboard ctx db projectId startDate endDate
            = Returned rows
            /\ List.length rows = List.length (groupKeys foremanKey entries)
            /\ (forall r,
                   In r rows ->
                   exists k,
                     In k (groupKeys foremanKey entries)
                     /\ projectRowOf db entries k (item r))
            /\ list_sum
                 (map (fun r => (item r).(ProjectLeader.entriesCount)) rows)
               = List.length entries))
  /\ (forall scopeId scope,
         Db.get_scope db scopeId = Some scope ->
         checkProjectAccess db userId scope.(Scope.projectId) = true ->
         let entries :=
           filterRange startDate endDate
             (filter (fun e => String.eqb e.(Entry.scopeId) scopeId)
                     db.(dailyEntries)) in
         exists rows,
           getScopeLeaderboard ctx db scopeId startDate endDate = Returned rows
           /\ List.length rows = List.length (groupKeys foremanKey entries)
           /\ (forall r,
                  In r rows ->
                  exists k,
                    In k (groupKeys foremanKey entries)
                    /\ scopeRowOf db entries k (item r))
           /\ list_sum (map (fun r => (item r).(ScopeLeader.entriesCount)) rows)
              = List.length
                  (filter (fun e => negb (Js.inherited (foremanKey e)))
                          entries))
  /\ (forall projectId rows k,
         getProjectLeaderboard ctx db projectId None None = Returned rows ->
         getProjectKPIs ctx db projectId = Returned (Some k) ->
         list_sum (map (fun r => (item r).(ProjectLeader.entriesCount)) rows)
         = k.(ProjectKPIs.entriesCount)).
Proof.
  intros Hu. split; [|split].
  - intros projectId Hg entries.
    assert (Permutation entries
              (filterRange startDate endDate
                           (Db.entries_by_project db projectId)))
      as Hp by apply filterRange_perm, by_date_perm.
    split.
    + intros Hinh. rewrite (inheritedKey_perm foremanKey _ _ Hp) in Hinh.
      now apply (project_board_throws _ _ userId).
    + intros Hinh.
      destruct (project_rows ctx db userId projectId startDate endDate
                             Hu Hg Hinh)
        as (rows & Hres & _ & Hlen & Hrows).
      exists rows. split; [exact Hres|]. split; [exact Hlen|]. split.
      * intros r Hr. now destruct (Hrows r Hr) as [Hk _].
      * rewrite (project_counts _ _ _ _ _ _ _ Hu Hg Hres).
        symmetry. now apply Permutation_length.
  - intros scopeId scope Hs Hg entries.
    assert (Permutation entries
              (filterRange startDate endDate (Db.entries_by_scope db scopeId)))
      as Hp by apply filterRange_perm, by_date_perm.
    destruct (scope_rows ctx db userId scopeId scope startDate endDate
                         Hu Hs Hg)
      as (rows & Hres & _ & Hlen & Hrows).
    exists rows. split; [exact Hres|]. split; [exact Hlen|]. split.
    + intros r Hr. now destruct (Hrows r Hr) as [Hk _].
    + rewrite (scope_counts _ _ _ _ _ _ _ _ Hu Hs Hg Hres).
      symmetry. now apply Permutation_length, filter_perm.
  - intros projectId rows k Hrows Hk. unfold getProjectKPIs in Hk.
    rewrite Hu in Hk.
    destruct (checkProjectAccess db userId projectId) eqn:Hg; [|discriminate].
    simpl in Hk. injection Hk as <-. simpl.
    now rewrite (project_counts _ _ _ _ _ _ _ Hu Hg Hrows).
Qed.

Lemma leaderboard_rows_witness :
  exists rows k,
    getProjectLeaderboard (Sample.ctxOf "u_cm") Sample.dbBoard "p1" None None
    = Returned rows
    /\ getProjectKPIs (Sample.ctxOf "u_cm") Sample.dbBoard "p1"
       = Returned (Some k)
    /\ List.length rows = 3%nat
    /\ list_sum (map (fun r => (item r).(ProjectLeader.entriesCount)) rows)
       = k.(ProjectKPIs.entriesCount)
    /\ getProjectLeaderboard
         (Sample.ctxOf "u_cm")
         (Db.set_entries Sample.db0
            [Sample.measured "e1" "a1" "2024-06-01" "constructor" 100 110 50])
         "p1" None None
       = Thrown "TypeError".
Proof.
  destruct (leaderboard_rows (Sample.ctxOf "u_cm") Sample.dbBoard
              "u_cm" None None eq_refl) as (Hp & _ & Hk).
  destruct (Hp "p1" eq_refl) as [_ Hrows].
  destruct (Hrows eq_refl) as (rows & Hres & Hlen & _ & _).
  exists rows. eexists. split; [exact Hres|]. split; [reflexivity|].
  split; [exact Hlen|]. split; [exact (Hk "p1" rows _ Hres eq_refl)|].
  destruct (leaderboard_rows
              (Sample.ctxOf "u_cm")
              (Db.set_entries Sample.db0
                 [Sample.measured "e1" "a1" "2024-06-01" "constructor" 100 110 50])
              "u_cm" None None eq_refl) as (Hp' & _ & _).
  exact (proj1 (Hp' "p1" eq_refl) eq_refl).
Defined.

(** ** The breakdowns *)

Lemma ScopeAcc_fold l acc :
  let r := fold_left ScopeAcc.add l acc in
  r.(ScopeAcc.totalActualQuantity)
  == acc.(ScopeAcc.totalActualQuantity)
     + sumQ (fun e => e.(Entry.actualQuantity) ?? 0) l
  /\ r.(ScopeAcc.totalActualHours)
     == acc.(ScopeAcc.totalActualHours)
        + sumQ (fun e => e.(Entry.actualHours) ?? 0) l
  /\ r.(ScopeAcc.totalForecastQuantity)
     == acc.(ScopeAcc.totalForecastQuantity)
        + sumQ (fun e => e.(Entry.forecastQuantity) ?? 0) l
  /\ r.(ScopeAcc.totalForecastHours)
     == acc.(ScopeAcc.totalForecastHours)
        + sumQ (fun e => e.(Entry.forecastHours) ?? 0) l
  /\ r.(ScopeAcc.entriesCount)
     = (acc.(ScopeAcc.entriesCount) + List.length l)%nat.
Proof.
  revert acc. induction l as [|e l IH]; intros acc; simpl.
  - repeat split; solve [ring|lia].
  - destruct (IH (ScopeAcc.add acc e)) as (H1 & H2 & H3 & H4 & H5).
    simpl in *. rewrite H1, H2, H3, H4, H5. repeat split; solve [ring|lia].
Qed.

Lemma ActivityAcc_fold l acc :
  let r := fold_left ActivityAcc.add l acc in
  r.(ActivityAcc.totalActualQuantity)
  == acc.(ActivityAcc.totalActualQuantity)
     + sumQ (fun e => e.(Entry.actualQuantity) ?? 0) l
  /\ r.(ActivityAcc.totalActualHours)
     == acc.(ActivityAcc.totalActualHours)
        + sumQ (fun e => e.(Entry.actualHours) ?? 0) l
  /\ r.(ActivityAcc.totalForecastQuantity)
     == acc.(ActivityAcc.totalForecastQuantity)
        + sumQ (fun e => e.(Entry.forecastQuantity) ?? 0) l
  /\ r.(ActivityAcc.totalForecastHours)
     == acc.(ActivityAcc.totalForecastHours)
        + sumQ (fun e => e.(Entry.forecastHours) ?? 0) l
  /\ r.(ActivityAcc.entriesCount)
     = (acc.(ActivityAcc.entriesCount) + List.length l)%nat.
Proof.
  revert acc. induction l as [|e l IH]; intros acc; simpl.
  - repeat split; solve [ring|lia].
  - destruct (IH (ActivityAcc.add acc e)) as (H1 & H2 & H3 & H4 & H5).
    simpl in *. rewrite H1, H2, H3, H4, H5. repeat split; solve [ring|lia].
Qed.

(** The record a breakdown reads for a key: the fold over the key's
    group, whether or not the key occurs. *)
Lemma get_accumulate_or_zero {E T} (key : E -> string) (init : T) step l k :
  Js.Dict.get k (accumulate key init step l) ?? init
  = fold_left step (groupOf key k l) init.
Proof.
  rewrite get_accumulate. now destruct (groupOf key k l).
Qed.

(** X13. The breakdowns list every scope of the project (every activity
    of the scope), also those without entries: for a caller the gate
    admits the rows are the scopes (activities) in some order, a row's
    totals and entry count are those of the entries in the date range
    filed under that scope (activity), so all zero when there are none,
    and the rows descend in productionFactor. *)
Theorem breakdown_rows
        (ctx : Ctx) (db : DB) (userId : Id) (startDate endDate : option string) :
  ctx.(getAuthUserId) = Some userId ->
  (forall projectId rows,
      checkProjectAccess db userId projectId = true ->
      getScopeBreakdown ctx db projectId startDate endDate = Returned rows ->
      Permutation (map ScopeBreakdown.scopeId rows)
                  (map Scope._id (Db.scopes_by_project db projectId))
      /\ (forall r,
             In r rows ->
             totalsOf
               (groupOf Entry.scopeId r.(ScopeBreakdown.scopeId)
                  (filterRange startDate endDate
                     (filter (fun e => String.eqb e.(Entry.projectId) projectId)
                             db.(dailyEntries))))
               r.(ScopeBreakdown.totalActualQuantity)
               r.(ScopeBreakdown.totalActualHours)
               r.(ScopeBreakdown.totalForecastQuantity)
               r.(ScopeBreakdown.totalForecastHours)
               r.(ScopeBreakdown.entriesCount))
      /\ StronglySorted
           (fun a b => b.(ScopeBreakdown.productionFactor)
                       <= a.(ScopeBreakdown.productionFactor))
           rows)
  /\ (forall scopeId scope rows,
         Db.get_scope db scopeId = Some scope ->
         checkProjectAccess db userId scope.(Scope.projectId) = true ->
         getActivityBreakdown ctx db scopeId startDate endDate = Returned rows ->
         Permutation (map ActivityBreakdown.activityId rows)
                     (map Activity._id (Db.activities_by_scope db scopeId))
         /\ (forall r,
                In r rows ->
                totalsOf
                  (groupOf Entry.activityId r.(ActivityBreakdown.activityId)
                     (filterRange startDate endDate
                        (filter (fun e => String.eqb e.(Entry.scopeId) scopeId)
                                db.(dailyEntries))))
                  r.(ActivityBreakdown.totalActualQuantity)
                  r.(ActivityBreakdown.totalActualHours)
                  r.(ActivityBreakdown.totalForecastQuantity)
                  r.(ActivityBreakdown.totalForecastHours)
                  r.(ActivityBreakdown.entriesCount))
         /\ StronglySorted
              (fun a b => b.(ActivityBreakdown.productionFactor)
                          <= a.(ActivityBreakdown.productionFactor))
              rows).
Proof.
  intros Hu. split.
  - intros projectId rows Hg. unfold getScopeBreakdown. rewrite Hu, Hg.
    simpl negb. cbv iota. intros [= <-].
    split; [|split; [|apply sort_descending]].
    + etransitivity; [apply Permutation_map; symmetry; apply sort_perm|].
      rewrite map_map. reflexivity.
    + intros r Hr. apply sort_In in Hr. apply in_map_iff in Hr.
      destruct Hr as (sc & <- & _). cbv zeta.
      cbn [ScopeBreakdown.scopeId ScopeBreakdown.totalActualQuantity
           ScopeBreakdown.totalActualHours ScopeBreakdown.totalForecastQuantity
           ScopeBreakdown.totalForecastHours ScopeBreakdown.entriesCount].
      rewrite get_accumulate_or_zero.
      eapply totalsOf_perm;
        [apply groupOf_perm, filterRange_perm, by_date_perm|].
      fold (Db.entries_by_project db projectId).
      destruct (ScopeAcc_fold
                  (groupOf Entry.scopeId (Scope._id sc)
                     (filterRange startDate endDate
                        (Db.entries_by_project db projectId)))
                  ScopeAcc.zero) as (H1 & H2 & H3 & H4 & H5).
      simpl in *. unfold totalsOf. rewrite H1, H2, H3, H4, H5.
      repeat split; ring.
  - intros scopeId scope rows Hs Hg. unfold getActivityBreakdown.
    rewrite Hu, Hs, Hg. simpl negb. cbv iota. intros [= <-].
    split; [|split; [|apply sort_descending]].
    + etransitivity; [apply Permutation_map; symmetry; apply sort_perm|].
      rewrite map_map. reflexivity.
    + intros r Hr. apply sort_In in Hr. apply in_map_iff in Hr.
      destruct Hr as (act & <- & _). cbv zeta.
      cbn [ActivityBreakdown.activityId ActivityBreakdown.totalActualQuantity
           ActivityBreakdown.totalActualHours
           ActivityBreakdown.totalForecastQuantity
           ActivityBreakdown.totalForecastHours ActivityBreakdown.entriesCount].
      rewrite get_accumulate_or_zero.
      eapply totalsOf_perm;
        [apply groupOf_perm, filterRange_perm, by_date_perm|].
      fold (Db.entries_by_scope db scopeId).
      destruct (ActivityAcc_fold
                  (groupOf Entry.activityId (Activity._id act)
                     (filterRange startDate endDate
                        (Db.entries_by_scope db scopeId)))
                  ActivityAcc.zero) as (H1 & H2 & H3 & H4 & H5).
      simpl in *. unfold totalsOf. rewrite H1, H2, H3, H4, H5.
      repeat split; ring.
Qed.

Lemma breakdown_rows_witness :
  exists rows,
    getActivityBreakdown (Sample.ctxOf "u_cm") Sample.db0 "s1" None None
    = Returned rows
    /\ Permutation (map ActivityBreakdown.activityId rows) ["a1"; "a2"]
    /\ forall r, In r rows -> r.(ActivityBreakdown.entriesCount) = 0%nat.
Proof.
  destruct (breakdown_rows (Sample.ctxOf "u_cm") Sample.db0 "u_cm" None None
              eq_refl) as [_ H].
  eexists. split; [reflexivity|].
  destruct (H "s1" (Scope.mk "s1" "p1" "Electrical") _ eq_refl eq_refl eq_refl)
    as (Hperm & Hrows & _).
  split; [exact Hperm|].
  intros r Hr. now destruct (Hrows r Hr) as (_ & _ & _ & _ & ->).
Defined.

(** ** The trends *)

Lemma DayTotals_fold g acc :
  let r := fold_left DayTotals.add g acc in
  r.(DayTotals.forecastQuantity)
  == acc.(DayTotals.forecastQuantity)
     + sumQ (fun e => e.(Entry.forecastQuantity) ?? 0) g
  /\ r.(DayTotals.actualQuantity)
     == acc.(DayTotals.actualQuantity)
        + sumQ (fun e => e.(Entry.actualQuantity) ?? 0) g
  /\ r.(DayTotals.forecastHours)
     == acc.(DayTotals.forecastHours)
        + sumQ (fun e => e.(Entry.forecastHours) ?? 0) g
  /\ r.(DayTotals.actualHours)
     == acc.(DayTotals.actualHours)
        + sumQ (fun e => e.(Entry.actualHours) ?? 0) g.
Proof.
  revert acc. induction g as [|e g IH]; intros acc; simpl.
  - repeat split; ring.
  - destruct (IH (DayTotals.add acc e)) as (H1 & H2 & H3 & H4).
    simpl in *. rewrite H1, H2, H3, H4. repeat split; ring.
Qed.

Lemma DayTotals_group g :
  let r := fold_left DayTotals.add g DayTotals.zero in
  sumsOf g r.(DayTotals.forecastQuantity) r.(DayTotals.actualQuantity)
         r.(DayTotals.forecastHours) r.(DayTotals.actualHours).
Proof.
  destruct (DayTotals_fold g DayTotals.zero) as (H1 & H2 & H3 & H4).
  simpl in *. unfold sumsOf. rewrite H1, H2, H3, H4. repeat split; ring.
Qed.

Section TrendTotals.
Variable localeCompare : string -> string -> Z.
Hypothesis localeCompare_total :
  forall a b, (0 < localeCompare a b -> localeCompare b a <= 0)%Z.

(** X14. The trend of a project: for a caller the gate admits
    [getTrendData] returns one element per distinct date among the
    project's entries in the range, except the dates that are names
    inherited from [Object.prototype] (such as "constructor"), whose
    entries it leaves out.  An element carries the sums of forecast and
    actual quantity and hours over the project's entries of its date and
    the weighted production factor of the date; the elements ascend in
    the order of [localeCompare] (assumed total). *)
Theorem trend_totals (ctx : Ctx) (db : DB) (userId projectId : Id)
        (startDate endDate : string) :
  ctx.(getAuthUserId) = Some userId ->
  checkProjectAccess db userId projectId = true ->
  let entries := projectEntriesInRange db projectId startDate endDate in
  exists rows,
    getTrendData localeCompare ctx db projectId startDate endDate = Returned rows
    /\ NoDup (map TrendPoint.date rows)
    /\ (forall d,
           In d (map TrendPoint.date rows)
           <-> In d (map Entry.date entries) /\ Js.inherited d = false)
    /\ (forall row,
           In row rows ->
           sumsOf (groupOf Entry.date row.(TrendPoint.date) entries)
                  row.(TrendPoint.totalForecast) row.(TrendPoint.totalActual)
                  row.(TrendPoint.forecastHours) row.(TrendPoint.actualHours)
           /\ trendSpec entries row)
    /\ Sorted (fun a b =>
                 (localeCompare a.(TrendPoint.date) b.(TrendPoint.date) <= 0)%Z)
              rows.
Proof.
  intros Hu Hg entries.
  destruct (getTrendData_rows localeCompare ctx db userId projectId
                              startDate endDate Hu Hg)
    as (points & Hres & Hnd & Hdates & Hrows).
  eexists. split; [exact Hres|].
  match type of Hres with
  | _ = Returned (Js.sort ?le points) => set (cmp := le) in *
  end.
  assert (Permutation (map TrendPoint.date points)
                      (map TrendPoint.date (Js.sort cmp points))) as Hpk
      by apply Permutation_map, sort_perm.
  split; [|split; [|split]].
  - eapply Permutation_NoDup; [exact Hpk|exact Hnd].
  - intros d. unfold entries. rewrite <- Hdates.
    split; apply Permutation_in; [now symmetry|exact Hpk].
  - intros row Hrow. apply sort_In in Hrow.
    destruct (Hrows row Hrow) as [Hspec Hsums]. split; assumption.
  - apply getTrendData_sorted, localeCompare_total.
Qed.

(** X15. The trend over all projects: for a Control Center caller
    [getAllProjectsTrendData] returns one element per distinct date
    among the stored entries in the range, except the dates that are
    names inherited from [Object.prototype], whose entries it leaves out;
    an element carries the four sums over all entries of its date,
    whatever their project, and the elements ascend in the order of
    [localeCompare] (assumed total). *)
Theorem all_projects_trend (ctx : Ctx) (db : DB) (userId : Id)
        (startDate endDate : string) :
  ctx.(getAuthUserId) = Some userId ->
  isControlCenter db userId = true ->
  let entries := filter (inRange startDate endDate) db.(dailyEntries) in
  exists rows,
    getAllProjectsTrendData localeCompare ctx db startDate endDate
    = Returned rows
    /\ NoDup (map DayPoint.date rows)
    /\ (forall d,
           In d (map DayPoint.date rows)
           <-> In d (map Entry.date entries) /\ Js.inherited d = false)
    /\ (forall row,
           In row rows ->
           sumsOf (groupOf Entry.date row.(DayPoint.date) entries)
                  row.(DayPoint.forecastQuantity) row.(DayPoint.actualQuantity)
                  row.(DayPoint.forecastHours) row.(DayPoint.actualHours))
    /\ Sorted (fun a b =>
                 (localeCompare a.(DayPoint.date) b.(DayPoint.date) <= 0)%Z)
              rows.
Proof.
  intros Hu Hcc entries. unfold getAllProjectsTrendData. rewrite Hu, Hcc.
  simpl negb. cbv iota. fold entries.
  eexists. split; [reflexivity|].
  set (obj := accumulateObj Entry.date DayTotals.zero DayTotals.add entries).
  match goal with
  | |- context [map ?mk (Js.Obj.entries obj)] => set (point := mk)
  end.
  set (le := fun a b : DayPoint.t =>
               (localeCompare (DayPoint.date a) (DayPoint.date b) <=? 0)%Z).
  assert (Permutation
            (map DayPoint.date (Js.sort le (map point (Js.Obj.entries obj))))
            (groupKeys Entry.date entries)) as Hdates.
  { etransitivity; [apply Permutation_map; symmetry; apply sort_perm|].
    rewrite map_map.
    apply (keys_entries_accumulateObj Entry.date DayTotals.zero DayTotals.add). }
  repeat match goal with |- _ /\ _ => split end.
  - eapply Permutation_NoDup; [symmetry; exact Hdates|apply groupKeys_NoDup].
  - intros d. rewrite <- groupKeys_In.
    split; apply Permutation_in; [exact Hdates|now symmetry].
  - intros row Hrow. apply sort_In in Hrow. apply in_map_iff in Hrow.
    destruct Hrow as ([k v] & <- & Hkv). apply In_accumulateObj in Hkv.
    destruct Hkv as [-> _]. apply DayTotals_group.
  - pose proof (sort_Sorted le) as Hs.
    assert (forall a b, le a b = false -> le b a = true) as Htot.
    { intros a b. unfold le. rewrite Z.leb_gt, Z.leb_le.
      apply localeCompare_total. }
    specialize (Hs Htot (map point (Js.Obj.entries obj))).
    clear Hdates.
    induction Hs as [|a l _ IH Hhd]; [constructor|].
    constructor; [exact IH|].
    destruct Hhd as [|b l Hab]; constructor.
    now apply Z.leb_le.
Qed.

End TrendTotals.

Lemma trend_totals_witness :
  exists rows,
    getTrendData Sample.compareDates (Sample.ctxOf "u_cm") Sample.dbBoard "p1"
                 "2024-06-01" "2024-06-30"
    = Returned rows
    /\ map TrendPoint.date rows = ["2024-06-01"; "2024-06-02"]
    /\ NoDup (map TrendPoint.date rows)
    /\ forall row,
         In row rows ->
         trendSpec (projectEntriesInRange Sample.dbBoard "p1"
                                          "2024-06-01" "2024-06-30") row.
Proof.
  destruct (trend_totals Sample.compareDates compareDates_total
              (Sample.ctxOf "u_cm") Sample.dbBoard "u_cm" "p1"
              "2024-06-01" "2024-06-30" eq_refl eq_refl)
    as (rows & Hres & Hnd & _ & Hrows & _).
  exists rows. split; [exact Hres|].
  split; [injection Hres as <-; reflexivity|].
  split; [exact Hnd|].
  intros row Hrow. now destruct (Hrows row Hrow) as [_ Hspec].
Defined.

Lemma all_projects_trend_witness :
  exists rows,
    getAllProjectsTrendData Sample.compareDates (Sample.ctxOf "u_cc")
                            Sample.dbBoard "2024-06-01" "2024-06-30"
    = Returned rows
    /\ map DayPoint.date rows = ["2024-06-01"; "2024-06-02"]
    /\ NoDup (map DayPoint.date rows)
    /\ Sorted (fun a b =>
                 (Sample.compareDates a.(DayPoint.date) b.(DayPoint.date) <= 0)%Z)
              rows.
Proof.
  destruct (all_projects_trend Sample.compareDates compareDates_total
              (Sample.ctxOf "u_cc") Sample.dbBoard "u_cc"
              "2024-06-01" "2024-06-30" eq_refl eq_refl)
    as (rows & Hres & H1 & _ & _ & H5).
  exists rows. split; [exact Hres|].
  split; [injection Hres as <-; reflexivity|].
  split; [exact H1|exact H5].
Defined.

(** ** The overviews *)

Lemma find_by_id {A} (f : A -> Id) (l : list A) x :
  NoDup (map f l) -> In x l ->
  find (fun y => String.eqb (f y) (f x)) l = Some x.
Proof.
  intros Hnd Hin.
  destruct (find (fun y => String.eqb (f y) (f x)) l) as [y|] eqn:E.
  - apply find_some in E. destruct E as [Hy E]. apply String.eqb_eq in E.
    f_equal. now apply (ids_determine f l).
  - pose proof (find_none _ _ E x Hin) as H. simpl in H.
    now rewrite String.eqb_refl in H.
Qed.

(** X16. The per-scope table agrees with the per-scope query: scope ids
    being unique, every row [getAllScopeKPIs] returns for a project
    carries exactly the name, totals, variance, rate and entry count that
    [getScopeKPIs] returns for the row's scope, and for a caller the gate
    admits there is one row per scope of the project, in table order. *)
Theorem all_scope_kpis_agree (ctx : Ctx) (db : DB) (projectId : Id)
        (rows : list ScopeKPIRow.t) :
  NoDup (map Scope._id db.(scopes)) ->
  getAllScopeKPIs ctx db projectId = Returned rows ->
  (forall r,
      In r rows ->
      getScopeKPIs ctx db r.(ScopeKPIRow.scopeId)
      = Returned (Some
          {| ScopeKPIs.scopeName := r.(ScopeKPIRow.scopeName);
             ScopeKPIs.totalForecastQuantity :=
               r.(ScopeKPIRow.totalForecastQuantity);
             ScopeKPIs.totalActualQuantity := r.(ScopeKPIRow.totalActualQuantity);
             ScopeKPIs.totalForecastHours := r.(ScopeKPIRow.totalForecastHours);
             ScopeKPIs.totalActualHours := r.(ScopeKPIRow.totalActualHours);
             ScopeKPIs.quantityVariance := r.(ScopeKPIRow.quantityVariance);
             ScopeKPIs.productionRate := r.(ScopeKPIRow.productionRate);
             ScopeKPIs.entriesCount := r.(ScopeKPIRow.entriesCount) |}))
  /\ (forall userId,
         ctx.(getAuthUserId) = Some userId ->
         checkProjectAccess db userId projectId = true ->
         map ScopeKPIRow.scopeId rows
         = map Scope._id (Db.scopes_by_project db projectId)).
Proof.
  intros Hnd. unfold getAllScopeKPIs.
  destruct (getAuthUserId ctx) as [u|] eqn:Hu;
    [|intros [= <-]; split; [intros r []|discriminate]].
  destruct (checkProjectAccess db u projectId) eqn:Hg; simpl negb; cbv iota;
    intros [= <-]; (split; [|intros u' [= <-]; try congruence]).
  - intros r Hr. apply in_map_iff in Hr. destruct Hr as (sc & <- & Hsc).
    apply filter_In in Hsc. destruct Hsc as [Hin Hp].
    apply String.eqb_eq in Hp. cbv zeta. cbn [ScopeKPIRow.scopeId].
    unfold getScopeKPIs. rewrite Hu. unfold Db.get_scope.
    rewrite (find_by_id Scope._id _ sc Hnd Hin), Hp, Hg. reflexivity.
  - intros _. rewrite map_map. reflexivity.
  - intros r [].
Qed.

Lemma all_scope_kpis_agree_witness :
  exists rows,
    getAllScopeKPIs (Sample.ctxOf "u_cm") Sample.dbTrend "p1" = Returned rows
    /\ map ScopeKPIRow.scopeId rows = ["s1"]
    /\ forall r, In r rows ->
         exists k, getScopeKPIs (Sample.ctxOf "u_cm") Sample.dbTrend
                                r.(ScopeKPIRow.scopeId)
                   = Returned (Some k)
                   /\ k.(ScopeKPIs.entriesCount) = r.(ScopeKPIRow.entriesCount).
Proof.
  eexists. split; [reflexivity|].
  destruct (all_scope_kpis_agree (Sample.ctxOf "u_cm") Sample.dbTrend "p1" _
              ltac:(repeat constructor; simpl; tauto) eq_refl) as [H1 H2].
  split; [exact (H2 "u_cm" eq_refl eq_refl)|].
  intros r Hr. eexists. split; [exact (H1 r Hr)|reflexivity].
Defined.

Lemma SummaryAcc_fold l acc :
  let r := fold_left SummaryAcc.add l acc in
  r.(SummaryAcc.totalForecast)
  == acc.(SummaryAcc.totalForecast)
     + sumQ (fun e => e.(Entry.forecastQuantity) ?? 0) l
  /\ r.(SummaryAcc.totalActual)
     == acc.(SummaryAcc.totalActual)
        + sumQ (fun e => e.(Entry.actualQuantity) ?? 0) l
  /\ r.(SummaryAcc.totalHours)
     == acc.(SummaryAcc.totalHours)
        + sumQ (fun e => e.(Entry.actualHours) ?? 0) l.
Proof.
  revert acc. induction l as [|e l IH]; intros acc; simpl.
  - repeat split; ring.
  - destruct (IH (SummaryAcc.add acc e)) as (H1 & H2 & H3).
    simpl in *. rewrite H1, H2, H3. repeat split; ring.
Qed.

Lemma SummaryAcc_group l :
  let r := fold_left SummaryAcc.add l SummaryAcc.zero in
  r.(SummaryAcc.totalForecast) == sumQ (fun e => e.(Entry.forecastQuantity) ?? 0) l
  /\ r.(SummaryAcc.totalActual) == sumQ (fun e => e.(Entry.actualQuantity) ?? 0) l
  /\ r.(SummaryAcc.totalHours) == sumQ (fun e => e.(Entry.actualHours) ?? 0) l.
Proof.
  destruct (SummaryAcc_fold l SummaryAcc.zero) as (H1 & H2 & H3).
  simpl in *. rewrite H1, H2, H3. repeat split; ring.
Qed.

Lemma efficiencyOrZero_spec actual forecast :
  guardedPercent (efficiencyOrZero actual forecast) actual forecast.
Proof.
  unfold guardedPercent, efficiencyOrZero. split; intros H.
  - apply gt0_true in H. now rewrite H.
  - apply gt0_false in H. now rewrite H.
Qed.

Lemma length_by_project db :
  entriesOfListedProjects db ->
  list_sum (map (fun p => List.length (Db.entries_by_project db p.(Project._id)))
                db.(projects))
  = List.length db.(dailyEntries).
Proof.
  intros [Hnd Hin].
  rewrite (map_ext _ (fun p => List.length (groupOf Entry.projectId
                                              (Project._id p)
                                              (dailyEntries db)))).
  - rewrite <- (map_map Project._id
                        (fun k => List.length (groupOf Entry.projectId k
                                                       (dailyEntries db)))).
    now apply length_groups.
  - intros p. symmetry. apply Permutation_length, by_date_perm.
Qed.

(** X17. The portfolio summary: for a Control Center caller
    [getProjectsSummary] returns one row per project, in table order;
    a row's totals are the sums over the project's entries, its
    efficiency is totalActual / totalForecast * 100, not rounded, and 0
    when totalForecast is not positive.  When every stored entry belongs
    to exactly one listed project, the rows' entry counts add up to the
    totalEntries [getAllProjectsKPIs] returns, and there are as many rows
    as its totalProjects. *)
Theorem projects_summary_spec (ctx : Ctx) (db : DB) (userId : Id)
        (rows : list ProjectSummary.t) :
  ctx.(getAuthUserId) = Some userId ->
  isControlCenter db userId = true ->
  getProjectsSummary ctx db = Returned rows ->
  map ProjectSummary.projectId rows = map Project._id db.(projects)
  /\ (forall r,
         In r rows ->
         let entries :=
           filter (fun e => String.eqb e.(Entry.projectId)
                                       r.(ProjectSummary.projectId))
                  db.(dailyEntries) in
         r.(ProjectSummary.totalForecast)
         == sumQ (fun e => e.(Entry.forecastQuantity) ?? 0) entries
         /\ r.(ProjectSummary.totalActual)
            == sumQ (fun e => e.(Entry.actualQuantity) ?? 0) entries
         /\ r.(ProjectSummary.totalHours)
            == sumQ (fun e => e.(Entry.actualHours) ?? 0) entries
         /\ r.(ProjectSummary.entriesCount) = List.length entries
         /\ r.(ProjectSummary.scopeCount)
            = List.length (Db.scopes_by_project db r.(ProjectSummary.projectId))
         /\ guardedPercent r.(ProjectSummary.efficiency)
                           r.(ProjectSummary.totalActual)
                           r.(ProjectSummary.totalForecast))
  /\ (entriesOfListedProjects db ->
      exists k,
        getAllProjectsKPIs ctx db = Returned (Some k)
        /\ list_sum (map ProjectSummary.entriesCount rows)
           = k.(AllProjectsKPIs.totalEntries)
        /\ List.length rows = k.(AllProjectsKPIs.totalProjects)).
Proof.
  intros Hu Hcc. unfold getProjectsSummary. rewrite Hu, Hcc. simpl negb.
  cbv iota. intros [= <-]. split; [|split].
  - rewrite map_map. reflexivity.
  - intros r Hr. apply in_map_iff in Hr. destruct Hr as (p & <- & _).
    cbv zeta. cbn [ProjectSummary.projectId ProjectSummary.totalForecast
      ProjectSummary.totalActual ProjectSummary.totalHours
      ProjectSummary.entriesCount ProjectSummary.scopeCount
      ProjectSummary.efficiency].
    destruct (SummaryAcc_group (Db.entries_by_project db (Project._id p)))
      as (H1 & H2 & H3).
    assert (Permutation
              (filter (fun e => String.eqb (Entry.projectId e) (Project._id p))
                      (dailyEntries db))
              (Db.entries_by_project db (Project._id p))) as Hperm
        by apply by_date_perm.
    rewrite !(sumQ_perm _ _ _ Hperm), (Permutation_length Hperm).
    repeat match goal with |- _ /\ _ => split end;
      try assumption; try reflexivity.
    apply efficiencyOrZero_spec.
  - intros Hlisted. unfold getAllProjectsKPIs. rewrite Hu, Hcc. simpl negb.
    cbv iota. eexists. split; [reflexivity|].
    cbn [AllProjectsKPIs.totalEntries AllProjectsKPIs.totalProjects].
    rewrite map_map, length_map.
    cbn [ProjectSummary.entriesCount].
    split; [now apply length_by_project|reflexivity].
Qed.

Lemma projects_summary_spec_witness :
  exists rows k,
    getProjectsSummary (Sample.ctxOf "u_cc") Sample.dbTrend = Returned rows
    /\ map ProjectSummary.projectId rows = ["p1"]
    /\ getAllProjectsKPIs (Sample.ctxOf "u_cc") Sample.dbTrend
       = Returned (Some k)
    /\ list_sum (map ProjectSummary.entriesCount rows)
       = k.(AllProjectsKPIs.totalEntries).
Proof.
  destruct (projects_summary_spec (Sample.ctxOf "u_cc") Sample.dbTrend "u_cc"
              _ eq_refl eq_refl eq_refl) as (H1 & _ & H3).
  destruct H3 as (k & Hk & H5 & _).
  - split; [repeat constructor; simpl; tauto|].
    intros e [<-|[<-|[]]]; simpl; tauto.
  - eexists. exists k. split; [reflexivity|]. split; [exact H1|].
    split; [exact Hk|exact H5].
Defined.

(** X18. One user's statistics: [getUserStats] checks the gate for the
    caller on the project, not for the user asked about; for a caller
    the gate admits it returns the KPI figures of the entries that carry
    the target user, the project and, when both bounds are given, a date
    in the range, and it falls back to the name "Unknown" and the role
    construction_manager for a target without a profile. *)
Theorem user_stats_spec (ctx : Ctx) (db : DB) (userId projectId targetUserId : Id)
        (startDate endDate : option string) :
  ctx.(getAuthUserId) = Some userId ->
  checkProjectAccess db userId projectId = true ->
  exists stats,
    getUserStats ctx db projectId targetUserId startDate endDate
    = Returned (Some stats)
    /\ stats.(UserStats.userId) = targetUserId
    /\ (let entries :=
          filterRange startDate endDate
            (filter (fun e => String.eqb e.(Entry.projectId) projectId)
                    (filter (fun e => String.eqb e.(Entry.userId) targetUserId)
                            db.(dailyEntries))) in
        kpiSpec entries
                stats.(UserStats.totalForecastQuantity)
                stats.(UserStats.totalActualQuantity)
                stats.(UserStats.totalForecastHours)
                stats.(UserStats.totalActualHours)
                stats.(UserStats.variance)
                stats.(UserStats.productionRate)
        /\ stats.(UserStats.entriesCount) = List.length entries)
    /\ (Db.profile_by_userId db targetUserId = None ->
        stats.(UserStats.userName) = "Unknown"
        /\ stats.(UserStats.role) = construction_manager)
    /\ (forall profile,
           Db.profile_by_userId db targetUserId = Some profile ->
           stats.(UserStats.userName) = profile.(Profile.name)
           /\ stats.(UserStats.role) = profile.(Profile.role)).
Proof.
  intros Hu Hg. unfold getUserStats. rewrite Hu, Hg. simpl negb. cbv iota.
  eexists. split; [reflexivity|]. cbv zeta.
  cbn [UserStats.userId UserStats.totalForecastQuantity
       UserStats.totalActualQuantity UserStats.totalForecastHours
       UserStats.totalActualHours UserStats.variance UserStats.productionRate
       UserStats.entriesCount UserStats.userName UserStats.role].
  assert (Permutation
            (filterRange startDate endDate
               (filter (fun e => String.eqb (Entry.projectId e) projectId)
                  (filter (fun e => String.eqb (Entry.userId e) targetUserId)
                          (dailyEntries db))))
            (filterRange startDate endDate
               (filter (fun e => String.eqb (Entry.projectId e) projectId)
                       (Store.entries_by_user db targetUserId)))) as Hperm.
  { apply filterRange_perm, filter_perm, by_date_perm. }
  split; [reflexivity|]. split; [split|split].
  - now apply kpiSpec_of_totals.
  - symmetry. now apply Permutation_length.
  - intros ->. split; reflexivity.
  - intros profile ->. split; reflexivity.
Qed.

Lemma user_stats_spec_witness :
  exists stats,
    getUserStats (Sample.ctxOf "u_cm") Sample.dbTrend "p1" "u_nobody" None None
    = Returned (Some stats)
    /\ stats.(UserStats.userName) = "Unknown"
    /\ stats.(UserStats.entriesCount) = 0%nat.
Proof.
  destruct (user_stats_spec (Sample.ctxOf "u_cm") Sample.dbTrend "u_cm" "p1"
              "u_nobody" None None eq_refl eq_refl)
    as (stats & H & _ & [_ Hn] & Hname & _).
  exists stats. split; [exact H|]. split; [apply Hname; reflexivity|exact Hn].
Defined.

(** ** Work logs *)

Section AccumulateFrom.
Context {E T : Type} (key : E -> string) (init : E -> T) (step : T -> E -> T).

Lemma accumulateFrom_snoc l e :
  accumulateFrom key init step (l ++ [e])
  = Js.Dict.update (key e) (fun v => step v e)
      (Js.Dict.ensure (key e) (init e) (accumulateFrom key init step l)).
Proof. unfold accumulateFrom. now rewrite fold_left_app. Qed.

(** The record filed under [k] starts from the element that introduced
    the key and folds over all the elements of the key. *)
Lemma get_accumulateFrom l k :
  Js.Dict.get k (accumulateFrom key init step l)
  = match groupOf key k l with
    | [] => None
    | e :: g => Some (fold_left step (e :: g) (init e))
    end.
Proof.
  induction l as [|e l IH] using rev_ind; [reflexivity|].
  rewrite accumulateFrom_snoc, get_update, get_ensure, IH, groupOf_snoc.
  rewrite (String.eqb_sym k (key e)).
  destruct (String.eqb (key e) k) eqn:Ek.
  - destruct (groupOf key k l) as [|x g] eqn:Eg; simpl; [reflexivity|].
    now rewrite fold_left_app.
  - rewrite app_nil_r. now destruct (groupOf key k l).
Qed.

Lemma keys_accumulateFrom_iff l k :
  In k (map fst (accumulateFrom key init step l)) <-> In k (map key l).
Proof.
  pose proof (get_None_keys (accumulateFrom key init step l) k) as Hn.
  rewrite get_accumulateFrom in Hn. pose proof (groupOf_nil_iff key tt (fun t _ => t) k l) as Hg.
  destruct (groupOf key k l) as [|x g].
  - assert (~ In k (map key l)) by now apply Hg.
    assert (~ In k (map fst (accumulateFrom key init step l))) by now apply Hn.
    tauto.
  - destruct (in_dec string_dec k (map key l)) as [H1|H1];
      [|apply Hg in H1; discriminate].
    destruct (in_dec string_dec k (map fst (accumulateFrom key init step l)))
      as [H2|H2]; [tauto|apply Hn in H2; discriminate].
Qed.

Lemma keys_accumulateFrom_NoDup l :
  NoDup (map fst (accumulateFrom key init step l)).
Proof.
  induction l as [|e l IH] using rev_ind; [constructor|].
  rewrite accumulateFrom_snoc, keys_update, keys_ensure.
  destruct (Js.Dict.get (key e) (accumulateFrom key init step l)) eqn:Eg.
  - now rewrite app_nil_r.
  - apply get_None_keys in Eg.
    apply NoDup_app; [exact IH|repeat constructor; simpl; tauto|].
    intros x Hx [<-|[]]. contradiction.
Qed.

Lemma In_accumulateFrom l k v :
  In (k, v) (accumulateFrom key init step l) ->
  exists e g,
    groupOf key k l = e :: g /\ v = fold_left step (e :: g) (init e).
Proof.
  intros Hin. apply In_get in Hin; [|apply keys_accumulateFrom_NoDup].
  rewrite get_accumulateFrom in Hin.
  destruct (groupOf key k l) as [|e g]; [discriminate|].
  injection Hin as <-. eauto.
Qed.
End AccumulateFrom.

Lemma DayAcc_fold g acc :
  let r := fold_left DayAcc.add g acc in
  r.(DayAcc.date) = acc.(DayAcc.date)
  /\ r.(DayAcc.entries) = acc.(DayAcc.entries) ++ g
  /\ r.(DayAcc.totalForecast)
     == acc.(DayAcc.totalForecast)
        + sumQ (fun e => e.(Entry.forecastQuantity) ?? 0) g
  /\ r.(DayAcc.totalActual)
     == acc.(DayAcc.totalActual)
        + sumQ (fun e => e.(Entry.actualQuantity) ?? 0) g
  /\ r.(DayAcc.totalForecastHours)
     == acc.(DayAcc.totalForecastHours)
        + sumQ (fun e => e.(Entry.forecastHours) ?? 0) g
  /\ r.(DayAcc.totalActualHours)
     == acc.(DayAcc.totalActualHours)
        + sumQ (fun e => e.(Entry.actualHours) ?? 0) g.
Proof.
  revert acc. induction g as [|e g IH]; intros acc; simpl.
  - rewrite app_nil_r. repeat split; ring.
  - destruct (IH (DayAcc.add acc e)) as (H0 & H0' & H1 & H2 & H3 & H4).
    simpl in *. rewrite H0, H0', H1, H2, H3, H4, <- app_assoc.
    repeat split; ring.
Qed.

Lemma assigned_is_allowed db userId a :
  In a (Store.assignments_by_userId db userId) ->
  checkProjectAccess db userId a.(ProjectAssignment.projectId) = true.
Proof.
  intros Hin. apply filter_In in Hin. destruct Hin as [Hin Hu].
  unfold checkProjectAccess.
  destruct (Db.profile_by_userId db userId) as [p|]; [|reflexivity].
  destruct (Role_eqb (Profile.role p) control_center); [reflexivity|].
  destruct (Db.assignment_by_userId_and_projectId db userId _) eqn:E;
    [reflexivity|].
  pose proof (find_none _ _ E a Hin) as H. simpl in H.
  now rewrite Hu, String.eqb_refl in H.
Qed.

Lemma control_center_is_allowed db userId projectId :
  isControlCenter db userId = true ->
  checkProjectAccess db userId projectId = true.
Proof.
  unfold isControlCenter, checkProjectAccess.
  destruct (Db.profile_by_userId db userId) as [p|]; [|discriminate].
  now intros ->.
Qed.

Lemma In_firstn {A} n (l : list A) x : In x (firstn n l) -> In x l.
Proof.
  revert l. induction n as [|n IH]; intros [|a l]; simpl; try tauto.
  intros [->|H]; [now left|right; now apply IH].
Qed.

Lemma visibleEntries_spec db userId (mayView : Entry.t -> bool) :
  (forall e,
      mayView e = true
      <-> isControlCenter db userId = true
          \/ assignedTo db userId e.(Entry.projectId)) ->
  visibleEntries db userId = filter mayView db.(dailyEntries).
Proof.
  intros Hview. unfold visibleEntries.
  destruct (isControlCenter db userId) eqn:Hcc.
  - symmetry. apply forallb_filter_id. apply forallb_forall.
    intros e _. apply Hview. now left.
  - apply filter_ext. intros e.
    destruct (mayView e) eqn:Hm.
    + apply Hview in Hm. destruct Hm as [Hm|(a & Ha & Hau & Hap)];
        [discriminate|].
      apply existsb_exists. exists (ProjectAssignment.projectId a). split.
      * apply in_map. apply filter_In. split; [exact Ha|].
        now apply String.eqb_eq.
      * apply String.eqb_eq. now symmetry.
    + destruct (existsb _ _) eqn:Hex; [|reflexivity].
      apply existsb_exists in Hex. destruct Hex as (p & Hp & Heq).
      apply in_map_iff in Hp. destruct Hp as (a & <- & Ha).
      apply filter_In in Ha. destruct Ha as [Ha Hau].
      assert (mayView e = true) as Hm'; [|congruence].
      apply Hview. right. exists a. split; [exact Ha|].
      split; [now apply String.eqb_eq|].
      apply String.eqb_eq in Heq. now symmetry.
Qed.

Section WorkLogs.
Variable localeCompare : string -> string -> Z.

(** X19. The dated work logs show a caller the entries in the range of
    the projects the caller may see: all projects for Control Center,
    otherwise the projects the caller has an assignment to, all of which
    the gate admits the caller to.  When one of
    those entries carries a date that is a name inherited from
    [Object.prototype] the query throws a [TypeError]; otherwise there is
    one day per distinct date of those entries; a day lists its entries
    in creation order, counts them, and carries their four sums; the days
    descend in the order of [localeCompare] when that is total. *)
Theorem work_logs_by_date_spec (ctx : Ctx) (db : DB) (userId : Id)
        (startDate endDate : string) (mayView : Entry.t -> bool) :
  ctx.(getAuthUserId) = Some userId ->
  (forall e,
      mayView e = true
      <-> isControlCenter db userId = true
          \/ assignedTo db userId e.(Entry.projectId)) ->
  let shown :=
    filter (fun e => mayView e && inRange startDate endDate e)
           db.(dailyEntries) in
  (forall e,
      In e shown ->
      checkProjectAccess db userId e.(Entry.projectId) = true)
  /\ (inheritedKey Entry.date shown = true ->
      getWorkLogsByDate localeCompare ctx db startDate endDate
      = Thrown "TypeError")
  /\ (inheritedKey Entry.date shown = false ->
      exists days,
        getWorkLogsByDate localeCompare ctx db startDate endDate
        = Returned days
        /\ NoDup (map DayLog.date days)
        /\ (forall d, In d (map DayLog.date days) <-> In d (map Entry.date shown))
        /\ (forall day,
               In day days ->
               let es := groupOf Entry.date day.(DayLog.date) shown in
               day.(DayLog.entries) = map (logEntry db) es
               /\ day.(DayLog.entryCount) = List.length es
               /\ sumsOf es day.(DayLog.totalForecast) day.(DayLog.totalActual)
                         day.(DayLog.totalForecastHours)
                         day.(DayLog.totalActualHours))
        /\ ((forall a b,
                (0 < localeCompare a b -> localeCompare b a <= 0)%Z) ->
            Sorted (fun a b =>
                      (localeCompare b.(DayLog.date) a.(DayLog.date) <= 0)%Z)
                   days)).
Proof.
  intros Hu Hview shown. split.
  { intros e He. apply filter_In in He. destruct He as [_ He].
    apply andb_true_iff in He. destruct He as [He _].
    apply Hview in He. destruct He as [Hcc|(a & Ha & Hau & <-)].
    - now apply control_center_is_allowed.
    - apply assigned_is_allowed. apply filter_In. split; [exact Ha|].
      now apply String.eqb_eq. }
  unfold getWorkLogsByDate. rewrite Hu.
  rewrite (visibleEntries_spec db userId mayView Hview), filter_filter.
  fold shown. rewrite accumulateStrict_cases.
  split; [intros ->; reflexivity|]. intros Hinh. rewrite Hinh. simpl bind.
  eexists. split; [reflexivity|].
  set (obj := accumulateFrom Entry.date DayAcc.init DayAcc.add shown).
  set (le := fun a b : DayLog.t =>
               (localeCompare (DayLog.date b) (DayLog.date a) <=? 0)%Z).
  assert (forall k v, In (k, v) obj ->
                      DayAcc.date v = k
                      /\ DayAcc.entries v = groupOf Entry.date k shown
                      /\ sumsOf (groupOf Entry.date k shown)
                                (DayAcc.totalForecast v) (DayAcc.totalActual v)
                                (DayAcc.totalForecastHours v)
                                (DayAcc.totalActualHours v)) as Hobj.
  { intros k v Hin. apply In_accumulateFrom in Hin.
    destruct Hin as (e0 & g & Hgrp & ->). rewrite Hgrp.
    destruct (DayAcc_fold (e0 :: g) (DayAcc.init e0))
      as (H0 & H0' & H1 & H2 & H3 & H4).
    cbv zeta in *. rewrite H0, H0'. unfold sumsOf. rewrite H1, H2, H3, H4.
    assert (In e0 (groupOf Entry.date k shown)) as Hk
        by (rewrite Hgrp; now left).
    apply filter_In in Hk. destruct Hk as [_ Hk]. apply String.eqb_eq in Hk.
    simpl DayAcc.date. simpl DayAcc.entries.
    split; [exact Hk|]. split; [reflexivity|].
    simpl. repeat split; ring. }
  assert (Permutation
            (map DayLog.date
                 (Js.sort le (map (dayLog db) (Js.Obj.values obj))))
            (map fst obj)) as Hdates.
  { etransitivity; [apply Permutation_map; symmetry; apply sort_perm|].
    unfold Js.Obj.values. rewrite !map_map.
    etransitivity; [|apply (Permutation_map fst (entries_perm obj))].
    apply Permutation_refl'. apply map_ext_in.
    intros [k v] Hin. apply (proj1 (entries_In _ _)) in Hin.
    simpl. now destruct (Hobj k v Hin). }
  repeat match goal with |- _ /\ _ => split end.
  - eapply Permutation_NoDup; [symmetry; exact Hdates|].
    apply keys_accumulateFrom_NoDup.
  - intros d. split; intros Hd.
    + apply (keys_accumulateFrom_iff Entry.date DayAcc.init DayAcc.add).
      eapply Permutation_in; [exact Hdates|exact Hd].
    + eapply Permutation_in; [symmetry; exact Hdates|].
      now apply (keys_accumulateFrom_iff Entry.date DayAcc.init DayAcc.add).
  - intros day Hday. apply sort_In in Hday. apply in_map_iff in Hday.
    destruct Hday as (v & <- & Hv). unfold Js.Obj.values in Hv.
    apply in_map_iff in Hv. destruct Hv as ([k v'] & <- & Hin).
    apply (proj1 (entries_In _ _)) in Hin.
    destruct (Hobj k v' Hin) as (Hd & He & Hs). cbv zeta. simpl snd.
    unfold dayLog. cbn [DayLog.date DayLog.entries DayLog.entryCount
      DayLog.totalForecast DayLog.totalActual DayLog.totalForecastHours
      DayLog.totalActualHours].
    rewrite Hd, He. auto.
  - intros Htotal. pose proof (sort_Sorted le) as Hs.
    assert (forall a b, le a b = false -> le b a = true) as Htot.
    { intros a b. unfold le. rewrite Z.leb_gt, Z.leb_le. apply Htotal. }
    specialize (Hs Htot (map (dayLog db) (Js.Obj.values obj))).
    clear Hdates.
    induction Hs as [|a l _ IH Hhd]; [constructor|].
    constructor; [exact IH|].
    destruct Hhd as [|b l Hab]; constructor.
    now apply Z.leb_le.
Qed.

(** X20. The recent work logs are for Control Center only and are cut to
    the limit: any other caller gets the empty list; for Control Center
    every row is the log of a stored entry, and of the N stored entries
    there are min(floor(limit), N) rows for a limit of at least 0, 50 at
    most when no limit is given, and, for a limit of -1 or less, N - k
    rows (none when k exceeds N), where k is -limit with its fraction
    dropped: [slice] truncates its end and counts a negative end from
    the end of the array. *)
Theorem recent_work_logs_spec (ctx : Ctx) (db : DB) (userId : Id)
        (limit : option Q) (rows : list WorkLog.t) :
  ctx.(getAuthUserId) = Some userId ->
  getRecentWorkLogs localeCompare ctx db limit = Returned rows ->
  (isControlCenter db userId = false -> rows = [])
  /\ (forall r, In r rows ->
                exists e, In e db.(dailyEntries) /\ r = workLog db e)
  /\ (isControlCenter db userId = true ->
      (limit = None ->
       List.length rows = Nat.min 50 (List.length db.(dailyEntries)))
      /\ (forall q,
             limit = Some q -> 0 <= q ->
             List.length rows
             = Nat.min (Z.to_nat (Qfloor q)) (List.length db.(dailyEntries)))
      /\ (forall q,
             limit = Some q -> q <= -1 ->
             List.length rows
             = (List.length db.(dailyEntries) - Z.to_nat (- Qceiling q))%nat)).
Proof.
  intros Hu. unfold getRecentWorkLogs. rewrite Hu.
  destruct (isControlCenter db userId) eqn:Hcc; simpl negb; cbv iota.
  2:{ intros [= <-]. split; [reflexivity|]. split; [intros r []|discriminate]. }
  intros [= <-]. split; [discriminate|]. split.
  - intros r Hr. apply in_map_iff in Hr. destruct Hr as (e & <- & He).
    exists e. split; [|reflexivity].
    unfold slice0 in He.
    destruct (_ <? 0)%Z; apply In_firstn in He; now apply sort_In in He.
  - intros _. rewrite length_map.
    assert (List.length (Js.sort (recentFirst localeCompare) (dailyEntries db))
            = List.length (dailyEntries db)) as Hlen
        by (symmetry; apply Permutation_length, sort_perm).
    split; [|split].
    + intros ->. simpl Js.nullish. unfold slice0.
      replace (Qle_bool 0 50) with true by reflexivity.
      replace (Qfloor 50) with 50%Z by reflexivity.
      change (50 <? 0)%Z with false. cbv iota.
      rewrite length_firstn, Hlen. reflexivity.
    + intros q -> Hq. simpl Js.nullish. unfold slice0.
      apply Qle_bool_iff in Hq. rewrite Hq.
      assert (0 <= Qfloor q)%Z as Hk.
      { apply Qle_bool_iff in Hq. apply Qfloor_resp_le in Hq. exact Hq. }
      apply Z.ltb_ge in Hk. rewrite Hk, length_firstn, Hlen. reflexivity.
    + intros q -> Hq. simpl Js.nullish. unfold slice0.
      assert (Qle_bool 0 q = false) as Hneg.
      { destruct (Qle_bool 0 q) eqn:E; [|reflexivity].
        apply Qle_bool_iff in E. lra. }
      rewrite Hneg.
      assert (Qceiling q <= -1)%Z as Hk.
      { pose proof (Qceiling_lt q) as Hlt.
        assert (inject_Z (Qceiling q - 1) < inject_Z (-1)) as Hz
            by (change (inject_Z (-1)) with (-1); lra).
        rewrite <- Zlt_Qlt in Hz. lia. }
      assert ((Qceiling q <? 0)%Z = true) as Hneg' by (apply Z.ltb_lt; lia).
      rewrite Hneg', length_firstn, Hlen. lia.
Qed.

End WorkLogs.

Lemma work_logs_by_date_spec_witness :
  exists days,
    getWorkLogsByDate Sample.compareDates (Sample.ctxOf "u_cm") Sample.dbTrend
                      "2024-06-01" "2024-06-30"
    = Returned days
    /\ map DayLog.date days = ["2024-06-01"]
    /\ (forall day, In day days -> day.(DayLog.entryCount) = 2%nat)
    /\ getWorkLogsByDate Sample.compareDates (Sample.ctxOf "u_out")
                         Sample.dbTrend "2024-06-01" "2024-06-30"
       = Returned [].
Proof.
  assert (forall e : Entry.t,
             String.eqb e.(Entry.projectId) "p1" = true
             <-> isControlCenter Sample.dbTrend "u_cm" = true
                 \/ assignedTo Sample.dbTrend "u_cm" e.(Entry.projectId))
    as Hview.
  { intros e. rewrite String.eqb_eq. split.
    - intros ->. right. eexists. split; [now left|]. split; reflexivity.
    - intros [Hcc|(a & [<-|[]] & _ & Hp)]; [discriminate|]. now symmetry. }
  assert (forall e : Entry.t,
             false = true
             <-> isControlCenter Sample.dbTrend "u_out" = true
                 \/ assignedTo Sample.dbTrend "u_out" e.(Entry.projectId))
    as Hnone.
  { intros e. split; [discriminate|].
    intros [Hcc|(a & [<-|[]] & Hu & _)]; discriminate. }
  destruct (work_logs_by_date_spec Sample.compareDates (Sample.ctxOf "u_cm")
              Sample.dbTrend "u_cm" "2024-06-01" "2024-06-30"
              (fun e => String.eqb e.(Entry.projectId) "p1") eq_refl Hview)
    as (_ & _ & Hdays).
  destruct (Hdays eq_refl) as (days & Hres & _ & _ & Hrows & _).
  destruct (work_logs_by_date_spec Sample.compareDates (Sample.ctxOf "u_out")
              Sample.dbTrend "u_out" "2024-06-01" "2024-06-30"
              (fun _ => false) eq_refl Hnone)
    as (_ & _ & Hout).
  destruct (Hout eq_refl) as (days' & Hres' & _ & Hdates' & _).
  exists days. split; [exact Hres|].
  split; [injection Hres as <-; reflexivity|]. split.
  - intros day Hday. destruct (Hrows day Hday) as (_ & -> & _).
    injection Hres as <-. destruct Hday as [<-|[]]. reflexivity.
  - rewrite Hres'. f_equal. destruct days' as [|d ds]; [reflexivity|].
    exfalso. exact (proj1 (Hdates' (DayLog.date d)) (or_introl eq_refl)).
Defined.

Lemma recent_work_logs_spec_witness :
  exists rows,
    getRecentWorkLogs Sample.compareDates (Sample.ctxOf "u_cc") Sample.dbBoard
                      (Some 2)
    = Returned rows
    /\ List.length rows = 2%nat.
Proof.
  eexists. split; [reflexivity|].
  destruct (recent_work_logs_spec Sample.compareDates (Sample.ctxOf "u_cc")
              Sample.dbBoard "u_cc" (Some 2) _ eq_refl eq_refl)
    as (_ & _ & H).
  destruct (H eq_refl) as (_ & H2 & _).
  rewrite (H2 2 eq_refl); [reflexivity|discriminate].
Defined.

(** ** Listing the entries of a date range *)

Lemma str_le_refl a : Js.str_le a a = true.
Proof. destruct (String.leb_total a a); assumption. Qed.

Lemma str_le_total a b : Js.str_le a b = false -> Js.str_le b a = true.
Proof.
  unfold Js.str_le. intros H. destruct (String.leb_total a b); congruence.
Qed.

Lemma str_le_trans a b c :
  Js.str_le a b = true -> Js.str_le b c = true -> Js.str_le a c = true.
Proof.
  unfold Js.str_le, String.leb. revert b c.
  induction a as [|x a IH]; intros [|y b] [|z c]; simpl; try congruence.
  unfold Ascii.compare.
  destruct (N.compare_spec (N_of_ascii x) (N_of_ascii y)) as [Exy|Lxy|Gxy];
    destruct (N.compare_spec (N_of_ascii y) (N_of_ascii z)) as [Eyz|Lyz|Gyz];
    destruct (N.compare_spec (N_of_ascii x) (N_of_ascii z)) as [Exz|Lxz|Gxz];
    try congruence; try lia; try (intros; reflexivity).
  apply IH.
Qed.

Lemma inRange_same date e :
  inRange date date e = String.eqb e.(Entry.date) date.
Proof.
  unfold inRange. destruct (String.eqb_spec (Entry.date e) date) as [->|Hne].
  - now rewrite str_le_refl.
  - destruct (Js.str_le date (Entry.date e)) eqn:E1; [|reflexivity].
    destruct (Js.str_le (Entry.date e) date) eqn:E2; [|reflexivity].
    exfalso. apply Hne. symmetry. now apply String.leb_antisym.
Qed.

Lemma inRange_ordered startDate endDate e :
  inRange startDate endDate e = true -> Js.str_le startDate endDate = true.
Proof.
  unfold inRange. intros H. apply andb_prop in H. destruct H as [H1 H2].
  eapply str_le_trans; eauto.
Qed.

Section Stable.
Context {A : Type} (le : A -> A -> bool) (p : A -> bool).
Hypothesis together : forall x y, p x = true -> p y = true -> le x y = true.

(** A stable sort keeps the elements that compare equal in their order. *)
Lemma filter_insert_sorted x l :
  filter p (Js.insert_sorted le x l)
  = if p x then x :: filter p l else filter p l.
Proof.
  induction l as [|y l IH]; simpl; [reflexivity|].
  destruct (le x y) eqn:E; simpl.
  - reflexivity.
  - rewrite IH. destruct (p x) eqn:Px, (p y) eqn:Py; try reflexivity.
    rewrite (together x y Px Py) in E. discriminate.
Qed.

Lemma filter_sort l : filter p (Js.sort le l) = filter p l.
Proof.
  induction l as [|x l IH]; simpl; [reflexivity|].
  now rewrite filter_insert_sorted, IH.
Qed.
End Stable.

Lemma filter_StronglySorted {A} (R : A -> A -> Prop) (p : A -> bool) l :
  StronglySorted R l -> StronglySorted R (filter p l).
Proof.
  induction 1 as [|a l _ IH Hall]; simpl; [constructor|].
  destruct (p a); [|exact IH]. constructor; [exact IH|].
  apply Forall_forall. intros x Hx. apply filter_In in Hx.
  rewrite Forall_forall in Hall. now apply Hall.
Qed.

Lemma by_date_ascending l :
  StronglySorted (fun a b => Js.str_le a.(Entry.date) b.(Entry.date) = true)
                 (Db.by_date l).
Proof.
  apply sort_StronglySorted.
  - intros a b. apply str_le_total.
  - intros a b c. apply str_le_trans.
Qed.

(** X21. Listing a date range: for a caller the gate admits,
    [listByProjectAndDateRange] returns the project's entries with a date
    in the range, in ascending date order and, within a date, in creation
    order; an inverted range (start after end) gives the empty list, not
    an error; and the range from a day to the same day lists exactly the
    entries [listByProjectAndDate] lists for that day, in the same
    order. *)
Theorem date_range_listing (ctx : Ctx) (db : DB) (userId projectId : Id)
        (startDate endDate : string) (rows : list NamedEntry) :
  ctx.(getAuthUserId) = Some userId ->
  checkProjectAccess db userId projectId = true ->
  DailyEntries.listByProjectAndDateRange ctx db projectId startDate endDate
  = Returned rows ->
  Permutation (map named_entry rows)
              (projectEntriesInRange db projectId startDate endDate)
  /\ StronglySorted
       (fun a b => Js.str_le a.(Entry.date) b.(Entry.date) = true)
       (map named_entry rows)
  /\ (Js.str_le startDate endDate = false -> rows = [])
  /\ (startDate = endDate ->
      exists day,
        DailyEntries.listByProjectAndDate ctx db projectId startDate
        = Returned day
        /\ map named day = rows
        /\ map named_entry rows
           = filter (fun e => String.eqb e.(Entry.projectId) projectId
                              && String.eqb e.(Entry.date) startDate)
                    db.(dailyEntries)).
Proof.
  intros Hu Hg. unfold DailyEntries.listByProjectAndDateRange.
  rewrite Hu, Hg. simpl negb. cbv iota. intros [= <-].
  assert (map named_entry
              (map (nameEntry db)
                   (filter (inRange startDate endDate)
                           (Db.entries_by_project db projectId)))
          = filter (inRange startDate endDate)
                   (Db.entries_by_project db projectId)) as Hentries.
  { rewrite map_map. apply map_id. }
  rewrite Hentries. split; [|split; [|split]].
  - symmetry. unfold projectEntriesInRange, Db.entries_by_project.
    apply filter_perm, by_date_perm.
  - apply filter_StronglySorted, by_date_ascending.
  - intros Hinv.
    destruct (filter (inRange startDate endDate)
                     (Db.entries_by_project db projectId)) as [|e l] eqn:E;
      [reflexivity|].
    assert (In e (filter (inRange startDate endDate)
                         (Db.entries_by_project db projectId))) as Hin
        by (rewrite E; now left).
    apply filter_In in Hin. destruct Hin as [_ Hin].
    apply inRange_ordered in Hin. congruence.
  - intros <-. unfold DailyEntries.listByProjectAndDate.
    rewrite Hu, Hg. simpl negb. cbv iota. eexists. split; [reflexivity|].
    assert (filter (inRange startDate startDate)
                   (Db.entries_by_project db projectId)
            = Store.entries_by_project_and_date db projectId startDate) as Hday.
    { rewrite (filter_ext _ _ (inRange_same startDate)).
      unfold Db.entries_by_project, Db.by_date. rewrite filter_sort.
      - rewrite filter_filter. reflexivity.
      - intros x y Hx Hy. apply String.eqb_eq in Hx, Hy.
        rewrite Hx, Hy. apply str_le_refl. }
    rewrite Hday. split; [|reflexivity].
    rewrite !map_map. reflexivity.
Qed.

Lemma date_range_listing_witness :
  exists rows,
    DailyEntries.listByProjectAndDateRange (Sample.ctxOf "u_cm") Sample.dbBoard
                                           "p1" "2024-06-02" "2024-06-01"
    = Returned rows
    /\ rows = [].
Proof.
  eexists. split; [reflexivity|].
  apply (date_range_listing (Sample.ctxOf "u_cm") Sample.dbBoard "u_cm" "p1"
           "2024-06-02" "2024-06-01" _ eq_refl eq_refl eq_refl).
  reflexivity.
Defined.

(** ** Refused reads of the data-entry handlers *)

(** X22. The queries of the data-entry handlers never throw on a refusal:
    for an unauthenticated caller, and for a caller the gate denies on
    the project of the target, each returns null or the empty list, and
    so does a query by scope or activity id whose target does not
    exist. *)
Theorem entry_reads_degrade_silently (ctx : Ctx) (db : DB) :
  (forall projectId,
      refused ctx db projectId ->
      (forall d,
          DailyEntries.listByProjectAndDate ctx db projectId d = Returned [])
      /\ (forall s e,
             DailyEntries.listByProjectAndDateRange ctx db projectId s e
             = Returned [])
      /\ Activities.listByProject ctx db projectId = Returned []
      /\ Scopes.listByProject ctx db projectId = Returned []
      /\ getAllScopeKPIs ctx db projectId = Returned []
      /\ (forall target s e,
             getUserStats ctx db projectId target s e = Returned None))
  /\ (forall scopeId,
         match Db.get_scope db scopeId with
         | Some scope => refused ctx db scope.(Scope.projectId)
         | None => True
         end ->
         Activities.listByScope ctx db scopeId = Returned []
         /\ Scopes.getById ctx db scopeId = Returned None)
  /\ (forall activityId,
         match Db.get_activity db activityId with
         | Some activity => refused ctx db activity.(Activity.projectId)
         | None => True
         end ->
         (forall d,
             DailyEntries.getByActivityAndDate ctx db activityId d
             = Returned None)
         /\ Activities.getById ctx db activityId = Returned None).
Proof.
  unfold refused. split; [|split].
  - intros projectId Href.
    unfold DailyEntries.listByProjectAndDate,
      DailyEntries.listByProjectAndDateRange, Activities.listByProject,
      Scopes.listByProject, getAllScopeKPIs, getUserStats.
    destruct (getAuthUserId ctx) as [u|]; [rewrite Href|]; simpl;
      repeat split.
  - intros scopeId Href. unfold Activities.listByScope, Scopes.getById.
    destruct (getAuthUserId ctx) as [u|]; [|split; reflexivity].
    destruct (Db.get_scope db scopeId) as [s|]; [|split; reflexivity].
    rewrite Href. split; reflexivity.
  - intros activityId Href.
    unfold DailyEntries.getByActivityAndDate, Activities.getById.
    destruct (getAuthUserId ctx) as [u|]; [|split; reflexivity].
    destruct (Db.get_activity db activityId) as [a|]; [|split; reflexivity].
    rewrite Href. split; reflexivity.
Qed.

Lemma entry_reads_degrade_silently_witness :
  DailyEntries.listByProjectAndDateRange (Sample.ctxOf "u_out") Sample.dbStored
                                         "p1" "2024-06-01" "2024-06-30"
  = Returned []
  /\ DailyEntries.getByActivityAndDate Sample.anonymous Sample.dbStored
                                       "a1" "2024-06-01"
     = Returned None.
Proof.
  destruct (entry_reads_degrade_silently (Sample.ctxOf "u_out") Sample.dbStored)
    as (H1 & _ & _).
  destruct (entry_reads_degrade_silently Sample.anonymous Sample.dbStored)
    as (_ & _ & H3).
  split.
  - apply (H1 "p1"). reflexivity.
  - apply (H3 "a1"). exact I.
Defined.

(** ** Projects and assignments *)

(** X23. The project handlers decide access as the gate does: for a
    non-empty project id [canAccessProject] allows exactly when
    [checkProjectAccess] does, its Control Center flag is the one of
    [isControlCenter], and without a project id it allows everybody; so
    [Projects.getById] returns the stored project exactly to the callers
    the gate admits, and null otherwise. *)
Theorem projects_access_agrees (db : DB) (userId projectId : Id) :
  projectId <> "" ->
  (Projects.canAccessProject db userId (Some projectId)).(Projects.canAccess)
  = checkProjectAccess db userId projectId
  /\ (forall p,
         (Projects.canAccessProject db userId p).(Projects.isControlCenter)
         = isControlCenter db userId)
  /\ (Projects.canAccessProject db userId None).(Projects.canAccess) = true
  /\ (forall ctx,
         ctx.(getAuthUserId) = Some userId ->
         Projects.getById ctx db projectId
         = Returned (if checkProjectAccess db userId projectId
                     then Store.get_project db projectId
                     else None)).
Proof.
  intros Hne.
  assert ((Projects.canAccessProject db userId (Some projectId)).(Projects.canAccess)
          = checkProjectAccess db userId projectId) as Hagree.
  { unfold Projects.canAccessProject, checkProjectAccess.
    destruct (Db.profile_by_userId db userId) as [p|]; [|reflexivity].
    destruct (Role_eqb (Profile.role p) control_center); [reflexivity|].
    assert (Js.truthy_str (Some projectId) = true) as ->
        by (destruct projectId; [congruence|reflexivity]).
    now destruct (Db.assignment_by_userId_and_projectId db userId projectId). }
  split; [exact Hagree|]. split; [|split].
  - intros p. unfold Projects.canAccessProject, isControlCenter.
    destruct (Db.profile_by_userId db userId) as [pr|]; [|reflexivity].
    destruct (Role_eqb (Profile.role pr) control_center); [reflexivity|].
    destruct p as [p|]; [|reflexivity].
    destruct (Js.truthy_str (Some p)); [|reflexivity].
    now destruct (Db.assignment_by_userId_and_projectId db userId p).
  - unfold Projects.canAccessProject.
    destruct (Db.profile_by_userId db userId) as [pr|]; [|reflexivity].
    now destruct (Role_eqb (Profile.role pr) control_center).
  - intros ctx Hu. unfold Projects.getById. rewrite Hu, Hagree.
    now destruct (checkProjectAccess db userId projectId).
Qed.

Lemma projects_access_agrees_witness :
  (Projects.canAccessProject Sample.db0 "u_out" (Some "p1")).(Projects.canAccess)
  = checkProjectAccess Sample.db0 "u_out" "p1"
  /\ Projects.getById (Sample.ctxOf "u_out") Sample.db0 "p1" = Returned None.
Proof.
  destruct (projects_access_agrees Sample.db0 "u_out" "p1" ltac:(discriminate))
    as (H1 & _ & _ & H4).
  split; [exact H1|]. rewrite (H4 (Sample.ctxOf "u_out") eq_refl). reflexivity.
Defined.

(** X24. The project list shows what the gate admits: project ids being
    unique, a stored project is in the list [Projects.list] returns to an
    authenticated caller exactly when the gate admits the caller to it,
    and the list holds stored projects only. *)
Theorem projects_list_agrees (ctx : Ctx) (db : DB) (userId : Id)
        (shown : list Project.t) :
  NoDup (map Project._id db.(projects)) ->
  ctx.(getAuthUserId) = Some userId ->
  Projects.list ctx db = Returned shown ->
  (forall p, In p shown -> In p db.(projects))
  /\ (forall p,
         In p db.(projects) ->
         (In p shown <-> checkProjectAccess db userId p.(Project._id) = true)).
Proof.
  intros Hnd Hu. unfold Projects.list, checkProjectAccess. rewrite Hu.
  destruct (Db.profile_by_userId db userId) as [pr|] eqn:Hpr;
    [|intros [= <-]; split; [auto|tauto]].
  destruct (Role_eqb (Profile.role pr) control_center);
    [intros [= <-]; split; [auto|tauto]|].
  intros [= <-].
  assert (forall p,
             In p (flat_map
                     (fun a =>
                        match Store.get_project db (ProjectAssignment.projectId a) with
                        | Some project => [project]
                        | None => []
                        end)
                     (Store.assignments_by_userId db userId))
             <-> exists a,
                 In a (Store.assignments_by_userId db userId)
                 /\ Store.get_project db (ProjectAssignment.projectId a) = Some p)
    as Hshown.
  { intros p. rewrite in_flat_map. split; intros (a & Ha & Hp); exists a.
    - split; [exact Ha|].
      destruct (Store.get_project db _) as [q|]; [|contradiction].
      destruct Hp as [->|[]]. reflexivity.
    - split; [exact Ha|]. rewrite Hp. now left. }
  split.
  - intros p Hp. apply Hshown in Hp. destruct Hp as (a & _ & Hget).
    now apply find_some in Hget.
  - intros p Hp. rewrite Hshown. split.
    + intros (a & Ha & Hget). apply find_some in Hget.
      destruct Hget as [_ Hid]. apply String.eqb_eq in Hid.
      apply filter_In in Ha. destruct Ha as [Ha Hua].
      destruct (Db.assignment_by_userId_and_projectId db userId (Project._id p))
        eqn:E; [reflexivity|].
      pose proof (find_none _ _ E a Ha) as Hf. simpl in Hf.
      now rewrite Hua, <- Hid, String.eqb_refl in Hf.
    + destruct (Db.assignment_by_userId_and_projectId db userId (Project._id p))
        as [a|] eqn:E; [|discriminate].
      intros _. apply find_some in E. destruct E as [Ha Hb].
      apply andb_prop in Hb. destruct Hb as [Hua Hpa].
      exists a. split.
      * apply filter_In. auto.
      * apply String.eqb_eq in Hpa. rewrite Hpa.
        now apply (find_by_id Project._id).
Qed.

Lemma projects_list_agrees_witness :
  exists shown,
    Projects.list (Sample.ctxOf "u_out") Sample.db0 = Returned shown
    /\ ~ In (Project.mk "p1" "Plant" active) shown.
Proof.
  eexists. split; [reflexivity|].
  destruct (projects_list_agrees (Sample.ctxOf "u_out") Sample.db0 "u_out" _
              ltac:(repeat constructor; simpl; tauto) eq_refl eq_refl)
    as [_ H].
  intros Hin. apply (H (Project.mk "p1" "Plant" active)) in Hin.
  - discriminate Hin.
  - now left.
Defined.

(** ** Assigning users to projects *)

Lemma find_forget db docs userId projectId :
  Db.assignment_by_userId_and_projectId (withAssignments db docs) userId projectId
  = option_map AssignmentDoc.forget
               (Projects.findAssignment docs userId projectId).
Proof.
  unfold Db.assignment_by_userId_and_projectId, Projects.findAssignment. simpl.
  induction docs as [|a docs IH]; simpl; [reflexivity|].
  destruct (_ && _); [reflexivity|exact IH].
Qed.

Lemma gate_with_assignments db docs userId projectId :
  checkProjectAccess (withAssignments db docs) userId projectId
  = match Db.profile_by_userId db userId with
    | None => true
    | Some profile =>
        Role_eqb profile.(Profile.role) control_center
        || match Projects.findAssignment docs userId projectId with
           | Some _ => true
           | None => false
           end
    end.
Proof.
  unfold checkProjectAccess. rewrite find_forget.
  change (Db.profile_by_userId (withAssignments db docs) userId)
    with (Db.profile_by_userId db userId).
  destruct (Db.profile_by_userId db userId) as [p|]; [|reflexivity].
  destruct (Role_eqb (Profile.role p) control_center); [reflexivity|].
  now destruct (Projects.findAssignment docs userId projectId).
Qed.

Lemma find_nil_filter {A} (p : A -> bool) l :
  find p l = None <-> filter p l = [].
Proof.
  induction l as [|x l IH]; simpl; [tauto|].
  destruct (p x); [split; discriminate|exact IH].
Qed.

Lemma find_app {A} (p : A -> bool) l l' :
  find p (l ++ l')
  = match find p l with
    | Some x => Some x
    | None => find p l'
    end.
Proof.
  induction l as [|x l IH]; simpl; [reflexivity|].
  destruct (p x); [reflexivity|exact IH].
Qed.

Lemma findAssignment_other docs doc userId projectId :
  ~ (doc.(AssignmentDoc.userId) = userId
     /\ doc.(AssignmentDoc.projectId) = projectId) ->
  Projects.findAssignment (docs ++ [doc]) userId projectId
  = Projects.findAssignment docs userId projectId.
Proof.
  intros Hne. unfold Projects.findAssignment. rewrite find_app. simpl.
  destruct (find _ docs); [reflexivity|].
  destruct (String.eqb_spec (AssignmentDoc.userId doc) userId) as [Hu|_];
    [|reflexivity].
  destruct (String.eqb_spec (AssignmentDoc.projectId doc) projectId) as [Hp|_];
    [tauto|reflexivity].
Qed.

Lemma caller_is_control_center ctx db docs caller :
  ctx.(getAuthUserId) = Some caller ->
  (Projects.canAccessProject (withAssignments db docs) caller None)
    .(Projects.isControlCenter)
  = isControlCenter db caller.
Proof.
  intros _. unfold Projects.canAccessProject, isControlCenter.
  change (Db.profile_by_userId (withAssignments db docs) caller)
    with (Db.profile_by_userId db caller).
  destruct (Db.profile_by_userId db caller) as [p|]; [|reflexivity].
  now destruct (Role_eqb (Profile.role p) control_center).
Qed.

(** X25. Assigning a user to a project is reserved to Control Center and
    idempotent: [assignUser] fails with "Not authenticated" without a
    session and with "Only Control Center can assign users to projects"
    for any other caller, a caller without a profile included.  After a
    successful call the gate admits the user to the project, the returned
    id is the id of the assignment found for the pair, there is one
    assignment for the pair unless there were more before, the access
    of every other (user, project) pair is as before, and repeating the
    call returns the same id and changes nothing. *)
Theorem assign_user_spec (ctx : Ctx) (db : DB) (docs : list AssignmentDoc.t)
        (projectId userId : Id) :
  (ctx.(getAuthUserId) = None ->
   Projects.assignUser ctx db docs projectId userId
   = Thrown "Not authenticated")
  /\ (forall caller,
         ctx.(getAuthUserId) = Some caller ->
         isControlCenter db caller = false ->
         Projects.assignUser ctx db docs projectId userId
         = Thrown "Only Control Center can assign users to projects")
  /\ (forall id docs',
         Projects.assignUser ctx db docs projectId userId = Returned (id, docs') ->
         checkProjectAccess (withAssignments db docs') userId projectId = true
         /\ (exists a,
                Projects.findAssignment docs' userId projectId = Some a
                /\ a.(AssignmentDoc._id) = id)
         /\ List.length (assignmentsOf docs' userId projectId)
            = Nat.max 1 (List.length (assignmentsOf docs userId projectId))
         /\ (forall u p,
                ~ (u = userId /\ p = projectId) ->
                checkProjectAccess (withAssignments db docs') u p
                = checkProjectAccess (withAssignments db docs) u p)
         /\ Projects.assignUser ctx db docs' projectId userId
            = Returned (id, docs')).
Proof.
  unfold Projects.assignUser, require, guard. split; [|split].
  - intros ->. reflexivity.
  - intros caller Hu Hcc. rewrite Hu. simpl.
    now rewrite (caller_is_control_center ctx db docs caller Hu), Hcc.
  - intros id docs'.
    destruct (getAuthUserId ctx) as [caller|] eqn:Hu; [simpl|discriminate].
    rewrite (caller_is_control_center ctx db docs caller Hu).
    rewrite (caller_is_control_center ctx db docs' caller Hu).
    destruct (isControlCenter db caller); [simpl|discriminate].
    destruct (Projects.findAssignment docs userId projectId) as [existing|]
      eqn:Hfind; intros [= <- <-].
    + rewrite Hfind. split; [|split; [|split; [|split]]].
      * rewrite gate_with_assignments, Hfind.
        destruct (Db.profile_by_userId db userId); [|reflexivity].
        apply orb_true_r.
      * eauto.
      * apply find_some in Hfind. destruct Hfind as [Hin Hb].
        assert (In existing (assignmentsOf docs userId projectId)) as Hin'
            by (apply filter_In; auto).
        destruct (assignmentsOf docs userId projectId); [contradiction|].
        simpl. lia.
      * reflexivity.
      * reflexivity.
    + assert (Projects.findAssignment
                (docs ++ [AssignmentDoc.mk (freshId ctx) userId projectId])
                userId projectId
              = Some (AssignmentDoc.mk (freshId ctx) userId projectId)) as Hnew.
      { unfold Projects.findAssignment in *. rewrite find_app, Hfind. simpl.
        now rewrite !String.eqb_refl. }
      rewrite Hnew. split; [|split; [|split; [|split]]].
      * rewrite gate_with_assignments, Hnew.
        destruct (Db.profile_by_userId db userId); [|reflexivity].
        apply orb_true_r.
      * eauto.
      * unfold assignmentsOf. rewrite filter_app, length_app.
        apply find_nil_filter in Hfind. rewrite Hfind. simpl.
        now rewrite !String.eqb_refl.
      * intros u p Hne. rewrite !gate_with_assignments.
        rewrite findAssignment_other; [reflexivity|]. simpl.
        intros [H1 H2]. apply Hne. auto.
      * reflexivity.
Qed.

Lemma assign_user_spec_witness :
  Projects.assignUser (Sample.ctxOf "u_cm") Sample.db0 [] "p1" "u_out"
  = Thrown "Only Control Center can assign users to projects"
  /\ exists id docs',
      Projects.assignUser (Sample.ctxOf "u_cc") Sample.db0 [] "p1" "u_out"
      = Returned (id, docs')
      /\ checkProjectAccess (withAssignments Sample.db0 docs') "u_out" "p1"
         = true.
Proof.
  split.
  - apply (proj1 (proj2 (assign_user_spec (Sample.ctxOf "u_cm") Sample.db0 []
                           "p1" "u_out")) "u_cm"); reflexivity.
  - do 2 eexists. split; [reflexivity|].
    apply (proj2 (proj2 (assign_user_spec (Sample.ctxOf "u_cc") Sample.db0 []
                           "p1" "u_out")) _ _ eq_refl).
Defined.

Lemma filter_without {A} (f : A -> Id) (q : A -> bool) (l : list A) a :
  NoDup (map f l) -> In a l ->
  List.length (filter q (filter (fun x => negb (String.eqb (f x) (f a))) l))
  = (List.length (filter q l) - (if q a then 1 else 0))%nat.
Proof.
  induction l as [|x l IH]; simpl; [tauto|].
  intros Hnd Hin. inversion Hnd as [|? ? Hnotin Hnd']; subst.
  destruct Hin as [->|Hin].
  - rewrite String.eqb_refl. simpl.
    assert (filter (fun x => negb (String.eqb (f x) (f a))) l = l) as ->.
    { clear IH Hnd Hnd'. induction l as [|y l IHl]; simpl; [reflexivity|].
      simpl in Hnotin.
      destruct (String.eqb_spec (f y) (f a)) as [E|_]; simpl.
      - exfalso. apply Hnotin. left. exact E.
      - rewrite IHl; tauto. }
    destruct (q a); simpl; lia.
  - destruct (String.eqb_spec (f x) (f a)) as [E|_]; simpl.
    + exfalso. apply Hnotin. rewrite E. now apply in_map.
    + destruct (q x); simpl; rewrite (IH Hnd' Hin); [|reflexivity].
      destruct (q a) eqn:Qa; [|lia].
      assert (In a (filter q l)) as Hin' by (apply filter_In; auto).
      destruct (filter q l); [contradiction|]. simpl. lia.
Qed.

Lemma find_filter_same {A} (q r : A -> bool) (l : list A) :
  (forall x, In x l -> q x = true -> r x = true) ->
  find q (filter r l) = find q l.
Proof.
  induction l as [|x l IH]; simpl; intros H; [reflexivity|].
  assert (find q (filter r l) = find q l) as IH'
      by (apply IH; intros y Hy; apply H; now right).
  destruct (q x) eqn:Qx.
  - rewrite (H x (or_introl eq_refl) Qx). simpl. now rewrite Qx.
  - destruct (r x); simpl; [now rewrite Qx|]. exact IH'.
Qed.

(** X26. Unassigning reverses it, for well-formed assignment tables:
    [unassignUser] fails as [assignUser] does, with unassign in the
    message.  A successful call deletes the first assignment found for
    the pair and nothing else; when assignment ids are unique and the
    pair has at most one assignment, as [assignUser] leaves it, no
    assignment for the pair is left, so that the gate denies a
    construction manager the project, and the access of every other
    (user, project) pair is as before. *)
Theorem unassign_user_spec (ctx : Ctx) (db : DB) (docs : list AssignmentDoc.t)
        (projectId userId : Id) :
  (ctx.(getAuthUserId) = None ->
   Projects.unassignUser ctx db docs projectId userId
   = Thrown "Not authenticated")
  /\ (forall caller,
         ctx.(getAuthUserId) = Some caller ->
         isControlCenter db caller = false ->
         Projects.unassignUser ctx db docs projectId userId
         = Thrown "Only Control Center can unassign users from projects")
  /\ (forall docs',
         Projects.unassignUser ctx db docs projectId userId = Returned docs' ->
         NoDup (map AssignmentDoc._id docs) ->
         List.length (assignmentsOf docs' userId projectId)
         = (List.length (assignmentsOf docs userId projectId) - 1)%nat
         /\ List.length docs'
            = (List.length docs
               - Nat.min 1 (List.length (assignmentsOf docs userId projectId)))%nat
         /\ (forall u p,
                ~ (u = userId /\ p = projectId) ->
                checkProjectAccess (withAssignments db docs') u p
                = checkProjectAccess (withAssignments db docs) u p)
         /\ ((List.length (assignmentsOf docs userId projectId) <= 1)%nat ->
             Projects.findAssignment docs' userId projectId = None
             /\ forall profile,
                 Db.profile_by_userId db userId = Some profile ->
                 profile.(Profile.role) = construction_manager ->
                 checkProjectAccess (withAssignments db docs') userId projectId
                 = false)).
Proof.
  unfold Projects.unassignUser, require, guard. split; [|split].
  - intros ->. reflexivity.
  - intros caller Hu Hcc. rewrite Hu. simpl.
    now rewrite (caller_is_control_center ctx db docs caller Hu), Hcc.
  - intros docs'.
    destruct (getAuthUserId ctx) as [caller|] eqn:Hu; [simpl|discriminate].
    rewrite (caller_is_control_center ctx db docs caller Hu).
    destruct (isControlCenter db caller); [simpl|discriminate].
    destruct (Projects.findAssignment docs userId projectId) as [a|]
      eqn:Hfind; intros [= <-] Hnd.
    + pose proof Hfind as Hsome. apply find_some in Hsome.
      destruct Hsome as [Hin Hpair].
      pose proof (filter_without AssignmentDoc._id
                    (fun x => String.eqb (AssignmentDoc.userId x) userId
                              && String.eqb (AssignmentDoc.projectId x) projectId)
                    docs a Hnd Hin) as Hlen.
      simpl in Hpair. cbv beta in Hlen. rewrite Hpair in Hlen.
      pose proof (filter_without AssignmentDoc._id (fun _ => true)
                    docs a Hnd Hin) as Hall.
      assert (forall l : list AssignmentDoc.t, filter (fun _ => true) l = l)
        as Hid by (induction l as [|x l IHl]; simpl; congruence).
      cbv beta iota in Hall. rewrite !Hid in Hall.
      assert (In a (assignmentsOf docs userId projectId)) as Hin'
          by (apply filter_In; auto).
      split; [exact Hlen|]. split; [|split].
      * rewrite Hall. destruct (assignmentsOf docs userId projectId);
          [contradiction|]. simpl. reflexivity.
      * intros u p Hne. rewrite !gate_with_assignments.
        unfold Projects.findAssignment. rewrite find_filter_same; [reflexivity|].
        intros x Hx Hq. apply negb_true_iff.
        destruct (String.eqb_spec (AssignmentDoc._id x) (AssignmentDoc._id a))
          as [E|_]; [|reflexivity].
        assert (x = a) as -> by (eapply ids_determine; eauto).
        apply andb_prop in Hq, Hpair. destruct Hq as [Q1 Q2].
        destruct Hpair as [P1 P2]. apply String.eqb_eq in Q1, Q2, P1, P2.
        exfalso. apply Hne. split; congruence.
      * intros Hone.
        assert (Projects.findAssignment
                  (filter (fun x => negb (String.eqb (AssignmentDoc._id x)
                                                     (AssignmentDoc._id a)))
                          docs) userId projectId = None) as Hnone.
        { apply find_nil_filter. apply length_zero_iff_nil.
          unfold assignmentsOf in *. lia. }
        split; [exact Hnone|]. intros profile Hp Hr.
        rewrite gate_with_assignments, Hp, Hr, Hnone. reflexivity.
    + pose proof Hfind as Hnil. apply find_nil_filter in Hnil.
      unfold assignmentsOf. rewrite Hnil. simpl.
      split; [reflexivity|]. split; [lia|]. split; [reflexivity|].
      intros _. split; [exact Hfind|]. intros profile Hp Hr.
      rewrite gate_with_assignments, Hp, Hr, Hfind. reflexivity.
Qed.

Lemma unassign_user_spec_witness :
  exists docs',
    Projects.unassignUser (Sample.ctxOf "u_cc") Sample.db0
                          [AssignmentDoc.mk "pa1" "u_cm" "p1"] "p1" "u_cm"
    = Returned docs'
    /\ checkProjectAccess (withAssignments Sample.db0 docs') "u_cm" "p1" = false.
Proof.
  eexists. split; [reflexivity|].
  destruct (proj2 (proj2 (unassign_user_spec (Sample.ctxOf "u_cc") Sample.db0
                            [AssignmentDoc.mk "pa1" "u_cm" "p1"] "p1" "u_cm"))
              _ eq_refl) as (_ & _ & _ & H).
  - repeat constructor. simpl. tauto.
  - destruct H as [_ H]; [simpl; lia|].
    apply (H (Profile.mk "u_cm" "Morgan" construction_manager)); reflexivity.
Defined.

(** X27. Assigning and unassigning is a round trip: when the pair has no
    assignment and the new id is not in use, [unassignUser] after
    [assignUser] returns the assignment table as it was. *)
Theorem assign_then_unassign_restores
        (ctx : Ctx) (db : DB) (docs docs1 : list AssignmentDoc.t)
        (projectId userId id : Id) :
  Projects.findAssignment docs userId projectId = None ->
  ~ In ctx.(freshId) (map AssignmentDoc._id docs) ->
  Projects.assignUser ctx db docs projectId userId = Returned (id, docs1) ->
  Projects.unassignUser ctx db docs1 projectId userId = Returned docs.
Proof.
  intros Hnone Hfresh. unfold Projects.assignUser, Projects.unassignUser,
    require, guard.
  destruct (getAuthUserId ctx) as [caller|] eqn:Hu; [simpl|discriminate].
  rewrite (caller_is_control_center ctx db docs caller Hu).
  rewrite (caller_is_control_center ctx db docs1 caller Hu).
  destruct (isControlCenter db caller); [simpl|discriminate].
  rewrite Hnone. intros [= <- <-].
  assert (Projects.findAssignment
            (docs ++ [AssignmentDoc.mk (freshId ctx) userId projectId])
            userId projectId
          = Some (AssignmentDoc.mk (freshId ctx) userId projectId)) as ->.
  { unfold Projects.findAssignment in *. rewrite find_app, Hnone. simpl.
    now rewrite !String.eqb_refl. }
  f_equal. rewrite filter_app. simpl. rewrite String.eqb_refl. simpl.
  rewrite app_nil_r. clear Hnone.
  induction docs as [|x docs IH]; simpl; [reflexivity|].
  simpl in Hfresh.
  destruct (String.eqb_spec (AssignmentDoc._id x) (freshId ctx)) as [E|_];
    simpl; [tauto|]. rewrite IH; tauto.
Qed.

Lemma assign_then_unassign_restores_witness :
  exists id docs1,
    Projects.assignUser (Sample.ctxOf "u_cc") Sample.db0
                        [AssignmentDoc.mk "pa1" "u_cm" "p1"] "p1" "u_out"
    = Returned (id, docs1)
    /\ Projects.unassignUser (Sample.ctxOf "u_cc") Sample.db0 docs1 "p1" "u_out"
       = Returned [AssignmentDoc.mk "pa1" "u_cm" "p1"].
Proof.
  do 2 eexists. split; [reflexivity|].
  eapply (assign_then_unassign_restores (Sample.ctxOf "u_cc") Sample.db0
            [AssignmentDoc.mk "pa1" "u_cm" "p1"]);
    [reflexivity|simpl; intuition discriminate|reflexivity].
Defined.

(** ** The breakdown over all scopes *)

Lemma PairAcc_fold l acc :
  let r := fold_left PairAcc.add l acc in
  r.(PairAcc.totalForecast)
  == acc.(PairAcc.totalForecast)
     + sumQ (fun e => e.(Entry.forecastQuantity) ?? 0) l
  /\ r.(PairAcc.totalActual)
     == acc.(PairAcc.totalActual)
        + sumQ (fun e => e.(Entry.actualQuantity) ?? 0) l.
Proof.
  revert acc. induction l as [|e l IH]; intros acc; simpl.
  - split; ring.
  - destruct (IH (PairAcc.add acc e)) as (H1 & H2).
    simpl in *. rewrite H1, H2. split; ring.
Qed.

Lemma PairAcc_group l :
  let r := fold_left PairAcc.add l PairAcc.zero in
  r.(PairAcc.totalForecast) == sumQ (fun e => e.(Entry.forecastQuantity) ?? 0) l
  /\ r.(PairAcc.totalActual) == sumQ (fun e => e.(Entry.actualQuantity) ?? 0) l.
Proof.
  destruct (PairAcc_fold l PairAcc.zero) as (H1 & H2).
  simpl in *. rewrite H1, H2. split; ring.
Qed.

(** X28. The breakdown over all scopes: for a Control Center caller
    [getAllScopesBreakdown] returns one row per scope, in table order,
    with the sums of forecast and actual quantity over the scope's
    entries, their difference as variance, and the project's name, or
    "Unknown" when the project is gone. *)
Theorem scopes_breakdown_spec (ctx : Ctx) (db : DB) (userId : Id)
        (rows : list ScopeTotals.t) :
  ctx.(getAuthUserId) = Some userId ->
  isControlCenter db userId = true ->
  getAllScopesBreakdown ctx db = Returned rows ->
  map ScopeTotals.scopeId rows = map Scope._id db.(scopes)
  /\ (forall r,
         In r rows ->
         let entries :=
           filter (fun e => String.eqb e.(Entry.scopeId) r.(ScopeTotals.scopeId))
                  db.(dailyEntries) in
         r.(ScopeTotals.totalForecast)
         == sumQ (fun e => e.(Entry.forecastQuantity) ?? 0) entries
         /\ r.(ScopeTotals.totalActual)
            == sumQ (fun e => e.(Entry.actualQuantity) ?? 0) entries
         /\ r.(ScopeTotals.variance)
            == r.(ScopeTotals.totalActual) - r.(ScopeTotals.totalForecast)
         /\ (Store.get_project db r.(ScopeTotals.projectId) = None ->
             r.(ScopeTotals.projectName) = "Unknown")
         /\ (forall project,
                Store.get_project db r.(ScopeTotals.projectId) = Some project ->
                r.(ScopeTotals.projectName) = project.(Project.name))).
Proof.
  intros Hu Hcc. unfold getAllScopesBreakdown. rewrite Hu, Hcc. simpl negb.
  cbv iota. intros [= <-]. split.
  - rewrite map_map. reflexivity.
  - intros r Hr. apply in_map_iff in Hr. destruct Hr as (s & <- & _).
    cbv zeta. cbn [ScopeTotals.scopeId ScopeTotals.totalForecast
      ScopeTotals.totalActual ScopeTotals.variance ScopeTotals.projectId
      ScopeTotals.projectName].
    destruct (PairAcc_group (Db.entries_by_scope db (Scope._id s)))
      as (H1 & H2).
    assert (Permutation
              (filter (fun e => String.eqb (Entry.scopeId e) (Scope._id s))
                      (dailyEntries db))
              (Db.entries_by_scope db (Scope._id s))) as Hperm
        by apply by_date_perm.
    rewrite !(sumQ_perm _ _ _ Hperm).
    repeat match goal with |- _ /\ _ => split end;
      try assumption; try reflexivity.
    + intros ->. reflexivity.
    + intros project ->. reflexivity.
Qed.

Lemma scopes_breakdown_spec_witness :
  exists rows,
    getAllScopesBreakdown (Sample.ctxOf "u_cc") Sample.dbTrend = Returned rows
    /\ map ScopeTotals.scopeId rows = ["s1"]
    /\ forall r, In r rows -> r.(ScopeTotals.projectName) = "Plant".
Proof.
  destruct (scopes_breakdown_spec (Sample.ctxOf "u_cc") Sample.dbTrend "u_cc"
              _ eq_refl eq_refl eq_refl) as (H1 & H2).
  eexists. split; [reflexivity|]. split; [exact H1|].
  intros r Hr. destruct (H2 r Hr) as (_ & _ & _ & _ & Hname).
  destruct Hr as [<-|[]]. exact (Hname (Project.mk "p1" "Plant" active) eq_refl).
Defined.

(** ** Assigning construction managers to scopes *)

Lemma gate_project_assignments db db' userId projectId :
  userProfiles db' = userProfiles db ->
  Db.assignment_by_userId_and_projectId db' userId projectId
  = Db.assignment_by_userId_and_projectId db userId projectId ->
  checkProjectAccess db' userId projectId = checkProjectAccess db userId projectId.
Proof.
  intros Hp Ha. unfold checkProjectAccess, Db.profile_by_userId.
  now rewrite Hp, Ha.
Qed.

Lemma gate_with_assignment db userId projectId a :
  Db.assignment_by_userId_and_projectId db userId projectId = Some a ->
  checkProjectAccess db userId projectId = true.
Proof.
  intros H. unfold checkProjectAccess. rewrite H.
  destruct (Db.profile_by_userId db userId) as [p|]; [|reflexivity].
  apply orb_true_r.
Qed.

Lemma without_first_length {A} (p : A -> bool) l :
  List.length (filter p (ScopeAssignments.without_first p l))
  = (List.length (filter p l) - 1)%nat.
Proof.
  induction l as [|x l IH]; simpl; [reflexivity|].
  destruct (p x) eqn:Px; simpl; [lia|]. now rewrite Px.
Qed.

Lemma without_first_others {A} (p : A -> bool) l a :
  p a = false -> (In a (ScopeAssignments.without_first p l) <-> In a l).
Proof.
  intros Ha. induction l as [|x l IH]; simpl; [tauto|].
  destruct (p x) eqn:Px; simpl.
  - split; [tauto|]. intros [->|H]; [congruence|exact H].
  - rewrite IH. tauto.
Qed.

Lemma without_first_appended {A} (p : A -> bool) l a :
  find p l = None -> p a = true ->
  ScopeAssignments.without_first p (l ++ [a]) = l.
Proof.
  intros Hnone Ha. induction l as [|x l IH]; simpl in *.
  - now rewrite Ha.
  - destruct (p x); [discriminate|]. now rewrite IH.
Qed.

(** X29. Assigning a construction manager to a scope: [assign] fails
    with "Not authenticated", "Only Control Center can assign users to
    scopes" or "Scope not found", in that order.  A successful call
    leaves an assignment for the pair and is idempotent; when the pair
    had none, the user is also assigned to the scope's project, so that
    the gate admits the user to it, the access of every other
    (user, project) pair staying as it was; when the pair had one, the
    call changes nothing, the project assignment included.  A scope
    without any assignment gets the user as the manager whose name new
    entries in the scope carry. *)
Theorem scope_assign_spec (ctx : Ctx) (db : DB) (userId scopeId : Id) :
  (ctx.(getAuthUserId) = None ->
   ScopeAssignments.assign ctx db userId scopeId = Thrown "Not authenticated")
  /\ (forall caller,
         ctx.(getAuthUserId) = Some caller ->
         isControlCenter db caller = false ->
         ScopeAssignments.assign ctx db userId scopeId
         = Thrown "Only Control Center can assign users to scopes")
  /\ (forall caller,
         ctx.(getAuthUserId) = Some caller ->
         isControlCenter db caller = true ->
         Db.get_scope db scopeId = None ->
         ScopeAssignments.assign ctx db userId scopeId
         = Thrown "Scope not found")
  /\ (forall db',
         ScopeAssignments.assign ctx db userId scopeId = Returned db' ->
         exists scope,
           Db.get_scope db scopeId = Some scope
           /\ ScopeAssignments.findAssignment db' userId scopeId <> None
           /\ ScopeAssignments.assign ctx db' userId scopeId = Returned db'
           /\ (ScopeAssignments.findAssignment db userId scopeId <> None ->
               db' = db)
           /\ (ScopeAssignments.findAssignment db userId scopeId = None ->
               checkProjectAccess db' userId scope.(Scope.projectId) = true)
           /\ (forall u p,
                  ~ (u = userId /\ p = scope.(Scope.projectId)) ->
                  checkProjectAccess db' u p = checkProjectAccess db u p)
           /\ (Db.scopeAssignment_by_scopeId db scopeId = None ->
               getAssignedCMName db' scopeId = getUserForemanName db userId)
           /\ dailyEntries db' = dailyEntries db).
Proof.
  unfold ScopeAssignments.assign, require, guard.
  repeat match goal with |- _ /\ _ => split end.
  - intros ->. reflexivity.
  - intros caller -> Hcc. simpl. now rewrite Hcc.
  - intros caller -> Hcc Hs. simpl. now rewrite Hcc, Hs.
  - intros db'.
    destruct (getAuthUserId ctx) as [caller|]; [simpl|discriminate].
    destruct (isControlCenter db caller) eqn:Hcc; [simpl|discriminate].
    destruct (Db.get_scope db scopeId) as [scope|] eqn:Hs; [simpl|discriminate].
    destruct (ScopeAssignments.findAssignment db userId scopeId) as [existing|]
      eqn:Hfind; intros [= <-]; exists scope; (split; [reflexivity|]).
    + rewrite Hcc, Hs, Hfind. simpl.
      repeat match goal with |- _ /\ _ => split end;
        try (intros; reflexivity); try (intros; congruence).
      intros Hnone. unfold ScopeAssignments.findAssignment,
        Db.scopeAssignment_by_scopeId in *.
      apply find_some in Hfind. destruct Hfind as [Hin Hb].
      apply andb_prop in Hb. destruct Hb as [_ Hb].
      pose proof (find_none _ _ Hnone existing Hin) as Hf. simpl in Hf.
      congruence.
    + set (db1 := match Db.assignment_by_userId_and_projectId
                          db userId (Scope.projectId scope) with
                  | Some _ => db
                  | None =>
                      ScopeAssignments.insert_projectAssignment
                        db (ProjectAssignment.mk userId (Scope.projectId scope))
                  end).
      set (doc := ScopeAssignment.mk userId scopeId (Scope.projectId scope)).
      assert (userProfiles db1 = userProfiles db
              /\ scopeAssignments db1 = scopeAssignments db
              /\ scopes db1 = scopes db
              /\ dailyEntries db1 = dailyEntries db) as (T1 & T2 & T3 & T4).
      { unfold db1. destruct (Db.assignment_by_userId_and_projectId _ _ _);
          repeat split. }
      assert (ScopeAssignments.findAssignment
                (ScopeAssignments.insert_scopeAssignment db1 doc) userId scopeId
              = Some doc) as Hnew.
      { unfold ScopeAssignments.findAssignment in *. simpl.
        rewrite T2, find_app, Hfind. simpl.
        unfold ScopeAssignments.byUserAndScope. simpl.
        now rewrite !String.eqb_refl. }
      assert (isControlCenter (ScopeAssignments.insert_scopeAssignment db1 doc)
                              caller = true) as Hcc'.
      { unfold isControlCenter, Db.profile_by_userId in *. simpl.
        now rewrite T1. }
      assert (Db.get_scope (ScopeAssignments.insert_scopeAssignment db1 doc)
                           scopeId = Some scope) as Hs'.
      { unfold Db.get_scope in *. simpl. now rewrite T3. }
      assert (exists a,
                 Db.assignment_by_userId_and_projectId db1 userId
                                                       (Scope.projectId scope)
                 = Some a) as [a Ha].
      { unfold db1.
        destruct (Db.assignment_by_userId_and_projectId
                    db userId (Scope.projectId scope)) as [a|] eqn:E.
        - eauto.
        - unfold Db.assignment_by_userId_and_projectId in *. simpl.
          rewrite find_app, E. simpl. rewrite !String.eqb_refl. simpl.
          eauto. }
      rewrite Hcc', Hs', Hnew. simpl.
      repeat match goal with |- _ /\ _ => split end;
        try (intros; reflexivity); try (intros; congruence).
      * intros _. eapply gate_with_assignment. exact Ha.
      * intros u p Hne. apply gate_project_assignments; [exact T1|].
        unfold db1.
        destruct (Db.assignment_by_userId_and_projectId
                    db userId (Scope.projectId scope)); [reflexivity|].
        unfold Db.assignment_by_userId_and_projectId. simpl.
        rewrite find_app. destruct (find _ (projectAssignments db));
          [reflexivity|]. simpl.
        destruct (String.eqb_spec userId u) as [->|_]; [|reflexivity].
        destruct (String.eqb_spec (Scope.projectId scope) p) as [<-|_];
          [tauto|reflexivity].
      * intros Hnone. unfold getAssignedCMName, getUserForemanName,
          Db.scopeAssignment_by_scopeId, Db.profile_by_userId in *. simpl.
        rewrite T2, find_app, Hnone. simpl. rewrite String.eqb_refl.
        now rewrite T1.
Qed.

Lemma scope_assign_spec_witness :
  exists db',
    ScopeAssignments.assign (Sample.ctxOf "u_cc") Sample.db0 "u_out" "s1"
    = Returned db'
    /\ checkProjectAccess db' "u_out" "p1" = true
    /\ getAssignedCMName db' "s1" = Some "Riley".
Proof.
  eexists. split; [reflexivity|].
  destruct (proj2 (proj2 (proj2 (scope_assign_spec (Sample.ctxOf "u_cc")
                                   Sample.db0 "u_out" "s1"))) _ eq_refl)
    as (scope & Hs & _ & _ & _ & Hgate & _ & Hname & _).
  injection Hs as <-. split.
  - apply Hgate. reflexivity.
  - rewrite Hname; reflexivity.
Defined.

(** X30. Unassigning from a scope is not the reverse of assigning:
    [unassign] fails with "Not authenticated" or "Only Control Center can
    unassign users from scopes"; a successful call deletes the first
    assignment of the pair, if any, leaves the other scope assignments
    and the project assignments alone, so that the gate decides as
    before; after [assign] and [unassign] the scope assignments are
    those of before, while the user keeps the access to the project
    that [assign] gave. *)
Theorem scope_unassign_spec (ctx : Ctx) (db : DB) (userId scopeId : Id) :
  (ctx.(getAuthUserId) = None ->
   ScopeAssignments.unassign ctx db userId scopeId = Thrown "Not authenticated")
  /\ (forall caller,
         ctx.(getAuthUserId) = Some caller ->
         isControlCenter db caller = false ->
         ScopeAssignments.unassign ctx db userId scopeId
         = Thrown "Only Control Center can unassign users from scopes")
  /\ (forall db',
         ScopeAssignments.unassign ctx db userId scopeId = Returned db' ->
         (forall u p, checkProjectAccess db' u p = checkProjectAccess db u p)
         /\ List.length (filter (ScopeAssignments.byUserAndScope userId scopeId)
                                db'.(scopeAssignments))
            = (List.length (filter (ScopeAssignments.byUserAndScope userId scopeId)
                                   db.(scopeAssignments)) - 1)%nat
         /\ (forall a,
                ScopeAssignments.byUserAndScope userId scopeId a = false ->
                (In a db'.(scopeAssignments) <-> In a db.(scopeAssignments))))
  /\ (forall db1,
         ScopeAssignments.findAssignment db userId scopeId = None ->
         ScopeAssignments.assign ctx db userId scopeId = Returned db1 ->
         exists db2 scope,
           ScopeAssignments.unassign ctx db1 userId scopeId = Returned db2
           /\ scopeAssignments db2 = scopeAssignments db
           /\ Db.get_scope db scopeId = Some scope
           /\ checkProjectAccess db2 userId scope.(Scope.projectId) = true).
Proof.
  repeat match goal with |- _ /\ _ => split end.
  - unfold ScopeAssignments.unassign, require. intros ->. reflexivity.
  - unfold ScopeAssignments.unassign, require, guard.
    intros caller -> Hcc. simpl. now rewrite Hcc.
  - unfold ScopeAssignments.unassign, require, guard. intros db'.
    destruct (getAuthUserId ctx) as [caller|]; [simpl|discriminate].
    destruct (isControlCenter db caller); [simpl|discriminate].
    destruct (ScopeAssignments.findAssignment db userId scopeId) as [a|]
      eqn:Hfind; intros [= <-].
    + split; [reflexivity|]. simpl. split.
      * apply without_first_length.
      * intros x Hx. now apply without_first_others.
    + apply find_nil_filter in Hfind. rewrite Hfind. simpl.
      split; [reflexivity|]. split; [reflexivity|tauto].
  - intros db1 Hnone. unfold ScopeAssignments.assign,
      ScopeAssignments.unassign, require, guard.
    destruct (getAuthUserId ctx) as [caller|]; [simpl|discriminate].
    destruct (isControlCenter db caller) eqn:Hcc; [simpl|discriminate].
    destruct (Db.get_scope db scopeId) as [scope|] eqn:Hs; [simpl|discriminate].
    rewrite Hnone. intros [= <-].
    set (db1 := match Db.assignment_by_userId_and_projectId
                        db userId (Scope.projectId scope) with
                | Some _ => db
                | None =>
                    ScopeAssignments.insert_projectAssignment
                      db (ProjectAssignment.mk userId (Scope.projectId scope))
                end).
    set (doc := ScopeAssignment.mk userId scopeId (Scope.projectId scope)).
    assert (userProfiles db1 = userProfiles db
            /\ scopeAssignments db1 = scopeAssignments db) as (T1 & T2).
    { unfold db1. destruct (Db.assignment_by_userId_and_projectId _ _ _);
        repeat split. }
    assert (isControlCenter (ScopeAssignments.insert_scopeAssignment db1 doc)
                            caller = true) as ->.
    { unfold isControlCenter, Db.profile_by_userId in *. simpl.
      now rewrite T1. }
    assert (ScopeAssignments.findAssignment
              (ScopeAssignments.insert_scopeAssignment db1 doc) userId scopeId
            = Some doc) as ->.
    { unfold ScopeAssignments.findAssignment in *. simpl.
      rewrite T2, find_app, Hnone. simpl.
      unfold ScopeAssignments.byUserAndScope. simpl.
      now rewrite !String.eqb_refl. }
    simpl. do 2 eexists. split; [reflexivity|]. simpl.
    split; [|split; [reflexivity|]].
    + rewrite T2. apply without_first_appended; [exact Hnone|].
      unfold ScopeAssignments.byUserAndScope. simpl.
      now rewrite !String.eqb_refl.
    + assert (exists a,
                 Db.assignment_by_userId_and_projectId db1 userId
                                                       (Scope.projectId scope)
                 = Some a) as [a Ha].
      { unfold db1.
        destruct (Db.assignment_by_userId_and_projectId
                    db userId (Scope.projectId scope)) as [a|] eqn:E.
        - eauto.
        - unfold Db.assignment_by_userId_and_projectId in *. simpl.
          rewrite find_app, E. simpl. rewrite !String.eqb_refl. simpl.
          eauto. }
      eapply gate_with_assignment. exact Ha.
Qed.

Lemma scope_unassign_spec_witness :
  exists db1 db2,
    ScopeAssignments.assign (Sample.ctxOf "u_cc") Sample.db0 "u_out" "s1"
    = Returned db1
    /\ ScopeAssignments.unassign (Sample.ctxOf "u_cc") db1 "u_out" "s1"
       = Returned db2
    /\ scopeAssignments db2 = []
    /\ checkProjectAccess db2 "u_out" "p1" = true
    /\ checkProjectAccess Sample.db0 "u_out" "p1" = false.
Proof.
  destruct (proj2 (proj2 (proj2 (scope_unassign_spec (Sample.ctxOf "u_cc")
                                   Sample.db0 "u_out" "s1"))) _ eq_refl eq_refl)
    as (db2 & scope & Hun & Hsa & Hs & Hgate).
  injection Hs as <-.
  eexists. exists db2. split; [reflexivity|]. split; [exact Hun|].
  split; [exact Hsa|]. split; [exact Hgate|reflexivity].
Defined.

